(** * PaymentGatewaySystem: a shallow embedding of the transaction lifecycle engine

    The development follows the layout of the Python sources under [app/]:
    the cache client and the distributed lock, the circuit breaker, the
    webhook signature helpers, the persistence layer with the account and
    transaction services, the worker processor, the outbound webhook task
    and the idempotency middleware.  Definitions come first, the lemmas and
    theorems about them follow in the second half of the file.

    Conventions of the embedding.
    - Monetary values ([Decimal] with scale 2, stored as [Numeric(18, 2)]) are
      integers counting minor units (cents); comparison, addition and
      subtraction of such decimals are exact.
    - A Python [str] is a Rocq [string] whose characters are code points
      below 256; [str.encode()] is the UTF-8 encoding of those code points.
    - UUIDs are the 128-bit numbers they denote ([N]); [uuid4()] is an input.
    - Clock readings are inputs: cache time is an integer number of
      milliseconds, [time.time()] is a rational number of seconds.
    - Python exceptions are values [Exc cls msg]; only subclasses of
      [Exception] are represented, so [except Exception] catches every value
      of the type.  Logging and metrics calls have no effect on the modelled
      state and are left out. *)

From Stdlib Require Import ZArith NArith List String Ascii QArith Bool Lia.
From Stdlib.Strings Require Import Byte.
From stdpp Require Import base gmap strings list.

Open Scope string_scope.
Open Scope list_scope.
Open Scope Z_scope.

(** ** Exceptions and results *)

Inductive ExcClass : Type :=
| ValueError
| TypeError
| UnicodeDecodeError
| RuntimeError
| AccountNotFoundError
| InsufficientBalanceError
| ConcurrentUpdateError
| IntegrityError
| RedisError
| RequestError
| HTTPStatusError
| OtherException.

Record exn : Type := Exc { exc_class : ExcClass; exc_msg : string }.

Inductive result (A : Type) : Type :=
| Ok (a : A)
| Raise (e : exn).
Arguments Ok {A} a.
Arguments Raise {A} e.

Definition ExcClass_eqb (a b : ExcClass) : bool :=
  match a, b with
  | ValueError, ValueError | TypeError, TypeError
  | UnicodeDecodeError, UnicodeDecodeError | RuntimeError, RuntimeError
  | AccountNotFoundError, AccountNotFoundError
  | InsufficientBalanceError, InsufficientBalanceError
  | ConcurrentUpdateError, ConcurrentUpdateError
  | IntegrityError, IntegrityError | RedisError, RedisError
  | RequestError, RequestError | HTTPStatusError, HTTPStatusError
  | OtherException, OtherException => true
  | _, _ => false
  end.

(** ** A state and exception monad

    Stateful Python code is written in [M S A]: a computation over a state
    [S] that either returns a value or raises, and in both cases leaves a
    state behind (a raise does not undo earlier effects). *)

Definition M (S A : Type) : Type := S -> result A * S.

Definition ret {S A : Type} (a : A) : M S A := fun s => (Ok a, s).

Definition raise {S A : Type} (e : exn) : M S A := fun s => (Raise e, s).

Definition bind {S A B : Type} (m : M S A) (k : A -> M S B) : M S B :=
  fun s =>
    match m s with
    | (Ok a, s') => k a s'
    | (Raise e, s') => (Raise e, s')
    end.

Definition get_state {S : Type} : M S S := fun s => (Ok s, s).

Definition put_state {S : Type} (s' : S) : M S unit := fun _ => (Ok tt, s').

Definition modify_state {S : Type} (f : S -> S) : M S unit := fun s => (Ok tt, f s).

(** [try: m except Exception as e: h e] *)
Definition try_except {S A : Type} (m : M S A) (h : exn -> M S A) : M S A :=
  fun s =>
    match m s with
    | (Ok a, s') => (Ok a, s')
    | (Raise e, s') => h e s'
    end.

(** [try: m finally: f]; an exception raised by [f] replaces the outcome. *)
Definition try_finally {S A : Type} (m : M S A) (f : M S unit) : M S A :=
  fun s =>
    match m s with
    | (r, s') =>
        match f s' with
        | (Ok _, s'') => (r, s'')
        | (Raise e, s'') => (Raise e, s'')
        end
    end.

Declare Scope monad_scope.
Delimit Scope monad_scope with monad.
Notation "'let*' x ':=' m 'in' k" := (bind m (fun x => k))
  (at level 10, x pattern, m at level 100, k at level 200) : monad_scope.
Notation "m ';;' k" := (bind m (fun _ => k))
  (at level 100, k at level 200, right associativity) : monad_scope.
Open Scope monad_scope.

(** ** Strings *)

(** [str.lower()] on code points below 256: the ASCII capitals and the
    Latin-1 capitals (U+00C0 to U+00DE except the multiplication sign). *)
Definition lower_ascii (c : ascii) : ascii :=
  let n := N_of_ascii c in
  if ((65 <=? n) && (n <=? 90))%N
     || ((192 <=? n) && (n <=? 222) && negb (n =? 215))%N
  then ascii_of_N (n + 32) else c.

Fixpoint lower (s : string) : string :=
  match s with
  | EmptyString => EmptyString
  | String c r => String (lower_ascii c) (lower r)
  end.

(** [needle in hay] *)
Fixpoint contains (needle hay : string) : bool :=
  if String.prefix needle hay then true
  else match hay with
       | EmptyString => false
       | String _ r => contains needle r
       end.

Fixpoint string_forallb (p : ascii -> bool) (s : string) : bool :=
  match s with
  | EmptyString => true
  | String c r => p c && string_forallb p r
  end.

(** [s.isascii()] *)
Definition is_ascii (s : string) : bool :=
  string_forallb (fun c => (N_of_ascii c <? 128)%N) s.

Definition digit_char (d : N) : ascii := ascii_of_N (48 + d).

Fixpoint digits_fuel (fuel : nat) (n : N) (acc : string) : string :=
  match fuel with
  | O => acc
  | S f =>
      let acc' := String (digit_char (n mod 10)) acc in
      if (n / 10 =? 0)%N then acc' else digits_fuel f (n / 10)%N acc'
  end.

(** [str(n)] for a natural number. *)
Definition str_N (n : N) : string := digits_fuel (S (N.size_nat n)) n EmptyString.

(** [str(n)] for an [int]. *)
Definition str_int (z : Z) : string :=
  if z <? 0 then "-" +:+ str_N (Z.abs_N z) else str_N (Z.abs_N z).

(** [str(d)] for a [Decimal] with two decimal places, given in minor units. *)
Definition str_decimal (z : Z) : string :=
  let a := Z.abs_N z in
  (if z <? 0 then "-" else EmptyString)
    +:+ str_N (a / 100)
    +:+ "."
    +:+ String (digit_char ((a / 10) mod 10)) (String (digit_char (a mod 10)) EmptyString).

Definition hex_char (d : N) : ascii :=
  if (d <? 10)%N then ascii_of_N (48 + d) else ascii_of_N (87 + d).

Fixpoint hex_fixed (width : nat) (n : N) (acc : string) : string :=
  match width with
  | O => acc
  | S w => hex_fixed w (n / 16)%N (String (hex_char (n mod 16)) acc)
  end.

Abbreviation UUID := N.

(** [str(u)] for a [UUID]: 32 hexadecimal digits grouped 8-4-4-4-12. *)
Definition str_uuid (u : UUID) : string :=
  let h := hex_fixed 32 u EmptyString in
  substring 0 8 h +:+ "-" +:+ substring 8 4 h +:+ "-" +:+ substring 12 4 h
    +:+ "-" +:+ substring 16 4 h +:+ "-" +:+ substring 20 12 h.

(** [s[:n]] *)
Definition str_take (n : nat) (s : string) : string := substring 0 n s.

(** [str(x)] of an optional string inside an f-string: [None] prints as
    the word. *)
Definition str_option (o : option string) : string :=
  match o with Some s => s | None => "None" end.

(** [o or default] for an optional string: [None] and the empty string are
    both falsy. *)
Definition or_default (o : option string) (d : string) : string :=
  match o with
  | Some s => if String.eqb s EmptyString then d else s
  | None => d
  end.


(** ** The key-value cache ([redis.asyncio.Redis])

    The cache is a finite map from keys to values with an absolute expiry
    time.  A key whose expiry time has been reached is absent for every
    command.  [faults] is the schedule of connection failures: each command
    consumes one element, and [Some e] makes that command raise [e] without
    touching the store. *)

Module Redis.

Record entry (V : Type) : Type := Entry { value : V; expires_at : Z }.
Arguments Entry {V} value expires_at.
Arguments value {V} _.
Arguments expires_at {V} _.

Record t (V : Type) : Type :=
  Client { store : gmap string (entry V); faults : list (option exn) }.
Arguments Client {V} store faults.
Arguments store {V} _.
Arguments faults {V} _.

Definition lookup_live {V : Type} (now : Z) (s : gmap string (entry V)) (k : string)
  : option V :=
  match s !! k with
  | Some e => if now <? expires_at e then Some (value e) else None
  | None => None
  end.

(** One round trip to the server. *)
Definition call {V A : Type}
    (op : gmap string (entry V) -> result A * gmap string (entry V)) : M (t V) A :=
  fun r =>
    match faults r with
    | Some e :: fs => (Raise e, Client (store r) fs)
    | None :: fs => let '(a, s') := op (store r) in (a, Client s' fs)
    | [] => let '(a, s') := op (store r) in (a, Client s' [])
    end.

(** [GET key] *)
Definition get {V : Type} (now : Z) (k : string) : M (t V) (option V) :=
  call (fun s => (Ok (lookup_live now s k), s)).

(** [SET key value [NX] EX seconds]: the reply is [True], or [None] when
    [NX] is given and the key exists.  The server rejects a non-positive
    expiry. *)
Definition set {V : Type} (now : Z) (k : string) (v : V) (nx : bool) (ex : Z)
  : M (t V) (option bool) :=
  call (fun s =>
    if ex <=? 0 then
      (Raise (Exc RedisError "invalid expire time in 'set' command"), s)
    else
      match nx, lookup_live now s k with
      | true, Some _ => (Ok None, s)
      | _, _ => (Ok (Some true), <[k := Entry v (now + 1000 * ex)]> s)
      end).

(** [DEL key]: the number of keys removed. *)
Definition delete {V : Type} (now : Z) (k : string) : M (t V) Z :=
  call (fun s =>
    match lookup_live now s k with
    | Some _ => (Ok 1, base.delete k s)
    | None => (Ok 0, s)
    end).

(** The release script of the locks:
    [if redis.call("GET", KEYS[1]) == ARGV[1] then
       return redis.call("DEL", KEYS[1]) else return 0 end] *)
Definition eval_compare_and_delete (now : Z) (k : string) (arg : string)
  : M (t string) Z :=
  call (fun s =>
    match lookup_live now s k with
    | Some v => if String.eqb v arg then (Ok 1, base.delete k s) else (Ok 0, s)
    | None => (Ok 0, s)
    end).

(** The extension script of the locks:
    [if redis.call("GET", KEYS[1]) == ARGV[1] then
       return redis.call("EXPIRE", KEYS[1], ARGV[2]) else return 0 end];
    [EXPIRE] with a non-positive time removes the key. *)
Definition eval_compare_and_expire (now : Z) (k : string) (arg : string) (seconds : Z)
  : M (t string) Z :=
  call (fun s =>
    match lookup_live now s k with
    | Some v =>
        if String.eqb v arg then
          (Ok 1, if seconds <=? 0 then base.delete k s
                 else <[k := Entry v (now + 1000 * seconds)]> s)
        else (Ok 0, s)
    | None => (Ok 0, s)
    end).

End Redis.

(** ** [app/infrastructure/cache/distributed_lock.py] *)

(** [bool(x)] of a reply that is [True] or [None]. *)
Definition bool_of_reply (o : option bool) : bool :=
  match o with Some b => b | None => false end.

Module DistributedLock.

Record t : Type := Lock {
  key : string;
  ttl : Z;
  blocking : bool;
  retry_timeout : Z;
  retry_delay : Q;
  lock_identifier : string;
  acquired : bool
}.

Definition set_acquired (b : bool) (l : t) : t :=
  Lock (key l) (ttl l) (blocking l) (retry_timeout l) (retry_delay l)
       (lock_identifier l) b.

(** [__init__]; [ident] is the value of [str(uuid4())]. *)
Definition init (k : string) (ttl_ : Z) (blocking_ : bool) (retry_timeout_ : Z)
    (retry_delay_ : Q) (ident : string) : t :=
  Lock ("lock:" +:+ k) (Z.min ttl_ 30) blocking_ retry_timeout_ retry_delay_ ident false.

Definition _try_acquire_once (now : Z) (l : t) : M (Redis.t string) (bool * t) :=
  let* result := Redis.set now (key l) (lock_identifier l) true (ttl l) in
  let l' := set_acquired (bool_of_reply result) l in
  ret (acquired l', l').

Definition release (now : Z) (l : t) : M (Redis.t string) (bool * t) :=
  if negb (acquired l) then ret (false, l)
  else
    let* released := Redis.eval_compare_and_delete now (key l) (lock_identifier l) in
    if negb (released =? 0) then ret (true, set_acquired false l)
    else ret (false, set_acquired false l).

Definition extend (now : Z) (additional_ttl : Z) (l : t) : M (Redis.t string) bool :=
  if negb (acquired l) then ret false
  else
    let* extended :=
      Redis.eval_compare_and_expire now (key l) (lock_identifier l) additional_ttl in
    if negb (extended =? 0) then ret true else ret false.

End DistributedLock.

Module SyncDistributedLock.

Record t : Type := Lock {
  key : string;
  ttl : Z;
  blocking : bool;
  retry_timeout : Z;
  lock_identifier : string;
  acquired : bool
}.

Definition set_acquired (b : bool) (l : t) : t :=
  Lock (key l) (ttl l) (blocking l) (retry_timeout l) (lock_identifier l) b.

Definition init (k : string) (ttl_ : Z) (blocking_ : bool) (retry_timeout_ : Z)
    (ident : string) : t :=
  Lock ("lock:" +:+ k) (Z.min ttl_ 30) blocking_ retry_timeout_ ident false.

Definition _try_acquire_once (now : Z) (l : t) : M (Redis.t string) bool :=
  let* acquired_ := Redis.set now (key l) (lock_identifier l) true (ttl l) in
  ret (bool_of_reply acquired_).

(** [acquire] returns the flag together with the updated lock object; the
    [except Exception] branch makes it return on every outcome of the
    cache call. *)
Definition acquire (now : Z) (l : t) : M (Redis.t string) (bool * t) :=
  try_except
    (let* a := _try_acquire_once now l in
     ret (a, set_acquired a l))
    (fun _ => ret (false, set_acquired false l)).

Definition _release (now : Z) (l : t) : M (Redis.t string) bool :=
  let* _released := Redis.eval_compare_and_delete now (key l) (lock_identifier l) in
  ret (negb (_released =? 0)).

(** [release]: on a [RuntimeError] the script is submitted a second time
    (on the ambient event loop); any other exception propagates. *)
Definition release (now : Z) (l : t) : M (Redis.t string) (bool * t) :=
  if negb (acquired l) then ret (false, l)
  else
    try_except
      (let* released := _release now l in
       ret (released, set_acquired false l))
      (fun e =>
         if ExcClass_eqb (exc_class e) RuntimeError then
           let* released := _release now l in
           ret (released, set_acquired false l)
         else raise e).

End SyncDistributedLock.


(** ** [app/infrastructure/external/circuit_breaker.py]

    [time.time()] is passed in as [now], a rational number of seconds.  The
    mutex only serialises the methods; each method is one atomic step. *)

Module CircuitBreaker.

Inductive CircuitState : Type := CLOSED | OPEN | HALF_OPEN.

Record t : Type := Breaker {
  name : string;
  failure_threshold : Z;
  timeout_seconds : Z;
  success_threshold : Z;
  state : CircuitState;
  failure_count : Z;
  success_count : Z;
  last_failure_time : option Q
}.

Definition init (name_ : string) (failure_threshold_ timeout_seconds_ success_threshold_ : Z)
  : t :=
  Breaker name_ failure_threshold_ timeout_seconds_ success_threshold_ CLOSED 0 0 None.

Definition _should_attempt_reset (now : Q) (cb : t) : bool :=
  match last_failure_time cb with
  | None => false
  | Some last =>
      let elapsed := (now - last)%Q in
      Qle_bool (inject_Z (timeout_seconds cb)) elapsed
  end.

Definition _transition_to_open (cb : t) : t :=
  Breaker (name cb) (failure_threshold cb) (timeout_seconds cb) (success_threshold cb)
          OPEN (failure_count cb) 0 (last_failure_time cb).

Definition _transition_to_half_open (cb : t) : t :=
  Breaker (name cb) (failure_threshold cb) (timeout_seconds cb) (success_threshold cb)
          HALF_OPEN 0 0 (last_failure_time cb).

Definition _transition_to_closed (cb : t) : t :=
  Breaker (name cb) (failure_threshold cb) (timeout_seconds cb) (success_threshold cb)
          CLOSED 0 0 (last_failure_time cb).

Definition can_execute (now : Q) (cb : t) : bool * t :=
  match state cb with
  | CLOSED => (true, cb)
  | OPEN =>
      if _should_attempt_reset now cb then (true, _transition_to_half_open cb)
      else (false, cb)
  | HALF_OPEN => (true, cb)
  end.

Definition record_success (cb : t) : t :=
  match state cb with
  | HALF_OPEN =>
      let cb1 :=
        Breaker (name cb) (failure_threshold cb) (timeout_seconds cb) (success_threshold cb)
                (state cb) (failure_count cb) (success_count cb + 1) (last_failure_time cb) in
      if success_threshold cb1 <=? success_count cb1 then _transition_to_closed cb1 else cb1
  | _ =>
      Breaker (name cb) (failure_threshold cb) (timeout_seconds cb) (success_threshold cb)
              (state cb) 0 (success_count cb) (last_failure_time cb)
  end.

Definition record_failure (now : Q) (cb : t) : t :=
  let cb1 :=
    Breaker (name cb) (failure_threshold cb) (timeout_seconds cb) (success_threshold cb)
            (state cb) (failure_count cb + 1) (success_count cb) (Some now) in
  match state cb1 with
  | HALF_OPEN => _transition_to_open cb1
  | CLOSED =>
      if failure_threshold cb1 <=? failure_count cb1 then _transition_to_open cb1 else cb1
  | OPEN => cb1
  end.

(** The breaker of the bank client, [_bank_circuit_breaker]. *)
Definition bank_circuit_breaker : t := init "bank_api" 5 30 2.

End CircuitBreaker.


(** ** SHA-256 and HMAC ([hashlib.sha256], [hmac.new])

    The hash of the standard library, following FIPS 180-4 and RFC 2104.
    Words are integers reduced modulo 2^32; byte strings are lists of
    integers in the range 0 to 255. *)

Module SHA256.

Definition mask32 (x : Z) : Z := x mod 2 ^ 32.

Definition add32 (x y : Z) : Z := mask32 (x + y).

Definition rotr (n x : Z) : Z :=
  Z.lor (Z.shiftr x n) (mask32 (Z.shiftl x (32 - n))).

Definition Ch (x y z : Z) : Z :=
  Z.lxor (Z.land x y) (Z.land (mask32 (Z.lnot x)) z).

Definition Maj (x y z : Z) : Z :=
  Z.lxor (Z.lxor (Z.land x y) (Z.land x z)) (Z.land y z).

Definition big_sigma0 (x : Z) : Z := Z.lxor (Z.lxor (rotr 2 x) (rotr 13 x)) (rotr 22 x).
Definition big_sigma1 (x : Z) : Z := Z.lxor (Z.lxor (rotr 6 x) (rotr 11 x)) (rotr 25 x).
Definition small_sigma0 (x : Z) : Z := Z.lxor (Z.lxor (rotr 7 x) (rotr 18 x)) (Z.shiftr x 3).
Definition small_sigma1 (x : Z) : Z := Z.lxor (Z.lxor (rotr 17 x) (rotr 19 x)) (Z.shiftr x 10).

(** The constants of the standard are fractional parts of roots of the
    first primes, 32 bits each: cube roots of the first sixty-four primes for
    the rounds, square roots of the first eight for the initial hash value. *)
Definition is_prime (n : Z) : bool :=
  forallb (fun d => negb (n mod d =? 0)) (map Z.of_nat (seq 2 (Z.to_nat n - 2))).

Definition first_primes (count : nat) : list Z :=
  firstn count (List.filter is_prime (map Z.of_nat (seq 2 400))).

(** The integer part of the [k]-th root of [n], found bit by bit from the
    top; [r] is the part found so far. *)
Fixpoint root_bits (k n : Z) (bits : nat) (r : Z) : Z :=
  match bits with
  | O => r
  | S b =>
      let candidate := r + 2 ^ Z.of_nat b in
      root_bits k n b (if candidate ^ k <=? n then candidate else r)
  end.

Definition root_fraction32 (k p : Z) : Z :=
  mask32 (root_bits k (p * 2 ^ (32 * k)) 36 0).

Definition round_constants : list Z :=
  Eval vm_compute in map (root_fraction32 3) (first_primes 64).

Definition initial_hash : list Z :=
  Eval vm_compute in map (root_fraction32 2) (first_primes 8).

(** Big-endian conversion between words and bytes. *)
Definition word_bytes (x : Z) : list Z :=
  [ Z.shiftr x 24 mod 256; Z.shiftr x 16 mod 256; Z.shiftr x 8 mod 256; x mod 256 ].

Fixpoint bytes_words (fuel : nat) (bs : list Z) : list Z :=
  match fuel, bs with
  | S f, b0 :: b1 :: b2 :: b3 :: rest =>
      (((b0 * 256 + b1) * 256 + b2) * 256 + b3) :: bytes_words f rest
  | _, _ => []
  end.

(** The message schedule, newest word first: 48 words are added to the 16
    words of the block. *)
Fixpoint extend_schedule (n : nat) (w : list Z) : list Z :=
  match n with
  | O => w
  | S n' =>
      let at_ (i : nat) := nth i w 0 in
      let next :=
        add32 (add32 (small_sigma1 (at_ 1%nat)) (at_ 6%nat))
              (add32 (small_sigma0 (at_ 14%nat)) (at_ 15%nat)) in
      extend_schedule n' (next :: w)
  end.

Definition schedule (block : list Z) : list Z :=
  rev (extend_schedule 48 (rev (bytes_words 16 block))).

Record regs : Type := Regs { ra : Z; rb : Z; rc : Z; rd : Z; re : Z; rf : Z; rg : Z; rh : Z }.

Definition step (s : regs) (kw : Z * Z) : regs :=
  let t1 :=
    add32 (add32 (add32 (rh s) (big_sigma1 (re s))) (Ch (re s) (rf s) (rg s)))
          (add32 (fst kw) (snd kw)) in
  let t2 := add32 (big_sigma0 (ra s)) (Maj (ra s) (rb s) (rc s)) in
  Regs (add32 t1 t2) (ra s) (rb s) (rc s) (add32 (rd s) t1) (re s) (rf s) (rg s).

Definition regs_of_list (h : list Z) : regs :=
  Regs (nth 0 h 0) (nth 1 h 0) (nth 2 h 0) (nth 3 h 0)
       (nth 4 h 0) (nth 5 h 0) (nth 6 h 0) (nth 7 h 0).

Definition compress (h : list Z) (block : list Z) : list Z :=
  let s0 := regs_of_list h in
  let s := fold_left step (combine round_constants (schedule block)) s0 in
  [ add32 (ra s0) (ra s); add32 (rb s0) (rb s); add32 (rc s0) (rc s); add32 (rd s0) (rd s);
    add32 (re s0) (re s); add32 (rf s0) (rf s); add32 (rg s0) (rg s); add32 (rh s0) (rh s) ].

Definition length_bytes (bits : Z) : list Z :=
  word_bytes (Z.shiftr bits 32 mod 2 ^ 32) ++ word_bytes (bits mod 2 ^ 32).

Definition pad (msg : list Z) : list Z :=
  let l := Z.of_nat (length msg) in
  msg ++ [0x80] ++ repeat 0 (Z.to_nat ((55 - l) mod 64)) ++ length_bytes (8 * l).

Fixpoint blocks (fuel : nat) (bs : list Z) : list (list Z) :=
  match fuel, bs with
  | S f, _ :: _ => firstn 64 bs :: blocks f (skipn 64 bs)
  | _, _ => []
  end.

Definition digest (msg : list Z) : list Z :=
  let padded := pad msg in
  concat (map word_bytes (fold_left compress (blocks (length padded) padded) initial_hash)).

Definition block_size : nat := 64.

(** [hmac.new(key, msg, hashlib.sha256).digest()] *)
Definition hmac (key msg : list Z) : list Z :=
  let key1 := if (block_size <? length key)%nat then digest key else key in
  let key2 := key1 ++ repeat 0 (block_size - length key1) in
  let ipad := map (Z.lxor 0x36) key2 in
  let opad := map (Z.lxor 0x5c) key2 in
  digest (opad ++ digest (ipad ++ msg)).

End SHA256.

(** ** [app/core/security.py] *)

(** [str.encode()]: UTF-8 of the code points below 256. *)
Definition utf8_encode_char (c : ascii) : list Z :=
  let n := Z.of_N (N_of_ascii c) in
  if n <? 128 then [n] else [Z.lor 0xC0 (Z.shiftr n 6); Z.lor 0x80 (Z.land n 0x3F)].

Fixpoint encode (s : string) : list Z :=
  match s with
  | EmptyString => []
  | String c r => utf8_encode_char c ++ encode r
  end.

Definition hex_byte (b : Z) : string :=
  String (hex_char (Z.to_N ((b / 16) mod 16))) (String (hex_char (Z.to_N (b mod 16))) EmptyString).

(** [.hexdigest()] *)
Fixpoint hexdigest (bs : list Z) : string :=
  match bs with
  | [] => EmptyString
  | b :: rest => hex_byte b +:+ hexdigest rest
  end.

(** [hmac.compare_digest(a, b)] on two [str] arguments: both must be ASCII,
    otherwise the call raises [TypeError]; the answer is plain equality
    (the constant running time is not represented). *)
Definition compare_digest (a b : string) : result bool :=
  if is_ascii a && is_ascii b then Ok (String.eqb a b)
  else Raise (Exc TypeError "comparing strings with non-ASCII characters is not supported").

Definition generate_webhook_signature (payload secret : string) : string :=
  hexdigest (SHA256.hmac (encode secret) (encode payload)).

Definition verify_webhook_signature (payload signature secret : string) : result bool :=
  let expected_signature := hexdigest (SHA256.hmac (encode secret) (encode payload)) in
  compare_digest signature expected_signature.


(** ** [app/core/enums.py] *)

Module TransactionType.
Inductive t : Type := DEPOSIT | WITHDRAWAL.
End TransactionType.

Module TransactionStatus.
Inductive t : Type := PENDING | PROCESSING | SUCCESS | FAILED | PENDING_REVIEW.
End TransactionStatus.

Module BankResponseStatus.
Inductive t : Type := SUCCESS | FAILED | TIMEOUT | INSUFFICIENT_FUNDS | UNAVAILABLE.

(** The member as an f-string prints it (a [str]-mixin [Enum] on Python 3.11
    and later prints as class and member name). *)
Definition format (s : t) : string :=
  match s with
  | SUCCESS => "BankResponseStatus.SUCCESS"
  | FAILED => "BankResponseStatus.FAILED"
  | TIMEOUT => "BankResponseStatus.TIMEOUT"
  | INSUFFICIENT_FUNDS => "BankResponseStatus.INSUFFICIENT_FUNDS"
  | UNAVAILABLE => "BankResponseStatus.UNAVAILABLE"
  end.
End BankResponseStatus.

Module WebhookDeliveryStatus.
Inductive t : Type := PENDING | SENDING | SUCCESS | FAILED.
End WebhookDeliveryStatus.

(** ** [app/infrastructure/models]

    Rows of the four tables the lifecycle engine touches.  The timestamps
    [created_at] and [updated_at] are not represented. *)

Record Account : Type := mkAccount {
  acc_id : UUID;
  acc_user_id : UUID;
  acc_balance : Z;
  acc_currency : string
}.

Record Transaction : Type := mkTransaction {
  tx_id : UUID;
  tx_account_id : UUID;
  tx_transaction_type : TransactionType.t;
  tx_amount : Z;
  tx_currency : string;
  tx_status : TransactionStatus.t;
  tx_bank_transaction_id : option string;
  tx_bank_response : option string;
  tx_error_code : option string;
  tx_error_message : option string;
  tx_idempotency_key : option string;
  tx_celery_task_id : option string
}.

Record User : Type := mkUser {
  usr_id : UUID;
  usr_webhook_url : option string
}.

(** The JSON document of an outbound notification, before [json.dumps]. *)
Record WebhookPayload : Type := mkWebhookPayload {
  pl_event : string;
  pl_transaction_id : string;
  pl_type : TransactionType.t;
  pl_amount : string;
  pl_currency : string;
  pl_status : TransactionStatus.t;
  pl_bank_transaction_id : option string;
  pl_error_code : option string;
  pl_error_message : option string;
  pl_account_id : string;
  pl_account_balance : string
}.

Record WebhookDelivery : Type := mkWebhookDelivery {
  wd_id : UUID;
  wd_transaction_id : UUID;
  wd_webhook_url : string;
  wd_status : WebhookDeliveryStatus.t;
  wd_attempt_count : Z;
  wd_max_attempts : Z;
  wd_http_status_code : option Z;
  wd_response_body : option string;
  wd_error_message : option string;
  wd_payload : WebhookPayload
}.

Definition acc_with_balance (b : Z) (a : Account) : Account :=
  mkAccount (acc_id a) (acc_user_id a) b (acc_currency a).

Definition tx_with_status (s : TransactionStatus.t) (t : Transaction) : Transaction :=
  mkTransaction (tx_id t) (tx_account_id t) (tx_transaction_type t) (tx_amount t)
    (tx_currency t) s (tx_bank_transaction_id t) (tx_bank_response t) (tx_error_code t)
    (tx_error_message t) (tx_idempotency_key t) (tx_celery_task_id t).

Definition tx_with_bank_transaction_id (v : option string) (t : Transaction) : Transaction :=
  mkTransaction (tx_id t) (tx_account_id t) (tx_transaction_type t) (tx_amount t)
    (tx_currency t) (tx_status t) v (tx_bank_response t) (tx_error_code t)
    (tx_error_message t) (tx_idempotency_key t) (tx_celery_task_id t).

Definition tx_with_bank_response (v : option string) (t : Transaction) : Transaction :=
  mkTransaction (tx_id t) (tx_account_id t) (tx_transaction_type t) (tx_amount t)
    (tx_currency t) (tx_status t) (tx_bank_transaction_id t) v (tx_error_code t)
    (tx_error_message t) (tx_idempotency_key t) (tx_celery_task_id t).

Definition tx_with_error_code (v : option string) (t : Transaction) : Transaction :=
  mkTransaction (tx_id t) (tx_account_id t) (tx_transaction_type t) (tx_amount t)
    (tx_currency t) (tx_status t) (tx_bank_transaction_id t) (tx_bank_response t) v
    (tx_error_message t) (tx_idempotency_key t) (tx_celery_task_id t).

Definition tx_with_error_message (v : option string) (t : Transaction) : Transaction :=
  mkTransaction (tx_id t) (tx_account_id t) (tx_transaction_type t) (tx_amount t)
    (tx_currency t) (tx_status t) (tx_bank_transaction_id t) (tx_bank_response t)
    (tx_error_code t) v (tx_idempotency_key t) (tx_celery_task_id t).

(** ** The database and the SQLAlchemy session

    [Tables] is a state of the database.  An environment holds the committed
    state [database], the view [session] of the session in use (the
    committed state plus what the session has flushed), the cache server,
    the queue of submitted Celery tasks and [commit_log], the states
    published by the commits so far, oldest first.  [flush] writes a row into the
    session view and enforces the declared integrity rules: the primary key,
    [CHECK (balance >= 0)] on accounts, [CHECK (amount > 0)] on transactions
    and the unique partial index on [transactions(idempotency_key)].
    [commit] publishes the session view, [rollback] and [close] discard
    it.  Row locks ([with_for_update]) do not change what a single session
    reads. *)

Record Tables : Type := mkTables {
  accounts : gmap N Account;
  transactions : gmap N Transaction;
  users : gmap N User;
  webhook_deliveries : gmap N WebhookDelivery
}.

Inductive QueuedTask : Type :=
| SendWebhookNotification (webhook_delivery_id : string).

Record Env : Type := mkEnv {
  database : Tables;
  session : Tables;
  cache : Redis.t string;
  task_queue : list QueuedTask;
  commit_log : list Tables
}.

Definition env_with_session (s : Tables) (e : Env) : Env :=
  mkEnv (database e) s (cache e) (task_queue e) (commit_log e).

Definition env_with_cache (c : Redis.t string) (e : Env) : Env :=
  mkEnv (database e) (session e) c (task_queue e) (commit_log e).

Definition env_with_task_queue (q : list QueuedTask) (e : Env) : Env :=
  mkEnv (database e) (session e) (cache e) q (commit_log e).

(** The session view becomes the committed state. *)
Definition env_commit (e : Env) : Env :=
  mkEnv (session e) (session e) (cache e) (task_queue e) (commit_log e ++ [session e]).

Definition tables_with_accounts (m : gmap N Account) (t : Tables) : Tables :=
  mkTables m (transactions t) (users t) (webhook_deliveries t).

Definition tables_with_transactions (m : gmap N Transaction) (t : Tables) : Tables :=
  mkTables (accounts t) m (users t) (webhook_deliveries t).

Definition tables_with_webhook_deliveries (m : gmap N WebhookDelivery) (t : Tables) : Tables :=
  mkTables (accounts t) (transactions t) (users t) m.

(** The row written under its primary key. *)
Definition put_account (a : Account) (T : Tables) : Tables :=
  tables_with_accounts (<[acc_id a := a]> (accounts T)) T.

Definition put_transaction (t : Transaction) (T : Tables) : Tables :=
  tables_with_transactions (<[tx_id t := t]> (transactions T)) T.

Definition put_webhook_delivery (d : WebhookDelivery) (T : Tables) : Tables :=
  tables_with_webhook_deliveries (<[wd_id d := d]> (webhook_deliveries T)) T.

Module Session.

(** [db.commit()] *)
Definition commit : M Env unit := modify_state env_commit.

(** [db.rollback()] *)
Definition rollback : M Env unit :=
  modify_state (fun e => env_with_session (database e) e).

(** [db.close()] *)
Definition close : M Env unit :=
  modify_state (fun e => env_with_session (database e) e).

(** [db = SessionLocal(); try: body finally: db.close()] while another
    session stays open: the body runs on a fresh view of the committed state
    and the view of the outer session is put back afterwards. *)
Definition in_new_session {A : Type} (body : M Env A) : M Env A :=
  fun e =>
    let outer := session e in
    let '(r, e') := try_finally body close (env_with_session (database e) e) in
    (r, env_with_session outer e').

Definition key_in_use (k : string) (txs : gmap N Transaction) : bool :=
  bool_decide (map_Exists (fun _ t => tx_idempotency_key t = Some k) txs).

Definition check_amount_positive (t : Transaction) : M Env unit :=
  if 0 <? tx_amount t then ret tt
  else raise (Exc IntegrityError
    "new row for relation transactions violates check constraint amount_positive").

Definition check_balance_non_negative (a : Account) : M Env unit :=
  if 0 <=? acc_balance a then ret tt
  else raise (Exc IntegrityError
    "new row for relation accounts violates check constraint balance_non_negative").

(** Flush of a modified account row. *)
Definition flush_account (a : Account) : M Env unit :=
  check_balance_non_negative a ;;
  modify_state (fun e => env_with_session (put_account a (session e)) e).

(** Flush of a new transaction row. *)
Definition flush_new_transaction (t : Transaction) : M Env unit :=
  let* e := get_state in
  match transactions (session e) !! tx_id t with
  | Some _ =>
      raise (Exc IntegrityError
        "duplicate key value violates unique constraint transactions_pkey")
  | None =>
      check_amount_positive t ;;
      match tx_idempotency_key t with
      | Some k =>
          if key_in_use k (transactions (session e)) then
            raise (Exc IntegrityError
              "duplicate key value violates unique constraint idx_unique_idempotency_key")
          else ret tt
      | None => ret tt
      end ;;
      modify_state (fun e => env_with_session (put_transaction t (session e)) e)
  end.

(** Flush of a modified transaction row; the updates of this code base
    leave the key columns alone. *)
Definition flush_transaction (t : Transaction) : M Env unit :=
  check_amount_positive t ;;
  modify_state (fun e => env_with_session (put_transaction t (session e)) e).

(** Flush of a new webhook delivery row. *)
Definition flush_new_webhook_delivery (d : WebhookDelivery) : M Env unit :=
  let* e := get_state in
  match webhook_deliveries (session e) !! wd_id d with
  | Some _ =>
      raise (Exc IntegrityError
        "duplicate key value violates unique constraint webhook_deliveries_pkey")
  | None =>
      modify_state (fun e => env_with_session (put_webhook_delivery d (session e)) e)
  end.

(** Flush of a modified webhook delivery row. *)
Definition flush_webhook_delivery (d : WebhookDelivery) : M Env unit :=
  modify_state (fun e => env_with_session (put_webhook_delivery d (session e)) e).

End Session.


(** Values the environment supplies to one call: the cache clock, the
    owner token [str(uuid4())] of a lock created during the call and the
    primary key [uuid4()] of a webhook delivery row created during it. *)
Record Ambient : Type := mkAmbient {
  now : Z;
  lock_token : string;
  delivery_id : UUID
}.

(** A cache command issued from service code. *)
Definition with_cache {A : Type} (m : M (Redis.t string) A) : M Env A :=
  fun e => let '(r, c) := m (cache e) in (r, env_with_cache c e).

(** [task.delay(...)]: the task is appended to the queue. *)
Definition delay (t : QueuedTask) : M Env unit :=
  modify_state (fun e => env_with_task_queue (task_queue e ++ [t]) e).

(** ** [app/infrastructure/repositories] *)

Module AccountRepository.

Definition get_by_id (id : UUID) : M Env (option Account) :=
  let* e := get_state in ret (accounts (session e) !! id).

Definition get_by_id_with_lock (id : UUID) : M Env (option Account) :=
  let* e := get_state in ret (accounts (session e) !! id).

Definition add_balance (account : Account) (amount : Z) : M Env Account :=
  if amount <=? 0 then raise (Exc ValueError "Amount must be positive")
  else
    let account := acc_with_balance (acc_balance account + amount) account in
    Session.flush_account account ;;
    ret account.

Definition subtract_balance (account : Account) (amount : Z) : M Env Account :=
  if amount <=? 0 then raise (Exc ValueError "Amount must be positive")
  else if acc_balance account <? amount then
    raise (Exc InsufficientBalanceError
             ("Insufficient balance. Available: " +:+ str_decimal (acc_balance account)
              +:+ ", Required: " +:+ str_decimal amount))
  else
    let account := acc_with_balance (acc_balance account - amount) account in
    Session.flush_account account ;;
    ret account.

End AccountRepository.

Module TransactionRepository.

Definition get_by_id (id : UUID) : M Env (option Transaction) :=
  let* e := get_state in ret (transactions (session e) !! id).

Definition create (obj : Transaction) : M Env Transaction :=
  Session.flush_new_transaction obj ;; ret obj.

Definition update (obj : Transaction) : M Env Transaction :=
  Session.flush_transaction obj ;; ret obj.

End TransactionRepository.

Module UserRepository.

Definition get_by_id (id : UUID) : M Env (option User) :=
  let* e := get_state in ret (users (session e) !! id).

End UserRepository.

Module WebhookRepository.

Definition create_delivery (id : UUID) (transaction_id : UUID) (webhook_url : string)
    (payload : WebhookPayload) (max_attempts : Z) : M Env WebhookDelivery :=
  let delivery :=
    mkWebhookDelivery id transaction_id webhook_url WebhookDeliveryStatus.PENDING 0
      max_attempts None None None payload in
  Session.flush_new_webhook_delivery delivery ;;
  ret delivery.

End WebhookRepository.

(** ** [app/domain/services/base_transaction_service.py] *)

Module BaseTransactionService.

Definition _get_transaction_or_raise (transaction_id : UUID) : M Env Transaction :=
  let* transaction := TransactionRepository.get_by_id transaction_id in
  match transaction with
  | Some t => ret t
  | None =>
      raise (Exc ValueError ("Transaction " +:+ str_uuid transaction_id +:+ " not found"))
  end.

Definition _update_and_commit (transaction : Transaction) : M Env Transaction :=
  let* _ := TransactionRepository.update transaction in
  Session.commit ;;
  ret transaction.

Definition mark_pending_review (transaction_id : UUID) (reason : string)
    (bank_response : option string) : M Env Transaction :=
  let* transaction := _get_transaction_or_raise transaction_id in
  let transaction := tx_with_status TransactionStatus.PENDING_REVIEW transaction in
  let transaction := tx_with_error_message (Some reason) transaction in
  let transaction := tx_with_bank_response bank_response transaction in
  _update_and_commit transaction.

Definition update_status (transaction_id : UUID) (status : TransactionStatus.t)
  : M Env Transaction :=
  let* transaction := _get_transaction_or_raise transaction_id in
  let transaction := tx_with_status status transaction in
  _update_and_commit transaction.

Definition webhook_payload (transaction : Transaction) (account : Account) : WebhookPayload :=
  mkWebhookPayload
    (match tx_status transaction with
     | TransactionStatus.SUCCESS => "transaction.completed"
     | _ => "transaction.failed"
     end)
    (str_uuid (tx_id transaction))
    (tx_transaction_type transaction)
    (str_decimal (tx_amount transaction))
    (tx_currency transaction)
    (tx_status transaction)
    (tx_bank_transaction_id transaction)
    (tx_error_code transaction)
    (tx_error_message transaction)
    (str_uuid (acc_id account))
    (str_decimal (acc_balance account)).

Definition _trigger_webhook_if_configured (amb : Ambient) (transaction : Transaction)
    (account : Account) : M Env unit :=
  let* user := UserRepository.get_by_id (acc_user_id account) in
  match user with
  | None => ret tt
  | Some user =>
      match usr_webhook_url user with
      | None => ret tt
      | Some webhook_url =>
          if String.eqb webhook_url EmptyString then ret tt
          else
            let payload := webhook_payload transaction account in
            let* delivery :=
              WebhookRepository.create_delivery (delivery_id amb) (tx_id transaction)
                webhook_url payload 5 in
            Session.commit ;;
            delay (SendWebhookNotification (str_uuid (wd_id delivery)))
      end
  end.

End BaseTransactionService.

(** [with SyncDistributedLock(redis, key, ttl=10) as lock: body lock]:
    [__enter__] acquires and ignores the answer, [__exit__] releases on
    every exit of the body and does not suppress its exception. *)
Definition with_sync_lock {A : Type} (amb : Ambient) (k : string)
    (body : SyncDistributedLock.t -> M Env A) : M Env A :=
  let lock0 := SyncDistributedLock.init k 10 false 30 (lock_token amb) in
  let* entered := with_cache (SyncDistributedLock.acquire (now amb) lock0) in
  let lock := snd entered in
  try_finally (body lock)
    (let* _ := with_cache (SyncDistributedLock.release (now amb) lock) in ret tt).

(** ** [app/domain/services/withdrawal_service.py]

    [has_redis] tells whether the service was built with a cache client
    ([self.redis]). *)

Module WithdrawalService.

Definition create_pending_withdrawal (new_id : UUID) (account_id : UUID) (amount : Z)
    (currency : string) (idempotency_key celery_task_id : option string)
  : M Env Transaction :=
  let* account := AccountRepository.get_by_id_with_lock account_id in
  match account with
  | None =>
      raise (Exc AccountNotFoundError ("Account " +:+ str_uuid account_id +:+ " not found"))
  | Some account =>
      if acc_balance account <? amount then
        raise (Exc InsufficientBalanceError
                 ("Insufficient balance. Available: " +:+ str_decimal (acc_balance account)
                  +:+ ", Required: " +:+ str_decimal amount))
      else
        let transaction :=
          mkTransaction new_id account_id TransactionType.WITHDRAWAL amount currency
            TransactionStatus.PENDING None None None None idempotency_key celery_task_id in
        let* created := TransactionRepository.create transaction in
        Session.commit ;;
        ret created
  end.

Definition _complete_withdrawal_locked (amb : Ambient) (transaction : Transaction)
    (bank_transaction_id : string) (bank_response : option string) : M Env Transaction :=
  try_except
    (let* account := AccountRepository.get_by_id_with_lock (tx_account_id transaction) in
     match account with
     | None =>
         raise (Exc AccountNotFoundError
                  ("Account " +:+ str_uuid (tx_account_id transaction) +:+ " not found"))
     | Some account =>
         let* account := AccountRepository.subtract_balance account (tx_amount transaction) in
         let transaction := tx_with_status TransactionStatus.SUCCESS transaction in
         let transaction := tx_with_bank_transaction_id (Some bank_transaction_id) transaction in
         let transaction := tx_with_bank_response bank_response transaction in
         let* _ := BaseTransactionService._update_and_commit transaction in
         BaseTransactionService._trigger_webhook_if_configured amb transaction account ;;
         ret transaction
     end)
    (fun e => Session.rollback ;; raise e).

Definition complete_withdrawal (amb : Ambient) (has_redis : bool) (transaction_id : UUID)
    (bank_transaction_id : string) (bank_response : option string) : M Env Transaction :=
  let* transaction := BaseTransactionService._get_transaction_or_raise transaction_id in
  if has_redis then
    with_sync_lock amb ("account:" +:+ str_uuid (tx_account_id transaction))
      (fun lock =>
         if negb (SyncDistributedLock.acquired lock) then
           raise (Exc ConcurrentUpdateError
                    ("Account " +:+ str_uuid (tx_account_id transaction)
                     +:+ " is locked by another process"))
         else _complete_withdrawal_locked amb transaction bank_transaction_id bank_response)
  else _complete_withdrawal_locked amb transaction bank_transaction_id bank_response.

Definition fail_withdrawal (amb : Ambient) (transaction_id : UUID)
    (error_code error_message : string) (bank_response : option string)
  : M Env Transaction :=
  let* transaction := BaseTransactionService._get_transaction_or_raise transaction_id in
  let* account := AccountRepository.get_by_id (tx_account_id transaction) in
  let transaction := tx_with_status TransactionStatus.FAILED transaction in
  let transaction := tx_with_error_code (Some error_code) transaction in
  let transaction := tx_with_error_message (Some error_message) transaction in
  let transaction := tx_with_bank_response bank_response transaction in
  let* _ := BaseTransactionService._update_and_commit transaction in
  match account with
  | Some account => BaseTransactionService._trigger_webhook_if_configured amb transaction account
  | None => ret tt
  end ;;
  ret transaction.

End WithdrawalService.

(** ** [app/domain/services/deposit_service.py] *)

Module DepositService.

Definition create_pending_deposit (new_id : UUID) (account_id : UUID) (amount : Z)
    (currency : string) (idempotency_key celery_task_id : option string)
  : M Env Transaction :=
  let* account := AccountRepository.get_by_id account_id in
  match account with
  | None =>
      raise (Exc AccountNotFoundError ("Account " +:+ str_uuid account_id +:+ " not found"))
  | Some account =>
      let transaction :=
        mkTransaction new_id account_id TransactionType.DEPOSIT amount currency
          TransactionStatus.PENDING None None None None idempotency_key celery_task_id in
      let* created := TransactionRepository.create transaction in
      Session.commit ;;
      ret created
  end.

Definition _complete_deposit_locked (amb : Ambient) (transaction : Transaction)
    (bank_transaction_id : string) (bank_response : option string) : M Env Transaction :=
  try_except
    (let* account := AccountRepository.get_by_id_with_lock (tx_account_id transaction) in
     match account with
     | None =>
         raise (Exc AccountNotFoundError
                  ("Account " +:+ str_uuid (tx_account_id transaction) +:+ " not found"))
     | Some account =>
         let* account := AccountRepository.add_balance account (tx_amount transaction) in
         let transaction := tx_with_status TransactionStatus.SUCCESS transaction in
         let transaction := tx_with_bank_transaction_id (Some bank_transaction_id) transaction in
         let transaction := tx_with_bank_response bank_response transaction in
         let* _ := BaseTransactionService._update_and_commit transaction in
         BaseTransactionService._trigger_webhook_if_configured amb transaction account ;;
         ret transaction
     end)
    (fun e => Session.rollback ;; raise e).

Definition complete_deposit (amb : Ambient) (has_redis : bool) (transaction_id : UUID)
    (bank_transaction_id : string) (bank_response : option string) : M Env Transaction :=
  let* transaction := BaseTransactionService._get_transaction_or_raise transaction_id in
  if has_redis then
    with_sync_lock amb ("account:" +:+ str_uuid (tx_account_id transaction))
      (fun lock =>
         if negb (SyncDistributedLock.acquired lock) then
           raise (Exc ConcurrentUpdateError
                    ("Account " +:+ str_uuid (tx_account_id transaction)
                     +:+ " is locked by another process"))
         else _complete_deposit_locked amb transaction bank_transaction_id bank_response)
  else _complete_deposit_locked amb transaction bank_transaction_id bank_response.

Definition fail_deposit (amb : Ambient) (transaction_id : UUID)
    (error_code error_message : string) (bank_response : option string)
  : M Env Transaction :=
  let* transaction := BaseTransactionService._get_transaction_or_raise transaction_id in
  let* account := AccountRepository.get_by_id (tx_account_id transaction) in
  let transaction := tx_with_status TransactionStatus.FAILED transaction in
  let transaction := tx_with_error_code (Some error_code) transaction in
  let transaction := tx_with_error_message (Some error_message) transaction in
  let transaction := tx_with_bank_response bank_response transaction in
  let* _ := BaseTransactionService._update_and_commit transaction in
  match account with
  | Some account => BaseTransactionService._trigger_webhook_if_configured amb transaction account
  | None => ret tt
  end ;;
  ret transaction.

End DepositService.


(** ** [app/infrastructure/external/bank_simulator.py]: the reply type

    The bank is an opaque remote service: what [call_bank] does is an input
    of the processor, either a reply or an exception. *)

Record BankResponse : Type := mkBankResponse {
  br_status : BankResponseStatus.t;
  br_transaction_id : option string;
  br_message : option string;
  br_error_code : option string
}.

Inductive BankOutcome : Type :=
| BankReturns (r : BankResponse)
| BankRaises (e : exn).

(** [repr] of a [str] (code points below 256).  The text stands between
    single quotes, or between double quotes when it holds a single quote and
    no double quote.  A backslash and the quote in use are escaped by a
    backslash; tab, line feed and carriage return are written [\t], [\n] and
    [\r]; every other character that is not printable (the control
    characters, U+007F to U+00A0 and U+00AD) is written [\xhh]. *)
Definition double_quote : ascii := ascii_of_N 34.

Fixpoint str_has_char (c : ascii) (s : string) : bool :=
  match s with
  | EmptyString => false
  | String d r => Ascii.eqb c d || str_has_char c r
  end.

Definition repr_quote (s : string) : ascii :=
  if str_has_char "'" s && negb (str_has_char double_quote s) then double_quote else "'"%char.

Definition repr_char (quote c : ascii) : string :=
  let n := N_of_ascii c in
  if Ascii.eqb c quote || Ascii.eqb c "\" then String "\" (String c EmptyString)
  else if (n =? 9)%N then "\t"
  else if (n =? 10)%N then "\n"
  else if (n =? 13)%N then "\r"
  else if (n <? 32)%N || ((127 <=? n)%N && (n <=? 160)%N) || (n =? 173)%N
       then "\x" +:+ hex_fixed 2 n EmptyString
  else String c EmptyString.

Fixpoint repr_chars (quote : ascii) (s : string) : string :=
  match s with
  | EmptyString => EmptyString
  | String c r => repr_char quote c +:+ repr_chars quote r
  end.

Definition repr_str (s : string) : string :=
  let quote := repr_quote s in
  String quote (repr_chars quote s +:+ String quote EmptyString).

(** [repr] of a field of type [str | None]. *)
Definition repr_option (o : option string) : string :=
  match o with
  | Some s => repr_str s
  | None => "None"
  end.

(** The value of a member of [BankResponseStatus], which is also its name. *)
Definition bank_response_status_value (s : BankResponseStatus.t) : string :=
  match s with
  | BankResponseStatus.SUCCESS => "SUCCESS"
  | BankResponseStatus.FAILED => "FAILED"
  | BankResponseStatus.TIMEOUT => "TIMEOUT"
  | BankResponseStatus.INSUFFICIENT_FUNDS => "INSUFFICIENT_FUNDS"
  | BankResponseStatus.UNAVAILABLE => "UNAVAILABLE"
  end.

(** [repr] of a member of the enumeration: [<Class.NAME: 'value'>]. *)
Definition repr_bank_response_status (s : BankResponseStatus.t) : string :=
  "<BankResponseStatus." +:+ bank_response_status_value s +:+ ": "
    +:+ repr_str (bank_response_status_value s) +:+ ">".

(** [str(bank_response)]: a dataclass has no [__str__] of its own, so this
    is its generated [__repr__], the class name and every field as
    [name=repr(value)], in the order of declaration. *)
Definition str_bank_response (r : BankResponse) : string :=
  "BankResponse(status=" +:+ repr_bank_response_status (br_status r)
    +:+ ", transaction_id=" +:+ repr_option (br_transaction_id r)
    +:+ ", message=" +:+ repr_option (br_message r)
    +:+ ", error_code=" +:+ repr_option (br_error_code r) +:+ ")".

(** ** [app/workers/strategies.py] and [app/workers/transaction_processor.py] *)

(** The dictionaries the processor returns. *)
Inductive ProcessResult : Type :=
| ResultSuccess (transaction_id : string) (bank_transaction_id : option string)
| ResultFailed (transaction_id : string) (error : string) (refunded : option bool)
| ResultNotFound (transaction_id : string) (error : string)
| ResultPendingReview (transaction_id : string) (error : string) (note : option string).

(** [task_instance.request.retries] and [task_instance.max_retries]. *)
Record TaskInstance : Type := mkTaskInstance {
  retries : Z;
  max_retries : Z
}.

Module Strategy.

Inductive t : Type := DepositStrategy | WithdrawalStrategy.

Definition get_transaction_type_name (s : t) : string :=
  match s with
  | DepositStrategy => "deposit"
  | WithdrawalStrategy => "withdrawal"
  end.

(** The services are built as [service_class(db)], without a cache client. *)
Definition complete_transaction (s : t) (amb : Ambient) (transaction_id : UUID)
    (bank_transaction_id : string) (bank_response : string) : M Env unit :=
  match s with
  | DepositStrategy =>
      let* _ := DepositService.complete_deposit amb false transaction_id
                  bank_transaction_id (Some bank_response) in
      ret tt
  | WithdrawalStrategy =>
      let* _ := WithdrawalService.complete_withdrawal amb false transaction_id
                  bank_transaction_id (Some bank_response) in
      ret tt
  end.

Definition fail_transaction (s : t) (amb : Ambient) (transaction_id : UUID)
    (error_code error_message bank_response : string) : M Env ProcessResult :=
  match s with
  | DepositStrategy =>
      let* _ := DepositService.fail_deposit amb transaction_id error_code error_message
                  (Some bank_response) in
      ret (ResultFailed (str_uuid transaction_id) error_message None)
  | WithdrawalStrategy =>
      let* _ := WithdrawalService.fail_withdrawal amb transaction_id error_code error_message
                  (Some bank_response) in
      ret (ResultFailed (str_uuid transaction_id) error_message (Some true))
  end.

End Strategy.

Module GenericTransactionProcessor.

Definition _handle_success (strategy : Strategy.t) (amb : Ambient) (tx_id : UUID)
    (bank_response : BankResponse) : M Env ProcessResult :=
  Strategy.complete_transaction strategy amb tx_id
    (or_default (br_transaction_id bank_response) EmptyString)
    (or_default (br_message bank_response) EmptyString) ;;
  ret (ResultSuccess (str_uuid tx_id) (br_transaction_id bank_response)).

Definition _handle_transient_error (bank_response : BankResponse) : M Env ProcessResult :=
  raise (Exc OtherException
           ("Bank " +:+ BankResponseStatus.format (br_status bank_response) +:+ ": "
            +:+ str_option (br_message bank_response))).

Definition _handle_permanent_failure (strategy : Strategy.t) (amb : Ambient) (tx_id : UUID)
    (bank_response : BankResponse) : M Env ProcessResult :=
  Strategy.fail_transaction strategy amb tx_id
    (or_default (br_error_code bank_response) "BANK_ERROR")
    (or_default (br_message bank_response) "Bank processing failed")
    (str_bank_response bank_response).

Definition _mark_for_review (strategy : Strategy.t) (tx_id : UUID) (error : exn)
  : M Env ProcessResult :=
  let type_name := Strategy.get_transaction_type_name strategy in
  try_except
    (Session.in_new_session
       (let reason_suffix :=
          if String.eqb type_name "withdrawal"
          then " Balance reserved, requires manual review." else EmptyString in
        let* _ :=
          BaseTransactionService.mark_pending_review tx_id
            ("Max retries exceeded: " +:+ exc_msg error +:+ "." +:+ reason_suffix) None in
        ret tt))
    (fun _ => ret tt) ;;
  ret (ResultPendingReview (str_uuid tx_id) (exc_msg error)
         (if String.eqb type_name "withdrawal"
          then Some "Balance reserved, manual review required" else None)).

Definition _handle_exception (task_instance : TaskInstance) (strategy : Strategy.t)
    (tx_id : UUID) (error : exn) : M Env ProcessResult :=
  if contains "not found" (lower (exc_msg error)) then
    ret (ResultNotFound (str_uuid tx_id) "Transaction not found")
  else if max_retries task_instance <=? retries task_instance then
    _mark_for_review strategy tx_id error
  else raise error.

(** [asyncio.run(self.strategy.call_bank(...))] *)
Definition call_bank (bank : BankOutcome) : M Env BankResponse :=
  match bank with
  | BankReturns r => ret r
  | BankRaises e => raise e
  end.

(** [db = task_instance.get_db()] *)
Definition get_db : M Env unit :=
  modify_state (fun e => env_with_session (database e) e).

Definition process (strategy : Strategy.t) (task_instance : TaskInstance) (amb : Ambient)
    (bank : BankOutcome) (transaction_id : UUID) : M Env ProcessResult :=
  let tx_id := transaction_id in
  get_db ;;
  try_finally
    (try_except
       (let* _ := BaseTransactionService.update_status tx_id TransactionStatus.PROCESSING in
        let* bank_response := call_bank bank in
        match br_status bank_response with
        | BankResponseStatus.SUCCESS => _handle_success strategy amb tx_id bank_response
        | BankResponseStatus.TIMEOUT
        | BankResponseStatus.UNAVAILABLE => _handle_transient_error bank_response
        | _ => _handle_permanent_failure strategy amb tx_id bank_response
        end)
       (fun e => _handle_exception task_instance strategy tx_id e))
    Session.close.

End GenericTransactionProcessor.


(** ** [app/workers/tasks/webhook_tasks.py]

    What [client.post] does is an input of the task: a response with its
    status code and text, or an exception ([httpx.RequestError] covers
    network failures and timeouts). *)

Inductive HttpOutcome : Type :=
| HttpResponse (status_code : Z) (text : string)
| HttpRaises (e : exn).

(** The dictionaries the task returns. *)
Inductive WebhookResult : Type :=
| WebhookSent (success : bool) (http_status_code : Z) (response : string)
| WebhookFailure (error : string).

Definition wd_with_status (s : WebhookDeliveryStatus.t) (d : WebhookDelivery)
  : WebhookDelivery :=
  mkWebhookDelivery (wd_id d) (wd_transaction_id d) (wd_webhook_url d) s
    (wd_attempt_count d) (wd_max_attempts d) (wd_http_status_code d) (wd_response_body d)
    (wd_error_message d) (wd_payload d).

Definition wd_with_attempt_count (n : Z) (d : WebhookDelivery) : WebhookDelivery :=
  mkWebhookDelivery (wd_id d) (wd_transaction_id d) (wd_webhook_url d) (wd_status d)
    n (wd_max_attempts d) (wd_http_status_code d) (wd_response_body d)
    (wd_error_message d) (wd_payload d).

Definition wd_with_http_status_code (c : option Z) (d : WebhookDelivery) : WebhookDelivery :=
  mkWebhookDelivery (wd_id d) (wd_transaction_id d) (wd_webhook_url d) (wd_status d)
    (wd_attempt_count d) (wd_max_attempts d) c (wd_response_body d)
    (wd_error_message d) (wd_payload d).

Definition wd_with_response_body (b : option string) (d : WebhookDelivery) : WebhookDelivery :=
  mkWebhookDelivery (wd_id d) (wd_transaction_id d) (wd_webhook_url d) (wd_status d)
    (wd_attempt_count d) (wd_max_attempts d) (wd_http_status_code d) b
    (wd_error_message d) (wd_payload d).

Definition wd_with_error_message (m : option string) (d : WebhookDelivery) : WebhookDelivery :=
  mkWebhookDelivery (wd_id d) (wd_transaction_id d) (wd_webhook_url d) (wd_status d)
    (wd_attempt_count d) (wd_max_attempts d) (wd_http_status_code d) (wd_response_body d)
    m (wd_payload d).

Module WebhookTasks.

Definition WEBHOOK_TIMEOUT_SECONDS : Z := 30.
Definition WEBHOOK_MAX_RETRIES : Z := 5.
Definition WEBHOOK_RETRY_BACKOFF : Z := 2.

(** The retry options a task class hands to Celery. *)
Record RetryOptions : Type := mkRetryOptions {
  autoretry_for : list ExcClass;
  retry_kwargs_max_retries : Z;
  retry_backoff : bool;
  retry_backoff_max : Z;
  retry_jitter : bool
}.

(** [class WebhookDeliveryTask(DLQTask)] *)
Definition WebhookDeliveryTask : RetryOptions :=
  mkRetryOptions [RequestError; HTTPStatusError] WEBHOOK_MAX_RETRIES true 600 true.

(** Celery's side of the retry, as its documentation gives it: the countdown
    before retry number [retries + 1] is [min(maximum, factor * 2 ** retries)],
    replaced under jitter by a random integer between 0 and that value
    ([draw] is the random draw); [retry_backoff = True] means factor 1. *)
Definition get_exponential_backoff_interval (factor retries maximum : Z)
    (full_jitter : bool) (draw : Z) : Z :=
  let countdown := Z.min maximum (factor * 2 ^ retries) in
  let countdown := if full_jitter then draw mod (countdown + 1) else countdown in
  Z.max 0 countdown.

Definition retry_countdown (o : RetryOptions) (retries draw : Z) : Z :=
  if retry_backoff o then
    get_exponential_backoff_interval 1 retries (retry_backoff_max o) (retry_jitter o) draw
  else 0.

(** [db.query(WebhookDelivery).filter(WebhookDelivery.id == id).first()] *)
Definition query_delivery (id : UUID) : M Env (option WebhookDelivery) :=
  let* e := get_state in ret (webhook_deliveries (session e) !! id).

(** [db.commit()] with the modified delivery pending in the session. *)
Definition commit_delivery (d : WebhookDelivery) : M Env unit :=
  Session.flush_webhook_delivery d ;; Session.commit.

(** [client.post(...)] *)
Definition post (http : HttpOutcome) : M Env (Z * string) :=
  match http with
  | HttpResponse status_code text => ret (status_code, text)
  | HttpRaises e => raise e
  end.

(** [response.raise_for_status()] on a response with a 5xx code. *)
Definition raise_for_status (status_code : Z) (url : string) : M Env unit :=
  raise (Exc HTTPStatusError
           ("Server error '" +:+ str_int status_code +:+ "' for url '" +:+ url +:+ "'")).

(** [db = SessionLocal()] *)
Definition open_session : M Env unit :=
  modify_state (fun e => env_with_session (database e) e).

Definition send_webhook_notification (request_retries : Z) (webhook_delivery_id : UUID)
    (http : HttpOutcome) : M Env WebhookResult :=
  open_session ;;
  try_finally
    (try_except
       (let* delivery := query_delivery webhook_delivery_id in
        match delivery with
        | None => ret (WebhookFailure "Webhook delivery not found")
        | Some delivery =>
            let delivery := wd_with_attempt_count (wd_attempt_count delivery + 1) delivery in
            let delivery := wd_with_status WebhookDeliveryStatus.SENDING delivery in
            commit_delivery delivery ;;
            let* response := post http in
            let status_code := fst response in
            let text := snd response in
            (if (500 <=? status_code) && (status_code <? 600)
             then raise_for_status status_code (wd_webhook_url delivery)
             else ret tt) ;;
            let delivery := wd_with_http_status_code (Some status_code) delivery in
            let delivery := wd_with_response_body (Some (str_take 1000 text)) delivery in
            let delivery :=
              if (200 <=? status_code) && (status_code <? 300) then
                wd_with_status WebhookDeliveryStatus.SUCCESS delivery
              else
                wd_with_error_message
                  (Some ("HTTP " +:+ str_int status_code +:+ ": " +:+ str_take 500 text))
                  (wd_with_status WebhookDeliveryStatus.FAILED delivery) in
            commit_delivery delivery ;;
            ret (WebhookSent
                   (match wd_status delivery with
                    | WebhookDeliveryStatus.SUCCESS => true
                    | _ => false
                    end)
                   status_code (str_take 200 text))
        end)
       (fun exc =>
          match exc_class exc with
          | RequestError | HTTPStatusError =>
              let* delivery := query_delivery webhook_delivery_id in
              match delivery with
              | Some delivery =>
                  let delivery :=
                    wd_with_error_message (Some (str_take 500 (exc_msg exc))) delivery in
                  let delivery :=
                    if WEBHOOK_MAX_RETRIES - 1 <=? request_retries then
                      wd_with_status WebhookDeliveryStatus.FAILED delivery
                    else wd_with_status WebhookDeliveryStatus.PENDING delivery in
                  commit_delivery delivery
              | None => ret tt
              end ;;
              raise exc
          | _ =>
              let* delivery := query_delivery webhook_delivery_id in
              match delivery with
              | Some delivery =>
                  let delivery := wd_with_status WebhookDeliveryStatus.FAILED delivery in
                  let delivery :=
                    wd_with_error_message
                      (Some ("Unexpected error: " +:+ str_take 500 (exc_msg exc))) delivery in
                  commit_delivery delivery
              | None => ret tt
              end ;;
              ret (WebhookFailure (exc_msg exc))
          end))
    Session.close.

End WebhookTasks.


(** ** UTF-8 ([bytes.decode("utf-8")], [str.encode("utf-8")])

    A response body may hold any text, so here a [str] is the list of its
    code points.  The decoder is the strict one: it accepts exactly the
    well-formed byte sequences of the Unicode standard (no overlong forms,
    no surrogates, nothing above U+10FFFF). *)

Definition in_range (lo hi b : Z) : bool := (lo <=? b) && (b <=? hi).

Definition is_continuation (b : Z) : bool := in_range 0x80 0xBF b.

Definition three_byte_start (b0 b1 : Z) : bool :=
  ((b0 =? 0xE0) && in_range 0xA0 0xBF b1)
  || (in_range 0xE1 0xEC b0 && is_continuation b1)
  || ((b0 =? 0xED) && in_range 0x80 0x9F b1)
  || (in_range 0xEE 0xEF b0 && is_continuation b1).

Definition four_byte_start (b0 b1 : Z) : bool :=
  ((b0 =? 0xF0) && in_range 0x90 0xBF b1)
  || (in_range 0xF1 0xF3 b0 && is_continuation b1)
  || ((b0 =? 0xF4) && in_range 0x80 0x8F b1).

Fixpoint utf8_decode (bs : list Z) : option (list Z) :=
  match bs with
  | [] => Some []
  | b0 :: r0 =>
      if in_range 0 0x7F b0 then option_map (cons b0) (utf8_decode r0)
      else
        match r0 with
        | [] => None
        | b1 :: r1 =>
            if in_range 0xC2 0xDF b0 && is_continuation b1 then
              option_map (cons ((b0 - 0xC0) * 64 + (b1 - 0x80))) (utf8_decode r1)
            else
              match r1 with
              | [] => None
              | b2 :: r2 =>
                  if three_byte_start b0 b1 && is_continuation b2 then
                    option_map
                      (cons (((b0 - 0xE0) * 64 + (b1 - 0x80)) * 64 + (b2 - 0x80)))
                      (utf8_decode r2)
                  else
                    match r2 with
                    | [] => None
                    | b3 :: r3 =>
                        if four_byte_start b0 b1 && is_continuation b2
                           && is_continuation b3 then
                          option_map
                            (cons ((((b0 - 0xF0) * 64 + (b1 - 0x80)) * 64 + (b2 - 0x80)) * 64
                                   + (b3 - 0x80)))
                            (utf8_decode r3)
                        else None
                    end
              end
        end
  end.

Definition utf8_encode_code_point (c : Z) : list Z :=
  if c <? 0x80 then [c]
  else if c <? 0x800 then [0xC0 + c / 64; 0x80 + c mod 64]
  else if c <? 0x10000 then [0xE0 + c / 4096; 0x80 + (c / 64) mod 64; 0x80 + c mod 64]
  else [0xF0 + c / 262144; 0x80 + (c / 4096) mod 64; 0x80 + (c / 64) mod 64;
        0x80 + c mod 64].

Fixpoint utf8_encode (cs : list Z) : list Z :=
  match cs with
  | [] => []
  | c :: r => utf8_encode_code_point c ++ utf8_encode r
  end.

(** ** [app/core/services/idempotency_service.py]

    The values under the idempotency keys are JSON documents; the cache
    holds them here as the dictionaries they encode ([json.loads] of
    [json.dumps] of a dictionary of strings, integers and [None] is that
    dictionary). *)

Module IdempotencyStatus.
Inductive t : Type := PROCESSING | COMPLETED.
End IdempotencyStatus.

Inductive IdempotencyRecord : Type :=
| LockData (created_at : Z)
| ResponseData (response_body : list Z) (status_code : Z) (headers : gmap string string)
    (resource_id : option string) (created_at completed_at : Z).

Definition record_status (r : IdempotencyRecord) : IdempotencyStatus.t :=
  match r with
  | LockData _ => IdempotencyStatus.PROCESSING
  | ResponseData _ _ _ _ _ _ => IdempotencyStatus.COMPLETED
  end.

Module IdempotencyService.

Definition PROCESSING_LOCK_TTL : Z := 60.

(** [settings.idempotency_key_ttl_hours] is a parameter of the service. *)
Record t : Type := Service { completed_response_ttl : Z }.

Definition init (idempotency_key_ttl_hours : Z) : t :=
  Service (idempotency_key_ttl_hours * 60 * 60).

Definition _get_key (idempotency_key : string) : string :=
  "idempotency:" +:+ idempotency_key.

Definition check_existing (now_ : Z) (idempotency_key : string)
  : M (Redis.t IdempotencyRecord) (option IdempotencyRecord) :=
  Redis.get now_ (_get_key idempotency_key).

Definition acquire_lock (now_ : Z) (idempotency_key : string)
  : M (Redis.t IdempotencyRecord) bool :=
  let key := _get_key idempotency_key in
  let lock_data := LockData now_ in
  let* success := Redis.set now_ key lock_data true PROCESSING_LOCK_TTL in
  ret (bool_of_reply success).

Definition release_lock (now_ : Z) (idempotency_key : string)
  : M (Redis.t IdempotencyRecord) unit :=
  let* _ := Redis.delete now_ (_get_key idempotency_key) in
  ret tt.

Definition decode_body (response_body : list Z) : M (Redis.t IdempotencyRecord) (list Z) :=
  match utf8_decode response_body with
  | Some text => ret text
  | None =>
      raise (Exc UnicodeDecodeError "'utf-8' codec can't decode bytes: invalid data")
  end.

Definition save_response (svc : t) (now_ : Z) (idempotency_key : string)
    (response_body : list Z) (status_code : Z) (headers : gmap string string)
    (resource_id : option string) : M (Redis.t IdempotencyRecord) unit :=
  let key := _get_key idempotency_key in
  let* text := decode_body response_body in
  let response_data := ResponseData text status_code headers resource_id now_ now_ in
  let* _ := Redis.set now_ key response_data false (completed_response_ttl svc) in
  ret tt.

End IdempotencyService.

(** ** [app/api/middleware/idempotency.py] *)

(** Request headers are looked up without regard to case: the map is keyed
    by the lower-case names. *)
Record Request : Type := mkRequest {
  req_method : string;
  req_path : string;
  req_headers : gmap string string;
  req_body : list Z
}.

(** The body of a response: raw bytes, or for a [JSONResponse] the content
    dictionary it renders. *)
Inductive ResponseBody : Type :=
| RawBody (bytes : list Z)
| JsonContent (content : list (string * string)).

Record Response : Type := mkResponse {
  resp_body : ResponseBody;
  resp_status_code : Z;
  resp_headers : gmap string string;
  resp_media_type : option string
}.

(** The response of the handler, its body read from [body_iterator]. *)
Record StreamedResponse : Type := mkStreamedResponse {
  sr_body : list Z;
  sr_status_code : Z;
  sr_headers : gmap string string;
  sr_media_type : option string
}.

(** What [call_next] does with the request is an input: a response or an
    exception. *)
Inductive HandlerOutcome : Type :=
| HandlerReturns (response : StreamedResponse)
| HandlerRaises (e : exn).

Definition IDEMPOTENCY_HEADER : string := "Idempotency-Key".

Module IdempotencyMiddleware.

Definition IDEMPOTENT_METHODS : list string := ["POST"].
Definition IDEMPOTENT_PATHS : list string := ["/api/v1/deposits"; "/api/v1/withdrawals"].

Definition _requires_idempotency (request : Request) : bool :=
  if negb (existsb (String.eqb (req_method request)) IDEMPOTENT_METHODS) then false
  else existsb (fun path => contains path (req_path request)) IDEMPOTENT_PATHS.

(** [request.headers.get(name)] *)
Definition header (request : Request) (name : string) : option string :=
  req_headers request !! lower name.

Definition call_next (handler : HandlerOutcome)
  : M (Redis.t IdempotencyRecord) StreamedResponse :=
  match handler with
  | HandlerReturns response => ret response
  | HandlerRaises e => raise e
  end.

(** The response handed back unchanged (or rebuilt from the same parts). *)
Definition pass_through (response : StreamedResponse) : Response :=
  mkResponse (RawBody (sr_body response)) (sr_status_code response) (sr_headers response)
    (sr_media_type response).

Definition missing_key_response : Response :=
  mkResponse
    (JsonContent
       [("error", "Bad Request");
        ("message", "Missing required header: " +:+ IDEMPOTENCY_HEADER);
        ("details",
         "Idempotency key is required for this operation to ensure request safety and prevent duplicate processing.")])
    400 ∅ (Some "application/json").

Definition conflict_response (idempotency_key : string) : Response :=
  mkResponse
    (JsonContent
       [("error", "conflict");
        ("message",
         "this request is already being processed. please retry in a few seconds.");
        ("idempotency_key", idempotency_key)])
    409
    (<[IDEMPOTENCY_HEADER := idempotency_key]> (<["Retry-After" := "5"]> ∅))
    (Some "application/json").

(** [dispatch]: [now_] is the cache time when the request enters, [done]
    the cache time when the handler has answered; [json_id] reads the [id]
    member of a JSON body, if there is one. *)
Definition dispatch (svc : IdempotencyService.t) (json_id : list Z -> option string)
    (now_ done : Z) (request : Request) (handler : HandlerOutcome)
  : M (Redis.t IdempotencyRecord) Response :=
  if negb (_requires_idempotency request) then
    let* response := call_next handler in ret (pass_through response)
  else
    match header request IDEMPOTENCY_HEADER with
    | None => ret missing_key_response
    | Some idempotency_key =>
        if String.eqb idempotency_key EmptyString then ret missing_key_response
        else
          let* lock_acquired := IdempotencyService.acquire_lock now_ idempotency_key in
          if negb lock_acquired then
            let* existing := IdempotencyService.check_existing now_ idempotency_key in
            match existing with
            | Some (ResponseData response_body status_code headers _ _ _) =>
                let cached_headers := <[IDEMPOTENCY_HEADER := idempotency_key]> headers in
                ret (mkResponse (RawBody (utf8_encode response_body)) status_code
                       cached_headers (Some "application/json"))
            | _ => ret (conflict_response idempotency_key)
            end
          else
            try_except
              (let* response := call_next handler in
               let response_body := sr_body response in
               (if sr_status_code response <? 400 then
                  IdempotencyService.save_response svc done idempotency_key response_body
                    (sr_status_code response) (sr_headers response)
                    (json_id response_body)
                else IdempotencyService.release_lock done idempotency_key) ;;
               ret (pass_through response))
              (fun e =>
                 IdempotencyService.release_lock done idempotency_key ;;
                 raise e)
    end.

End IdempotencyMiddleware.

(** ** [app/infrastructure/external/bank_simulator.py]: the simulator

    The simulator draws from [random] and sleeps; the draws of one call are
    inputs: what the simulated delay raises (nothing, as a rule), the value
    of [random.random()], the scenario [random.choices] picks and the
    [uuid4()] of the bank reference.  The breaker [_bank_circuit_breaker] is
    the state of the module; [now] and [later] are the readings of
    [time.time()] in [can_execute] and in [record_failure]. *)

(** [c.upper()] for an ASCII character. *)
Definition upper_ascii (c : ascii) : ascii :=
  let n := N_of_ascii c in
  if ((97 <=? n) && (n <=? 122))%N then ascii_of_N (n - 32) else c.

Fixpoint upper (s : string) : string :=
  match s with
  | EmptyString => EmptyString
  | String c r => String (upper_ascii c) (upper r)
  end.

Module BankSimulator.

(** The settings the simulator falls back on. *)
Record Settings : Type := mkSettings {
  bank_simulator_min_delay : Z;
  bank_simulator_max_delay : Z;
  bank_simulator_success_rate : Q
}.

(** The defaults of [app/config.py]. *)
Definition default_settings : Settings := mkSettings 2 10 (9 # 10).

Record t : Type := Simulator {
  min_delay : Z;
  max_delay : Z;
  success_rate : Q
}.

(** [x or d] for an optional [int]: [None] and [0] are falsy. *)
Definition int_or (x : option Z) (d : Z) : Z :=
  match x with
  | Some v => if v =? 0 then d else v
  | None => d
  end.

(** [x or d] for an optional [float]. *)
Definition float_or (x : option Q) (d : Q) : Q :=
  match x with
  | Some v => if Qeq_bool v 0 then d else v
  | None => d
  end.

Definition init (settings : Settings) (min_delay_ max_delay_ : option Z)
    (success_rate_ : option Q) : t :=
  Simulator (int_or min_delay_ (bank_simulator_min_delay settings))
            (int_or max_delay_ (bank_simulator_max_delay settings))
            (float_or success_rate_ (bank_simulator_success_rate settings)).

Inductive ErrorType : Type := unavailable | timeout | insufficient_funds.

Record Draws : Type := mkDraws {
  delay_raises : option exn;
  random_value : Q;
  error_type : ErrorType;
  reference : UUID
}.

(** [await self._simulate_network_delay()] *)
Definition _simulate_network_delay (d : Draws) : M CircuitBreaker.t unit :=
  match delay_raises d with
  | Some e => raise e
  | None => ret tt
  end.

(** [random.random() < self.success_rate] *)
Definition _should_succeed (sim : t) (d : Draws) : bool :=
  negb (Qle_bool (success_rate sim) (random_value d)).

Definition _generate_error_scenario (d : Draws) : BankResponse :=
  match error_type d with
  | unavailable =>
      mkBankResponse BankResponseStatus.UNAVAILABLE None
        (Some "Bank service temporarily unavailable") (Some "BANK_UNAVAILABLE")
  | timeout =>
      mkBankResponse BankResponseStatus.TIMEOUT None
        (Some "Bank processing timeout") (Some "BANK_TIMEOUT")
  | insufficient_funds =>
      mkBankResponse BankResponseStatus.INSUFFICIENT_FUNDS None
        (Some "Insufficient funds in external account") (Some "INSUFFICIENT_FUNDS")
  end.

(** [uuid4().hex[:12].upper()] *)
Definition reference_digits (u : UUID) : string :=
  upper (str_take 12 (hex_fixed 32 u EmptyString)).

Definition circuit_open_response : BankResponse :=
  mkBankResponse BankResponseStatus.UNAVAILABLE None
    (Some "Bank service is currently unavailable (circuit breaker OPEN)")
    (Some "CIRCUIT_BREAKER_OPEN").

Definition can_execute (now : Q) : M CircuitBreaker.t bool :=
  fun cb => let '(b, cb') := CircuitBreaker.can_execute now cb in (Ok b, cb').

Definition process_deposit (sim : t) (now later : Q) (d : Draws)
  : M CircuitBreaker.t BankResponse :=
  let* admitted := can_execute now in
  if negb admitted then ret circuit_open_response
  else
    try_except
      (_simulate_network_delay d ;;
       if _should_succeed sim d then
         let bank_tx_id := "BANK-DEP-" +:+ reference_digits (reference d) in
         modify_state CircuitBreaker.record_success ;;
         ret (mkBankResponse BankResponseStatus.SUCCESS (Some bank_tx_id)
                (Some "Deposit processed successfully") None)
       else
         let error_response := _generate_error_scenario d in
         match br_status error_response with
         | BankResponseStatus.UNAVAILABLE | BankResponseStatus.TIMEOUT =>
             modify_state (CircuitBreaker.record_failure later)
         | _ => ret tt
         end ;;
         ret error_response)
      (fun e => modify_state (CircuitBreaker.record_failure later) ;; raise e).

Definition process_withdrawal (sim : t) (now later : Q) (d : Draws)
  : M CircuitBreaker.t BankResponse :=
  let* admitted := can_execute now in
  if negb admitted then ret circuit_open_response
  else
    try_except
      (_simulate_network_delay d ;;
       if _should_succeed sim d then
         let bank_tx_id := "BANK-WTH-" +:+ reference_digits (reference d) in
         modify_state CircuitBreaker.record_success ;;
         ret (mkBankResponse BankResponseStatus.SUCCESS (Some bank_tx_id)
                (Some "Withdrawal processed successfully") None)
       else
         let error_response := _generate_error_scenario d in
         match br_status error_response with
         | BankResponseStatus.UNAVAILABLE | BankResponseStatus.TIMEOUT =>
             modify_state (CircuitBreaker.record_failure later)
         | _ => ret tt
         end ;;
         ret error_response)
      (fun e => modify_state (CircuitBreaker.record_failure later) ;; raise e).

End BankSimulator.

(** [strategy.call_bank]: the simulator method of the strategy. *)
Definition strategy_call_bank (s : Strategy.t) (sim : BankSimulator.t) (now later : Q)
    (d : BankSimulator.Draws) : M CircuitBreaker.t BankResponse :=
  match s with
  | Strategy.DepositStrategy => BankSimulator.process_deposit sim now later d
  | Strategy.WithdrawalStrategy => BankSimulator.process_withdrawal sim now later d
  end.

(** What the processor sees of a call of the bank. *)
Definition bank_outcome (r : result BankResponse) : BankOutcome :=
  match r with
  | Ok response => BankReturns response
  | Raise e => BankRaises e
  end.

(** A series of calls on the simulator, each with its clock readings and
    draws: the responses, oldest first, and the breaker afterwards. *)
Fixpoint bank_calls (s : Strategy.t) (sim : BankSimulator.t)
    (calls : list (Q * Q * BankSimulator.Draws)) (cb : CircuitBreaker.t)
  : list (result BankResponse) * CircuitBreaker.t :=
  match calls with
  | [] => ([], cb)
  | (now, later, d) :: rest =>
      let '(r, cb1) := strategy_call_bank s sim now later d cb in
      let '(rs, cb2) := bank_calls s sim rest cb1 in
      (r :: rs, cb2)
  end.

(** The scenarios that count as failures of the bank service. *)
Definition transient (d : BankSimulator.Draws) : bool :=
  match BankSimulator.error_type d with
  | BankSimulator.insufficient_funds => false
  | _ => true
  end.

(** Draws of calls that reach the bank and fail, and of one that would
    succeed. *)
Definition example_failing_draws (scenario : BankSimulator.ErrorType) : BankSimulator.Draws :=
  BankSimulator.mkDraws None (95 # 100) scenario 0.

Definition example_succeeding_draws : BankSimulator.Draws :=
  BankSimulator.mkDraws None (1 # 2) BankSimulator.timeout 0xabcdef0123456789abcdef0123456789.

Definition example_simulator : BankSimulator.t :=
  BankSimulator.init BankSimulator.default_settings None None None.

Definition example_failing_calls : list (Q * Q * BankSimulator.Draws) :=
  [ (10%Q, 12%Q, example_failing_draws BankSimulator.timeout);
    (20%Q, 22%Q, example_failing_draws BankSimulator.unavailable);
    (30%Q, 32%Q, example_failing_draws BankSimulator.insufficient_funds);
    (40%Q, 42%Q, example_failing_draws BankSimulator.timeout);
    (50%Q, 52%Q, example_failing_draws BankSimulator.unavailable) ].

(** The answer of the bank to a call that succeeds. *)
Definition bank_success_response (s : Strategy.t) (d : BankSimulator.Draws) : BankResponse :=
  match s with
  | Strategy.DepositStrategy =>
      mkBankResponse BankResponseStatus.SUCCESS
        (Some ("BANK-DEP-" +:+ BankSimulator.reference_digits (BankSimulator.reference d)))
        (Some "Deposit processed successfully") None
  | Strategy.WithdrawalStrategy =>
      mkBankResponse BankResponseStatus.SUCCESS
        (Some ("BANK-WTH-" +:+ BankSimulator.reference_digits (BankSimulator.reference d)))
        (Some "Withdrawal processed successfully") None
  end.

(** ** [app/api/v1/webhooks.py]: the callback of the bank

    An endpoint either answers or raises [HTTPException]; the exception is
    kept apart from the other exceptions, which the framework turns into a
    500 of its own.  The request body is given as the text it decodes to,
    the parsed payload beside it; [str(payload)] and the clock reading are
    inputs. *)

Inductive HttpResult (A : Type) : Type :=
| Respond (a : A)
| HTTPException (status_code : Z) (detail : string).
Arguments Respond {A} a.
Arguments HTTPException {A} status_code detail.

(** [app/infrastructure/database/session.py]: the dependency [get_db] around
    an endpoint.  The session is rolled back when the endpoint raises and
    closed in every case. *)
Definition get_db {A : Type} (endpoint : M Env (HttpResult A)) : M Env (HttpResult A) :=
  modify_state (fun e => env_with_session (database e) e) ;;
  try_finally
    (try_except
       (let* answer := endpoint in
        match answer with
        | Respond a => ret (Respond a)
        | HTTPException status_code detail =>
            Session.rollback ;; ret (HTTPException status_code detail)
        end)
       (fun x => Session.rollback ;; raise x))
    Session.close.

Module Webhooks.

(** [app/schemas/webhook.py] *)
Record BankCallbackPayload : Type := mkBankCallbackPayload {
  transaction_id : UUID;
  bank_transaction_id : option string;
  status : BankResponseStatus.t;
  message : option string;
  error_code : option string;
  timestamp : Z
}.

Record WebhookResponse : Type := mkWebhookResponse {
  received : bool;
  response_message : string
}.

Definition MAX_TIMESTAMP_DIFF : Z := 300.

(** The exceptions [verify_webhook_signature] raises pass through. *)
Definition verify (request_body x_bank_signature secret : string) : M Env bool :=
  match verify_webhook_signature request_body x_bank_signature secret with
  | Ok b => ret b
  | Raise x => raise x
  end.

Definition bank_callback (secret : string) (amb : Ambient) (current_timestamp : Z)
    (payload : BankCallbackPayload) (str_payload : string) (request_body : string)
    (x_bank_signature : string) : M Env (HttpResult WebhookResponse) :=
  let time_diff := Z.abs (current_timestamp - timestamp payload) in
  if MAX_TIMESTAMP_DIFF <? time_diff then
    ret (HTTPException 400
           ("Webhook timestamp too old or in future. Time difference: " +:+ str_int time_diff
            +:+ "s (max: " +:+ str_int MAX_TIMESTAMP_DIFF +:+ "s)"))
  else
    let* is_valid := verify request_body x_bank_signature secret in
    if negb is_valid then ret (HTTPException 401 "Invalid webhook signature")
    else
      try_except
        (let* transaction := TransactionRepository.get_by_id (transaction_id payload) in
         match transaction with
         | None =>
             ret (HTTPException 404
                    ("Transaction " +:+ str_uuid (transaction_id payload) +:+ " not found"))
         | Some transaction =>
             match tx_transaction_type transaction with
             | TransactionType.DEPOSIT =>
                 match status payload with
                 | BankResponseStatus.SUCCESS =>
                     let* _ :=
                       DepositService.complete_deposit amb false (transaction_id payload)
                         (or_default (bank_transaction_id payload) "UNKNOWN")
                         (message payload) in
                     ret tt
                 | _ =>
                     let* _ :=
                       DepositService.fail_deposit amb (transaction_id payload)
                         (or_default (error_code payload) "BANK_ERROR")
                         (or_default (message payload) "Bank processing failed")
                         (Some str_payload) in
                     ret tt
                 end
             | TransactionType.WITHDRAWAL =>
                 match status payload with
                 | BankResponseStatus.SUCCESS =>
                     let* _ :=
                       WithdrawalService.complete_withdrawal amb false
                         (transaction_id payload)
                         (or_default (bank_transaction_id payload) "UNKNOWN")
                         (message payload) in
                     ret tt
                 | _ =>
                     let* _ :=
                       WithdrawalService.fail_withdrawal amb (transaction_id payload)
                         (or_default (error_code payload) "BANK_ERROR")
                         (or_default (message payload) "Bank processing failed")
                         (Some str_payload) in
                     ret tt
                 end
             end ;;
             ret (Respond (mkWebhookResponse true
                             "Webhook received and processed successfully"))
         end)
        (fun e =>
           ret (HTTPException 500 ("Failed to process webhook: " +:+ exc_msg e))).

End Webhooks.

(** A callback for the deposit of the example, signed with the secret
    [Jefe]. *)
Definition example_callback : Webhooks.BankCallbackPayload :=
  Webhooks.mkBankCallbackPayload 7 (Some "BANK-DEP-2") BankResponseStatus.SUCCESS
    (Some "Deposit processed successfully") None 1000.

Definition example_callback_body : string := "what do ya want for nothing?".

(** The answer of the callback endpoint that has done its work. *)
Definition callback_processed : HttpResult Webhooks.WebhookResponse :=
  Respond (Webhooks.mkWebhookResponse true "Webhook received and processed successfully").


(** * Specification vocabulary

    Predicates and abbreviations used to state the properties below. *)

(** ** Balances and commits *)

Definition balances_non_negative (T : Tables) : Prop :=
  forall (id : N) (a : Account), accounts T !! id = Some a -> 0 <= acc_balance a.

(** Every state published so far, the committed state and the view of the
    open session have no negative balance. *)
Definition commit_invariant (e : Env) : Prop :=
  balances_non_negative (session e)
  /\ balances_non_negative (database e)
  /\ Forall balances_non_negative (commit_log e).

Definition preserves {A : Type} (P : Env -> Prop) (m : M Env A) : Prop :=
  forall e : Env, P e -> P (snd (m e)).

(** Predicates on environments that the session operations keep: they
    survive a commit, the discarding of the session view, any change that
    leaves the accounts of the view, the committed state and the commit log
    alone, and the return to the view of an outer session. *)
Record stable (P : Env -> Prop) : Prop := mkStable {
  stable_commit : forall e, P e -> P (env_commit e);
  stable_discard : forall e, P e -> P (env_with_session (database e) e);
  stable_frame : forall e e',
      P e -> accounts (session e') = accounts (session e) ->
      database e' = database e -> commit_log e' = commit_log e -> P e';
  stable_restore : forall e e', P e -> P e' -> P (env_with_session (session e) e')
}.

(** The accounts of the committed state and of the session view are a given
    map: a predicate for code that must not touch balances. *)
Definition accounts_fixed (A : gmap N Account) (e : Env) : Prop :=
  accounts (session e) = A /\ accounts (database e) = A.

(** Two states of the database with the same accounts and transactions. *)
Definition same_ledger (T1 T2 : Tables) : Prop :=
  accounts T1 = accounts T2 /\ transactions T1 = transactions T2.

(** What a successful completion publishes: the account with its new balance
    and the transaction in status SUCCESS with the bank's reference. *)
Definition completed (t : Transaction) (bank_transaction_id : string)
    (bank_response : option string) : Transaction :=
  tx_with_bank_response bank_response
    (tx_with_bank_transaction_id (Some bank_transaction_id)
       (tx_with_status TransactionStatus.SUCCESS t)).

(** ** The worker processor *)

(** The commit log has a given prefix. *)
Definition log_extends (L : list Tables) (e : Env) : Prop :=
  exists rest : list Tables, commit_log e = L ++ rest.

(** The rest of [process] after the status update. *)
Definition process_rest (s : Strategy.t) (task : TaskInstance) (amb : Ambient)
    (bank : BankOutcome) (tid : N) : M Env ProcessResult :=
  try_finally
    (try_except
       (let* bank_response := GenericTransactionProcessor.call_bank bank in
        match br_status bank_response with
        | BankResponseStatus.SUCCESS =>
            GenericTransactionProcessor._handle_success s amb tid bank_response
        | BankResponseStatus.TIMEOUT
        | BankResponseStatus.UNAVAILABLE =>
            GenericTransactionProcessor._handle_transient_error bank_response
        | _ => GenericTransactionProcessor._handle_permanent_failure s amb tid bank_response
        end)
       (fun x => GenericTransactionProcessor._handle_exception task s tid x))
    Session.close.

(** The statuses the design calls terminal. *)
Definition terminal (s : TransactionStatus.t) : bool :=
  match s with
  | TransactionStatus.SUCCESS | TransactionStatus.FAILED
  | TransactionStatus.PENDING_REVIEW => true
  | _ => false
  end.

(** The environment in which the stored row of [tx] carries status [s0]. *)
Definition with_stored_status (s0 : TransactionStatus.t) (tx : Transaction) (e : Env) : Env :=
  mkEnv (put_transaction (tx_with_status s0 tx) (database e)) (session e) (cache e)
        (task_queue e) (commit_log e).

(** ** The webhook delivery task *)

(** The delivery row when the task has announced its attempt. *)
Definition sending (d : WebhookDelivery) : WebhookDelivery :=
  wd_with_status WebhookDeliveryStatus.SENDING
    (wd_with_attempt_count (wd_attempt_count d + 1) d).

(** What the task leaves in the table for its delivery. *)
Definition stored_delivery (id : N) (e : Env) : option WebhookDelivery :=
  webhook_deliveries (database e) !! id.

(** ** Characters of a string *)

(** [c in s] for a single character. *)
Fixpoint string_mem (c : ascii) (s : string) : bool :=
  match s with
  | EmptyString => false
  | String d r => Ascii.eqb c d || string_mem c r
  end.

(** Characters below [A]: digits, signs and punctuation. *)
Definition plain (c : ascii) : bool := (N_of_ascii c <? 65)%N.


(** * Example data *)

(** An account holding 20.00 and a withdrawal of 80.00 in PROCESSING. *)
Definition example_account : Account := mkAccount 1 9 2000 "USD".

Definition example_withdrawal : Transaction :=
  mkTransaction 5 1 TransactionType.WITHDRAWAL 8000 "USD" TransactionStatus.PROCESSING
    None None None None (Some "k4b") None.

Definition example_tables : Tables :=
  mkTables {[ 1%N := example_account ]} {[ 5%N := example_withdrawal ]}
           {[ 9%N := mkUser 9 (Some "https://merchant.example/hook") ]} ∅.

Definition example_env : Env :=
  mkEnv example_tables example_tables (Redis.Client ∅ []) [] [].

Definition example_ambient : Ambient := mkAmbient 0 "token-a" 77.

(** A deposit of 100.00 already completed: the account holds 100.00. *)
Definition example_deposit : Transaction :=
  mkTransaction 7 1 TransactionType.DEPOSIT 10000 "USD" TransactionStatus.SUCCESS
    (Some "BANK-DEP-1") (Some "Deposit processed successfully") None None (Some "k1") None.

Definition example_deposit_tables : Tables :=
  mkTables {[ 1%N := mkAccount 1 9 10000 "USD" ]} {[ 7%N := example_deposit ]}
           {[ 9%N := mkUser 9 None ]} ∅.

Definition example_deposit_env : Env :=
  mkEnv example_deposit_tables example_deposit_tables (Redis.Client ∅ []) [] [].

Definition example_bank_success : BankOutcome :=
  BankReturns (mkBankResponse BankResponseStatus.SUCCESS (Some "BANK-DEP-2")
                 (Some "Deposit processed successfully") None).

(** A delivery waiting to be sent. *)
Definition example_delivery : WebhookDelivery :=
  mkWebhookDelivery 77 7 "https://merchant.example/hook" WebhookDeliveryStatus.PENDING 0 5
    None None None
    (BaseTransactionService.webhook_payload example_deposit (mkAccount 1 9 10000 "USD")).

Definition example_delivery_env : Env :=
  let T := mkTables {[ 1%N := mkAccount 1 9 10000 "USD" ]} {[ 7%N := example_deposit ]}
             {[ 9%N := mkUser 9 (Some "https://merchant.example/hook") ]}
             {[ 77%N := example_delivery ]} in
  mkEnv T T (Redis.Client ∅ []) [] [].

(** A deposit request carrying an idempotency key, and the answer of its
    handler: 201 with the body [{"id":"7","n":"é"}] in UTF-8. *)
Definition example_request : Request :=
  mkRequest "POST" "/api/v1/deposits" {[ "idempotency-key" := "key-1" ]}
    [123; 125].

Definition example_response : StreamedResponse :=
  mkStreamedResponse
    [123; 34; 105; 100; 34; 58; 34; 55; 34; 44; 34; 110; 34; 58; 34; 195; 169; 34; 125]
    201 {[ "content-type" := "application/json" ]} (Some "application/json").

Definition example_json_id (body : list Z) : option string := Some "7".

Definition example_idempotency_cache : Redis.t IdempotencyRecord := Redis.Client ∅ [].

(** The cache connection goes down. *)
Definition example_outage : exn :=
  Exc RedisError "Error 111 connecting to redis:6379. Connection refused.".

(** The cache answers the first command and is down from the second on. *)
Definition example_late_outage_env : Env :=
  env_with_cache (Redis.Client ∅ [None; Some example_outage]) example_deposit_env.

(** ** Traces of the circuit breaker *)

(** The calls a client makes on a breaker. *)
Inductive BreakerEvent : Type :=
| CanExecute (now : Q)
| RecordSuccess
| RecordFailure (now : Q).

Definition breaker_step (cb : CircuitBreaker.t) (ev : BreakerEvent) : CircuitBreaker.t :=
  match ev with
  | CanExecute now => snd (CircuitBreaker.can_execute now cb)
  | RecordSuccess => CircuitBreaker.record_success cb
  | RecordFailure now => CircuitBreaker.record_failure now cb
  end.

Definition breaker_run (cb : CircuitBreaker.t) (evs : list BreakerEvent) : CircuitBreaker.t :=
  fold_left breaker_step evs cb.

(** The same configuration: name, thresholds and timeout. *)
Definition same_configuration (a b : CircuitBreaker.t) : Prop :=
  CircuitBreaker.name a = CircuitBreaker.name b
  /\ CircuitBreaker.failure_threshold a = CircuitBreaker.failure_threshold b
  /\ CircuitBreaker.timeout_seconds a = CircuitBreaker.timeout_seconds b
  /\ CircuitBreaker.success_threshold a = CircuitBreaker.success_threshold b.

(** What holds of a breaker between two calls. *)
Definition breaker_invariant (cb : CircuitBreaker.t) : Prop :=
  0 <= CircuitBreaker.failure_count cb
  /\ 0 <= CircuitBreaker.success_count cb
  /\ match CircuitBreaker.state cb with
     | CircuitBreaker.CLOSED =>
         CircuitBreaker.failure_count cb < CircuitBreaker.failure_threshold cb
         /\ CircuitBreaker.success_count cb = 0
     | CircuitBreaker.OPEN =>
         CircuitBreaker.success_count cb = 0
         /\ CircuitBreaker.last_failure_time cb <> None
     | CircuitBreaker.HALF_OPEN =>
         CircuitBreaker.success_count cb < CircuitBreaker.success_threshold cb
     end.

(** ** Idempotency keys of stored transactions *)

(** No two rows carry the same idempotency key. *)
Definition keys_unique (T : Tables) : Prop :=
  forall (i j : N) (t t' : Transaction) (k : string),
    transactions T !! i = Some t -> transactions T !! j = Some t' ->
    tx_idempotency_key t = Some k -> tx_idempotency_key t' = Some k -> i = j.

(** The row a creation request asks for. *)
Definition pending_transaction (type : TransactionType.t) (new_id account_id : UUID)
    (amount : Z) (currency : string) (idempotency_key celery_task_id : option string)
  : Transaction :=
  mkTransaction new_id account_id type amount currency TransactionStatus.PENDING
    None None None None idempotency_key celery_task_id.

(** The environment after the session view has been given one more row and
    committed. *)
Definition env_published (T : Tables) (e : Env) : Env :=
  mkEnv T T (cache e) (task_queue e) (commit_log e ++ [T]).

(** Every state of the environment keeps the keys unique. *)
Definition keys_invariant (e : Env) : Prop :=
  keys_unique (session e) /\ keys_unique (database e) /\ Forall keys_unique (commit_log e).

(** [create_pending_deposit] or [create_pending_withdrawal], by type. *)
Definition create_pending (type : TransactionType.t) (new_id account_id : UUID)
    (amount : Z) (currency : string) (idempotency_key celery_task_id : option string)
  : M Env Transaction :=
  match type with
  | TransactionType.DEPOSIT =>
      DepositService.create_pending_deposit new_id account_id amount currency
        idempotency_key celery_task_id
  | TransactionType.WITHDRAWAL =>
      WithdrawalService.create_pending_withdrawal new_id account_id amount currency
        idempotency_key celery_task_id
  end.

(** ** Merchant notifications *)

(** The webhook URL a user has configured: [None] for an unknown user, a
    user without URL and a user whose URL is the empty string. *)
Definition user_webhook_url (T : Tables) (user_id : UUID) : option string :=
  match users T !! user_id with
  | Some u =>
      match usr_webhook_url u with
      | Some url => if String.eqb url EmptyString then None else Some url
      | None => None
      end
  | None => None
  end.

(** The delivery row a notification starts from. *)
Definition new_delivery (amb : Ambient) (t : Transaction) (a : Account) (url : string)
  : WebhookDelivery :=
  mkWebhookDelivery (delivery_id amb) (tx_id t) url WebhookDeliveryStatus.PENDING 0 5
    None None None (BaseTransactionService.webhook_payload t a).

(** The environment after a notification has been stored, committed and
    queued. *)
Definition env_notified (amb : Ambient) (d : WebhookDelivery) (e : Env) : Env :=
  mkEnv (put_webhook_delivery d (session e)) (put_webhook_delivery d (session e)) (cache e)
        (task_queue e ++ [SendWebhookNotification (str_uuid (delivery_id amb))])
        (commit_log e ++ [put_webhook_delivery d (session e)]).

(** The row of a transaction the bank has refused. *)
Definition failed (t : Transaction) (error_code error_message : string)
    (bank_response : option string) : Transaction :=
  tx_with_bank_response bank_response
    (tx_with_error_message (Some error_message)
       (tx_with_error_code (Some error_code)
          (tx_with_status TransactionStatus.FAILED t))).

(** The webhook URL configured for the user of an account. *)
Definition account_webhook_url (T : Tables) (account_id : UUID) : option string :=
  match accounts T !! account_id with
  | Some a => user_webhook_url T (acc_user_id a)
  | None => None
  end.

(** The tasks a service call adds to the queue for a transaction on the
    given account. *)
Definition notification_for (amb : Ambient) (T : Tables) (account_id : UUID)
  : list QueuedTask :=
  match account_webhook_url T account_id with
  | Some _ => [SendWebhookNotification (str_uuid (delivery_id amb))]
  | None => []
  end.

(** ** Completion under the account lock *)

(** [complete_deposit] or [complete_withdrawal], by type. *)
Definition complete_by_type (type : TransactionType.t) (amb : Ambient) (has_redis : bool)
    (transaction_id : UUID) (bank_transaction_id : string) (bank_response : option string)
  : M Env Transaction :=
  match type with
  | TransactionType.DEPOSIT =>
      DepositService.complete_deposit amb has_redis transaction_id bank_transaction_id
        bank_response
  | TransactionType.WITHDRAWAL =>
      WithdrawalService.complete_withdrawal amb has_redis transaction_id bank_transaction_id
        bank_response
  end.

(** The key of the lock that guards an account. *)
Definition account_lock_key (account_id : UUID) : string :=
  "lock:" +:+ ("account:" +:+ str_uuid account_id).

(** A computation that neither reads nor writes the cache. *)
Definition cache_free {A : Type} (m : M Env A) : Prop :=
  forall (c : Redis.t string) (e : Env),
    m (env_with_cache c e) = (fst (m e), env_with_cache c (snd (m e))).

(** ** Outcomes of the worker processor *)

(** The exception a call of the bank ends in, if it does: the one the bank
    client raises, or the one [_handle_transient_error] raises for the
    answers TIMEOUT and UNAVAILABLE. *)
Definition bank_failure (bank : BankOutcome) : option exn :=
  match bank with
  | BankRaises x => Some x
  | BankReturns r =>
      match br_status r with
      | BankResponseStatus.TIMEOUT | BankResponseStatus.UNAVAILABLE =>
          Some (Exc OtherException
                  ("Bank " +:+ BankResponseStatus.format (br_status r) +:+ ": "
                   +:+ str_option (br_message r)))
      | _ => None
      end
  end.

(** The row of a transaction handed over to manual review. *)
Definition under_review (s : Strategy.t) (t : Transaction) (error : exn) : Transaction :=
  tx_with_bank_response None
    (tx_with_error_message
       (Some ("Max retries exceeded: " +:+ exc_msg error +:+ "."
              +:+ match s with
                  | Strategy.WithdrawalStrategy =>
                      " Balance reserved, requires manual review."
                  | Strategy.DepositStrategy => EmptyString
                  end))
       (tx_with_status TransactionStatus.PENDING_REVIEW t)).

(** The environment after the job has committed [PROCESSING] for [tx]. *)
Definition env_processing (tx : Transaction) (e : Env) : Env :=
  env_published
    (put_transaction (tx_with_status TransactionStatus.PROCESSING tx) (database e)) e.

(** ** Attempts of the webhook delivery task *)

(** The task run once per element, with the retry counter and the outcome
    of the HTTP call of each attempt. *)
Definition webhook_attempts (id : UUID) (attempts : list (Z * HttpOutcome)) (e : Env) : Env :=
  fold_left (fun e a => snd (WebhookTasks.send_webhook_notification (fst a) id (snd a) e))
    attempts e.

(** The columns of a delivery that say what to send and where. *)
Definition same_delivery (d d' : WebhookDelivery) : Prop :=
  wd_id d' = wd_id d
  /\ wd_transaction_id d' = wd_transaction_id d
  /\ wd_webhook_url d' = wd_webhook_url d
  /\ wd_max_attempts d' = wd_max_attempts d
  /\ wd_payload d' = wd_payload d.

(** An exception class the task asks Celery to retry. *)
Definition retried_class (c : ExcClass) : bool :=
  match c with
  | RequestError | HTTPStatusError => true
  | _ => false
  end.

(** [len(s)] of an optional text, 0 for [None]. *)
Definition text_length (o : option string) : nat :=
  match o with
  | Some s => String.length s
  | None => 0%nat
  end.

(** ** Requests through the idempotency middleware *)

(** What the middleware answers when the handler of a first request does
    not produce a response it can store: the handler raised, answered with a
    status of 400 or more, or answered with a body that is not UTF-8.
    [None] for a handler whose response is stored. *)
Definition handler_failure (handler : HandlerOutcome) : option (result Response) :=
  match handler with
  | HandlerRaises x => Some (Raise x)
  | HandlerReturns response =>
      if sr_status_code response <? 400 then
        match utf8_decode (sr_body response) with
        | Some _ => None
        | None =>
            Some (Raise (Exc UnicodeDecodeError
                           "'utf-8' codec can't decode bytes: invalid data"))
        end
      else Some (Ok (IdempotencyMiddleware.pass_through response))
  end.

(** What [call_next] alone gives. *)
Definition handler_result (handler : HandlerOutcome) : result Response :=
  match handler with
  | HandlerReturns response => Ok (IdempotencyMiddleware.pass_through response)
  | HandlerRaises x => Raise x
  end.

(** ** [app/infrastructure/cache/rate_limiter.py]

    The limiter keeps one sorted set per key, the members being the texts
    [str(now)] of the request times with the time as score; a member is
    represented by its score.  The four commands travel in one transaction
    ([pipeline()] of redis-py is transactional by default), which is one
    round trip to the server.  [server_now] is the clock of the server in
    milliseconds, [now] the reading of [time.time()]. *)

Module SortedSet.

(** [ZREMRANGEBYSCORE key lo hi] *)
Definition zremrangebyscore (lo hi : Q) (members : list Q) : list Q :=
  List.filter (fun s => negb (Qle_bool lo s && Qle_bool s hi)) members.

(** [ZCARD key] *)
Definition zcard (members : list Q) : Z := Z.of_nat (length members).

(** [ZADD key score member]: a member that is present keeps its place. *)
Definition zadd (m : Q) (members : list Q) : list Q :=
  if existsb (Qeq_bool m) members then members else members ++ [m].

End SortedSet.

(** [int(x)] for a float: the fraction is dropped. *)
Definition int_of_float (x : Q) : Z := Z.quot (Qnum x) (Z.pos (Qden x)).

Module RateLimiter.

Definition pipeline (server_now : Z) (now : Q) (key : string) (window_seconds : Z)
  : M (Redis.t (list Q)) Z :=
  Redis.call (fun s =>
    let window_start := (now - inject_Z window_seconds)%Q in
    let members :=
      match Redis.lookup_live server_now s key with
      | Some members => members
      | None => []
      end in
    let members := SortedSet.zremrangebyscore 0 window_start members in
    let current_count := SortedSet.zcard members in
    let members := SortedSet.zadd now members in
    (Ok current_count,
     if window_seconds <=? 0 then base.delete key s
     else <[key := Redis.Entry members (server_now + 1000 * window_seconds)]> s)).

Definition is_allowed (server_now : Z) (now : Q) (key : string) (limit window_seconds : Z)
  : M (Redis.t (list Q)) (bool * Z * Z) :=
  let* current_count := pipeline server_now now key window_seconds in
  let is_allowed := current_count <? limit in
  let remaining := if is_allowed then Z.max 0 (limit - current_count - 1) else 0 in
  let reset_timestamp := int_of_float (now + inject_Z window_seconds)%Q in
  ret (is_allowed, remaining, reset_timestamp).

Definition reset (server_now : Z) (key : string) : M (Redis.t (list Q)) unit :=
  let* _ := Redis.delete server_now key in ret tt.

End RateLimiter.

(** ** [app/api/middleware/rate_limit_config.py] *)

Module RateLimitConfig.

(** The settings a rule can name in [limit_attr]. *)
Inductive LimitAttr : Type :=
| rate_limit_per_user_balance
| rate_limit_per_user_transactions
| rate_limit_global.

Record RateLimitRule : Type := mkRateLimitRule {
  pattern : string;
  method : string;
  limit_attr : LimitAttr;
  window_seconds : Z;
  description : string
}.

Definition RULES : list RateLimitRule :=
  [ mkRateLimitRule "/api/v1/users/me/balance" "GET" rate_limit_per_user_balance 60
      "balance check";
    mkRateLimitRule "/api/v1/users/me/transactions" "GET" rate_limit_per_user_transactions 60
      "transaction list" ].

(** [s.split("{")[0]] *)
Fixpoint before_brace (s : string) : string :=
  match s with
  | EmptyString => EmptyString
  | String c r => if Ascii.eqb c "{" then EmptyString else String c (before_brace r)
  end.

(** [s.rstrip("/")] *)
Fixpoint rstrip_slash (s : string) : string :=
  match s with
  | EmptyString => EmptyString
  | String c r =>
      let r' := rstrip_slash r in
      if Ascii.eqb c "/" && String.eqb r' EmptyString then EmptyString else String c r'
  end.

Definition _matches_pattern (path pattern_ : string) : bool :=
  if string_mem "{" pattern_ then
    let pattern_prefix := rstrip_slash (before_brace pattern_) in
    String.prefix pattern_prefix path
  else String.eqb path pattern_ || String.prefix pattern_ path.

Fixpoint first_rule (rules : list RateLimitRule) (path method_ : string)
  : option RateLimitRule :=
  match rules with
  | [] => None
  | rule :: rest =>
      if _matches_pattern path (pattern rule) && String.eqb method_ (method rule)
      then Some rule else first_rule rest path method_
  end.

Definition get_rule_for_request (path method_ : string) : option RateLimitRule :=
  first_rule RULES path method_.

End RateLimitConfig.

(** ** Requests against the rate limiter *)

(** The members the server finds under the key. *)
Definition stored_requests (server_now : Z) (key : string) (r : Redis.t (list Q)) : list Q :=
  match Redis.lookup_live server_now (Redis.store r) key with
  | Some members => members
  | None => []
  end.

(** A series of requests on one key, each with the reading of the server
    clock and of [time.time()]: the answers, oldest first, and the cache
    afterwards. *)
Fixpoint rate_limit_requests (key : string) (limit window_seconds : Z)
    (requests : list (Z * Q)) (r : Redis.t (list Q))
  : list (result (bool * Z * Z)) * Redis.t (list Q) :=
  match requests with
  | [] => ([], r)
  | (server_now, now) :: rest =>
      let '(a, r1) := RateLimiter.is_allowed server_now now key limit window_seconds r in
      let '(answers, r2) := rate_limit_requests key limit window_seconds rest r1 in
      (a :: answers, r2)
  end.

(** The answers a burst inside one window gets: the request number [i],
    counted from [first], is let through while [i < limit]. *)
Fixpoint burst_answers (limit window_seconds : Z) (first : Z) (requests : list (Z * Q))
  : list (result (bool * Z * Z)) :=
  match requests with
  | [] => []
  | (_, now) :: rest =>
      Ok (first <? limit,
          (if first <? limit then limit - first - 1 else 0),
          int_of_float (now + inject_Z window_seconds)%Q)
      :: burst_answers limit window_seconds (first + 1) rest
  end.

(** Each request reaches the server before the lease set by the one before
    it has run out. *)
Fixpoint leases_overlap (window_seconds : Z) (requests : list (Z * Q)) : Prop :=
  match requests with
  | a :: rest =>
      match rest with
      | b :: _ => fst b < fst a + 1000 * window_seconds
      | [] => True
      end /\ leases_overlap window_seconds rest
  | [] => True
  end.

(** The request times increase. *)
Fixpoint times_increase (requests : list (Z * Q)) : Prop :=
  match requests with
  | a :: rest => Forall (fun b => (snd a < snd b)%Q) rest /\ times_increase rest
  | [] => True
  end.

(** The request times increase, and all lie within one window. *)
Definition one_burst (window_seconds : Z) (requests : list (Z * Q)) : Prop :=
  times_increase requests
  /\ forall a b, In a requests -> In b requests ->
                 (snd b - inject_Z window_seconds < snd a)%Q.

Definition example_burst : list (Z * Q) :=
  [ (1000, Qmake 100 1); (2000, Qmake 101 1); (3000, Qmake 102 1); (4000, Qmake 103 1) ].

Definition empty_rate_cache : Redis.t (list Q) := Redis.Client ∅ [].


(** * Properties *)

(** ** Cache and distributed lock *)

Lemma redis_call_no_faults {V A : Type}
    (op : gmap string (Redis.entry V) -> result A * gmap string (Redis.entry V))
    (r : Redis.t V) :
  Redis.faults r = [] ->
  Redis.call op r = (fst (op (Redis.store r)), Redis.Client (snd (op (Redis.store r))) []).
Proof.
  intros Hf. unfold Redis.call. rewrite Hf. destruct (op (Redis.store r)); reflexivity.
Qed.

Lemma redis_call_fault {V A : Type}
    (op : gmap string (Redis.entry V) -> result A * gmap string (Redis.entry V))
    (r : Redis.t V) (e : exn) (fs : list (option exn)) :
  Redis.faults r = Some e :: fs ->
  Redis.call op r = (Raise e, Redis.Client (Redis.store r) fs).
Proof. intros Hf. unfold Redis.call. rewrite Hf. reflexivity. Qed.

Lemma lookup_live_delete_ne {V : Type} (now : Z) (s : gmap string (Redis.entry V))
    (k k' : string) :
  k <> k' -> Redis.lookup_live now (delete k s) k' = Redis.lookup_live now s k'.
Proof. intros Hne. unfold Redis.lookup_live. rewrite lookup_delete_ne; auto. Qed.

Lemma lookup_live_delete_eq {V : Type} (now : Z) (s : gmap string (Redis.entry V))
    (k : string) :
  Redis.lookup_live now (delete k s) k = None.
Proof. unfold Redis.lookup_live. rewrite lookup_delete_eq. reflexivity. Qed.

(** The reply of the release script, spelled out. *)
Lemma eval_compare_and_delete_no_faults (now : Z) (k arg : string) (r : Redis.t string) :
  Redis.faults r = [] ->
  Redis.eval_compare_and_delete now k arg r =
    if decide (Redis.lookup_live now (Redis.store r) k = Some arg)
    then (Ok 1, Redis.Client (delete k (Redis.store r)) [])
    else (Ok 0, Redis.Client (Redis.store r) []).
Proof.
  intros Hf. unfold Redis.eval_compare_and_delete.
  rewrite redis_call_no_faults by assumption.
  destruct (Redis.lookup_live now (Redis.store r) k) as [v|] eqn:Hl.
  - destruct (String.eqb v arg) eqn:Heq.
    + apply String.eqb_eq in Heq. subst v.
      destruct (decide (Some arg = Some arg)); [reflexivity | congruence].
    + apply String.eqb_neq in Heq.
      destruct (decide (Some v = Some arg)) as [E|E]; [congruence | reflexivity].
  - destruct (decide (None = Some arg)); [discriminate | reflexivity].
Qed.

Lemma DistributedLock_release_spec (now : Z) (l : DistributedLock.t) (r : Redis.t string) :
  Redis.faults r = [] ->
  DistributedLock.acquired l = true ->
  DistributedLock.release now l r =
    if decide (Redis.lookup_live now (Redis.store r) (DistributedLock.key l)
               = Some (DistributedLock.lock_identifier l))
    then (Ok (true, DistributedLock.set_acquired false l),
          Redis.Client (delete (DistributedLock.key l) (Redis.store r)) [])
    else (Ok (false, DistributedLock.set_acquired false l),
          Redis.Client (Redis.store r) []).
Proof.
  intros Hf Ha. unfold DistributedLock.release. rewrite Ha. simpl.
  unfold bind. rewrite eval_compare_and_delete_no_faults by assumption.
  destruct (decide _); reflexivity.
Qed.

Lemma DistributedLock_release_not_acquired (now : Z) (l : DistributedLock.t)
    (r : Redis.t string) :
  DistributedLock.acquired l = false ->
  DistributedLock.release now l r = (Ok (false, l), r).
Proof. intros Ha. unfold DistributedLock.release. rewrite Ha. reflexivity. Qed.

Lemma SyncDistributedLock_release_spec (now : Z) (l : SyncDistributedLock.t)
    (r : Redis.t string) :
  Redis.faults r = [] ->
  SyncDistributedLock.acquired l = true ->
  SyncDistributedLock.release now l r =
    if decide (Redis.lookup_live now (Redis.store r) (SyncDistributedLock.key l)
               = Some (SyncDistributedLock.lock_identifier l))
    then (Ok (true, SyncDistributedLock.set_acquired false l),
          Redis.Client (delete (SyncDistributedLock.key l) (Redis.store r)) [])
    else (Ok (false, SyncDistributedLock.set_acquired false l),
          Redis.Client (Redis.store r) []).
Proof.
  intros Hf Ha. unfold SyncDistributedLock.release. rewrite Ha. simpl.
  unfold try_except, bind, SyncDistributedLock._release, bind.
  rewrite eval_compare_and_delete_no_faults by assumption.
  destruct (decide _); reflexivity.
Qed.

Lemma SyncDistributedLock_release_not_acquired (now : Z) (l : SyncDistributedLock.t)
    (r : Redis.t string) :
  SyncDistributedLock.acquired l = false ->
  SyncDistributedLock.release now l r = (Ok (false, l), r).
Proof. intros Ha. unfold SyncDistributedLock.release. rewrite Ha. reflexivity. Qed.

(** C7.  Owner-fenced release.  For two lock instances [B] and [C] on the
    same key with distinct owner tokens, [release] of [B] removes the stored
    lease only when the live value under the key is [B]'s own token.  When
    the key holds [C]'s token (so [B]'s lease is gone and [C] is the holder),
    [B]'s release returns [False] and [C]'s lease stays in place.  After any
    release the instance is no longer marked acquired, and a repeated release
    returns [False] without a cache command.  The same holds for the
    asynchronous [DistributedLock] and for [SyncDistributedLock]. *)
Theorem C7_release_owner_fenced
    (now : Z) (r : Redis.t string)
    (B C : DistributedLock.t) (Bs Cs : SyncDistributedLock.t) :
  Redis.faults r = [] ->
  DistributedLock.key B = DistributedLock.key C ->
  DistributedLock.lock_identifier B <> DistributedLock.lock_identifier C ->
  SyncDistributedLock.key Bs = SyncDistributedLock.key Cs ->
  SyncDistributedLock.lock_identifier Bs <> SyncDistributedLock.lock_identifier Cs ->
  (exists (released : bool) (B1 : DistributedLock.t) (r1 : Redis.t string),
      DistributedLock.release now B r = (Ok (released, B1), r1)
      /\ DistributedLock.acquired B1 = false
      /\ (Redis.store r1 = Redis.store r
          \/ (Redis.lookup_live now (Redis.store r) (DistributedLock.key B)
                = Some (DistributedLock.lock_identifier B)
              /\ Redis.store r1 = delete (DistributedLock.key B) (Redis.store r)))
      /\ (released = true ->
          Redis.lookup_live now (Redis.store r) (DistributedLock.key B)
            = Some (DistributedLock.lock_identifier B)
          /\ Redis.lookup_live now (Redis.store r1) (DistributedLock.key B) = None)
      /\ (Redis.lookup_live now (Redis.store r) (DistributedLock.key C)
            = Some (DistributedLock.lock_identifier C) ->
          released = false
          /\ Redis.lookup_live now (Redis.store r1) (DistributedLock.key C)
               = Some (DistributedLock.lock_identifier C))
      /\ (forall (now2 : Z) (r2 : Redis.t string),
            DistributedLock.release now2 B1 r2 = (Ok (false, B1), r2)))
  /\
  (exists (released : bool) (B1 : SyncDistributedLock.t) (r1 : Redis.t string),
      SyncDistributedLock.release now Bs r = (Ok (released, B1), r1)
      /\ SyncDistributedLock.acquired B1 = false
      /\ (Redis.store r1 = Redis.store r
          \/ (Redis.lookup_live now (Redis.store r) (SyncDistributedLock.key Bs)
                = Some (SyncDistributedLock.lock_identifier Bs)
              /\ Redis.store r1 = delete (SyncDistributedLock.key Bs) (Redis.store r)))
      /\ (released = true ->
          Redis.lookup_live now (Redis.store r) (SyncDistributedLock.key Bs)
            = Some (SyncDistributedLock.lock_identifier Bs)
          /\ Redis.lookup_live now (Redis.store r1) (SyncDistributedLock.key Bs) = None)
      /\ (Redis.lookup_live now (Redis.store r) (SyncDistributedLock.key Cs)
            = Some (SyncDistributedLock.lock_identifier Cs) ->
          released = false
          /\ Redis.lookup_live now (Redis.store r1) (SyncDistributedLock.key Cs)
               = Some (SyncDistributedLock.lock_identifier Cs))
      /\ (forall (now2 : Z) (r2 : Redis.t string),
            SyncDistributedLock.release now2 B1 r2 = (Ok (false, B1), r2))).
Proof.
  intros Hf Hk Hid Hks Hids. split.
  - destruct (DistributedLock.acquired B) eqn:Ha.
    + rewrite (DistributedLock_release_spec now B r Hf Ha).
      destruct (decide _) as [Hown | Hown].
      * exists true, (DistributedLock.set_acquired false B),
          (Redis.Client (delete (DistributedLock.key B) (Redis.store r)) []).
        simpl. repeat split; auto.
        -- apply lookup_live_delete_eq.
        -- rewrite <- Hk in H. congruence.
        -- rewrite <- Hk in H. congruence.
      * exists false, (DistributedLock.set_acquired false B),
          (Redis.Client (Redis.store r) []).
        simpl. repeat split; auto; discriminate.
    + rewrite (DistributedLock_release_not_acquired now B r Ha).
      exists false, B, r. repeat split; auto; try discriminate.
      intros now2 r2. apply DistributedLock_release_not_acquired. assumption.
  - destruct (SyncDistributedLock.acquired Bs) eqn:Ha.
    + rewrite (SyncDistributedLock_release_spec now Bs r Hf Ha).
      destruct (decide _) as [Hown | Hown].
      * exists true, (SyncDistributedLock.set_acquired false Bs),
          (Redis.Client (delete (SyncDistributedLock.key Bs) (Redis.store r)) []).
        simpl. repeat split; auto.
        -- apply lookup_live_delete_eq.
        -- rewrite <- Hks in H. congruence.
        -- rewrite <- Hks in H. congruence.
      * exists false, (SyncDistributedLock.set_acquired false Bs),
          (Redis.Client (Redis.store r) []).
        simpl. repeat split; auto; discriminate.
    + rewrite (SyncDistributedLock_release_not_acquired now Bs r Ha).
      exists false, Bs, r. repeat split; auto; try discriminate.
      intros now2 r2. apply SyncDistributedLock_release_not_acquired. assumption.
Qed.

(** A run of the scenario of C7: [B] acquires at time 0 with a 10 s lease,
    [C] acquires the same key at 10 s, [B] releases at 12 s. *)
Example lock_fencing_run :
  let r0 : Redis.t string := Redis.Client ∅ [] in
  let B := DistributedLock.init "account:7" 10 false 30 (1 # 10) "token-b" in
  let C := DistributedLock.init "account:7" 10 false 30 (1 # 10) "token-c" in
  exists B1 r1 C1 r2 B2 r3,
    DistributedLock._try_acquire_once 0 B r0 = (Ok (true, B1), r1)
    /\ DistributedLock._try_acquire_once 10000 C r1 = (Ok (true, C1), r2)
    /\ DistributedLock.release 12000 B1 r2 = (Ok (false, B2), r3)
    /\ Redis.lookup_live 12000 (Redis.store r3) "lock:account:7" = Some "token-c"
    /\ DistributedLock.release 12500 B2 r3 = (Ok (false, B2), r3).
Proof.
  cbv zeta. do 6 eexists. repeat split; vm_compute; reflexivity.
Qed.

Lemma C7_release_owner_fenced_witness :
  let B := DistributedLock.Lock "lock:account:7" 10 false 30 (1 # 10) "token-b" true in
  let C := DistributedLock.Lock "lock:account:7" 10 false 30 (1 # 10) "token-c" true in
  let r : Redis.t string :=
    Redis.Client {[ "lock:account:7" := Redis.Entry "token-c" 20000 ]} [] in
  exists released B1 r1,
    DistributedLock.release 12000 B r = (Ok (released, B1), r1)
    /\ released = false
    /\ Redis.lookup_live 12000 (Redis.store r1) "lock:account:7" = Some "token-c".
Proof.
  cbv zeta.
  destruct (C7_release_owner_fenced 12000
              (Redis.Client {[ "lock:account:7" := Redis.Entry "token-c" 20000 ]} [])
              (DistributedLock.Lock "lock:account:7" 10 false 30 (1 # 10) "token-b" true)
              (DistributedLock.Lock "lock:account:7" 10 false 30 (1 # 10) "token-c" true)
              (SyncDistributedLock.Lock "lock:account:7" 10 false 30 "token-b" true)
              (SyncDistributedLock.Lock "lock:account:7" 10 false 30 "token-c" true)
              eq_refl eq_refl ltac:(discriminate) eq_refl ltac:(discriminate))
    as [(released & B1 & r1 & Hrel & _ & _ & _ & HC & _) _].
  exists released, B1, r1. split; [exact Hrel |].
  apply HC. vm_compute. reflexivity.
Defined.


(** ** Circuit breaker *)

(** C8.  In state [OPEN] with a recorded last failure time [last], a call of
    [can_execute] at a time [now] with [now - last >= timeout_seconds]
    returns [True] and moves the breaker to [HALF_OPEN] (resetting both
    counters); a call at an earlier time returns [False] and leaves the
    breaker, still [OPEN], exactly as it was. *)
Theorem C8_open_breaker_resets_after_timeout
    (now last : Q) (cb : CircuitBreaker.t) :
  CircuitBreaker.state cb = CircuitBreaker.OPEN ->
  CircuitBreaker.last_failure_time cb = Some last ->
  ((inject_Z (CircuitBreaker.timeout_seconds cb) <= now - last)%Q ->
     CircuitBreaker.can_execute now cb
       = (true, CircuitBreaker._transition_to_half_open cb)
     /\ CircuitBreaker.state (snd (CircuitBreaker.can_execute now cb))
        = CircuitBreaker.HALF_OPEN)
  /\
  ((now - last < inject_Z (CircuitBreaker.timeout_seconds cb))%Q ->
     CircuitBreaker.can_execute now cb = (false, cb)
     /\ CircuitBreaker.state (snd (CircuitBreaker.can_execute now cb))
        = CircuitBreaker.OPEN).
Proof.
  intros Hst Hlast.
  unfold CircuitBreaker.can_execute, CircuitBreaker._should_attempt_reset.
  rewrite Hst, Hlast. split.
  - intros Hle. apply Qle_bool_iff in Hle. rewrite Hle. split; reflexivity.
  - intros Hlt.
    destruct (Qle_bool (inject_Z (CircuitBreaker.timeout_seconds cb)) (now - last)) eqn:E.
    + apply Qle_bool_iff in E. exfalso. exact (Qlt_not_le _ _ Hlt E).
    + split; [reflexivity | exact Hst].
Qed.

(** The bank breaker opened by five failures, the last at second 100: a
    probe at second 129.5 is refused, a probe at second 130 is admitted. *)
Lemma C8_open_breaker_resets_after_timeout_witness :
  let fail := CircuitBreaker.record_failure in
  let cb := fail 100%Q (fail 99%Q (fail 98%Q (fail 97%Q
              (fail 96%Q CircuitBreaker.bank_circuit_breaker)))) in
  CircuitBreaker.state cb = CircuitBreaker.OPEN
  /\ fst (CircuitBreaker.can_execute (259 # 2) cb) = false
  /\ fst (CircuitBreaker.can_execute 130%Q cb) = true
  /\ CircuitBreaker.state (snd (CircuitBreaker.can_execute 130%Q cb))
     = CircuitBreaker.HALF_OPEN.
Proof.
  cbv zeta.
  set (cb := CircuitBreaker.record_failure 100%Q _).
  assert (Hst : CircuitBreaker.state cb = CircuitBreaker.OPEN) by reflexivity.
  assert (Hlast : CircuitBreaker.last_failure_time cb = Some 100%Q) by reflexivity.
  destruct (C8_open_breaker_resets_after_timeout 130%Q 100%Q cb Hst Hlast) as [Hlate _].
  destruct (C8_open_breaker_resets_after_timeout (259 # 2) 100%Q cb Hst Hlast) as [_ Hearly].
  destruct Hlate as [Hl1 Hl2]; [vm_compute; discriminate |].
  destruct Hearly as [He1 He2]; [vm_compute; reflexivity |].
  split; [exact Hst |]. split; [rewrite He1; reflexivity |].
  split; [rewrite Hl1; reflexivity | exact Hl2].
Defined.


(** ** Webhook signatures *)

Example sha256_abc :
  hexdigest (SHA256.digest (encode "abc"))
  = "ba7816bf8f01cfea414140de5dae2223b00361a396177a9cb410ff61f20015ad".
Proof. vm_compute. reflexivity. Qed.

(** The vector of [test_known_signature_vector] (RFC 4231, test case 2). *)
Example known_signature_vector :
  generate_webhook_signature "what do ya want for nothing?" "Jefe"
  = "5bdcc146bf60754e6a042426089575c75a003f089d2739839dec58b964ec3843".
Proof. vm_compute. reflexivity. Qed.

Lemma hex_char_is_ascii (d : N) :
  (d < 16)%N -> (N_of_ascii (hex_char d) <? 128)%N = true.
Proof.
  intros Hd. unfold hex_char. apply N.ltb_lt.
  destruct (d <? 10)%N; rewrite N_ascii_embedding; lia.
Qed.

Lemma append_cons (c : ascii) (a b : string) : String c a +:+ b = String c (a +:+ b).
Proof. reflexivity. Qed.

Lemma append_empty_l (b : string) : EmptyString +:+ b = b.
Proof. reflexivity. Qed.

Lemma string_forallb_app (p : ascii -> bool) (a b : string) :
  string_forallb p (a +:+ b) = string_forallb p a && string_forallb p b.
Proof.
  induction a as [| c a IH]; [reflexivity |].
  rewrite append_cons. cbn [string_forallb]. rewrite IH. apply andb_assoc.
Qed.

Lemma hexdigest_is_ascii (bs : list Z) : is_ascii (hexdigest bs) = true.
Proof.
  induction bs as [| b rest IH]; [reflexivity |].
  unfold is_ascii in *. cbn [hexdigest]. unfold hex_byte.
  rewrite !append_cons, append_empty_l. cbn [string_forallb]. rewrite IH.
  rewrite !hex_char_is_ascii; [reflexivity | |].
  - assert (0 <= b mod 16 < 16) by (apply Z.mod_pos_bound; lia). lia.
  - assert (0 <= (b / 16) mod 16 < 16) by (apply Z.mod_pos_bound; lia). lia.
Qed.

Lemma compare_digest_ascii (a b : string) :
  is_ascii a = true -> is_ascii b = true -> compare_digest a b = Ok (String.eqb a b).
Proof. intros Ha Hb. unfold compare_digest. rewrite Ha, Hb. reflexivity. Qed.

Lemma compare_digest_non_ascii (a b : string) :
  is_ascii a = false ->
  compare_digest a b
  = Raise (Exc TypeError "comparing strings with non-ASCII characters is not supported").
Proof. intros Ha. unfold compare_digest. rewrite Ha. reflexivity. Qed.

Lemma verify_webhook_signature_ascii (payload signature secret : string) :
  is_ascii signature = true ->
  verify_webhook_signature payload signature secret
  = Ok (String.eqb signature (generate_webhook_signature payload secret)).
Proof.
  intros Ha. unfold verify_webhook_signature, generate_webhook_signature.
  apply compare_digest_ascii; [assumption | apply hexdigest_is_ascii].
Qed.

(** X30: a signature produced by [generate_webhook_signature] verifies,
    for every payload and secret.  Any other signature is rejected with
    [False] when it is an ASCII string, and makes the verification raise
    [TypeError] when it holds a non-ASCII character. *)
Theorem signature_round_trip_and_rejection (payload secret : string) :
  verify_webhook_signature payload (generate_webhook_signature payload secret) secret
    = Ok true
  /\ (forall signature : string,
        signature <> generate_webhook_signature payload secret ->
        is_ascii signature = true ->
        verify_webhook_signature payload signature secret = Ok false)
  /\ (forall signature : string,
        is_ascii signature = false ->
        verify_webhook_signature payload signature secret
        = Raise (Exc TypeError
                   "comparing strings with non-ASCII characters is not supported")).
Proof.
  repeat split.
  - rewrite verify_webhook_signature_ascii by apply hexdigest_is_ascii.
    rewrite String.eqb_refl. reflexivity.
  - intros signature Hne Ha.
    rewrite verify_webhook_signature_ascii by assumption.
    apply String.eqb_neq in Hne. rewrite Hne. reflexivity.
  - intros signature Ha. unfold verify_webhook_signature.
    apply compare_digest_non_ascii. assumption.
Qed.

(** One hexadecimal digit of the signature of the known vector changed: the
    signature is rejected. *)
Lemma signature_round_trip_and_rejection_witness :
  verify_webhook_signature "what do ya want for nothing?"
    "6bdcc146bf60754e6a042426089575c75a003f089d2739839dec58b964ec3843" "Jefe" = Ok false.
Proof.
  destruct (signature_round_trip_and_rejection "what do ya want for nothing?" "Jefe")
    as (_ & Hsig & _).
  apply Hsig; [vm_compute; discriminate | vm_compute; reflexivity].
Defined.

(** C9: the failing input.  The claim says that the verification returns
    [False] for every single-character mutation of the signature, and the
    unit tests of the verification say so for a wrong signature.  Replacing
    the first character of a valid signature by U+00E9 is such a mutation,
    and the verification does not return [False]: [hmac.compare_digest]
    raises [TypeError], which the function does not catch. *)
Lemma C9_non_ascii_mutation_raises :
  let payload := "what do ya want for nothing?" in
  let secret := "Jefe" in
  let signature := generate_webhook_signature payload secret in
  let mutated := String (ascii_of_N 233) (substring 1 63 signature) in
  String.length mutated = String.length signature
  /\ substring 1 63 mutated = substring 1 63 signature
  /\ verify_webhook_signature payload signature secret = Ok true
  /\ verify_webhook_signature payload mutated secret <> Ok false
  /\ verify_webhook_signature payload mutated secret
     = Raise (Exc TypeError "comparing strings with non-ASCII characters is not supported").
Proof. vm_compute. repeat split; discriminate. Qed.

(** ** Running monadic code *)

Lemma bind_ok {S A B : Type} (m : M S A) (k : A -> M S B) (s s' : S) (a : A) :
  m s = (Ok a, s') -> bind m k s = k a s'.
Proof. intros H. unfold bind. rewrite H. reflexivity. Qed.

Lemma bind_raise {S A B : Type} (m : M S A) (k : A -> M S B) (s s' : S) (x : exn) :
  m s = (Raise x, s') -> bind m k s = (Raise x, s').
Proof. intros H. unfold bind. rewrite H. reflexivity. Qed.

Lemma try_except_ok {S A : Type} (m : M S A) (h : exn -> M S A) (s s' : S) (a : A) :
  m s = (Ok a, s') -> try_except m h s = (Ok a, s').
Proof. intros H. unfold try_except. rewrite H. reflexivity. Qed.

Lemma try_except_raise {S A : Type} (m : M S A) (h : exn -> M S A) (s s' : S) (x : exn) :
  m s = (Raise x, s') -> try_except m h s = h x s'.
Proof. intros H. unfold try_except. rewrite H. reflexivity. Qed.

Lemma bind_ret_l {S A B : Type} (a : A) (k : A -> M S B) : bind (ret a) k = k a.
Proof. reflexivity. Qed.

Lemma bind_raise_l {S A B : Type} (x : exn) (k : A -> M S B) :
  bind (raise x) k = raise x.
Proof. reflexivity. Qed.

(** ** The balance invariant at commit boundaries *)

Section Preservation.

Variable P : Env -> Prop.

Lemma preserves_ret {A : Type} (a : A) : preserves P (ret a).
Proof. intros e H. exact H. Qed.

Lemma preserves_raise {A : Type} (x : exn) : preserves P (@raise Env A x).
Proof. intros e H. exact H. Qed.

Lemma preserves_get_state : preserves P get_state.
Proof. intros e H. exact H. Qed.

Lemma preserves_bind {A B : Type} (m : M Env A) (k : A -> M Env B) :
  preserves P m -> (forall a, preserves P (k a)) -> preserves P (bind m k).
Proof.
  intros Hm Hk e H. unfold bind. specialize (Hm e H).
  destruct (m e) as [[a | x] e']; simpl in *.
  - apply Hk. exact Hm.
  - exact Hm.
Qed.

Lemma preserves_try_except {A : Type} (m : M Env A) (h : exn -> M Env A) :
  preserves P m -> (forall x, preserves P (h x)) -> preserves P (try_except m h).
Proof.
  intros Hm Hh e H. unfold try_except. specialize (Hm e H).
  destruct (m e) as [[a | x] e']; simpl in *.
  - exact Hm.
  - apply Hh. exact Hm.
Qed.

Lemma preserves_try_finally {A : Type} (m : M Env A) (f : M Env unit) :
  preserves P m -> preserves P f -> preserves P (try_finally m f).
Proof.
  intros Hm Hf e H. unfold try_finally. specialize (Hm e H).
  destruct (m e) as [r e']; simpl in *. specialize (Hf e' Hm).
  destruct (f e') as [[u | x] e'']; simpl in *; exact Hf.
Qed.

End Preservation.

Section StablePreservation.

Variable P : Env -> Prop.
Hypothesis HP : stable P.

Lemma preserves_commit : preserves P Session.commit.
Proof. intros e H. apply (stable_commit P HP). exact H. Qed.

Lemma preserves_rollback : preserves P Session.rollback.
Proof. intros e H. apply (stable_discard P HP). exact H. Qed.

Lemma preserves_close : preserves P Session.close.
Proof. intros e H. apply (stable_discard P HP). exact H. Qed.

Lemma preserves_get_db : preserves P GenericTransactionProcessor.get_db.
Proof. intros e H. apply (stable_discard P HP). exact H. Qed.

Lemma preserves_modify_frame (f : Env -> Env) :
  (forall e, accounts (session (f e)) = accounts (session e)
             /\ database (f e) = database e /\ commit_log (f e) = commit_log e) ->
  preserves P (modify_state f).
Proof.
  intros Hf e H. destruct (Hf e) as (H1 & H2 & H3).
  unfold modify_state. simpl. eapply (stable_frame P HP); eauto.
Qed.

Lemma preserves_with_cache {A : Type} (m : M (Redis.t string) A) :
  preserves P (with_cache m).
Proof.
  intros e H. unfold with_cache. destruct (m (cache e)) as [r c]. simpl.
  eapply (stable_frame P HP); eauto.
Qed.

Lemma preserves_in_new_session {A : Type} (body : M Env A) :
  preserves P body -> preserves P (Session.in_new_session body).
Proof.
  intros Hb e H. unfold Session.in_new_session.
  pose proof (preserves_try_finally P body Session.close Hb preserves_close
                (env_with_session (database e) e)) as H'.
  destruct (try_finally body Session.close (env_with_session (database e) e)) as [r e'].
  simpl in *. apply (stable_restore P HP); [exact H |].
  apply H'. apply (stable_discard P HP). exact H.
Qed.

End StablePreservation.

(** One step of a syntax-directed preservation proof. *)
Ltac preserves_step HP :=
  lazymatch goal with
  | |- preserves _ (match ?x with _ => _ end) => destruct x
  | |- preserves _ (let _ := _ in _) => cbv zeta
  | |- preserves _ (ret _) => apply preserves_ret
  | |- preserves _ (raise _) => apply preserves_raise
  | |- preserves _ get_state => apply preserves_get_state
  | |- preserves _ Session.commit => apply (preserves_commit _ HP)
  | |- preserves _ Session.rollback => apply (preserves_rollback _ HP)
  | |- preserves _ Session.close => apply (preserves_close _ HP)
  | |- preserves _ GenericTransactionProcessor.get_db => apply (preserves_get_db _ HP)
  | |- preserves _ (with_cache _) => apply (preserves_with_cache _ HP)
  | |- preserves _ (Session.in_new_session _) => apply (preserves_in_new_session _ HP)
  | |- preserves _ (modify_state _) =>
      apply (preserves_modify_frame _ HP); intros ?; simpl; auto
  | |- preserves _ (bind _ _) => apply preserves_bind; [ | intros ? ]
  | |- preserves _ (try_except _ _) => apply preserves_try_except; [ | intros ? ]
  | |- preserves _ (try_finally _ _) => apply preserves_try_finally
  end.

Ltac preserves_auto HP := repeat (preserves_step HP).

Section StableServices.

Variable P : Env -> Prop.
Hypothesis HP : stable P.

Lemma preserves_update_and_commit (t : Transaction) :
  preserves P (BaseTransactionService._update_and_commit t).
Proof.
  unfold BaseTransactionService._update_and_commit, TransactionRepository.update,
    Session.flush_transaction, Session.check_amount_positive.
  preserves_auto HP.
Qed.

Lemma preserves_get_transaction (id : N) :
  preserves P (BaseTransactionService._get_transaction_or_raise id).
Proof.
  unfold BaseTransactionService._get_transaction_or_raise, TransactionRepository.get_by_id.
  preserves_auto HP.
Qed.

Lemma preserves_update_status (id : N) (s : TransactionStatus.t) :
  preserves P (BaseTransactionService.update_status id s).
Proof.
  unfold BaseTransactionService.update_status.
  preserves_auto HP; auto using preserves_get_transaction, preserves_update_and_commit.
Qed.

Lemma preserves_mark_pending_review (id : N) (reason : string) (resp : option string) :
  preserves P (BaseTransactionService.mark_pending_review id reason resp).
Proof.
  unfold BaseTransactionService.mark_pending_review.
  preserves_auto HP; auto using preserves_get_transaction, preserves_update_and_commit.
Qed.

Lemma preserves_trigger_webhook (amb : Ambient) (t : Transaction) (a : Account) :
  preserves P (BaseTransactionService._trigger_webhook_if_configured amb t a).
Proof.
  unfold BaseTransactionService._trigger_webhook_if_configured, UserRepository.get_by_id,
    WebhookRepository.create_delivery, Session.flush_new_webhook_delivery, delay.
  preserves_auto HP.
Qed.

Lemma preserves_fail_deposit (amb : Ambient) (id : N) (code msg : string)
    (resp : option string) :
  preserves P (DepositService.fail_deposit amb id code msg resp).
Proof.
  unfold DepositService.fail_deposit, AccountRepository.get_by_id.
  preserves_auto HP;
    auto using preserves_get_transaction, preserves_update_and_commit,
      preserves_trigger_webhook.
Qed.

Lemma preserves_fail_withdrawal (amb : Ambient) (id : N) (code msg : string)
    (resp : option string) :
  preserves P (WithdrawalService.fail_withdrawal amb id code msg resp).
Proof.
  unfold WithdrawalService.fail_withdrawal, AccountRepository.get_by_id.
  preserves_auto HP;
    auto using preserves_get_transaction, preserves_update_and_commit,
      preserves_trigger_webhook.
Qed.

Lemma preserves_fail_transaction (s : Strategy.t) (amb : Ambient) (id : N)
    (code msg resp : string) :
  preserves P (Strategy.fail_transaction s amb id code msg resp).
Proof.
  unfold Strategy.fail_transaction.
  preserves_auto HP; auto using preserves_fail_deposit, preserves_fail_withdrawal.
Qed.

Lemma preserves_handle_exception (task : TaskInstance) (s : Strategy.t) (id : N)
    (x : exn) :
  preserves P (GenericTransactionProcessor._handle_exception task s id x).
Proof.
  unfold GenericTransactionProcessor._handle_exception,
    GenericTransactionProcessor._mark_for_review.
  preserves_auto HP; auto using preserves_mark_pending_review.
Qed.

(** What is left of [process] besides the completion call. *)
Lemma preserves_process (s : Strategy.t) (task : TaskInstance) (amb : Ambient)
    (bank : BankOutcome) (id : N) :
  (forall r, bank = BankReturns r -> br_status r = BankResponseStatus.SUCCESS ->
             preserves P (GenericTransactionProcessor._handle_success s amb id r)) ->
  preserves P (GenericTransactionProcessor.process s task amb bank id).
Proof.
  intros Hsuccess.
  unfold GenericTransactionProcessor.process, GenericTransactionProcessor.call_bank,
    GenericTransactionProcessor._handle_transient_error,
    GenericTransactionProcessor._handle_permanent_failure.
  preserves_step HP; [preserves_step HP |].
  preserves_step HP; [| preserves_step HP].
  preserves_step HP; [| apply preserves_handle_exception].
  preserves_step HP; [apply preserves_update_status |].
  destruct bank as [r | x].
  - rewrite bind_ret_l.
    destruct (br_status r) eqn:Hst;
      try (apply (Hsuccess r eq_refl Hst));
      preserves_auto HP; auto using preserves_fail_transaction.
  - rewrite bind_raise_l. preserves_auto HP.
Qed.

End StableServices.

Lemma balances_non_negative_insert (T : Tables) (a : Account) :
  balances_non_negative T -> 0 <= acc_balance a ->
  balances_non_negative (put_account a T).
Proof.
  intros HT Ha id b. simpl. rewrite lookup_insert.
  destruct (decide (acc_id a = id)); intros Hb.
  - inversion Hb. subst b. exact Ha.
  - eapply HT. exact Hb.
Qed.

Lemma commit_invariant_stable : stable commit_invariant.
Proof.
  constructor.
  - intros e (Hs & Hd & Hl). unfold env_commit. repeat split; simpl; auto.
    apply Forall_app. split; auto.
  - intros e (Hs & Hd & Hl). repeat split; simpl; auto.
  - intros e e' (Hs & Hd & Hl) H1 H2 H3. unfold commit_invariant. rewrite H2, H3.
    repeat split; auto. intros id a. rewrite H1. apply Hs.
  - intros e e' (Hs & _ & _) (_ & Hd & Hl). repeat split; simpl; auto.
Qed.

Lemma accounts_fixed_stable (A : gmap N Account) : stable (accounts_fixed A).
Proof.
  constructor.
  - intros e (Hs & Hd). split; simpl; auto.
  - intros e (Hs & Hd). split; simpl; auto.
  - intros e e' (Hs & Hd) H1 H2 H3. unfold accounts_fixed. rewrite H1, H2. auto.
  - intros e e' (Hs & _) (_ & Hd). split; simpl; auto.
Qed.

Lemma preserves_invariant_flush_account (a : Account) :
  preserves commit_invariant (Session.flush_account a).
Proof.
  intros e (Hs & Hd & Hl).
  unfold Session.flush_account, Session.check_balance_non_negative, bind.
  destruct (0 <=? acc_balance a) eqn:Hc; simpl.
  - apply Z.leb_le in Hc. repeat split; auto.
    apply balances_non_negative_insert; assumption.
  - repeat split; auto.
Qed.

(** Code that moves balances: for a stable predicate that every flush of an
    account row keeps. *)
Section StableLedger.

Variable P : Env -> Prop.
Hypothesis HP : stable P.
Hypothesis Hflush : forall a : Account, preserves P (Session.flush_account a).

Lemma preserves_add_balance (a : Account) (amount : Z) :
  preserves P (AccountRepository.add_balance a amount).
Proof.
  unfold AccountRepository.add_balance. preserves_auto HP; apply Hflush.
Qed.

Lemma preserves_subtract_balance (a : Account) (amount : Z) :
  preserves P (AccountRepository.subtract_balance a amount).
Proof.
  unfold AccountRepository.subtract_balance. preserves_auto HP; apply Hflush.
Qed.

Lemma preserves_complete_deposit_locked (amb : Ambient) (t : Transaction)
    (bank_transaction_id : string) (bank_response : option string) :
  preserves P
    (DepositService._complete_deposit_locked amb t bank_transaction_id bank_response).
Proof.
  unfold DepositService._complete_deposit_locked, AccountRepository.get_by_id_with_lock.
  preserves_auto HP;
    auto using preserves_add_balance, preserves_update_and_commit,
      preserves_trigger_webhook.
Qed.

Lemma preserves_complete_withdrawal_locked (amb : Ambient) (t : Transaction)
    (bank_transaction_id : string) (bank_response : option string) :
  preserves P
    (WithdrawalService._complete_withdrawal_locked amb t bank_transaction_id bank_response).
Proof.
  unfold WithdrawalService._complete_withdrawal_locked, AccountRepository.get_by_id_with_lock.
  preserves_auto HP;
    auto using preserves_subtract_balance, preserves_update_and_commit,
      preserves_trigger_webhook.
Qed.

Lemma preserves_complete_deposit (amb : Ambient) (has_redis : bool) (id : N)
    (bank_transaction_id : string) (bank_response : option string) :
  preserves P
    (DepositService.complete_deposit amb has_redis id bank_transaction_id bank_response).
Proof.
  unfold DepositService.complete_deposit, with_sync_lock.
  preserves_auto HP;
    auto using preserves_get_transaction, preserves_complete_deposit_locked.
Qed.

Lemma preserves_complete_withdrawal (amb : Ambient) (has_redis : bool) (id : N)
    (bank_transaction_id : string) (bank_response : option string) :
  preserves P
    (WithdrawalService.complete_withdrawal amb has_redis id bank_transaction_id
       bank_response).
Proof.
  unfold WithdrawalService.complete_withdrawal, with_sync_lock.
  preserves_auto HP;
    auto using preserves_get_transaction, preserves_complete_withdrawal_locked.
Qed.

Lemma preserves_handle_success (s : Strategy.t) (amb : Ambient) (id : N)
    (r : BankResponse) :
  preserves P (GenericTransactionProcessor._handle_success s amb id r).
Proof.
  unfold GenericTransactionProcessor._handle_success, Strategy.complete_transaction.
  preserves_auto HP;
    auto using preserves_complete_deposit, preserves_complete_withdrawal.
Qed.

(** The whole worker job, whatever the bank answers. *)
Lemma preserves_process_ledger (s : Strategy.t) (task : TaskInstance) (amb : Ambient)
    (bank : BankOutcome) (id : N) :
  preserves P (GenericTransactionProcessor.process s task amb bank id).
Proof.
  apply (preserves_process _ HP). intros r _ _. apply preserves_handle_success.
Qed.

End StableLedger.


(** ** Exception messages and the [not found] test of the processor *)

Lemma string_mem_app (c : ascii) (a b : string) :
  string_mem c (a +:+ b) = string_mem c a || string_mem c b.
Proof.
  induction a as [| d a IH]; [reflexivity |].
  rewrite append_cons. cbn [string_mem]. rewrite IH. apply orb_assoc.
Qed.

Lemma lower_app (a b : string) : lower (a +:+ b) = lower a +:+ lower b.
Proof.
  induction a as [| d a IH]; [reflexivity |].
  rewrite append_cons. cbn [lower]. rewrite IH. reflexivity.
Qed.

Lemma prefix_chars (c : ascii) (needle hay : string) :
  String.prefix needle hay = true -> string_mem c needle = true -> string_mem c hay = true.
Proof.
  revert hay. induction needle as [| d needle IH]; intros hay Hp Hm; [discriminate |].
  destruct hay as [| h hay]; [discriminate |].
  cbn [String.prefix] in Hp. cbn [string_mem] in *.
  destruct (ascii_dec d h) as [-> | Hne]; [| discriminate].
  apply orb_true_iff in Hm. apply orb_true_iff. destruct Hm as [Hm | Hm]; [left | right]; auto.
Qed.

(** A string that contains [needle] contains each of its characters. *)
Lemma contains_chars (c : ascii) (needle hay : string) :
  contains needle hay = true -> string_mem c needle = true -> string_mem c hay = true.
Proof.
  induction hay as [| h hay IH]; intros Hc Hm.
  - cbn [contains] in Hc. destruct (String.prefix needle EmptyString) eqn:Hp; [| discriminate].
    eapply prefix_chars; eauto.
  - cbn [contains] in Hc. destruct (String.prefix needle (String h hay)) eqn:Hp.
    + eapply prefix_chars; eauto.
    + cbn [string_mem]. rewrite (IH Hc Hm). apply orb_true_r.
Qed.

Lemma plain_lower (s : string) : string_forallb plain s = true -> lower s = s.
Proof.
  induction s as [| c s IH]; [reflexivity |].
  cbn [string_forallb lower]. intros H. apply andb_true_iff in H. destruct H as [Hc Hs].
  rewrite (IH Hs). f_equal. unfold lower_ascii, plain in *. apply N.ltb_lt in Hc.
  replace ((65 <=? N_of_ascii c)%N) with false by (symmetry; apply N.leb_gt; lia).
  replace ((192 <=? N_of_ascii c)%N) with false by (symmetry; apply N.leb_gt; lia).
  reflexivity.
Qed.

Lemma plain_no_letter (c : ascii) (s : string) :
  (65 <= N_of_ascii c)%N -> string_forallb plain s = true -> string_mem c s = false.
Proof.
  intros Hc. induction s as [| d s IH]; [reflexivity |].
  cbn [string_forallb string_mem]. intros H. apply andb_true_iff in H. destruct H as [Hd Hs].
  rewrite (IH Hs), orb_false_r. apply Ascii.eqb_neq. intros ->.
  unfold plain in Hd. apply N.ltb_lt in Hd. lia.
Qed.

Lemma digit_char_plain (d : N) : (d < 10)%N -> plain (digit_char d) = true.
Proof.
  intros Hd. unfold plain, digit_char. apply N.ltb_lt. rewrite N_ascii_embedding; lia.
Qed.

Lemma digits_fuel_plain (fuel : nat) (n : N) (acc : string) :
  string_forallb plain acc = true -> string_forallb plain (digits_fuel fuel n acc) = true.
Proof.
  revert n acc. induction fuel as [| f IH]; intros n acc Hacc; [exact Hacc |].
  cbn [digits_fuel].
  assert (Hd : plain (digit_char (n mod 10)) = true).
  { apply digit_char_plain. apply N.mod_lt. lia. }
  destruct (n / 10 =? 0)%N.
  - cbn [string_forallb]. rewrite Hd, Hacc. reflexivity.
  - apply IH. cbn [string_forallb]. rewrite Hd, Hacc. reflexivity.
Qed.

Lemma str_decimal_plain (z : Z) : string_forallb plain (str_decimal z) = true.
Proof.
  unfold str_decimal. rewrite !string_forallb_app.
  assert (H1 : string_forallb plain (if z <? 0 then "-" else EmptyString) = true)
    by (destruct (z <? 0); reflexivity).
  rewrite H1. unfold str_N. rewrite digits_fuel_plain by reflexivity.
  cbn [string_forallb].
  rewrite !digit_char_plain by (apply N.mod_lt; lia). reflexivity.
Qed.

(** The message of [InsufficientBalanceError] never passes for a missing
    row. *)
Lemma insufficient_balance_message_not_found (available required : Z) :
  contains "not found"
    (lower ("Insufficient balance. Available: " +:+ str_decimal available
            +:+ ", Required: " +:+ str_decimal required)) = false.
Proof.
  destruct (contains _ _) eqn:E; [| reflexivity]. exfalso.
  apply (contains_chars "o"%char) in E; [| reflexivity].
  rewrite !lower_app, !string_mem_app in E.
  rewrite !(plain_lower (str_decimal _)) in E by apply str_decimal_plain.
  rewrite !(plain_no_letter "o"%char (str_decimal _)) in E
    by (try apply str_decimal_plain; vm_compute; discriminate).
  vm_compute in E. discriminate.
Qed.


(** ** Account and transaction services *)

Lemma add_balance_non_positive (a : Account) (amount : Z) (e : Env) :
  amount <= 0 ->
  AccountRepository.add_balance a amount e
  = (Raise (Exc ValueError "Amount must be positive"), e).
Proof.
  intros H. unfold AccountRepository.add_balance.
  apply Z.leb_le in H. rewrite H. reflexivity.
Qed.

Lemma add_balance_ok (a : Account) (amount : Z) (e : Env) :
  0 < amount -> 0 <= acc_balance a ->
  AccountRepository.add_balance a amount e
  = (Ok (acc_with_balance (acc_balance a + amount) a),
     env_with_session
       (put_account (acc_with_balance (acc_balance a + amount) a) (session e)) e).
Proof.
  intros Hpos Hbal. unfold AccountRepository.add_balance.
  replace (amount <=? 0) with false by (symmetry; apply Z.leb_gt; lia).
  unfold Session.flush_account, Session.check_balance_non_negative, bind. simpl.
  replace (0 <=? acc_balance a + amount) with true by (symmetry; apply Z.leb_le; lia).
  reflexivity.
Qed.

Lemma subtract_balance_non_positive (a : Account) (amount : Z) (e : Env) :
  amount <= 0 ->
  AccountRepository.subtract_balance a amount e
  = (Raise (Exc ValueError "Amount must be positive"), e).
Proof.
  intros H. unfold AccountRepository.subtract_balance.
  apply Z.leb_le in H. rewrite H. reflexivity.
Qed.

Lemma subtract_balance_insufficient (a : Account) (amount : Z) (e : Env) :
  0 < amount -> acc_balance a < amount ->
  AccountRepository.subtract_balance a amount e
  = (Raise (Exc InsufficientBalanceError
              ("Insufficient balance. Available: " +:+ str_decimal (acc_balance a)
               +:+ ", Required: " +:+ str_decimal amount)), e).
Proof.
  intros Hpos Hlt. unfold AccountRepository.subtract_balance.
  replace (amount <=? 0) with false by (symmetry; apply Z.leb_gt; lia).
  apply Z.ltb_lt in Hlt. rewrite Hlt. reflexivity.
Qed.

Lemma subtract_balance_ok (a : Account) (amount : Z) (e : Env) :
  0 < amount -> amount <= acc_balance a ->
  AccountRepository.subtract_balance a amount e
  = (Ok (acc_with_balance (acc_balance a - amount) a),
     env_with_session
       (put_account (acc_with_balance (acc_balance a - amount) a) (session e)) e).
Proof.
  intros Hpos Hle. unfold AccountRepository.subtract_balance.
  replace (amount <=? 0) with false by (symmetry; apply Z.leb_gt; lia).
  replace (acc_balance a <? amount) with false by (symmetry; apply Z.ltb_ge; lia).
  unfold Session.flush_account, Session.check_balance_non_negative, bind. simpl.
  replace (0 <=? acc_balance a - amount) with true by (symmetry; apply Z.leb_le; lia).
  reflexivity.
Qed.

Lemma get_transaction_found (id : N) (t : Transaction) (e : Env) :
  transactions (session e) !! id = Some t ->
  BaseTransactionService._get_transaction_or_raise id e = (Ok t, e).
Proof.
  intros H. unfold BaseTransactionService._get_transaction_or_raise,
    TransactionRepository.get_by_id, bind, get_state, ret.
  rewrite H. reflexivity.
Qed.

Lemma update_and_commit_ok (t : Transaction) (e : Env) :
  0 < tx_amount t ->
  BaseTransactionService._update_and_commit t e
  = (Ok t, env_commit (env_with_session (put_transaction t (session e)) e)).
Proof.
  intros H. unfold BaseTransactionService._update_and_commit,
    TransactionRepository.update, Session.flush_transaction,
    Session.check_amount_positive, Session.commit, bind.
  apply Z.ltb_lt in H. rewrite H. reflexivity.
Qed.

Lemma update_status_ok (id : N) (s : TransactionStatus.t) (t : Transaction) (e : Env) :
  transactions (session e) !! id = Some t -> 0 < tx_amount t ->
  BaseTransactionService.update_status id s e
  = (Ok (tx_with_status s t),
     env_commit (env_with_session (put_transaction (tx_with_status s t) (session e)) e)).
Proof.
  intros Hl Hpos. unfold BaseTransactionService.update_status.
  rewrite (bind_ok _ _ _ _ _ (get_transaction_found id t e Hl)).
  apply update_and_commit_ok. exact Hpos.
Qed.

Lemma mark_pending_review_ok (id : N) (reason : string) (resp : option string)
    (t : Transaction) (e : Env) :
  transactions (session e) !! id = Some t -> 0 < tx_amount t ->
  BaseTransactionService.mark_pending_review id reason resp e
  = (Ok (tx_with_bank_response resp
           (tx_with_error_message (Some reason)
              (tx_with_status TransactionStatus.PENDING_REVIEW t))),
     env_commit
       (env_with_session
          (put_transaction
             (tx_with_bank_response resp
                (tx_with_error_message (Some reason)
                   (tx_with_status TransactionStatus.PENDING_REVIEW t)))
             (session e)) e)).
Proof.
  intros Hl Hpos. unfold BaseTransactionService.mark_pending_review.
  rewrite (bind_ok _ _ _ _ _ (get_transaction_found id t e Hl)).
  apply update_and_commit_ok. exact Hpos.
Qed.

Lemma same_ledger_refl (T : Tables) : same_ledger T T.
Proof. split; reflexivity. Qed.

(** The webhook trigger leaves accounts and transactions alone; it commits at
    most once; it can only fail on a clash of the new delivery's key. *)
Lemma trigger_webhook_cases (amb : Ambient) (t : Transaction) (a : Account) (e : Env) :
  exists (r : result unit) (e' : Env),
    BaseTransactionService._trigger_webhook_if_configured amb t a e = (r, e')
    /\ (webhook_deliveries (session e) !! delivery_id amb = None -> r = Ok tt)
    /\ same_ledger (session e') (session e)
    /\ ((database e' = database e /\ commit_log e' = commit_log e)
        \/ (database e' = session e' /\ commit_log e' = commit_log e ++ [session e']))
    /\ cache e' = cache e.
Proof.
  unfold BaseTransactionService._trigger_webhook_if_configured, UserRepository.get_by_id,
    bind, get_state, ret.
  destruct (users (session e) !! acc_user_id a) as [u |].
  2: { exists (Ok tt), e. repeat split; auto. }
  destruct (usr_webhook_url u) as [url |].
  2: { exists (Ok tt), e. repeat split; auto. }
  destruct (String.eqb url EmptyString).
  { exists (Ok tt), e. repeat split; auto. }
  unfold WebhookRepository.create_delivery, Session.flush_new_webhook_delivery,
    bind, get_state, ret. simpl.
  destruct (webhook_deliveries (session e) !! delivery_id amb) as [d |] eqn:Hd.
  - eexists _, _. split; [reflexivity |]. repeat split; auto. discriminate.
  - eexists _, _. split; [reflexivity |]. simpl. repeat split; auto.
Qed.

Lemma complete_withdrawal_locked_insufficient (amb : Ambient) (t : Transaction)
    (a : Account) (bank_transaction_id : string) (bank_response : option string)
    (e : Env) :
  accounts (session e) !! tx_account_id t = Some a ->
  0 < tx_amount t ->
  acc_balance a < tx_amount t ->
  WithdrawalService._complete_withdrawal_locked amb t bank_transaction_id bank_response e
  = (Raise (Exc InsufficientBalanceError
              ("Insufficient balance. Available: " +:+ str_decimal (acc_balance a)
               +:+ ", Required: " +:+ str_decimal (tx_amount t))),
     env_with_session (database e) e).
Proof.
  intros Ha Hpos Hlt. unfold WithdrawalService._complete_withdrawal_locked.
  erewrite try_except_raise.
  - reflexivity.
  - unfold AccountRepository.get_by_id_with_lock, bind at 1, get_state, ret. simpl.
    rewrite Ha.
    erewrite bind_raise; [reflexivity |].
    apply subtract_balance_insufficient; assumption.
Qed.

(** The shape shared by the two completions once the balance change
    [a'] has been flushed: one commit publishes [a'] and the completed
    transaction together, the trigger may add a commit with the same
    accounts and transactions, and nothing else is published. *)
Lemma completion_tail (amb : Ambient) (t' : Transaction) (a' : Account) (e e0 : Env)
    (body : M Env Transaction) :
  0 < tx_amount t' ->
  body e =
    (let* _ := BaseTransactionService._update_and_commit t' in
     BaseTransactionService._trigger_webhook_if_configured amb t' a' ;;
     ret t') e0 ->
  let S1 := put_transaction t' (session e0) in
  exists (r : result Transaction) (e' : Env),
    try_except body (fun x => Session.rollback ;; raise x) e = (r, e')
    /\ (webhook_deliveries (session e0) !! delivery_id amb = None -> r = Ok t')
    /\ same_ledger (database e') S1
    /\ same_ledger (session e') S1
    /\ (exists rest, commit_log e' = commit_log e0 ++ S1 :: rest
                     /\ Forall (fun T => same_ledger T S1) rest)
    /\ cache e' = cache e0.
Proof.
  intros Hpos Hbody S1. unfold try_except. rewrite Hbody.
  rewrite (bind_ok _ _ _ _ _ (update_and_commit_ok t' e0 Hpos)).
  set (e1 := env_commit (env_with_session (put_transaction t' (session e0)) e0)).
  destruct (trigger_webhook_cases amb t' a' e1) as (r & e2 & Hrun & Hfresh & Hled & Hdb & Hc).
  unfold bind. rewrite Hrun.
  assert (Hs1 : session e1 = S1) by reflexivity.
  assert (Hd1 : database e1 = S1) by reflexivity.
  assert (Hl1 : commit_log e1 = commit_log e0 ++ [S1]) by reflexivity.
  rewrite Hs1 in Hled.
  destruct r as [[] | x].
  - exists (Ok t'), e2. simpl. split; [reflexivity |]. split; [reflexivity |].
    split.
    { destruct Hdb as [[Hdb _] | [Hdb _]]; rewrite Hdb; [rewrite Hd1; apply same_ledger_refl | exact Hled]. }
    split; [exact Hled |]. split; [| rewrite Hc; reflexivity].
    destruct Hdb as [[_ Hlog] | [_ Hlog]]; rewrite Hlog, Hl1.
    + exists []. split; [reflexivity | constructor].
    + exists [session e2]. rewrite <- app_assoc. split; [reflexivity |].
      constructor; [exact Hled | constructor].
  - exists (Raise x), (env_with_session (database e2) e2). simpl.
    split; [reflexivity |].
    split.
    { intros Hf. assert (Hf' : webhook_deliveries (session e1) !! delivery_id amb = None)
        by exact Hf. specialize (Hfresh Hf'). discriminate. }
    assert (Hdl : same_ledger (database e2) S1).
    { destruct Hdb as [[Hdb _] | [Hdb _]]; rewrite Hdb; [rewrite Hd1; apply same_ledger_refl | exact Hled]. }
    split; [exact Hdl |]. split; [exact Hdl |]. split; [| rewrite Hc; reflexivity].
    destruct Hdb as [[_ Hlog] | [_ Hlog]]; rewrite Hlog, Hl1.
    + exists []. split; [reflexivity | constructor].
    + exists [session e2]. rewrite <- app_assoc. split; [reflexivity |].
      constructor; [exact Hled | constructor].
Qed.

Lemma complete_withdrawal_locked_sufficient (amb : Ambient) (t : Transaction)
    (a : Account) (bank_transaction_id : string) (bank_response : option string)
    (e : Env) :
  accounts (session e) !! tx_account_id t = Some a ->
  0 < tx_amount t ->
  tx_amount t <= acc_balance a ->
  let a' := acc_with_balance (acc_balance a - tx_amount t) a in
  let t' := completed t bank_transaction_id bank_response in
  let S1 := put_transaction t' (put_account a' (session e)) in
  exists (r : result Transaction) (e' : Env),
    WithdrawalService._complete_withdrawal_locked amb t bank_transaction_id bank_response e
      = (r, e')
    /\ (webhook_deliveries (session e) !! delivery_id amb = None -> r = Ok t')
    /\ same_ledger (database e') S1
    /\ same_ledger (session e') S1
    /\ (exists rest, commit_log e' = commit_log e ++ S1 :: rest
                     /\ Forall (fun T => same_ledger T S1) rest)
    /\ cache e' = cache e.
Proof.
  intros Ha Hpos Hle a' t' S1.
  unfold WithdrawalService._complete_withdrawal_locked.
  apply (completion_tail amb t' a' e (env_with_session (put_account a' (session e)) e)).
  - exact Hpos.
  - unfold AccountRepository.get_by_id_with_lock, bind at 1, get_state, ret. simpl.
    rewrite Ha.
    rewrite (bind_ok _ _ _ _ _ (subtract_balance_ok a (tx_amount t) e Hpos Hle)).
    reflexivity.
Qed.

Lemma complete_deposit_locked_ok (amb : Ambient) (t : Transaction)
    (a : Account) (bank_transaction_id : string) (bank_response : option string)
    (e : Env) :
  accounts (session e) !! tx_account_id t = Some a ->
  0 < tx_amount t ->
  0 <= acc_balance a ->
  let a' := acc_with_balance (acc_balance a + tx_amount t) a in
  let t' := completed t bank_transaction_id bank_response in
  let S1 := put_transaction t' (put_account a' (session e)) in
  exists (r : result Transaction) (e' : Env),
    DepositService._complete_deposit_locked amb t bank_transaction_id bank_response e
      = (r, e')
    /\ (webhook_deliveries (session e) !! delivery_id amb = None -> r = Ok t')
    /\ same_ledger (database e') S1
    /\ same_ledger (session e') S1
    /\ (exists rest, commit_log e' = commit_log e ++ S1 :: rest
                     /\ Forall (fun T => same_ledger T S1) rest)
    /\ cache e' = cache e.
Proof.
  intros Ha Hpos Hbal a' t' S1.
  unfold DepositService._complete_deposit_locked.
  apply (completion_tail amb t' a' e (env_with_session (put_account a' (session e)) e)).
  - exact Hpos.
  - unfold AccountRepository.get_by_id_with_lock, bind at 1, get_state, ret. simpl.
    rewrite Ha.
    rewrite (bind_ok _ _ _ _ _ (add_balance_ok a (tx_amount t) e Hpos Hbal)).
    reflexivity.
Qed.

Lemma key_in_use_false (k : string) (txs : gmap N Transaction) :
  ~ map_Exists (fun _ t => tx_idempotency_key t = Some k) txs ->
  Session.key_in_use k txs = false.
Proof. intros H. unfold Session.key_in_use. apply bool_decide_eq_false. exact H. Qed.

Lemma flush_new_transaction_ok (t : Transaction) (e : Env) :
  transactions (session e) !! tx_id t = None ->
  0 < tx_amount t ->
  (forall k, tx_idempotency_key t = Some k ->
             ~ map_Exists (fun _ t' => tx_idempotency_key t' = Some k)
                 (transactions (session e))) ->
  Session.flush_new_transaction t e
  = (Ok tt, env_with_session (put_transaction t (session e)) e).
Proof.
  intros Hfresh Hpos Hkey.
  unfold Session.flush_new_transaction, bind at 1, get_state. simpl.
  rewrite Hfresh. unfold Session.check_amount_positive.
  apply Z.ltb_lt in Hpos. rewrite Hpos. rewrite bind_ret_l.
  destruct (tx_idempotency_key t) as [k |].
  - rewrite (key_in_use_false k _ (Hkey k eq_refl)). reflexivity.
  - reflexivity.
Qed.


(** ** Claims about balances and withdrawal creation *)

(** C3.  Under [balance >= 0]: [add_balance] either raises [ValueError]
    (amount not positive) and changes nothing, or writes a strictly larger
    balance; [subtract_balance] raises [InsufficientBalanceError] and
    changes nothing whenever [balance < amount], and otherwise either raises
    [ValueError] or writes the non-negative balance [balance - amount].
    Consequently deposit completion, withdrawal completion and the whole
    worker job keep the invariant: if no account is negative in the
    committed state, in the session view and in any state published so far,
    the same holds afterwards, for every state appended to the commit log. *)
Theorem C3_balance_non_negative_at_every_commit :
  (forall (account : Account) (amount : Z) (e : Env),
      0 <= acc_balance account ->
      match AccountRepository.add_balance account amount e with
      | (Ok account', e') =>
          acc_balance account < acc_balance account'
          /\ acc_balance account' = acc_balance account + amount
          /\ session e' = put_account account' (session e)
      | (Raise x, e') => exc_class x = ValueError /\ amount <= 0 /\ e' = e
      end)
  /\ (forall (account : Account) (amount : Z) (e : Env),
        0 <= acc_balance account ->
        acc_balance account < amount ->
        AccountRepository.subtract_balance account amount e
        = (Raise (Exc InsufficientBalanceError
                    ("Insufficient balance. Available: "
                     +:+ str_decimal (acc_balance account)
                     +:+ ", Required: " +:+ str_decimal amount)), e))
  /\ (forall (account : Account) (amount : Z) (e : Env),
        amount <= acc_balance account ->
        match AccountRepository.subtract_balance account amount e with
        | (Ok account', e') =>
            0 <= acc_balance account'
            /\ acc_balance account' = acc_balance account - amount
            /\ session e' = put_account account' (session e)
        | (Raise x, e') => exc_class x = ValueError /\ amount <= 0 /\ e' = e
        end)
  /\ (forall (amb : Ambient) (has_redis : bool) (transaction_id : N)
             (bank_transaction_id : string) (bank_response : option string) (e : Env),
        commit_invariant e ->
        commit_invariant
          (snd (DepositService.complete_deposit amb has_redis transaction_id
                  bank_transaction_id bank_response e))
        /\ commit_invariant
             (snd (WithdrawalService.complete_withdrawal amb has_redis transaction_id
                     bank_transaction_id bank_response e)))
  /\ (forall (strategy : Strategy.t) (task : TaskInstance) (amb : Ambient)
             (bank : BankOutcome) (transaction_id : N) (e : Env),
        commit_invariant e ->
        commit_invariant
          (snd (GenericTransactionProcessor.process strategy task amb bank
                  transaction_id e))).
Proof.
  split; [| split; [| split; [| split]]].
  - intros account amount e Hbal.
    destruct (Z_le_gt_dec amount 0) as [Hle | Hgt].
    + rewrite add_balance_non_positive by assumption. repeat split; auto.
    + rewrite add_balance_ok by lia. simpl. repeat split; lia.
  - intros account amount e Hbal Hlt.
    apply subtract_balance_insufficient; lia.
  - intros account amount e Hle.
    destruct (Z_le_gt_dec amount 0) as [Hnp | Hgt].
    + rewrite subtract_balance_non_positive by assumption. repeat split; auto.
    + rewrite subtract_balance_ok by lia. simpl. repeat split; lia.
  - intros amb has_redis id bid resp e H. split.
    + apply (preserves_complete_deposit _ commit_invariant_stable
               preserves_invariant_flush_account). exact H.
    + apply (preserves_complete_withdrawal _ commit_invariant_stable
               preserves_invariant_flush_account). exact H.
  - intros strategy task amb bank id e H.
    apply (preserves_process_ledger _ commit_invariant_stable
             preserves_invariant_flush_account). exact H.
Qed.

Lemma example_env_invariant : commit_invariant example_env.
Proof.
  assert (H : balances_non_negative example_tables).
  { intros id a Hl. unfold example_tables in Hl. simpl in Hl.
    apply lookup_singleton_Some in Hl. destruct Hl as [_ <-]. simpl. lia. }
  repeat split; auto.
Qed.

Lemma C3_balance_non_negative_at_every_commit_witness :
  AccountRepository.subtract_balance example_account 8000 example_env
  = (Raise (Exc InsufficientBalanceError
              "Insufficient balance. Available: 20.00, Required: 80.00"), example_env)
  /\ commit_invariant
       (snd (WithdrawalService.complete_withdrawal example_ambient false 5 "BANK-WTH-1"
               None example_env)).
Proof.
  destruct C3_balance_non_negative_at_every_commit as (_ & Hsub & _ & Hcompl & _).
  split.
  - apply (Hsub example_account 8000 example_env); simpl; lia.
  - apply (Hcompl example_ambient false 5%N "BANK-WTH-1" None example_env).
    exact example_env_invariant.
Defined.

(** C6.  [create_pending_withdrawal] on an existing account, in a session
    that starts from the committed state.  If the balance is below the
    amount, the call raises [InsufficientBalanceError] and the environment is
    untouched: no row is created and the balance is what it was.  If the
    balance covers the (positive) amount and the new primary key and the
    idempotency key are unused, the call returns the new transaction, of type
    WITHDRAWAL and status PENDING, and one commit publishes the committed
    state extended with that row; the accounts, hence the balance, are
    unchanged. *)
Theorem C6_create_pending_withdrawal
    (new_id account_id : N) (amount : Z) (currency : string)
    (idempotency_key celery_task_id : option string) (account : Account) (e : Env) :
  session e = database e ->
  accounts (database e) !! account_id = Some account ->
  (acc_balance account < amount ->
     WithdrawalService.create_pending_withdrawal new_id account_id amount currency
       idempotency_key celery_task_id e
     = (Raise (Exc InsufficientBalanceError
                 ("Insufficient balance. Available: " +:+ str_decimal (acc_balance account)
                  +:+ ", Required: " +:+ str_decimal amount)), e))
  /\
  (amount <= acc_balance account ->
   0 < amount ->
   transactions (database e) !! new_id = None ->
   (forall k, idempotency_key = Some k ->
              ~ map_Exists (fun _ t => tx_idempotency_key t = Some k)
                  (transactions (database e))) ->
   let created :=
     mkTransaction new_id account_id TransactionType.WITHDRAWAL amount currency
       TransactionStatus.PENDING None None None None idempotency_key celery_task_id in
   exists e' : Env,
     WithdrawalService.create_pending_withdrawal new_id account_id amount currency
       idempotency_key celery_task_id e = (Ok created, e')
     /\ database e' = put_transaction created (database e)
     /\ session e' = database e'
     /\ commit_log e' = commit_log e ++ [database e']
     /\ transactions (database e') !! new_id = Some created
     /\ accounts (database e') = accounts (database e)).
Proof.
  intros Hsess Hacc. split.
  - intros Hlt. unfold WithdrawalService.create_pending_withdrawal,
      AccountRepository.get_by_id_with_lock, bind, get_state, ret. simpl.
    rewrite Hsess, Hacc. apply Z.ltb_lt in Hlt. rewrite Hlt. reflexivity.
  - intros Hle Hpos Hfresh Hkey created.
    exists (env_commit (env_with_session (put_transaction created (session e)) e)).
    split.
    + unfold WithdrawalService.create_pending_withdrawal,
        AccountRepository.get_by_id_with_lock, bind at 1, get_state, ret. simpl.
      rewrite Hsess, Hacc.
      replace (acc_balance account <? amount) with false
        by (symmetry; apply Z.ltb_ge; lia).
      unfold TransactionRepository.create.
      fold created.
      assert (Hflush : Session.flush_new_transaction created e
                       = (Ok tt, env_with_session (put_transaction created (session e)) e)).
      { apply flush_new_transaction_ok; simpl; rewrite ?Hsess; auto. }
      unfold bind. rewrite Hflush. rewrite Hsess. reflexivity.
    + simpl. rewrite Hsess. repeat split; auto.
      apply lookup_insert_eq.
Qed.

Lemma C6_create_pending_withdrawal_witness :
  WithdrawalService.create_pending_withdrawal 6 1 5000 "USD" (Some "k2") None example_env
  = (Raise (Exc InsufficientBalanceError
              "Insufficient balance. Available: 20.00, Required: 50.00"), example_env)
  /\ exists e' : Env,
       WithdrawalService.create_pending_withdrawal 6 1 1500 "USD" (Some "k2") None
         example_env
       = (Ok (mkTransaction 6 1 TransactionType.WITHDRAWAL 1500 "USD"
                TransactionStatus.PENDING None None None None (Some "k2") None), e')
       /\ accounts (database e') !! 1%N = Some example_account.
Proof.
  split.
  - apply (C6_create_pending_withdrawal 6 1 5000 "USD" (Some "k2") None example_account
             example_env eq_refl eq_refl).
    simpl. lia.
  - destruct (C6_create_pending_withdrawal 6 1 1500 "USD" (Some "k2") None example_account
                example_env eq_refl eq_refl) as [_ H].
    destruct H as (e' & Hrun & _ & _ & _ & _ & Hacc).
    + simpl. lia.
    + lia.
    + reflexivity.
    + intros k Hk. inversion Hk. subst k. intros (i & t & Hl & Hkey).
      unfold example_env, example_tables in Hl. simpl in Hl.
      apply lookup_singleton_Some in Hl. destruct Hl as [_ <-]. discriminate.
    + exists e'. split; [exact Hrun |]. rewrite Hacc. reflexivity.
Defined.


(** ** The worker processor *)

Lemma complete_withdrawal_insufficient (amb : Ambient) (tid : N) (t : Transaction)
    (a : Account) (bank_transaction_id : string) (bank_response : option string)
    (e : Env) :
  transactions (session e) !! tid = Some t ->
  accounts (session e) !! tx_account_id t = Some a ->
  0 < tx_amount t ->
  acc_balance a < tx_amount t ->
  WithdrawalService.complete_withdrawal amb false tid bank_transaction_id bank_response e
  = (Raise (Exc InsufficientBalanceError
              ("Insufficient balance. Available: " +:+ str_decimal (acc_balance a)
               +:+ ", Required: " +:+ str_decimal (tx_amount t))),
     env_with_session (database e) e).
Proof.
  intros Ht Ha Hpos Hlt. unfold WithdrawalService.complete_withdrawal.
  rewrite (bind_ok _ _ _ _ _ (get_transaction_found tid t e Ht)).
  apply complete_withdrawal_locked_insufficient; assumption.
Qed.

Lemma process_withdrawal_insufficient (task : TaskInstance) (amb : Ambient)
    (r : BankResponse) (tid : N) (tx : Transaction) (acc : Account) (e : Env) :
  transactions (database e) !! tid = Some tx ->
  tx_id tx = tid ->
  0 < tx_amount tx ->
  accounts (database e) !! tx_account_id tx = Some acc ->
  acc_balance acc < tx_amount tx ->
  br_status r = BankResponseStatus.SUCCESS ->
  let msg := "Insufficient balance. Available: " +:+ str_decimal (acc_balance acc)
             +:+ ", Required: " +:+ str_decimal (tx_amount tx) in
  let t1 := tx_with_status TransactionStatus.PROCESSING tx in
  let S1 := put_transaction t1 (database e) in
  let t2 := tx_with_bank_response None
              (tx_with_error_message
                 (Some ("Max retries exceeded: " +:+ msg +:+ "."
                        +:+ " Balance reserved, requires manual review."))
                 (tx_with_status TransactionStatus.PENDING_REVIEW t1)) in
  let S2 := put_transaction t2 S1 in
  GenericTransactionProcessor.process Strategy.WithdrawalStrategy task amb
    (BankReturns r) tid e
  = if max_retries task <=? retries task then
      (Ok (ResultPendingReview (str_uuid tid) msg
             (Some "Balance reserved, manual review required")),
       mkEnv S2 S2 (cache e) (task_queue e) (commit_log e ++ [S1; S2]))
    else
      (Raise (Exc InsufficientBalanceError msg),
       mkEnv S1 S1 (cache e) (task_queue e) (commit_log e ++ [S1])).
Proof.
  intros Htx Hid Hpos Hacc Hlt Hst msg t1 S1 t2 S2.
  unfold GenericTransactionProcessor.process.
  unfold bind at 1. unfold GenericTransactionProcessor.get_db at 1. simpl.
  set (e0 := env_with_session (database e) e).
  assert (H1 : BaseTransactionService.update_status tid TransactionStatus.PROCESSING e0
               = (Ok t1, env_commit (env_with_session (put_transaction t1 (session e0)) e0))).
  { apply update_status_ok; assumption. }
  set (e1 := env_commit (env_with_session (put_transaction t1 (session e0)) e0)) in H1.
  assert (Ht1 : transactions (session e1) !! tid = Some t1).
  { simpl. rewrite Hid. apply lookup_insert_eq. }
  assert (Ha1 : accounts (session e1) !! tx_account_id t1 = Some acc) by exact Hacc.
  assert (H2 : GenericTransactionProcessor._handle_success Strategy.WithdrawalStrategy amb
                 tid r e1
               = (Raise (Exc InsufficientBalanceError msg), env_with_session (database e1) e1)).
  { unfold GenericTransactionProcessor._handle_success, Strategy.complete_transaction.
    erewrite bind_raise; [reflexivity |].
    erewrite bind_raise; [reflexivity |].
    apply (complete_withdrawal_insufficient amb tid t1 acc); assumption. }
  unfold try_finally, try_except.
  rewrite (bind_ok _ _ _ _ _ H1).
  unfold GenericTransactionProcessor.call_bank. rewrite bind_ret_l. rewrite Hst.
  rewrite H2.
  unfold GenericTransactionProcessor._handle_exception.
  cbn [exc_msg].
  assert (Hnf : contains "not found" (lower msg) = false)
    by apply insufficient_balance_message_not_found.
  rewrite Hnf.
  destruct (max_retries task <=? retries task).
  - unfold GenericTransactionProcessor._mark_for_review.
    cbn [Strategy.get_transaction_type_name String.eqb Ascii.eqb Bool.eqb exc_msg].
    set (e2 := env_with_session (database e1) e1).
    assert (H3 : BaseTransactionService.mark_pending_review tid
                   ("Max retries exceeded: " +:+ msg +:+ "."
                    +:+ " Balance reserved, requires manual review.") None
                   (env_with_session (database e2) e2)
                 = (Ok t2, env_commit (env_with_session
                                         (put_transaction t2 (database e2))
                                         (env_with_session (database e2) e2)))).
    { apply mark_pending_review_ok; [exact Ht1 | exact Hpos]. }
    unfold Session.in_new_session, try_finally, try_except.
    unfold bind at 1. unfold bind at 1.
    rewrite H3. simpl. unfold env_commit, env_with_session. simpl.
    rewrite <- app_assoc. reflexivity.
  - simpl. reflexivity.
Qed.

Lemma log_extends_stable (L : list Tables) : stable (log_extends L).
Proof.
  constructor.
  - intros e (rest & H). exists (rest ++ [session e]). simpl. rewrite H.
    symmetry. apply app_assoc.
  - intros e H. exact H.
  - intros e e' (rest & H) _ _ Hl. exists rest. rewrite Hl. exact H.
  - intros e e' _ H. exact H.
Qed.

Lemma log_extends_flush_account (L : list Tables) (a : Account) :
  preserves (log_extends L) (Session.flush_account a).
Proof.
  intros e H. unfold Session.flush_account, Session.check_balance_non_negative, bind.
  destruct (0 <=? acc_balance a); exact H.
Qed.

(** [process] begins by opening a session, so the view left behind by
    earlier code does not matter. *)
Lemma process_fresh_session (s : Strategy.t) (task : TaskInstance) (amb : Ambient)
    (bank : BankOutcome) (tid : N) (e : Env) :
  GenericTransactionProcessor.process s task amb bank tid e
  = GenericTransactionProcessor.process s task amb bank tid
      (env_with_session (database e) e).
Proof. reflexivity. Qed.

Lemma process_after_update (s : Strategy.t) (task : TaskInstance) (amb : Ambient)
    (bank : BankOutcome) (tid : N) (tx : Transaction) (e : Env) :
  transactions (database e) !! tid = Some tx ->
  0 < tx_amount tx ->
  GenericTransactionProcessor.process s task amb bank tid e
  = process_rest s task amb bank tid
      (mkEnv (put_transaction (tx_with_status TransactionStatus.PROCESSING tx) (database e))
             (put_transaction (tx_with_status TransactionStatus.PROCESSING tx) (database e))
             (cache e) (task_queue e)
             (commit_log e
              ++ [put_transaction (tx_with_status TransactionStatus.PROCESSING tx)
                    (database e)])).
Proof.
  intros Htx Hpos.
  unfold GenericTransactionProcessor.process, process_rest.
  unfold bind at 1. unfold GenericTransactionProcessor.get_db at 1. simpl.
  set (e0 := env_with_session (database e) e).
  pose proof (update_status_ok tid TransactionStatus.PROCESSING tx e0 Htx Hpos) as H1.
  unfold try_finally, try_except.
  rewrite (bind_ok _ _ _ _ _ H1). reflexivity.
Qed.

Lemma preserves_process_rest (P : Env -> Prop) (s : Strategy.t) (task : TaskInstance)
    (amb : Ambient) (bank : BankOutcome) (tid : N) :
  stable P ->
  (forall r, bank = BankReturns r -> br_status r = BankResponseStatus.SUCCESS ->
             preserves P (GenericTransactionProcessor._handle_success s amb tid r)) ->
  preserves P (process_rest s task amb bank tid).
Proof.
  intros HP Hsuccess.
  unfold process_rest, GenericTransactionProcessor.call_bank,
    GenericTransactionProcessor._handle_transient_error,
    GenericTransactionProcessor._handle_permanent_failure.
  preserves_step HP; [| preserves_step HP].
  preserves_step HP; [| apply preserves_handle_exception; exact HP].
  destruct bank as [r | x].
  - rewrite bind_ret_l.
    destruct (br_status r) eqn:Hst;
      try (apply (Hsuccess r eq_refl Hst));
      preserves_auto HP; auto using preserves_fail_transaction.
  - rewrite bind_raise_l. preserves_auto HP.
Qed.

Lemma process_deposit_success (task : TaskInstance) (amb : Ambient)
    (r : BankResponse) (tid : N) (tx : Transaction) (acc : Account) (e : Env) :
  transactions (database e) !! tid = Some tx ->
  tx_id tx = tid ->
  0 < tx_amount tx ->
  accounts (database e) !! tx_account_id tx = Some acc ->
  0 <= acc_balance acc ->
  webhook_deliveries (database e) !! delivery_id amb = None ->
  br_status r = BankResponseStatus.SUCCESS ->
  let t1 := tx_with_status TransactionStatus.PROCESSING tx in
  let t' := completed t1 (or_default (br_transaction_id r) EmptyString)
              (Some (or_default (br_message r) EmptyString)) in
  let a' := acc_with_balance (acc_balance acc + tx_amount tx) acc in
  exists e' : Env,
    GenericTransactionProcessor.process Strategy.DepositStrategy task amb
      (BankReturns r) tid e
    = (Ok (ResultSuccess (str_uuid tid) (br_transaction_id r)), e')
    /\ accounts (database e') = <[acc_id acc := a']> (accounts (database e))
    /\ transactions (database e') = <[tid := t']> (transactions (database e)).
Proof.
  intros Htx Hid Hpos Hacc Hbal Hfresh Hst t1 t' a'.
  rewrite (process_after_update _ _ _ _ _ tx e Htx Hpos).
  fold t1. set (S1 := put_transaction t1 (database e)).
  set (e1 := mkEnv S1 S1 (cache e) (task_queue e) (commit_log e ++ [S1])).
  assert (Ht1 : transactions (session e1) !! tid = Some t1).
  { simpl. rewrite Hid. apply lookup_insert_eq. }
  destruct (complete_deposit_locked_ok amb t1 acc
              (or_default (br_transaction_id r) EmptyString)
              (Some (or_default (br_message r) EmptyString)) e1 Hacc Hpos Hbal)
    as (r' & e2 & Hrun & Hok & Hdb & _ & _ & _).
  specialize (Hok Hfresh). subst r'.
  exists (env_with_session (database e2) e2). split.
  - unfold process_rest, try_finally, try_except.
    unfold GenericTransactionProcessor.call_bank. rewrite bind_ret_l. rewrite Hst.
    unfold GenericTransactionProcessor._handle_success, Strategy.complete_transaction,
      DepositService.complete_deposit.
    unfold bind at 1. unfold bind at 1.
    rewrite (bind_ok _ _ _ _ _ (get_transaction_found tid t1 e1 Ht1)).
    rewrite Hrun. reflexivity.
  - destruct Hdb as [Hda Hdt]. simpl. rewrite Hda, Hdt. simpl. split; [reflexivity |].
    rewrite Hid. apply insert_insert_eq.
Qed.

Lemma put_transaction_twice (t1 t2 : Transaction) (T : Tables) :
  tx_id t1 = tx_id t2 ->
  put_transaction t1 (put_transaction t2 T) = put_transaction t1 T.
Proof.
  intros H. unfold put_transaction, tables_with_transactions. simpl.
  rewrite H, insert_insert_eq. reflexivity.
Qed.

Lemma env_with_session_same (e : Env) :
  session e = database e -> env_with_session (database e) e = e.
Proof. intros H. destruct e. simpl in *. subst. reflexivity. Qed.


(** ** Claims about the worker processor and withdrawal completion *)

(** C1 (amended).  The processor does not inspect the stored status of the
    transaction it is handed, terminal or not.  (a) The outcome of a delivery
    (result and final environment) is the same whatever status the row
    carried before.  (b) The first thing the delivery commits is the row
    with status PROCESSING.  (c) If the bank does not answer SUCCESS, no
    account changes.  (d) If the bank answers SUCCESS to a deposit job, the
    completion is carried out (again): the job returns the SUCCESS result,
    the account is credited with the amount and the row ends in SUCCESS. *)
Theorem C1_duplicate_delivery_is_processed_again
    (strategy : Strategy.t) (task : TaskInstance) (amb : Ambient) (bank : BankOutcome)
    (tid : N) (tx : Transaction) (e : Env) :
  transactions (database e) !! tid = Some tx ->
  tx_id tx = tid ->
  0 < tx_amount tx ->
  (forall s0 : TransactionStatus.t,
      GenericTransactionProcessor.process strategy task amb bank tid
        (with_stored_status s0 tx e)
      = GenericTransactionProcessor.process strategy task amb bank tid e)
  /\ log_extends
       (commit_log e
        ++ [put_transaction (tx_with_status TransactionStatus.PROCESSING tx) (database e)])
       (snd (GenericTransactionProcessor.process strategy task amb bank tid e))
  /\ ((forall r, bank = BankReturns r -> br_status r <> BankResponseStatus.SUCCESS) ->
      accounts
        (database (snd (GenericTransactionProcessor.process strategy task amb bank tid e)))
      = accounts (database e))
  /\ (forall (r : BankResponse) (acc : Account),
        bank = BankReturns r ->
        br_status r = BankResponseStatus.SUCCESS ->
        accounts (database e) !! tx_account_id tx = Some acc ->
        acc_id acc = tx_account_id tx ->
        0 <= acc_balance acc ->
        webhook_deliveries (database e) !! delivery_id amb = None ->
        exists e' : Env,
          GenericTransactionProcessor.process Strategy.DepositStrategy task amb bank tid e
          = (Ok (ResultSuccess (str_uuid tid) (br_transaction_id r)), e')
          /\ accounts (database e') !! tx_account_id tx
             = Some (acc_with_balance (acc_balance acc + tx_amount tx) acc)
          /\ tx_status <$> transactions (database e') !! tid
             = Some TransactionStatus.SUCCESS).
Proof.
  intros Htx Hid Hpos.
  set (t1 := tx_with_status TransactionStatus.PROCESSING tx).
  set (S1 := put_transaction t1 (database e)).
  split; [| split; [| split]].
  - intros s0.
    assert (Hs0 : transactions (database (with_stored_status s0 tx e)) !! tid
                  = Some (tx_with_status s0 tx)).
    { simpl. rewrite Hid. apply lookup_insert_eq. }
    rewrite (process_after_update _ _ _ _ _ _ _ Hs0 Hpos).
    rewrite (process_after_update _ _ _ _ _ _ _ Htx Hpos).
    f_equal. simpl.
    change (tx_with_status TransactionStatus.PROCESSING (tx_with_status s0 tx)) with t1.
    rewrite (put_transaction_twice t1 (tx_with_status s0 tx) (database e) eq_refl).
    reflexivity.
  - rewrite (process_after_update _ _ _ _ _ _ _ Htx Hpos).
    apply (preserves_process_rest (log_extends (commit_log e ++ [S1]))).
    + apply log_extends_stable.
    + intros r _ _. apply preserves_handle_success.
      * apply log_extends_stable.
      * apply log_extends_flush_account.
    + exists []. simpl. rewrite app_nil_r. reflexivity.
  - intros Hbank.
    rewrite (process_after_update _ _ _ _ _ _ _ Htx Hpos).
    assert (H : accounts_fixed (accounts (database e))
                  (snd (process_rest strategy task amb bank tid
                          (mkEnv S1 S1 (cache e) (task_queue e) (commit_log e ++ [S1]))))).
    { apply preserves_process_rest.
      - apply accounts_fixed_stable.
      - intros r Hr Hst. exfalso. exact (Hbank r Hr Hst).
      - split; reflexivity. }
    destruct H as [_ H]. exact H.
  - intros r acc Hr Hst Hacc Hkey Hbal Hfresh. subst bank.
    destruct (process_deposit_success task amb r tid tx acc e Htx Hid Hpos Hacc Hbal
                Hfresh Hst) as (e' & Hrun & Ha & Ht).
    exists e'. split; [exact Hrun |]. split.
    + rewrite Ha, <- Hkey. apply lookup_insert_eq.
    + rewrite Ht, lookup_insert_eq. reflexivity.
Qed.

(** C1 as stated fails.  The job of a deposit that is already in status
    SUCCESS is delivered a second time and the bank answers SUCCESS: the
    first commit of the delivery sets the row back to PROCESSING, and the
    balance goes from 100.00 to 200.00. *)
Lemma C1_duplicate_delivery_credits_twice :
  let run :=
    GenericTransactionProcessor.process Strategy.DepositStrategy (mkTaskInstance 0 3)
      example_ambient example_bank_success 7 example_deposit_env in
  terminal (tx_status example_deposit) = true
  /\ acc_balance <$> accounts (database example_deposit_env) !! 1%N = Some 10000
  /\ fst run = Ok (ResultSuccess "00000000-0000-0000-0000-000000000007" (Some "BANK-DEP-2"))
  /\ (exists T rest,
        commit_log (snd run) = T :: rest
        /\ tx_status <$> transactions T !! 7%N = Some TransactionStatus.PROCESSING)
  /\ acc_balance <$> accounts (database (snd run)) !! 1%N = Some 20000
  /\ acc_balance <$> accounts (database (snd run)) !! 1%N
     <> acc_balance <$> accounts (database example_deposit_env) !! 1%N.
Proof.
  cbv zeta. split; [reflexivity |]. split; [reflexivity |].
  split; [vm_compute; reflexivity |]. split.
  - eexists _, _. split; [vm_compute; reflexivity | vm_compute; reflexivity].
  - split; [vm_compute; reflexivity | vm_compute; discriminate].
Qed.

Lemma C1_duplicate_delivery_is_processed_again_witness :
  exists e' : Env,
    GenericTransactionProcessor.process Strategy.DepositStrategy (mkTaskInstance 0 3)
      example_ambient example_bank_success 7 example_deposit_env
    = (Ok (ResultSuccess (str_uuid 7) (Some "BANK-DEP-2")), e')
    /\ accounts (database e') !! 1%N = Some (mkAccount 1 9 20000 "USD")
    /\ tx_status <$> transactions (database e') !! 7%N = Some TransactionStatus.SUCCESS.
Proof.
  destruct (C1_duplicate_delivery_is_processed_again Strategy.DepositStrategy
              (mkTaskInstance 0 3) example_ambient example_bank_success 7 example_deposit
              example_deposit_env eq_refl eq_refl ltac:(simpl; lia))
    as (_ & _ & _ & H).
  apply (H (mkBankResponse BankResponseStatus.SUCCESS (Some "BANK-DEP-2")
              (Some "Deposit processed successfully") None)
           (mkAccount 1 9 10000 "USD"));
    try reflexivity.
  simpl. lia.
Defined.

(** C2 (amended).  A withdrawal whose row and account are stored, in a
    session that starts from the committed state, with the bank answering
    SUCCESS.
    If the balance is below the amount, [_complete_withdrawal_locked] raises
    [InsufficientBalanceError] and leaves the environment as it was: nothing
    is committed, balance and status are unchanged.  The worker job then
    marks the transaction PENDING_REVIEW only if its retries are exhausted
    ([retries >= max_retries]); otherwise it raises the error again for a
    retry and the transaction stays in PROCESSING.  In both cases no account
    changes.
    If the balance covers the amount, the first commit of the completion
    publishes the balance lowered by the amount together with the status
    SUCCESS, every later commit of the call keeps both, and the call returns
    the completed transaction when the key of the new webhook delivery is
    unused. *)
Theorem C2_withdrawal_completion
    (task : TaskInstance) (amb : Ambient) (r : BankResponse) (tid : N)
    (tx : Transaction) (acc : Account) (bank_transaction_id : string)
    (bank_response : option string) (e : Env) :
  session e = database e ->
  transactions (database e) !! tid = Some tx ->
  tx_id tx = tid ->
  0 < tx_amount tx ->
  accounts (database e) !! tx_account_id tx = Some acc ->
  acc_id acc = tx_account_id tx ->
  br_status r = BankResponseStatus.SUCCESS ->
  let msg := "Insufficient balance. Available: " +:+ str_decimal (acc_balance acc)
             +:+ ", Required: " +:+ str_decimal (tx_amount tx) in
  (acc_balance acc < tx_amount tx ->
     WithdrawalService._complete_withdrawal_locked amb tx bank_transaction_id
       bank_response e
     = (Raise (Exc InsufficientBalanceError msg), e)
     /\ exists e' : Env,
          accounts (database e') = accounts (database e)
          /\ if max_retries task <=? retries task then
               GenericTransactionProcessor.process Strategy.WithdrawalStrategy task amb
                 (BankReturns r) tid e
               = (Ok (ResultPendingReview (str_uuid tid) msg
                        (Some "Balance reserved, manual review required")), e')
               /\ tx_status <$> transactions (database e') !! tid
                  = Some TransactionStatus.PENDING_REVIEW
             else
               GenericTransactionProcessor.process Strategy.WithdrawalStrategy task amb
                 (BankReturns r) tid e
               = (Raise (Exc InsufficientBalanceError msg), e')
               /\ tx_status <$> transactions (database e') !! tid
                  = Some TransactionStatus.PROCESSING)
  /\
  (tx_amount tx <= acc_balance acc ->
     let a' := acc_with_balance (acc_balance acc - tx_amount tx) acc in
     let t' := completed tx bank_transaction_id bank_response in
     exists (res : result Transaction) (e' : Env) (S1 : Tables) (rest : list Tables),
       WithdrawalService._complete_withdrawal_locked amb tx bank_transaction_id
         bank_response e = (res, e')
       /\ (webhook_deliveries (database e) !! delivery_id amb = None -> res = Ok t')
       /\ commit_log e' = commit_log e ++ S1 :: rest
       /\ accounts S1 !! tx_account_id tx = Some a'
       /\ transactions S1 !! tid = Some t'
       /\ acc_balance a' = acc_balance acc - tx_amount tx
       /\ tx_status t' = TransactionStatus.SUCCESS
       /\ Forall (fun T => same_ledger T S1) rest
       /\ same_ledger (database e') S1).
Proof.
  intros Hsess Htx Hid Hpos Hacc Hkey Hst msg. split.
  - intros Hlt. split.
    + rewrite (complete_withdrawal_locked_insufficient amb tx acc bank_transaction_id
                 bank_response e); try assumption.
      * rewrite (env_with_session_same e Hsess). reflexivity.
      * rewrite Hsess. exact Hacc.
    + pose proof (process_withdrawal_insufficient task amb r tid tx acc e Htx Hid Hpos
                    Hacc Hlt Hst) as Hrun.
      cbv zeta in Hrun. fold msg in Hrun.
      destruct (max_retries task <=? retries task).
      * eexists. split; [| split; [exact Hrun |]].
        -- reflexivity.
        -- simpl. rewrite Hid. rewrite lookup_insert_eq. reflexivity.
      * eexists. split; [| split; [exact Hrun |]].
        -- reflexivity.
        -- simpl. rewrite Hid. rewrite lookup_insert_eq. reflexivity.
  - intros Hle a' t'.
    assert (Hacc' : accounts (session e) !! tx_account_id tx = Some acc)
      by (rewrite Hsess; exact Hacc).
    destruct (complete_withdrawal_locked_sufficient amb tx acc bank_transaction_id
                bank_response e Hacc' Hpos Hle)
      as (res & e' & Hrun & Hok & Hdb & _ & (rest & Hlog & Hrest) & _).
    exists res, e', (put_transaction t' (put_account a' (session e))), rest.
    split; [exact Hrun |]. split; [rewrite <- Hsess; exact Hok |].
    split; [exact Hlog |]. split.
    { simpl. rewrite <- Hkey. apply lookup_insert_eq. }
    split.
    { simpl. rewrite Hid. apply lookup_insert_eq. }
    repeat split; auto; apply Hdb.
Qed.

(** C2 as stated fails.  A withdrawal of 80.00 on an account holding 20.00,
    first attempt of the job (no retry used yet, three allowed), bank
    SUCCESS: the job ends by raising [InsufficientBalanceError] and the
    transaction is in PROCESSING, not PENDING_REVIEW. *)
Lemma C2_first_attempt_is_not_marked_for_review :
  let run :=
    GenericTransactionProcessor.process Strategy.WithdrawalStrategy (mkTaskInstance 0 3)
      example_ambient
      (BankReturns (mkBankResponse BankResponseStatus.SUCCESS (Some "BANK-WTH-1")
                      (Some "Withdrawal processed successfully") None))
      5 example_env in
  fst run = Raise (Exc InsufficientBalanceError
                     "Insufficient balance. Available: 20.00, Required: 80.00")
  /\ tx_status <$> transactions (database (snd run)) !! 5%N
     = Some TransactionStatus.PROCESSING
  /\ tx_status <$> transactions (database (snd run)) !! 5%N
     <> Some TransactionStatus.PENDING_REVIEW
  /\ acc_balance <$> accounts (database (snd run)) !! 1%N = Some 2000.
Proof.
  cbv zeta. split; [vm_compute; reflexivity |]. split; [vm_compute; reflexivity |].
  split; [vm_compute; discriminate | vm_compute; reflexivity].
Qed.

Lemma C2_withdrawal_completion_witness :
  WithdrawalService._complete_withdrawal_locked example_ambient example_withdrawal
    "BANK-WTH-1" None example_env
  = (Raise (Exc InsufficientBalanceError
              "Insufficient balance. Available: 20.00, Required: 80.00"), example_env)
  /\ exists e' : Env,
       GenericTransactionProcessor.process Strategy.WithdrawalStrategy (mkTaskInstance 3 3)
         example_ambient
         (BankReturns (mkBankResponse BankResponseStatus.SUCCESS (Some "BANK-WTH-1")
                         None None))
         5 example_env
       = (Ok (ResultPendingReview (str_uuid 5)
                "Insufficient balance. Available: 20.00, Required: 80.00"
                (Some "Balance reserved, manual review required")), e')
       /\ tx_status <$> transactions (database e') !! 5%N
          = Some TransactionStatus.PENDING_REVIEW.
Proof.
  destruct (C2_withdrawal_completion (mkTaskInstance 3 3) example_ambient
              (mkBankResponse BankResponseStatus.SUCCESS (Some "BANK-WTH-1") None None)
              5 example_withdrawal example_account "BANK-WTH-1" None example_env
              eq_refl eq_refl eq_refl ltac:(simpl; lia) eq_refl eq_refl eq_refl)
    as [Hlow _].
  destruct Hlow as (Hraise & e' & _ & Hrun & Hstatus); [simpl; lia |].
  split; [exact Hraise |]. exists e'. split; [exact Hrun | exact Hstatus].
Defined.


(** ** Cache failures during lock acquisition *)

Lemma SyncDistributedLock_acquire_total (now_ : Z) (l : SyncDistributedLock.t)
    (r : Redis.t string) :
  exists (b : bool) (r' : Redis.t string),
    SyncDistributedLock.acquire now_ l r
    = (Ok (b, SyncDistributedLock.set_acquired b l), r').
Proof.
  unfold SyncDistributedLock.acquire, try_except, bind,
    SyncDistributedLock._try_acquire_once, bind.
  destruct (Redis.set now_ (SyncDistributedLock.key l)
              (SyncDistributedLock.lock_identifier l) true (SyncDistributedLock.ttl l) r)
    as [[reply | x] r'].
  - eexists _, _. reflexivity.
  - eexists _, _. reflexivity.
Qed.

Lemma SyncDistributedLock_acquire_fault (now_ : Z) (l : SyncDistributedLock.t)
    (r : Redis.t string) (x : exn) (fs : list (option exn)) :
  Redis.faults r = Some x :: fs ->
  SyncDistributedLock.acquire now_ l r
  = (Ok (false, SyncDistributedLock.set_acquired false l),
     Redis.Client (Redis.store r) fs).
Proof.
  intros Hf.
  unfold SyncDistributedLock.acquire, try_except, bind,
    SyncDistributedLock._try_acquire_once, bind, Redis.set.
  rewrite (redis_call_fault _ r x fs Hf). reflexivity.
Qed.

Lemma with_sync_lock_fault {A : Type} (amb : Ambient) (k : string)
    (body : SyncDistributedLock.t -> M Env A) (e : Env) (x : exn)
    (fs : list (option exn)) :
  Redis.faults (cache e) = Some x :: fs ->
  with_sync_lock amb k body e
  = try_finally
      (body (SyncDistributedLock.set_acquired false
               (SyncDistributedLock.init k 10 false 30 (lock_token amb))))
      (ret tt)
      (env_with_cache (Redis.Client (Redis.store (cache e)) fs) e).
Proof.
  intros Hf. unfold with_sync_lock, bind at 1, with_cache at 1.
  rewrite (SyncDistributedLock_acquire_fault _ _ _ x fs Hf). cbn [snd].
  unfold try_finally.
  destruct (body _ _) as [res e1].
  unfold bind, with_cache.
  rewrite SyncDistributedLock_release_not_acquired by reflexivity.
  destruct e1; reflexivity.
Qed.

(** ** Outbound webhook delivery *)

Lemma commit_delivery_ok (d : WebhookDelivery) (e : Env) :
  WebhookTasks.commit_delivery d e
  = (Ok tt, env_commit (env_with_session (put_webhook_delivery d (session e)) e)).
Proof. reflexivity. Qed.

Lemma send_webhook_notification_response (request_retries : Z) (id : N)
    (d : WebhookDelivery) (status_code : Z) (text : string) (e : Env) :
  webhook_deliveries (database e) !! id = Some d ->
  wd_id d = id ->
  exists e' : Env,
    WebhookTasks.send_webhook_notification request_retries id
      (HttpResponse status_code text) e
    = (if (500 <=? status_code) && (status_code <? 600) then
         Raise (Exc HTTPStatusError
                  ("Server error '" +:+ str_int status_code +:+ "' for url '"
                   +:+ wd_webhook_url d +:+ "'"))
       else Ok (WebhookSent ((200 <=? status_code) && (status_code <? 300)) status_code
                  (str_take 200 text)), e')
    /\ stored_delivery id e'
       = Some
           (if (500 <=? status_code) && (status_code <? 600) then
              (if WebhookTasks.WEBHOOK_MAX_RETRIES - 1 <=? request_retries
               then wd_with_status WebhookDeliveryStatus.FAILED
               else wd_with_status WebhookDeliveryStatus.PENDING)
                (wd_with_error_message
                   (Some (str_take 500
                            ("Server error '" +:+ str_int status_code +:+ "' for url '"
                             +:+ wd_webhook_url d +:+ "'")))
                   (sending d))
            else if (200 <=? status_code) && (status_code <? 300) then
              wd_with_status WebhookDeliveryStatus.SUCCESS
                (wd_with_response_body (Some (str_take 1000 text))
                   (wd_with_http_status_code (Some status_code) (sending d)))
            else
              wd_with_error_message
                (Some ("HTTP " +:+ str_int status_code +:+ ": " +:+ str_take 500 text))
                (wd_with_status WebhookDeliveryStatus.FAILED
                   (wd_with_response_body (Some (str_take 1000 text))
                      (wd_with_http_status_code (Some status_code) (sending d))))).
Proof.
  intros Hd Hid.
  unfold WebhookTasks.send_webhook_notification.
  unfold bind at 1. unfold WebhookTasks.open_session at 1. cbn [modify_state].
  set (e0 := env_with_session (database e) e).
  unfold try_finally, try_except.
  unfold bind at 1. unfold WebhookTasks.query_delivery at 1.
  unfold bind at 1. cbn [get_state ret]. cbn [session e0 env_with_session].
  rewrite Hd. cbv zeta.
  unfold bind at 1. rewrite commit_delivery_ok.
  unfold WebhookTasks.post. rewrite bind_ret_l. cbn [fst snd].
  destruct ((500 <=? status_code) && (status_code <? 600)) eqn:H5.
  - unfold WebhookTasks.raise_for_status. rewrite bind_raise_l. unfold raise at 1.
    cbn [exc_class].
    unfold bind at 1. unfold bind at 1. unfold WebhookTasks.query_delivery at 1.
    unfold bind at 1. cbn [get_state ret].
    cbn [session env_commit env_with_session put_webhook_delivery
           tables_with_webhook_deliveries webhook_deliveries wd_id wd_with_status
           wd_with_attempt_count].
    rewrite Hid, lookup_insert_eq. cbv zeta.
    rewrite commit_delivery_ok. cbn [raise Session.close modify_state].
    unfold stored_delivery.
    destruct (WebhookTasks.WEBHOOK_MAX_RETRIES - 1 <=? request_retries);
      (eexists; split; [reflexivity |]; cbn; rewrite Hid, lookup_insert_eq; reflexivity).
  - rewrite bind_ret_l. cbv zeta.
    unfold bind at 1. rewrite commit_delivery_ok. cbn [ret Session.close modify_state].
    unfold stored_delivery.
    destruct ((200 <=? status_code) && (status_code <? 300));
      (eexists; split; [reflexivity |]; cbn; rewrite Hid, lookup_insert_eq; reflexivity).
Qed.

Lemma send_webhook_notification_request_error (request_retries : Z) (id : N)
    (d : WebhookDelivery) (x : exn) (e : Env) :
  webhook_deliveries (database e) !! id = Some d ->
  wd_id d = id ->
  exc_class x = RequestError ->
  exists e' : Env,
    WebhookTasks.send_webhook_notification request_retries id (HttpRaises x) e
    = (Raise x, e')
    /\ stored_delivery id e'
       = Some
           ((if WebhookTasks.WEBHOOK_MAX_RETRIES - 1 <=? request_retries
             then wd_with_status WebhookDeliveryStatus.FAILED
             else wd_with_status WebhookDeliveryStatus.PENDING)
              (wd_with_error_message (Some (str_take 500 (exc_msg x))) (sending d))).
Proof.
  intros Hd Hid Hx.
  unfold WebhookTasks.send_webhook_notification.
  unfold bind at 1. unfold WebhookTasks.open_session at 1. cbn [modify_state].
  set (e0 := env_with_session (database e) e).
  unfold try_finally, try_except.
  unfold bind at 1. unfold WebhookTasks.query_delivery at 1.
  unfold bind at 1. cbn [get_state ret]. cbn [session e0 env_with_session].
  rewrite Hd. cbv zeta.
  unfold bind at 1. rewrite commit_delivery_ok.
  unfold WebhookTasks.post. rewrite bind_raise_l. unfold raise at 1.
  rewrite Hx.
  unfold bind at 1. unfold bind at 1. unfold WebhookTasks.query_delivery at 1.
  unfold bind at 1. cbn [get_state ret].
  cbn [session env_commit env_with_session put_webhook_delivery
         tables_with_webhook_deliveries webhook_deliveries wd_id wd_with_status
         wd_with_attempt_count].
  rewrite Hid, lookup_insert_eq. cbv zeta.
  rewrite commit_delivery_ok. cbn [raise Session.close modify_state].
  unfold stored_delivery.
  destruct (WebhookTasks.WEBHOOK_MAX_RETRIES - 1 <=? request_retries);
    (eexists; split; [reflexivity |]; cbn; rewrite Hid, lookup_insert_eq; reflexivity).
Qed.

Lemma retry_countdown_bounds (retries draw : Z) :
  0 <= WebhookTasks.retry_countdown WebhookTasks.WebhookDeliveryTask retries draw <= 600.
Proof.
  unfold WebhookTasks.retry_countdown, WebhookTasks.get_exponential_backoff_interval.
  cbn [WebhookTasks.retry_backoff WebhookTasks.retry_backoff_max WebhookTasks.retry_jitter
         WebhookTasks.WebhookDeliveryTask].
  assert (H0 : 0 <= 2 ^ retries) by (apply Z.pow_nonneg; lia).
  assert (Hc : 0 <= Z.min 600 (1 * 2 ^ retries) <= 600) by lia.
  pose proof (Z.mod_pos_bound draw (Z.min 600 (1 * 2 ^ retries) + 1)) as Hm.
  lia.
Qed.

(** C5 (amended).  One attempt of the delivery task on a stored delivery.
    A 2xx response stores SUCCESS and returns.  Every response with a code
    below 200, from 300 to 499 (408 and 429 included) or above 599 stores
    FAILED and returns: the task does not ask for a retry.  A 5xx response
    and an [httpx.RequestError] (network failure, timeout) make the task
    raise, an [HTTPStatusError] in the first case; both classes are in
    [autoretry_for], with [max_retries = 5] and a countdown between 0 and
    600 seconds.  Before raising, the task stores PENDING when its retry
    counter is below 4 and FAILED when the counter has reached
    [max_retries]. *)
Theorem C5_webhook_outcome_classification
    (request_retries : Z) (id : N) (d : WebhookDelivery) (e : Env) :
  webhook_deliveries (database e) !! id = Some d ->
  wd_id d = id ->
  (forall (status_code : Z) (text : string),
      200 <= status_code < 300 ->
      exists e' : Env,
        WebhookTasks.send_webhook_notification request_retries id
          (HttpResponse status_code text) e
        = (Ok (WebhookSent true status_code (str_take 200 text)), e')
        /\ wd_status <$> stored_delivery id e' = Some WebhookDeliveryStatus.SUCCESS)
  /\ (forall (status_code : Z) (text : string),
        status_code < 200 \/ 300 <= status_code < 500 \/ 600 <= status_code ->
        exists e' : Env,
          WebhookTasks.send_webhook_notification request_retries id
            (HttpResponse status_code text) e
          = (Ok (WebhookSent false status_code (str_take 200 text)), e')
          /\ wd_status <$> stored_delivery id e' = Some WebhookDeliveryStatus.FAILED)
  /\ (forall (http : HttpOutcome) (x : exn),
        (http = HttpRaises x /\ exc_class x = RequestError)
        \/ (exists status_code text,
               http = HttpResponse status_code text
               /\ 500 <= status_code < 600
               /\ x = Exc HTTPStatusError
                        ("Server error '" +:+ str_int status_code +:+ "' for url '"
                         +:+ wd_webhook_url d +:+ "'")) ->
        In (exc_class x) (WebhookTasks.autoretry_for WebhookTasks.WebhookDeliveryTask)
        /\ exists e' : Env,
             WebhookTasks.send_webhook_notification request_retries id http e
             = (Raise x, e')
             /\ (request_retries < 4 ->
                 wd_status <$> stored_delivery id e' = Some WebhookDeliveryStatus.PENDING)
             /\ (WebhookTasks.retry_kwargs_max_retries WebhookTasks.WebhookDeliveryTask
                 <= request_retries ->
                 wd_status <$> stored_delivery id e' = Some WebhookDeliveryStatus.FAILED))
  /\ WebhookTasks.retry_kwargs_max_retries WebhookTasks.WebhookDeliveryTask = 5
  /\ (forall retries draw : Z,
        0 <= WebhookTasks.retry_countdown WebhookTasks.WebhookDeliveryTask retries draw
          <= 600).
Proof.
  intros Hd Hid. split; [| split; [| split; [| split]]].
  - intros status_code text Hc.
    destruct (send_webhook_notification_response request_retries id d status_code text e
                Hd Hid) as (e' & Hrun & Hst).
    replace ((500 <=? status_code) && (status_code <? 600)) with false in *
      by (symmetry; apply andb_false_iff; left; apply Z.leb_gt; lia).
    replace ((200 <=? status_code) && (status_code <? 300)) with true in *
      by (symmetry; apply andb_true_iff; split; [apply Z.leb_le | apply Z.ltb_lt]; lia).
    exists e'. split; [exact Hrun |]. rewrite Hst. reflexivity.
  - intros status_code text Hc.
    destruct (send_webhook_notification_response request_retries id d status_code text e
                Hd Hid) as (e' & Hrun & Hst).
    replace ((500 <=? status_code) && (status_code <? 600)) with false in *
      by (symmetry; apply andb_false_iff;
          destruct (Z_lt_ge_dec status_code 500);
          [left; apply Z.leb_gt | right; apply Z.ltb_ge]; lia).
    replace ((200 <=? status_code) && (status_code <? 300)) with false in *
      by (symmetry; apply andb_false_iff;
          destruct (Z_lt_ge_dec status_code 200);
          [left; apply Z.leb_gt | right; apply Z.ltb_ge]; lia).
    exists e'. split; [exact Hrun |]. rewrite Hst. reflexivity.
  - intros http x [[-> Hx] | (status_code & text & -> & Hc & ->)].
    + split; [rewrite Hx; simpl; auto |].
      destruct (send_webhook_notification_request_error request_retries id d x e Hd Hid Hx)
        as (e' & Hrun & Hst).
      exists e'. split; [exact Hrun |]. rewrite Hst. split; intros Hr.
      * replace (WebhookTasks.WEBHOOK_MAX_RETRIES - 1 <=? request_retries) with false
          by (symmetry; apply Z.leb_gt; unfold WebhookTasks.WEBHOOK_MAX_RETRIES; lia).
        reflexivity.
      * replace (WebhookTasks.WEBHOOK_MAX_RETRIES - 1 <=? request_retries) with true
          by (symmetry; apply Z.leb_le; simpl in Hr;
              unfold WebhookTasks.WEBHOOK_MAX_RETRIES in *; lia).
        reflexivity.
    + split; [simpl; auto |].
      destruct (send_webhook_notification_response request_retries id d status_code text e
                  Hd Hid) as (e' & Hrun & Hst).
      replace ((500 <=? status_code) && (status_code <? 600)) with true in *
        by (symmetry; apply andb_true_iff; split; [apply Z.leb_le | apply Z.ltb_lt]; lia).
      exists e'. split; [exact Hrun |]. rewrite Hst. split; intros Hr.
      * replace (WebhookTasks.WEBHOOK_MAX_RETRIES - 1 <=? request_retries) with false
          by (symmetry; apply Z.leb_gt; unfold WebhookTasks.WEBHOOK_MAX_RETRIES; lia).
        reflexivity.
      * replace (WebhookTasks.WEBHOOK_MAX_RETRIES - 1 <=? request_retries) with true
          by (symmetry; apply Z.leb_le; simpl in Hr;
              unfold WebhookTasks.WEBHOOK_MAX_RETRIES in *; lia).
        reflexivity.
  - reflexivity.
  - apply retry_countdown_bounds.
Qed.

(** C5 as stated fails.  On the first attempt the receiver answers 429, or
    408: the task returns (it does not raise, so nothing is retried) and the
    delivery is stored as FAILED. *)
Lemma C5_status_408_and_429_are_not_retried :
  let run429 :=
    WebhookTasks.send_webhook_notification 0 77 (HttpResponse 429 "Too Many Requests")
      example_delivery_env in
  let run408 :=
    WebhookTasks.send_webhook_notification 0 77 (HttpResponse 408 "Request Timeout")
      example_delivery_env in
  fst run429 = Ok (WebhookSent false 429 "Too Many Requests")
  /\ wd_status <$> stored_delivery 77 (snd run429) = Some WebhookDeliveryStatus.FAILED
  /\ fst run408 = Ok (WebhookSent false 408 "Request Timeout")
  /\ wd_status <$> stored_delivery 77 (snd run408) = Some WebhookDeliveryStatus.FAILED
  /\ (forall x : exn, fst run429 <> Raise x /\ fst run408 <> Raise x).
Proof.
  cbv zeta. repeat split; try (vm_compute; reflexivity); vm_compute; discriminate.
Qed.

Lemma C5_webhook_outcome_classification_witness :
  (exists e' : Env,
      WebhookTasks.send_webhook_notification 0 77 (HttpResponse 204 EmptyString)
        example_delivery_env
      = (Ok (WebhookSent true 204 EmptyString), e')
      /\ wd_status <$> stored_delivery 77 e' = Some WebhookDeliveryStatus.SUCCESS)
  /\ (exists e' : Env,
        WebhookTasks.send_webhook_notification 0 77
          (HttpRaises (Exc RequestError "timed out")) example_delivery_env
        = (Raise (Exc RequestError "timed out"), e')
        /\ wd_status <$> stored_delivery 77 e' = Some WebhookDeliveryStatus.PENDING).
Proof.
  destruct (C5_webhook_outcome_classification 0 77 example_delivery example_delivery_env
              eq_refl eq_refl) as (H2xx & _ & Hretry & _).
  split.
  - apply (H2xx 204 EmptyString). lia.
  - destruct (Hretry (HttpRaises (Exc RequestError "timed out"))
                (Exc RequestError "timed out")) as (_ & e' & Hrun & Hpending & _).
    + left. split; reflexivity.
    + exists e'. split; [exact Hrun |]. apply Hpending. lia.
Defined.


(** * The idempotency middleware *)

(** ** UTF-8: encoding what was decoded gives the bytes back *)

Lemma in_range_spec (lo hi b : Z) : in_range lo hi b = true <-> lo <= b <= hi.
Proof. unfold in_range. rewrite andb_true_iff, Z.leb_le, Z.leb_le. tauto. Qed.

Ltac range_facts :=
  repeat match goal with
         | H : _ && _ = true |- _ => apply andb_true_iff in H; destruct H
         | H : _ || _ = true |- _ => apply orb_true_iff in H; destruct H
         | H : in_range _ _ _ = true |- _ => apply in_range_spec in H
         | H : is_continuation _ = true |- _ => unfold is_continuation in H
         | H : (_ =? _) = true |- _ => apply Z.eqb_eq in H
         end.

Lemma utf8_one (b0 : Z) : 0 <= b0 <= 0x7F -> utf8_encode_code_point b0 = [b0].
Proof.
  intros H. unfold utf8_encode_code_point.
  replace (b0 <? 0x80) with true by (symmetry; apply Z.ltb_lt; lia). reflexivity.
Qed.

Lemma utf8_two (b0 b1 : Z) :
  0xC2 <= b0 <= 0xDF -> 0x80 <= b1 <= 0xBF ->
  utf8_encode_code_point ((b0 - 0xC0) * 64 + (b1 - 0x80)) = [b0; b1].
Proof.
  intros H0 H1. unfold utf8_encode_code_point.
  replace ((b0 - 0xC0) * 64 + (b1 - 0x80) <? 0x80) with false
    by (symmetry; apply Z.ltb_ge; lia).
  replace ((b0 - 0xC0) * 64 + (b1 - 0x80) <? 0x800) with true
    by (symmetry; apply Z.ltb_lt; lia).
  f_equal; [| f_equal]; Z.div_mod_to_equations; lia.
Qed.

Lemma utf8_three (b0 b1 b2 : Z) :
  three_byte_start b0 b1 = true -> 0x80 <= b2 <= 0xBF ->
  utf8_encode_code_point (((b0 - 0xE0) * 64 + (b1 - 0x80)) * 64 + (b2 - 0x80))
  = [b0; b1; b2].
Proof.
  intros Hs H2. unfold three_byte_start in Hs. unfold utf8_encode_code_point.
  assert (Hb : 0xE0 <= b0 <= 0xEF /\ 0x80 <= b1 <= 0xBF /\ (b0 = 0xE0 -> 0xA0 <= b1))
    by (range_facts; lia).
  destruct Hb as (Hb0 & Hb1 & Hb2).
  set (c := ((b0 - 0xE0) * 64 + (b1 - 0x80)) * 64 + (b2 - 0x80)).
  assert (Hc : 0x800 <= c < 0x10000) by (unfold c; lia).
  replace (c <? 0x80) with false by (symmetry; apply Z.ltb_ge; lia).
  replace (c <? 0x800) with false by (symmetry; apply Z.ltb_ge; lia).
  replace (c <? 0x10000) with true by (symmetry; apply Z.ltb_lt; lia).
  unfold c.
  f_equal; [| f_equal; [| f_equal]]; Z.div_mod_to_equations; lia.
Qed.

Lemma utf8_four (b0 b1 b2 b3 : Z) :
  four_byte_start b0 b1 = true -> 0x80 <= b2 <= 0xBF -> 0x80 <= b3 <= 0xBF ->
  utf8_encode_code_point
    ((((b0 - 0xF0) * 64 + (b1 - 0x80)) * 64 + (b2 - 0x80)) * 64 + (b3 - 0x80))
  = [b0; b1; b2; b3].
Proof.
  intros Hs H2 H3. unfold four_byte_start in Hs. unfold utf8_encode_code_point.
  assert (Hb : 0xF0 <= b0 <= 0xF4 /\ 0x80 <= b1 <= 0xBF /\ (b0 = 0xF0 -> 0x90 <= b1))
    by (range_facts; lia).
  destruct Hb as (Hb0 & Hb1 & Hb2).
  set (c := (((b0 - 0xF0) * 64 + (b1 - 0x80)) * 64 + (b2 - 0x80)) * 64 + (b3 - 0x80)).
  assert (Hc : 0x10000 <= c) by (unfold c; lia).
  replace (c <? 0x80) with false by (symmetry; apply Z.ltb_ge; lia).
  replace (c <? 0x800) with false by (symmetry; apply Z.ltb_ge; lia).
  replace (c <? 0x10000) with false by (symmetry; apply Z.ltb_ge; lia).
  unfold c.
  f_equal; [| f_equal; [| f_equal; [| f_equal]]]; Z.div_mod_to_equations; lia.
Qed.

Lemma option_map_Some {A B : Type} (f : A -> B) (o : option A) (b : B) :
  option_map f o = Some b -> exists a, o = Some a /\ b = f a.
Proof. destruct o as [a |]; simpl; intros H; [| discriminate]. inversion H. eauto. Qed.

(** Encoding what the strict decoder produced gives the bytes back. *)
Lemma utf8_round_trip (bs cs : list Z) :
  utf8_decode bs = Some cs -> utf8_encode cs = bs.
Proof.
  remember (length bs) as n eqn:Hn. revert bs cs Hn.
  induction n as [n IH] using lt_wf_ind. intros bs cs Hn Hd.
  destruct bs as [| b0 r0]; [inversion Hd; reflexivity |].
  cbn [utf8_decode] in Hd.
  destruct (in_range 0 0x7F b0) eqn:H1.
  { apply option_map_Some in Hd. destruct Hd as (cs' & Hd & ->).
    apply in_range_spec in H1. cbn [utf8_encode]. rewrite utf8_one by lia.
    simpl. f_equal. eapply (IH (length r0)); [subst n; simpl; lia | reflexivity | exact Hd]. }
  destruct r0 as [| b1 r1]; [discriminate |].
  destruct (in_range 0xC2 0xDF b0 && is_continuation b1) eqn:H2.
  { apply option_map_Some in Hd. destruct Hd as (cs' & Hd & ->).
    range_facts. cbn [utf8_encode]. rewrite utf8_two by lia.
    simpl. do 2 f_equal.
    eapply (IH (length r1)); [subst n; simpl; lia | reflexivity | exact Hd]. }
  destruct r1 as [| b2 r2]; [discriminate |].
  destruct (three_byte_start b0 b1 && is_continuation b2) eqn:H3.
  { apply option_map_Some in Hd. destruct Hd as (cs' & Hd & ->).
    apply andb_true_iff in H3. destruct H3 as [H3 H3c].
    apply in_range_spec in H3c. cbn [utf8_encode]. rewrite utf8_three by (auto; lia).
    simpl. do 3 f_equal.
    eapply (IH (length r2)); [subst n; simpl; lia | reflexivity | exact Hd]. }
  destruct r2 as [| b3 r3]; [discriminate |].
  destruct (four_byte_start b0 b1 && is_continuation b2 && is_continuation b3) eqn:H4;
    [| discriminate].
  apply option_map_Some in Hd. destruct Hd as (cs' & Hd & ->).
  apply andb_true_iff in H4. destruct H4 as [H4 H4d].
  apply andb_true_iff in H4. destruct H4 as [H4 H4c].
  apply in_range_spec in H4c, H4d. cbn [utf8_encode]. rewrite utf8_four by (auto; lia).
  simpl. do 4 f_equal.
  eapply (IH (length r3)); [subst n; simpl; lia | reflexivity | exact Hd].
Qed.

Lemma redis_set_no_faults {V : Type} (now_ : Z) (k : string) (v : V) (nx : bool) (ex : Z)
    (r : Redis.t V) :
  Redis.faults r = [] -> 0 < ex ->
  Redis.set now_ k v nx ex r
  = match nx, Redis.lookup_live now_ (Redis.store r) k with
    | true, Some _ => (Ok None, Redis.Client (Redis.store r) [])
    | _, _ =>
        (Ok (Some true),
         Redis.Client (<[k := Redis.Entry v (now_ + 1000 * ex)]> (Redis.store r)) [])
    end.
Proof.
  intros Hf Hex. unfold Redis.set. rewrite redis_call_no_faults by assumption.
  replace (ex <=? 0) with false by (symmetry; apply Z.leb_gt; lia).
  destruct nx; [destruct (Redis.lookup_live now_ (Redis.store r) k) |]; reflexivity.
Qed.

Lemma redis_get_no_faults {V : Type} (now_ : Z) (k : string) (r : Redis.t V) :
  Redis.faults r = [] ->
  Redis.get now_ k r
  = (Ok (Redis.lookup_live now_ (Redis.store r) k), Redis.Client (Redis.store r) []).
Proof. intros Hf. unfold Redis.get. rewrite redis_call_no_faults by assumption. reflexivity. Qed.

Lemma redis_client_eta {V : Type} (r : Redis.t V) :
  Redis.faults r = [] -> Redis.Client (Redis.store r) [] = r.
Proof. intros H. destruct r. simpl in *. subst. reflexivity. Qed.

Lemma lookup_live_insert_eq {V : Type} (now_ : Z) (s : gmap string (Redis.entry V))
    (k : string) (v : V) (expiry : Z) :
  now_ < expiry -> Redis.lookup_live now_ (<[k := Redis.Entry v expiry]> s) k = Some v.
Proof.
  intros H. unfold Redis.lookup_live. rewrite lookup_insert_eq. simpl.
  apply Z.ltb_lt in H. rewrite H. reflexivity.
Qed.

Lemma acquire_lock_held (now_ : Z) (k : string) (r : Redis.t IdempotencyRecord)
    (v : IdempotencyRecord) :
  Redis.faults r = [] ->
  Redis.lookup_live now_ (Redis.store r) (IdempotencyService._get_key k) = Some v ->
  IdempotencyService.acquire_lock now_ k r = (Ok false, r).
Proof.
  intros Hf Hl. unfold IdempotencyService.acquire_lock, bind.
  rewrite redis_set_no_faults by (auto; reflexivity). rewrite Hl.
  rewrite redis_client_eta by assumption. reflexivity.
Qed.

Lemma acquire_lock_free (now_ : Z) (k : string) (r : Redis.t IdempotencyRecord) :
  Redis.faults r = [] ->
  Redis.lookup_live now_ (Redis.store r) (IdempotencyService._get_key k) = None ->
  IdempotencyService.acquire_lock now_ k r
  = (Ok true,
     Redis.Client
       (<[IdempotencyService._get_key k
          := Redis.Entry (LockData now_)
               (now_ + 1000 * IdempotencyService.PROCESSING_LOCK_TTL)]> (Redis.store r))
       []).
Proof.
  intros Hf Hl. unfold IdempotencyService.acquire_lock, bind.
  rewrite redis_set_no_faults by (auto; reflexivity). rewrite Hl. reflexivity.
Qed.

(** The second request meets a live record under its key. *)
Lemma dispatch_key_taken (svc : IdempotencyService.t) (json_id : list Z -> option string)
    (now_ done : Z) (request : Request) (handler : HandlerOutcome) (k : string)
    (v : IdempotencyRecord) (r : Redis.t IdempotencyRecord) :
  IdempotencyMiddleware._requires_idempotency request = true ->
  IdempotencyMiddleware.header request IDEMPOTENCY_HEADER = Some k ->
  k <> EmptyString ->
  Redis.faults r = [] ->
  Redis.lookup_live now_ (Redis.store r) (IdempotencyService._get_key k) = Some v ->
  IdempotencyMiddleware.dispatch svc json_id now_ done request handler r
  = (Ok (match v with
         | ResponseData response_body status_code headers _ _ _ =>
             mkResponse (RawBody (utf8_encode response_body)) status_code
               (<[IDEMPOTENCY_HEADER := k]> headers) (Some "application/json")
         | LockData _ => IdempotencyMiddleware.conflict_response k
         end), r).
Proof.
  intros Hreq Hh Hk Hf Hl. unfold IdempotencyMiddleware.dispatch.
  rewrite Hreq, Hh. cbn [negb].
  apply String.eqb_neq in Hk. rewrite Hk.
  rewrite (bind_ok _ _ _ _ _ (acquire_lock_held now_ k r v Hf Hl)). cbn [negb].
  unfold IdempotencyService.check_existing. unfold bind.
  rewrite redis_get_no_faults by assumption. rewrite Hl.
  rewrite redis_client_eta by assumption.
  destruct v; reflexivity.
Qed.

(** The first request with a key: the handler runs and its answer, when the
    status is below 400, is stored. *)
Lemma dispatch_first_success (svc : IdempotencyService.t)
    (json_id : list Z -> option string) (now_ done : Z) (request : Request)
    (sr : StreamedResponse) (k : string) (r : Redis.t IdempotencyRecord) :
  IdempotencyMiddleware._requires_idempotency request = true ->
  IdempotencyMiddleware.header request IDEMPOTENCY_HEADER = Some k ->
  k <> EmptyString ->
  Redis.faults r = [] ->
  0 < IdempotencyService.completed_response_ttl svc ->
  Redis.lookup_live now_ (Redis.store r) (IdempotencyService._get_key k) = None ->
  sr_status_code sr < 400 ->
  match utf8_decode (sr_body sr) with
  | Some text =>
      IdempotencyMiddleware.dispatch svc json_id now_ done request (HandlerReturns sr) r
      = (Ok (IdempotencyMiddleware.pass_through sr),
         Redis.Client
           (<[IdempotencyService._get_key k
              := Redis.Entry
                   (ResponseData text (sr_status_code sr) (sr_headers sr)
                      (json_id (sr_body sr)) done done)
                   (done + 1000 * IdempotencyService.completed_response_ttl svc)]>
              (<[IdempotencyService._get_key k
                 := Redis.Entry (LockData now_)
                      (now_ + 1000 * IdempotencyService.PROCESSING_LOCK_TTL)]>
                 (Redis.store r))) [])
  | None =>
      exists x r',
        IdempotencyMiddleware.dispatch svc json_id now_ done request (HandlerReturns sr) r
        = (Raise x, r')
  end.
Proof.
  intros Hreq Hh Hk Hf Httl Hl Hst. unfold IdempotencyMiddleware.dispatch.
  rewrite Hreq, Hh. cbn [negb].
  apply String.eqb_neq in Hk. rewrite Hk.
  rewrite (bind_ok _ _ _ _ _ (acquire_lock_free now_ k r Hf Hl)). cbn [negb].
  unfold try_except, IdempotencyMiddleware.call_next. rewrite bind_ret_l. cbv zeta.
  apply Z.ltb_lt in Hst. rewrite Hst.
  unfold IdempotencyService.save_response, IdempotencyService.decode_body.
  destruct (utf8_decode (sr_body sr)) as [text |].
  - rewrite bind_ret_l. unfold bind.
    rewrite redis_set_no_faults by (auto; reflexivity). reflexivity.
  - rewrite !bind_raise_l. unfold raise at 1.
    unfold bind, IdempotencyService.release_lock, bind.
    destruct (Redis.delete _ _ _) as [[n | x] r']; eexists _, _; reflexivity.
Qed.

(** C4: two requests to an idempotent endpoint carry the same non-empty
    [Idempotency-Key]; the cache answers every command and the key is free
    when the first request arrives at [now1].  If the first request
    completed (its handler answered with a status below 400 and [dispatch]
    returned), it was handed the handler's response, and a second request
    arriving at [now2], before the stored record expires, is answered
    without its handler being consulted: the body is the first body byte for
    byte, the status code is the first status code, and the headers are the
    first headers with [Idempotency-Key] set to the key; the cache is left
    as it was.  While the first request is still being processed (only the
    PROCESSING record written by [acquire_lock] is in the cache, and it has
    not expired at [now3]), the second request is answered 409 with
    [Retry-After: 5] and the key echoed. *)
Theorem C4_same_key_replays_or_conflicts
    (svc : IdempotencyService.t) (json_id : list Z -> option string)
    (k : string) (request1 request2 : Request) (response1 : StreamedResponse)
    (handler2 : HandlerOutcome) (now1 done1 now2 done2 now3 done3 : Z)
    (r0 r1 : Redis.t IdempotencyRecord) (out1 : Response) :
  IdempotencyMiddleware._requires_idempotency request1 = true ->
  IdempotencyMiddleware.header request1 IDEMPOTENCY_HEADER = Some k ->
  IdempotencyMiddleware._requires_idempotency request2 = true ->
  IdempotencyMiddleware.header request2 IDEMPOTENCY_HEADER = Some k ->
  k <> EmptyString ->
  Redis.faults r0 = [] ->
  0 < IdempotencyService.completed_response_ttl svc ->
  Redis.lookup_live now1 (Redis.store r0) (IdempotencyService._get_key k) = None ->
  IdempotencyMiddleware.dispatch svc json_id now1 done1 request1 (HandlerReturns response1) r0
  = (Ok out1, r1) ->
  sr_status_code response1 < 400 ->
  now2 < done1 + 1000 * IdempotencyService.completed_response_ttl svc ->
  now3 < now1 + 1000 * IdempotencyService.PROCESSING_LOCK_TTL ->
  (out1 = IdempotencyMiddleware.pass_through response1
   /\ IdempotencyMiddleware.dispatch svc json_id now2 done2 request2 handler2 r1
      = (Ok (mkResponse (RawBody (sr_body response1)) (sr_status_code response1)
               (<[IDEMPOTENCY_HEADER := k]> (sr_headers response1))
               (Some "application/json")), r1))
  /\ exists rp : Redis.t IdempotencyRecord,
       IdempotencyService.acquire_lock now1 k r0 = (Ok true, rp)
       /\ IdempotencyMiddleware.dispatch svc json_id now3 done3 request2 handler2 rp
          = (Ok (IdempotencyMiddleware.conflict_response k), rp)
       /\ resp_status_code (IdempotencyMiddleware.conflict_response k) = 409
       /\ resp_headers (IdempotencyMiddleware.conflict_response k) !! "Retry-After"
          = Some "5"
       /\ resp_headers (IdempotencyMiddleware.conflict_response k) !! IDEMPOTENCY_HEADER
          = Some k.
Proof.
  intros Hreq1 Hh1 Hreq2 Hh2 Hk Hf Httl Hfree Hrun Hst Hnow2 Hnow3. split.
  - pose proof (dispatch_first_success svc json_id now1 done1 request1 response1 k r0
                  Hreq1 Hh1 Hk Hf Httl Hfree Hst) as Hfirst.
    destruct (utf8_decode (sr_body response1)) as [text |] eqn:Hdec.
    + rewrite Hfirst in Hrun. inversion Hrun; subst out1 r1. clear Hrun. split; [reflexivity |].
      erewrite dispatch_key_taken; [| assumption | exact Hh2 | assumption | reflexivity | ].
      2: { cbn [Redis.store]. apply lookup_live_insert_eq. exact Hnow2. }
      cbn iota. rewrite (utf8_round_trip _ _ Hdec). reflexivity.
    + destruct Hfirst as (x & r' & Hraise). rewrite Hraise in Hrun. discriminate.
  - eexists. split; [apply acquire_lock_free; assumption |].
    split.
    + apply (dispatch_key_taken svc json_id now3 done3 request2 handler2 k
               (LockData now1)); [assumption | exact Hh2 | assumption | reflexivity |].
      cbn [Redis.store]. apply lookup_live_insert_eq. exact Hnow3.
    + split; [reflexivity |]. split.
      * unfold IdempotencyMiddleware.conflict_response. cbn [resp_headers].
        rewrite lookup_insert_ne by discriminate. apply lookup_insert_eq.
      * unfold IdempotencyMiddleware.conflict_response. cbn [resp_headers].
        apply lookup_insert_eq.
Qed.

Lemma C4_same_key_replays_or_conflicts_witness :
  let svc := IdempotencyService.init 24 in
  let unused := HandlerRaises (Exc OtherException "the handler is not called") in
  let r1 :=
    snd (IdempotencyMiddleware.dispatch svc example_json_id 0 100 example_request
           (HandlerReturns example_response) example_idempotency_cache) in
  IdempotencyMiddleware.dispatch svc example_json_id 5000 5100 example_request unused r1
  = (Ok (mkResponse (RawBody (sr_body example_response)) 201
           (<[IDEMPOTENCY_HEADER := "key-1"]> (sr_headers example_response))
           (Some "application/json")), r1)
  /\ exists rp : Redis.t IdempotencyRecord,
       IdempotencyService.acquire_lock 0 "key-1" example_idempotency_cache = (Ok true, rp)
       /\ IdempotencyMiddleware.dispatch svc example_json_id 50 60 example_request unused rp
          = (Ok (IdempotencyMiddleware.conflict_response "key-1"), rp).
Proof.
  intros svc unused r1.
  destruct (C4_same_key_replays_or_conflicts svc example_json_id "key-1" example_request
              example_request example_response unused 0 100 5000 5100 50 60
              example_idempotency_cache r1
              (IdempotencyMiddleware.pass_through example_response))
    as [[_ Hreplay] (rp & Hlock & Hconflict & _)].
  - reflexivity.
  - reflexivity.
  - reflexivity.
  - reflexivity.
  - discriminate.
  - reflexivity.
  - reflexivity.
  - reflexivity.
  - reflexivity.
  - reflexivity.
  - reflexivity.
  - reflexivity.
  - split; [exact Hreplay |]. exists rp. split; assumption.
Defined.

(** * The circuit breaker over sequences of calls *)

Lemma same_configuration_refl (cb : CircuitBreaker.t) : same_configuration cb cb.
Proof. repeat split. Qed.

Lemma same_configuration_trans (a b c : CircuitBreaker.t) :
  same_configuration a b -> same_configuration b c -> same_configuration a c.
Proof.
  unfold same_configuration. intros (? & ? & ? & ?) (? & ? & ? & ?).
  repeat split; congruence.
Qed.

Lemma breaker_step_configuration (cb : CircuitBreaker.t) (ev : BreakerEvent) :
  same_configuration cb (breaker_step cb ev).
Proof.
  destruct cb as [n ft ts st s fc sc l]. destruct ev as [now | | now];
    unfold breaker_step, CircuitBreaker.can_execute, CircuitBreaker._should_attempt_reset,
      CircuitBreaker.record_success, CircuitBreaker.record_failure;
    simpl; repeat case_match; repeat split.
Qed.

Lemma breaker_step_invariant (cb : CircuitBreaker.t) (ev : BreakerEvent) :
  0 < CircuitBreaker.failure_threshold cb ->
  0 < CircuitBreaker.success_threshold cb ->
  breaker_invariant cb -> breaker_invariant (breaker_step cb ev).
Proof.
  destruct cb as [n ft ts st s fc sc l]. unfold breaker_invariant. simpl.
  intros Hft Hst (Hfc & Hsc & Hs).
  destruct ev as [now | | now];
    unfold breaker_step, CircuitBreaker.can_execute, CircuitBreaker._should_attempt_reset,
      CircuitBreaker.record_success, CircuitBreaker.record_failure;
    simpl; repeat case_match; simpl; subst;
    repeat match goal with
           | H : (_ <=? _) = true |- _ => apply Z.leb_le in H
           | H : (_ <=? _) = false |- _ => apply Z.leb_gt in H
           end;
    repeat split; try lia; try tauto; try discriminate.
Qed.

(** X1: every sequence of calls on a breaker created with positive
    thresholds keeps its configuration and its invariant; in particular an
    OPEN breaker always has a recorded failure time, so a probe made
    [timeout_seconds] after it is admitted. *)
Theorem breaker_reachable_states
    (name : string) (failure_threshold timeout_seconds success_threshold : Z)
    (evs : list BreakerEvent) :
  0 < failure_threshold ->
  0 < success_threshold ->
  let cb := breaker_run
              (CircuitBreaker.init name failure_threshold timeout_seconds success_threshold)
              evs in
  same_configuration
    (CircuitBreaker.init name failure_threshold timeout_seconds success_threshold) cb
  /\ breaker_invariant cb
  /\ (CircuitBreaker.state cb = CircuitBreaker.OPEN ->
      exists last : Q,
        CircuitBreaker.last_failure_time cb = Some last
        /\ forall now : Q,
             (inject_Z timeout_seconds <= now - last)%Q ->
             fst (CircuitBreaker.can_execute now cb) = true
             /\ CircuitBreaker.state (snd (CircuitBreaker.can_execute now cb))
                = CircuitBreaker.HALF_OPEN).
Proof.
  intros Hft Hst.
  set (cb0 := CircuitBreaker.init name failure_threshold timeout_seconds success_threshold).
  assert (H0 : same_configuration cb0 cb0 /\ breaker_invariant cb0).
  { split; [apply same_configuration_refl |]. unfold breaker_invariant. simpl.
    repeat split; lia. }
  assert (Hgen : forall evs cb, same_configuration cb0 cb /\ breaker_invariant cb ->
                   same_configuration cb0 (breaker_run cb evs)
                   /\ breaker_invariant (breaker_run cb evs)).
  { clear evs. induction evs as [| ev evs IH]; intros cb [Hc Hi]; [split; assumption |].
    simpl. apply IH. split.
    - eapply same_configuration_trans; [exact Hc | apply breaker_step_configuration].
    - destruct Hc as (_ & Hf & _ & Hs). simpl in Hf, Hs.
      apply breaker_step_invariant; [rewrite <- Hf | rewrite <- Hs |]; assumption. }
  destruct (Hgen evs cb0 H0) as [Hc Hi]. cbv zeta.
  split; [exact Hc |]. split; [exact Hi |].
  intros Hopen. destruct Hi as (_ & _ & Hs). rewrite Hopen in Hs. destruct Hs as [_ Hl].
  destruct (CircuitBreaker.last_failure_time (breaker_run cb0 evs)) as [last |] eqn:El;
    [| contradiction].
  exists last. split; [reflexivity |]. intros now Hnow.
  unfold CircuitBreaker.can_execute, CircuitBreaker._should_attempt_reset.
  rewrite Hopen, El.
  destruct Hc as (_ & _ & Ht & _). simpl in Ht. rewrite <- Ht.
  apply Qle_bool_iff in Hnow. rewrite Hnow. split; reflexivity.
Qed.

Lemma breaker_reachable_states_witness :
  let cb := breaker_run CircuitBreaker.bank_circuit_breaker
              [RecordFailure 96%Q; RecordFailure 97%Q; RecordSuccess; RecordFailure 98%Q;
               RecordFailure 99%Q; RecordFailure 100%Q; RecordFailure 101%Q;
               RecordFailure 102%Q; CanExecute 110%Q] in
  CircuitBreaker.state cb = CircuitBreaker.OPEN
  /\ fst (CircuitBreaker.can_execute 132%Q cb) = true.
Proof.
  cbv zeta.
  destruct (breaker_reachable_states "bank_api" 5 30 2
              [RecordFailure 96%Q; RecordFailure 97%Q; RecordSuccess; RecordFailure 98%Q;
               RecordFailure 99%Q; RecordFailure 100%Q; RecordFailure 101%Q;
               RecordFailure 102%Q; CanExecute 110%Q])
    as (_ & _ & Hopen); [lia | lia |].
  split; [reflexivity |].
  destruct (Hopen eq_refl) as (last & Hlast & Hprobe).
  inversion Hlast; subst last.
  apply (Hprobe 132%Q). vm_compute. discriminate.
Defined.

Lemma failures_count (ts : list Q) (cb : CircuitBreaker.t) :
  CircuitBreaker.failure_count
    (fold_left (fun b t => CircuitBreaker.record_failure t b) ts cb)
  = CircuitBreaker.failure_count cb + Z.of_nat (length ts)
  /\ same_configuration cb
       (fold_left (fun b t => CircuitBreaker.record_failure t b) ts cb).
Proof.
  revert cb. induction ts as [| t ts IH]; intros cb.
  - simpl. split; [lia | apply same_configuration_refl].
  - cbn [fold_left length]. destruct (IH (CircuitBreaker.record_failure t cb)) as [Hc Hs].
    rewrite Hc. split.
    + destruct cb as [n ft tms st s fc sc l].
      unfold CircuitBreaker.record_failure; simpl; repeat case_match; simpl; lia.
    + eapply same_configuration_trans; [| exact Hs].
      apply (breaker_step_configuration cb (RecordFailure t)).
Qed.

Lemma failures_keep_open (ts : list Q) (cb : CircuitBreaker.t) :
  CircuitBreaker.state cb = CircuitBreaker.OPEN ->
  CircuitBreaker.state (fold_left (fun b t => CircuitBreaker.record_failure t b) ts cb)
  = CircuitBreaker.OPEN.
Proof.
  revert cb. induction ts as [| t ts IH]; intros cb Hs; [exact Hs |].
  simpl. apply IH. unfold CircuitBreaker.record_failure. simpl. rewrite Hs. reflexivity.
Qed.

(** X2: failures recorded in a row on a CLOSED breaker.  The breaker counts
    them and is OPEN afterwards exactly when the count has reached
    [failure_threshold]; a success recorded in between sets the count back to
    zero, so that only failures without a success between them add up. *)
Theorem breaker_opens_at_threshold (cb : CircuitBreaker.t) (ts : list Q) :
  CircuitBreaker.state cb = CircuitBreaker.CLOSED ->
  0 <= CircuitBreaker.failure_count cb < CircuitBreaker.failure_threshold cb ->
  let run := fold_left (fun b t => CircuitBreaker.record_failure t b) in
  CircuitBreaker.state (run ts cb)
  = (if CircuitBreaker.failure_threshold cb
        <=? CircuitBreaker.failure_count cb + Z.of_nat (length ts)
     then CircuitBreaker.OPEN else CircuitBreaker.CLOSED)
  /\ CircuitBreaker.failure_count (run ts cb)
     = CircuitBreaker.failure_count cb + Z.of_nat (length ts)
  /\ CircuitBreaker.state (run ts (CircuitBreaker.record_success cb))
     = (if CircuitBreaker.failure_threshold cb <=? Z.of_nat (length ts)
        then CircuitBreaker.OPEN else CircuitBreaker.CLOSED).
Proof.
  intros Hs Hc run.
  assert (Hgen : forall ts cb,
             CircuitBreaker.state cb = CircuitBreaker.CLOSED ->
             CircuitBreaker.failure_count cb < CircuitBreaker.failure_threshold cb ->
             CircuitBreaker.state (run ts cb)
             = (if CircuitBreaker.failure_threshold cb
                   <=? CircuitBreaker.failure_count cb + Z.of_nat (length ts)
                then CircuitBreaker.OPEN else CircuitBreaker.CLOSED)).
  { clear. intros ts. induction ts as [| t ts IH]; intros cb Hs Hc.
    - simpl. rewrite Z.add_0_r.
      replace (_ <=? _) with false by (symmetry; apply Z.leb_gt; lia). exact Hs.
    - unfold run. cbn [fold_left length]. fold (run ts (CircuitBreaker.record_failure t cb)).
      destruct cb as [n ft tms st s fc sc l]. simpl in Hs, Hc. subst s.
      unfold CircuitBreaker.record_failure. simpl.
      destruct (ft <=? fc + 1) eqn:E.
      + unfold run. rewrite failures_keep_open by reflexivity.
        apply Z.leb_le in E.
        replace (ft <=? fc + Z.of_nat (S (length ts))) with true
          by (symmetry; apply Z.leb_le; lia).
        reflexivity.
      + apply Z.leb_gt in E. rewrite IH by (simpl; auto). simpl.
        replace (fc + 1 + Z.of_nat (length ts)) with (fc + Z.of_nat (S (length ts))) by lia.
        reflexivity. }
  split; [apply Hgen; [assumption | lia] |].
  split; [apply failures_count |].
  destruct cb as [n ft tms st s fc sc l]. simpl in Hs, Hc. subst s.
  unfold CircuitBreaker.record_success. simpl.
  rewrite Hgen by (simpl; auto; lia). simpl. reflexivity.
Qed.

(** The bank breaker: four failures leave it CLOSED, the fifth opens it;
    after a success, four more failures do not. *)
Lemma breaker_opens_at_threshold_witness :
  let fail := fold_left (fun b t => CircuitBreaker.record_failure t b) in
  CircuitBreaker.state
    (fail [1%Q; 2%Q; 3%Q; 4%Q] CircuitBreaker.bank_circuit_breaker) = CircuitBreaker.CLOSED
  /\ CircuitBreaker.state
       (fail [1%Q; 2%Q; 3%Q; 4%Q; 5%Q] CircuitBreaker.bank_circuit_breaker)
     = CircuitBreaker.OPEN
  /\ CircuitBreaker.state
       (fail [5%Q; 6%Q; 7%Q; 8%Q]
          (CircuitBreaker.record_success
             (fail [1%Q; 2%Q; 3%Q; 4%Q] CircuitBreaker.bank_circuit_breaker)))
     = CircuitBreaker.CLOSED.
Proof.
  cbv zeta.
  destruct (breaker_opens_at_threshold CircuitBreaker.bank_circuit_breaker
              [1%Q; 2%Q; 3%Q; 4%Q] eq_refl) as (H4 & _ & _); [simpl; lia |].
  destruct (breaker_opens_at_threshold CircuitBreaker.bank_circuit_breaker
              [1%Q; 2%Q; 3%Q; 4%Q; 5%Q] eq_refl) as (H5 & _ & _); [simpl; lia |].
  destruct (breaker_opens_at_threshold
              (fold_left (fun b t => CircuitBreaker.record_failure t b)
                 [1%Q; 2%Q; 3%Q; 4%Q] CircuitBreaker.bank_circuit_breaker)
              [5%Q; 6%Q; 7%Q; 8%Q] eq_refl) as (_ & _ & Hs); [simpl; lia |].
  split; [exact H4 |]. split; [exact H5 | exact Hs].
Defined.

Lemma successes_in_half_open (n : nat) (cb : CircuitBreaker.t) :
  CircuitBreaker.state cb = CircuitBreaker.HALF_OPEN ->
  0 <= CircuitBreaker.success_count cb < CircuitBreaker.success_threshold cb ->
  let s := Nat.iter n CircuitBreaker.record_success cb in
  same_configuration cb s
  /\ (CircuitBreaker.success_threshold cb
        <= CircuitBreaker.success_count cb + Z.of_nat n ->
      CircuitBreaker.state s = CircuitBreaker.CLOSED
      /\ CircuitBreaker.failure_count s = 0 /\ CircuitBreaker.success_count s = 0)
  /\ (CircuitBreaker.success_count cb + Z.of_nat n
        < CircuitBreaker.success_threshold cb ->
      CircuitBreaker.state s = CircuitBreaker.HALF_OPEN
      /\ CircuitBreaker.success_count s = CircuitBreaker.success_count cb + Z.of_nat n).
Proof.
  intros Hs Hc. induction n as [| n IH].
  - simpl. split; [apply same_configuration_refl |]. split; [lia |].
    intros _. split; [exact Hs | lia].
  - cbv zeta in IH |- *.
    change (Nat.iter (S n) CircuitBreaker.record_success cb)
      with (CircuitBreaker.record_success (Nat.iter n CircuitBreaker.record_success cb)).
    set (s := Nat.iter n CircuitBreaker.record_success cb) in *.
    destruct IH as (Hcfg & Hclosed & Hhalf).
    split.
    { eapply same_configuration_trans; [exact Hcfg |].
      apply (breaker_step_configuration s RecordSuccess). }
    destruct Hcfg as (_ & _ & _ & Hst).
    destruct (Z_lt_ge_dec (CircuitBreaker.success_count cb + Z.of_nat n)
                (CircuitBreaker.success_threshold cb)) as [Hlt | Hge].
    + destruct (Hhalf Hlt) as [Hstate Hcount].
      unfold CircuitBreaker.record_success. rewrite Hstate. simpl.
      rewrite Hcount, <- Hst.
      destruct (CircuitBreaker.success_threshold cb
                  <=? CircuitBreaker.success_count cb + Z.of_nat n + 1) eqn:E.
      * apply Z.leb_le in E. split; [intros _; repeat split | lia].
      * apply Z.leb_gt in E. split; [lia |]. intros _. simpl. split; [reflexivity | lia].
    + destruct Hclosed as (Hstate & Hf & Hsc); [lia |].
      unfold CircuitBreaker.record_success. rewrite Hstate. simpl.
      split; [intros _; repeat split; assumption | lia].
Qed.

(** X3: the probe phase.  In HALF_OPEN one recorded failure opens the
    breaker again, with the success count back at zero and the failure time
    renewed, so that it refuses calls until [timeout_seconds] after that
    failure.  Successes recorded in a row close the breaker exactly when
    their count reaches [success_threshold], and closing resets both
    counters. *)
Theorem breaker_half_open_outcomes (cb : CircuitBreaker.t) (now : Q) (n : nat) :
  CircuitBreaker.state cb = CircuitBreaker.HALF_OPEN ->
  0 <= CircuitBreaker.success_count cb < CircuitBreaker.success_threshold cb ->
  (let f := CircuitBreaker.record_failure now cb in
   CircuitBreaker.state f = CircuitBreaker.OPEN
   /\ CircuitBreaker.success_count f = 0
   /\ CircuitBreaker.last_failure_time f = Some now
   /\ forall later : Q,
        (later - now < inject_Z (CircuitBreaker.timeout_seconds cb))%Q ->
        CircuitBreaker.can_execute later f = (false, f))
  /\ (let s := Nat.iter n CircuitBreaker.record_success cb in
      CircuitBreaker.state s
      = (if CircuitBreaker.success_threshold cb
            <=? CircuitBreaker.success_count cb + Z.of_nat n
         then CircuitBreaker.CLOSED else CircuitBreaker.HALF_OPEN)
      /\ (CircuitBreaker.state s = CircuitBreaker.CLOSED ->
          CircuitBreaker.failure_count s = 0 /\ CircuitBreaker.success_count s = 0)).
Proof.
  intros Hs Hc. split.
  - cbv zeta. unfold CircuitBreaker.record_failure. simpl. rewrite Hs. simpl.
    repeat split. intros later Hlater.
    unfold CircuitBreaker.can_execute, CircuitBreaker._should_attempt_reset. simpl.
    destruct (Qle_bool (inject_Z (CircuitBreaker.timeout_seconds cb)) (later - now)) eqn:E;
      [| reflexivity].
    apply Qle_bool_iff in E. exfalso. exact (Qlt_not_le _ _ Hlater E).
  - destruct (successes_in_half_open n cb Hs Hc) as (_ & Hclosed & Hhalf). cbv zeta.
    destruct (CircuitBreaker.success_threshold cb
                <=? CircuitBreaker.success_count cb + Z.of_nat n) eqn:E.
    + apply Z.leb_le in E. destruct (Hclosed E) as (H1 & H2 & H3).
      split; [exact H1 | intros _; split; assumption].
    + apply Z.leb_gt in E. destruct (Hhalf E) as (H1 & _).
      split; [exact H1 |]. rewrite H1. discriminate.
Qed.

(** The bank breaker admitted to HALF_OPEN: one success leaves it there, two
    close it, a failure at second 140 shuts it until second 170. *)
Lemma breaker_half_open_outcomes_witness :
  let cb := breaker_run CircuitBreaker.bank_circuit_breaker
              [RecordFailure 96%Q; RecordFailure 97%Q; RecordFailure 98%Q;
               RecordFailure 99%Q; RecordFailure 100%Q; CanExecute 130%Q] in
  CircuitBreaker.state (CircuitBreaker.record_success cb) = CircuitBreaker.HALF_OPEN
  /\ CircuitBreaker.state
       (CircuitBreaker.record_success (CircuitBreaker.record_success cb))
     = CircuitBreaker.CLOSED
  /\ fst (CircuitBreaker.can_execute 169%Q (CircuitBreaker.record_failure 140%Q cb))
     = false.
Proof.
  cbv zeta.
  set (cb := breaker_run _ _).
  assert (Hs : CircuitBreaker.state cb = CircuitBreaker.HALF_OPEN) by reflexivity.
  assert (Hc : 0 <= CircuitBreaker.success_count cb < CircuitBreaker.success_threshold cb)
    by (simpl; lia).
  destruct (breaker_half_open_outcomes cb 140%Q 1 Hs Hc) as ((_ & _ & _ & Hshut) & H1 & _).
  destruct (breaker_half_open_outcomes cb 140%Q 2 Hs Hc) as (_ & H2 & _).
  split; [exact H1 |]. split; [exact H2 |].
  rewrite (Hshut 169%Q); [reflexivity | vm_compute; reflexivity].
Defined.

(** * The bank simulator behind its circuit breaker *)

Lemma strategy_call_bank_refused (s : Strategy.t) (sim : BankSimulator.t) (now later : Q)
    (d : BankSimulator.Draws) (cb : CircuitBreaker.t) :
  CircuitBreaker.can_execute now cb = (false, cb) ->
  strategy_call_bank s sim now later d cb = (Ok BankSimulator.circuit_open_response, cb).
Proof.
  intros H. destruct s; simpl;
    unfold BankSimulator.process_deposit, BankSimulator.process_withdrawal, bind,
      BankSimulator.can_execute; rewrite H; reflexivity.
Qed.

Lemma strategy_call_bank_failing (s : Strategy.t) (sim : BankSimulator.t) (now later : Q)
    (d : BankSimulator.Draws) (cb : CircuitBreaker.t) :
  CircuitBreaker.state cb = CircuitBreaker.CLOSED ->
  BankSimulator.delay_raises d = None ->
  BankSimulator._should_succeed sim d = false ->
  strategy_call_bank s sim now later d cb
  = (Ok (BankSimulator._generate_error_scenario d),
     if transient d then CircuitBreaker.record_failure later cb else cb).
Proof.
  intros Hs Hd Hf. destruct s; simpl;
    unfold BankSimulator.process_deposit, BankSimulator.process_withdrawal, bind,
      BankSimulator.can_execute, CircuitBreaker.can_execute, try_except,
      BankSimulator._simulate_network_delay, transient,
      BankSimulator._generate_error_scenario;
    rewrite Hs, Hd, Hf; simpl; destruct (BankSimulator.error_type d); reflexivity.
Qed.

Lemma failing_calls_below_threshold (s : Strategy.t) (sim : BankSimulator.t)
    (calls : list (Q * Q * BankSimulator.Draws)) (cb : CircuitBreaker.t) :
  CircuitBreaker.state cb = CircuitBreaker.CLOSED ->
  Forall (fun c => BankSimulator.delay_raises (snd c) = None
                   /\ BankSimulator._should_succeed sim (snd c) = false) calls ->
  CircuitBreaker.failure_count cb
    + Z.of_nat (length (List.filter (fun c => transient (snd c)) calls))
    < CircuitBreaker.failure_threshold cb ->
  let '(rs, cb') := bank_calls s sim calls cb in
  rs = map (fun c => Ok (BankSimulator._generate_error_scenario (snd c))) calls
  /\ CircuitBreaker.state cb' = CircuitBreaker.CLOSED
  /\ CircuitBreaker.failure_count cb'
     = CircuitBreaker.failure_count cb
       + Z.of_nat (length (List.filter (fun c => transient (snd c)) calls))
  /\ same_configuration cb cb'.
Proof.
  revert cb. induction calls as [| [[now later] d] calls IH]; intros cb Hs Hall Hk.
  - simpl. split; [reflexivity |]. split; [exact Hs |].
    split; [lia | apply same_configuration_refl].
  - inversion Hall as [| c cs [Hd Hf] Hrest]; subst. simpl in Hd, Hf.
    cbn [bank_calls].
    rewrite (strategy_call_bank_failing s sim now later d cb Hs Hd Hf).
    cbn [List.filter length map snd] in Hk |- *.
    destruct (transient d) eqn:Et.
    + cbn [length] in Hk.
      set (cb1 := CircuitBreaker.record_failure later cb).
      assert (Hs1 : CircuitBreaker.state cb1 = CircuitBreaker.CLOSED
                    /\ CircuitBreaker.failure_count cb1 = CircuitBreaker.failure_count cb + 1
                    /\ same_configuration cb cb1).
      { unfold cb1, CircuitBreaker.record_failure. simpl. rewrite Hs.
        replace (CircuitBreaker.failure_threshold cb
                   <=? CircuitBreaker.failure_count cb + 1) with false
          by (symmetry; apply Z.leb_gt; lia).
        simpl. repeat split. }
      destruct Hs1 as (Hs1 & Hc1 & Hcfg1).
      specialize (IH cb1 Hs1 Hrest).
      destruct (bank_calls s sim calls cb1) as [rs cb'].
      destruct IH as (Hrs & Hst & Hcnt & Hcfg).
      { destruct Hcfg1 as (_ & Hft & _). rewrite <- Hft, Hc1. lia. }
      split; [rewrite Hrs; reflexivity |]. split; [exact Hst |].
      split; [rewrite Hcnt, Hc1; cbn [length]; lia |].
      eapply same_configuration_trans; eassumption.
    + specialize (IH cb Hs Hrest Hk).
      destruct (bank_calls s sim calls cb) as [rs cb'].
      destruct IH as (Hrs & Hst & Hcnt & Hcfg).
      split; [rewrite Hrs; reflexivity |]. repeat split; try assumption; apply Hcfg.
Qed.

Lemma bank_calls_app (s : Strategy.t) (sim : BankSimulator.t)
    (a b : list (Q * Q * BankSimulator.Draws)) (cb : CircuitBreaker.t) :
  bank_calls s sim (a ++ b) cb
  = (fst (bank_calls s sim a cb) ++ fst (bank_calls s sim b (snd (bank_calls s sim a cb))),
     snd (bank_calls s sim b (snd (bank_calls s sim a cb)))).
Proof.
  revert cb. induction a as [| [[now later] d] a IH]; intros cb.
  - simpl. destruct (bank_calls s sim b cb); reflexivity.
  - cbn [bank_calls app]. destruct (strategy_call_bank s sim now later d cb) as [r cb1].
    rewrite IH. destruct (bank_calls s sim a cb1) as [rs cb2]. reflexivity.
Qed.

(** X4: the simulator and its breaker.  Calls that reach the bank and fail
    are answered with the scenario drawn; only the transient scenarios
    (unavailable, timeout) are recorded as failures, an INSUFFICIENT_FUNDS
    answer leaves the breaker alone.  While the recorded failures stay below
    [failure_threshold] the breaker stays CLOSED.  The transient failure
    that reaches the threshold opens it, and from then until
    [timeout_seconds] after that failure every call is answered UNAVAILABLE
    with code CIRCUIT_BREAKER_OPEN whatever its draws are, without a new
    failure being recorded. *)
Theorem bank_transient_failures_open_breaker
    (s : Strategy.t) (sim : BankSimulator.t)
    (calls : list (Q * Q * BankSimulator.Draws)) (now later : Q)
    (d : BankSimulator.Draws) (cb : CircuitBreaker.t) :
  CircuitBreaker.state cb = CircuitBreaker.CLOSED ->
  Forall (fun c => BankSimulator.delay_raises (snd c) = None
                   /\ BankSimulator._should_succeed sim (snd c) = false)
    (calls ++ [(now, later, d)]) ->
  transient d = true ->
  CircuitBreaker.failure_count cb
    + Z.of_nat (length (List.filter (fun c => transient (snd c)) calls)) + 1
  = CircuitBreaker.failure_threshold cb ->
  let before := bank_calls s sim calls cb in
  let after := bank_calls s sim (calls ++ [(now, later, d)]) cb in
  fst after
  = map (fun c => Ok (BankSimulator._generate_error_scenario (snd c)))
      (calls ++ [(now, later, d)])
  /\ CircuitBreaker.state (snd before) = CircuitBreaker.CLOSED
  /\ CircuitBreaker.failure_count (snd before)
     = CircuitBreaker.failure_count cb
       + Z.of_nat (length (List.filter (fun c => transient (snd c)) calls))
  /\ CircuitBreaker.state (snd after) = CircuitBreaker.OPEN
  /\ forall (probe_now probe_later : Q) (probe : BankSimulator.Draws),
       (probe_now - later < inject_Z (CircuitBreaker.timeout_seconds cb))%Q ->
       strategy_call_bank s sim probe_now probe_later probe (snd after)
       = (Ok BankSimulator.circuit_open_response, snd after).
Proof.
  intros Hs Hall Ht Hk before after.
  apply Forall_app in Hall. destruct Hall as [Hcalls Hlast].
  inversion Hlast as [| c cs [Hd Hf] _]; subst. simpl in Hd, Hf.
  assert (Hbelow := failing_calls_below_threshold s sim calls cb Hs Hcalls ltac:(lia)).
  unfold after, before. rewrite bank_calls_app.
  destruct (bank_calls s sim calls cb) as [rs cb1]. simpl.
  destruct Hbelow as (Hrs & Hst & Hcnt & Hcfg).
  rewrite (strategy_call_bank_failing s sim now later d cb1 Hst Hd Hf). rewrite Ht. simpl.
  destruct Hcfg as (_ & Hft & Htm & _).
  assert (Hopen : CircuitBreaker.record_failure later cb1
                  = CircuitBreaker._transition_to_open
                      (CircuitBreaker.Breaker (CircuitBreaker.name cb1)
                         (CircuitBreaker.failure_threshold cb1)
                         (CircuitBreaker.timeout_seconds cb1)
                         (CircuitBreaker.success_threshold cb1) CircuitBreaker.CLOSED
                         (CircuitBreaker.failure_count cb1 + 1)
                         (CircuitBreaker.success_count cb1) (Some later))).
  { unfold CircuitBreaker.record_failure. simpl. rewrite Hst.
    replace (CircuitBreaker.failure_threshold cb1
               <=? CircuitBreaker.failure_count cb1 + 1) with true
      by (symmetry; apply Z.leb_le; lia).
    reflexivity. }
  split; [rewrite Hrs, map_app; reflexivity |].
  split; [exact Hst |]. split; [exact Hcnt |].
  rewrite Hopen. split; [reflexivity |].
  intros probe_now probe_later probe Hearly.
  apply strategy_call_bank_refused.
  unfold CircuitBreaker.can_execute, CircuitBreaker._should_attempt_reset. simpl.
  rewrite <- Htm.
  destruct (Qle_bool (inject_Z (CircuitBreaker.timeout_seconds cb)) (probe_now - later))
    eqn:E; [| reflexivity].
  apply Qle_bool_iff in E. exfalso. exact (Qlt_not_le _ _ Hearly E).
Qed.

(** Four transient failures and one INSUFFICIENT_FUNDS answer leave the bank
    breaker CLOSED; the fifth transient failure, at second 62, opens it, and
    a deposit that would succeed is refused at second 91. *)
Lemma bank_transient_failures_open_breaker_witness :
  let after :=
    bank_calls Strategy.DepositStrategy example_simulator
      (example_failing_calls ++ [(60%Q, 62%Q, example_failing_draws BankSimulator.timeout)])
      CircuitBreaker.bank_circuit_breaker in
  CircuitBreaker.state (snd after) = CircuitBreaker.OPEN
  /\ strategy_call_bank Strategy.DepositStrategy example_simulator 91%Q 92%Q
       example_succeeding_draws (snd after)
     = (Ok BankSimulator.circuit_open_response, snd after).
Proof.
  cbv zeta.
  destruct (bank_transient_failures_open_breaker Strategy.DepositStrategy example_simulator
              example_failing_calls 60%Q 62%Q (example_failing_draws BankSimulator.timeout)
              CircuitBreaker.bank_circuit_breaker eq_refl)
    as (_ & _ & _ & Hopen & Hrefused).
  - repeat constructor.
  - reflexivity.
  - reflexivity.
  - split; [exact Hopen |]. apply Hrefused. vm_compute. reflexivity.
Defined.

Lemma strategy_call_bank_succeeding (s : Strategy.t) (sim : BankSimulator.t) (now later : Q)
    (d : BankSimulator.Draws) (cb : CircuitBreaker.t) :
  CircuitBreaker.state cb <> CircuitBreaker.OPEN ->
  BankSimulator.delay_raises d = None ->
  BankSimulator._should_succeed sim d = true ->
  strategy_call_bank s sim now later d cb
  = (Ok (bank_success_response s d), CircuitBreaker.record_success cb).
Proof.
  intros Hs Hd Hf.
  assert (Hadm : CircuitBreaker.can_execute now cb = (true, cb)).
  { unfold CircuitBreaker.can_execute.
    destruct (CircuitBreaker.state cb); [reflexivity | contradiction | reflexivity]. }
  destruct s; simpl;
    unfold BankSimulator.process_deposit, BankSimulator.process_withdrawal, bind,
      BankSimulator.can_execute, try_except, BankSimulator._simulate_network_delay;
    rewrite Hadm, Hd, Hf; reflexivity.
Qed.

Lemma record_success_not_open (cb : CircuitBreaker.t) :
  CircuitBreaker.state cb <> CircuitBreaker.OPEN ->
  CircuitBreaker.state (CircuitBreaker.record_success cb) <> CircuitBreaker.OPEN.
Proof.
  destruct cb as [n ft tms st s fc sc l]. unfold CircuitBreaker.record_success. simpl.
  destruct s; simpl; intros H; try assumption; try discriminate.
  destruct (st <=? sc + 1); simpl; discriminate.
Qed.

Lemma iter_shift {A : Type} (f : A -> A) (n : nat) (x : A) :
  Nat.iter n f (f x) = Nat.iter (S n) f x.
Proof.
  induction n as [| n IH]; [reflexivity |].
  change (f (Nat.iter n f (f x)) = f (Nat.iter (S n) f x)). rewrite IH. reflexivity.
Qed.

Lemma succeeding_calls (s : Strategy.t) (sim : BankSimulator.t)
    (calls : list (Q * Q * BankSimulator.Draws)) (cb : CircuitBreaker.t) :
  CircuitBreaker.state cb <> CircuitBreaker.OPEN ->
  Forall (fun c => BankSimulator.delay_raises (snd c) = None
                   /\ BankSimulator._should_succeed sim (snd c) = true) calls ->
  bank_calls s sim calls cb
  = (map (fun c => Ok (bank_success_response s (snd c))) calls,
     Nat.iter (length calls) CircuitBreaker.record_success cb).
Proof.
  revert cb. induction calls as [| [[now later] d] calls IH]; intros cb Hs Hall.
  - reflexivity.
  - inversion Hall as [| c cs [Hd Hf] Hrest]; subst. simpl in Hd, Hf.
    cbn [bank_calls]. rewrite (strategy_call_bank_succeeding s sim now later d cb Hs Hd Hf).
    rewrite (IH _ (record_success_not_open cb Hs) Hrest).
    cbn [map length snd]. f_equal. apply iter_shift.
Qed.

Lemma hex_fixed_length (width : nat) (n : N) (acc : string) :
  String.length (hex_fixed width n acc) = (width + String.length acc)%nat.
Proof.
  revert n acc. induction width as [| w IH]; intros n acc; [reflexivity |].
  simpl. rewrite IH. simpl. lia.
Qed.

Lemma upper_length (s : string) : String.length (upper s) = String.length s.
Proof. induction s as [| c s IH]; [reflexivity |]. simpl. rewrite IH. reflexivity. Qed.

Lemma substring_length (n m : nat) (s : string) :
  (n + m <= String.length s)%nat -> String.length (substring n m s) = m.
Proof.
  revert n m. induction s as [| c s IH]; intros n m H.
  - simpl in H. assert (n = 0%nat) by lia. assert (m = 0%nat) by lia. subst. reflexivity.
  - destruct n as [| n].
    + destruct m as [| m]; [reflexivity |]. simpl. rewrite IH; [reflexivity |]. simpl in H. lia.
    + simpl. apply IH. simpl in H. lia.
Qed.

Lemma reference_digits_length (u : UUID) :
  String.length (BankSimulator.reference_digits u) = 12%nat.
Proof.
  unfold BankSimulator.reference_digits, str_take. rewrite upper_length.
  apply substring_length. rewrite hex_fixed_length. simpl. lia.
Qed.

Lemma append_length (a b : string) :
  String.length (a +:+ b) = (String.length a + String.length b)%nat.
Proof.
  induction a as [| c a IH]; [rewrite append_empty_l; reflexivity |].
  rewrite append_cons. simpl. rewrite IH. reflexivity.
Qed.

(** X5: recovery.  The breaker is OPEN and its timeout has elapsed when a
    series of calls arrives that all succeed at the bank.  Every call is
    answered SUCCESS with a reference of 21 characters, and the breaker is
    CLOSED afterwards, with a failure count of zero, exactly when the series
    has at least [success_threshold] calls; with fewer it is HALF_OPEN. *)
Theorem bank_successes_close_breaker
    (s : Strategy.t) (sim : BankSimulator.t) (now later last : Q)
    (d : BankSimulator.Draws) (calls : list (Q * Q * BankSimulator.Draws))
    (cb : CircuitBreaker.t) :
  CircuitBreaker.state cb = CircuitBreaker.OPEN ->
  CircuitBreaker.last_failure_time cb = Some last ->
  (inject_Z (CircuitBreaker.timeout_seconds cb) <= now - last)%Q ->
  0 < CircuitBreaker.success_threshold cb ->
  Forall (fun c => BankSimulator.delay_raises (snd c) = None
                   /\ BankSimulator._should_succeed sim (snd c) = true)
    ((now, later, d) :: calls) ->
  let run := bank_calls s sim ((now, later, d) :: calls) cb in
  fst run = map (fun c => Ok (bank_success_response s (snd c))) ((now, later, d) :: calls)
  /\ Forall (fun c =>
               exists reference : string,
                 br_transaction_id (bank_success_response s (snd c)) = Some reference
                 /\ String.length reference = 21%nat)
       ((now, later, d) :: calls)
  /\ CircuitBreaker.state (snd run)
     = (if CircuitBreaker.success_threshold cb <=? Z.of_nat (S (length calls))
        then CircuitBreaker.CLOSED else CircuitBreaker.HALF_OPEN)
  /\ (CircuitBreaker.state (snd run) = CircuitBreaker.CLOSED ->
      CircuitBreaker.failure_count (snd run) = 0).
Proof.
  intros Hs Hl Helapsed Hst Hall run.
  set (half := CircuitBreaker._transition_to_half_open cb).
  assert (Hrun : run = (map (fun c => Ok (bank_success_response s (snd c)))
                          ((now, later, d) :: calls),
                        Nat.iter (S (length calls)) CircuitBreaker.record_success half)).
  { unfold run. inversion Hall as [| c cs [Hd Hf] Hrest]; subst. simpl in Hd, Hf.
    assert (Hfirst : strategy_call_bank s sim now later d cb
                     = (Ok (bank_success_response s d), CircuitBreaker.record_success half)).
    { assert (Hadm : CircuitBreaker.can_execute now cb = (true, half)).
      { unfold CircuitBreaker.can_execute, CircuitBreaker._should_attempt_reset.
        rewrite Hs, Hl. apply Qle_bool_iff in Helapsed. rewrite Helapsed. reflexivity. }
      destruct s; simpl;
        unfold BankSimulator.process_deposit, BankSimulator.process_withdrawal, bind,
          BankSimulator.can_execute, try_except, BankSimulator._simulate_network_delay;
        rewrite Hadm, Hd, Hf; reflexivity. }
    cbn [bank_calls]. rewrite Hfirst.
    rewrite succeeding_calls;
      [| apply record_success_not_open; unfold half; simpl; discriminate | exact Hrest].
    cbn [map snd]. f_equal. apply iter_shift. }
  rewrite Hrun. cbn [fst snd].
  split; [reflexivity |]. split.
  { apply Forall_forall. intros c _. destruct s; simpl; eexists; (split; [reflexivity |]);
      rewrite append_length, reference_digits_length; reflexivity. }
  destruct (successes_in_half_open (S (length calls)) half) as (_ & Hclosed & Hhalf).
  { reflexivity. }
  { unfold half. simpl. lia. }
  change (CircuitBreaker.success_threshold half) with (CircuitBreaker.success_threshold cb)
    in *.
  change (CircuitBreaker.success_count half) with 0 in *.
  destruct (CircuitBreaker.success_threshold cb <=? Z.of_nat (S (length calls))) eqn:E.
  - apply Z.leb_le in E. destruct Hclosed as (H1 & H2 & _); [lia |].
    split; [exact H1 | intros _; exact H2].
  - apply Z.leb_gt in E. destruct Hhalf as (H1 & _); [lia |].
    split; [exact H1 |]. rewrite H1. discriminate.
Qed.

(** The opened bank breaker of the example, probed at second 92 and after:
    one success leaves it HALF_OPEN, the second closes it. *)
Lemma bank_successes_close_breaker_witness :
  let opened :=
    snd (bank_calls Strategy.DepositStrategy example_simulator
           (example_failing_calls
            ++ [(60%Q, 62%Q, example_failing_draws BankSimulator.timeout)])
           CircuitBreaker.bank_circuit_breaker) in
  fst (bank_calls Strategy.WithdrawalStrategy example_simulator
         [(92%Q, 93%Q, example_succeeding_draws)] opened)
  = [Ok (mkBankResponse BankResponseStatus.SUCCESS (Some "BANK-WTH-ABCDEF012345")
           (Some "Withdrawal processed successfully") None)]
  /\ CircuitBreaker.state
       (snd (bank_calls Strategy.WithdrawalStrategy example_simulator
               [(92%Q, 93%Q, example_succeeding_draws)] opened))
     = CircuitBreaker.HALF_OPEN
  /\ CircuitBreaker.state
       (snd (bank_calls Strategy.WithdrawalStrategy example_simulator
               [(92%Q, 93%Q, example_succeeding_draws);
                (95%Q, 96%Q, example_succeeding_draws)] opened))
     = CircuitBreaker.CLOSED.
Proof.
  cbv zeta.
  set (opened := snd (bank_calls Strategy.DepositStrategy _ _ _)).
  assert (Hs : CircuitBreaker.state opened = CircuitBreaker.OPEN) by reflexivity.
  assert (Hl : CircuitBreaker.last_failure_time opened = Some 62%Q) by reflexivity.
  assert (He : (inject_Z (CircuitBreaker.timeout_seconds opened) <= 92 - 62)%Q)
    by (vm_compute; discriminate).
  assert (Ht : 0 < CircuitBreaker.success_threshold opened) by (simpl; lia).
  destruct (bank_successes_close_breaker Strategy.WithdrawalStrategy example_simulator
              92%Q 93%Q 62%Q example_succeeding_draws [] opened Hs Hl He Ht)
    as (H1 & _ & H2 & _); [repeat constructor |].
  destruct (bank_successes_close_breaker Strategy.WithdrawalStrategy example_simulator
              92%Q 93%Q 62%Q example_succeeding_draws
              [(95%Q, 96%Q, example_succeeding_draws)] opened Hs Hl He Ht)
    as (_ & _ & H3 & _); [repeat constructor |].
  split; [rewrite H1; reflexivity |]. split; [exact H2 | exact H3].
Defined.

(** * The distributed lock: leases *)

Lemma lookup_live_insert_ne {V : Type} (now_ : Z) (s : gmap string (Redis.entry V))
    (k k' : string) (e : Redis.entry V) :
  k <> k' -> Redis.lookup_live now_ (<[k := e]> s) k' = Redis.lookup_live now_ s k'.
Proof. intros H. unfold Redis.lookup_live. rewrite lookup_insert_ne by exact H. reflexivity. Qed.

Lemma lookup_live_insert_iff {V : Type} (now_ : Z) (s : gmap string (Redis.entry V))
    (k : string) (v : V) (expiry : Z) :
  Redis.lookup_live now_ (<[k := Redis.Entry v expiry]> s) k
  = if now_ <? expiry then Some v else None.
Proof. unfold Redis.lookup_live. rewrite lookup_insert_eq. reflexivity. Qed.

(** X6: one attempt to take the lock.  On a free key the attempt succeeds and
    stores the owner token with a lease of [min(ttl, 30)] seconds: the key
    reads as the owner's until then and is free from then on, so no lease
    outlives 30 seconds, and other keys are untouched.  On a key that holds
    a live lease the attempt fails, leaves the store as it is and clears
    [acquired], also when the lease is the caller's own: the lock is not
    re-entrant, and an owner that tries again no longer releases its
    lease. *)
Theorem lock_attempt_grants_bounded_lease
    (k ident : string) (ttl retry_timeout : Z) (blocking : bool) (retry_delay : Q)
    (now_ : Z) (r : Redis.t string) :
  0 < ttl ->
  Redis.faults r = [] ->
  let l := DistributedLock.init k ttl blocking retry_timeout retry_delay ident in
  (Redis.lookup_live now_ (Redis.store r) (DistributedLock.key l) = None ->
   exists r' : Redis.t string,
     DistributedLock._try_acquire_once now_ l r
     = (Ok (true, DistributedLock.set_acquired true l), r')
     /\ (forall t : Z,
           Redis.lookup_live t (Redis.store r') (DistributedLock.key l)
           = if t <? now_ + 1000 * Z.min ttl 30 then Some ident else None)
     /\ Redis.lookup_live (now_ + 30000) (Redis.store r') (DistributedLock.key l) = None
     /\ forall (t : Z) (other : string),
          other <> DistributedLock.key l ->
          Redis.lookup_live t (Redis.store r') other
          = Redis.lookup_live t (Redis.store r) other)
  /\ (forall holder : string,
        Redis.lookup_live now_ (Redis.store r) (DistributedLock.key l) = Some holder ->
        DistributedLock._try_acquire_once now_ l r
        = (Ok (false, DistributedLock.set_acquired false l), r)
        /\ DistributedLock._try_acquire_once now_ (DistributedLock.set_acquired true l) r
           = (Ok (false, DistributedLock.set_acquired false l), r)
        /\ DistributedLock.release now_ (DistributedLock.set_acquired false l) r
           = (Ok (false, DistributedLock.set_acquired false l), r)).
Proof.
  intros Httl Hf l.
  assert (Hpos : 0 < DistributedLock.ttl l) by (simpl; lia).
  split.
  - intros Hfree. eexists. split.
    + unfold DistributedLock._try_acquire_once, bind.
      rewrite redis_set_no_faults by assumption. rewrite Hfree. reflexivity.
    + cbn [Redis.store]. split; [| split].
      * intros t. apply lookup_live_insert_iff.
      * rewrite lookup_live_insert_iff.
        replace (now_ + 30000 <? now_ + 1000 * DistributedLock.ttl l) with false
          by (symmetry; apply Z.ltb_ge; simpl; lia).
        reflexivity.
      * intros t other Hne. apply lookup_live_insert_ne. congruence.
  - intros holder Hheld.
    assert (Hset : forall l0, DistributedLock.key l0 = DistributedLock.key l ->
                     DistributedLock.ttl l0 = DistributedLock.ttl l ->
                     DistributedLock.set_acquired false l0
                     = DistributedLock.set_acquired false l ->
                     DistributedLock._try_acquire_once now_ l0 r
                     = (Ok (false, DistributedLock.set_acquired false l), r)).
    { intros l0 Hk Ht Hl0. unfold DistributedLock._try_acquire_once, bind.
      rewrite redis_set_no_faults by (rewrite ?Ht; assumption).
      rewrite Hk, Hheld. rewrite redis_client_eta by assumption.
      simpl. rewrite <- Hl0. reflexivity. }
    split; [apply Hset; reflexivity |]. split; [apply Hset; reflexivity |].
    apply DistributedLock_release_not_acquired. reflexivity.
Qed.

(** A lock asked for 45 seconds is granted 30: it is held at second 29.999
    and free at second 30; a second attempt by its owner at second 5 fails
    and the release that follows does nothing. *)
Lemma lock_attempt_grants_bounded_lease_witness :
  let l := DistributedLock.init "account:7" 45 false 30 (1 # 10) "token-b" in
  exists r' : Redis.t string,
    DistributedLock._try_acquire_once 0 l (Redis.Client ∅ [])
    = (Ok (true, DistributedLock.set_acquired true l), r')
    /\ Redis.lookup_live 29999 (Redis.store r') "lock:account:7" = Some "token-b"
    /\ Redis.lookup_live 30000 (Redis.store r') "lock:account:7" = None
    /\ DistributedLock._try_acquire_once 5000 (DistributedLock.set_acquired true l) r'
       = (Ok (false, DistributedLock.set_acquired false l), r').
Proof.
  cbv zeta.
  destruct (lock_attempt_grants_bounded_lease "account:7" "token-b" 45 30 false (1 # 10) 0
              (Redis.Client ∅ []) ltac:(lia) eq_refl) as [Hfree _].
  destruct (Hfree eq_refl) as (r' & Hrun & Hlease & Hcap & _).
  exists r'. split; [exact Hrun |]. split; [rewrite Hlease; reflexivity |].
  split; [exact Hcap |].
  assert (Hf : Redis.faults r' = []).
  { unfold DistributedLock._try_acquire_once, bind in Hrun.
    rewrite redis_set_no_faults in Hrun by (reflexivity || (simpl; lia)).
    simpl in Hrun. inversion Hrun. reflexivity. }
  destruct (lock_attempt_grants_bounded_lease "account:7" "token-b" 45 30 false (1 # 10)
              5000 r' ltac:(lia) Hf) as [_ Hheld].
  destruct (Hheld "token-b") as (_ & Hagain & _); [rewrite Hlease; reflexivity |].
  exact Hagain.
Defined.

(** X7: extending a lease.  A lock that is not marked acquired answers
    [False] without a cache command.  Otherwise [extend] succeeds exactly
    when the key still holds the caller's token: the lease then ends
    [additional_ttl] seconds from now, whatever time it had left (the cap of
    30 seconds of the constructor does not apply); a lease that has expired
    or belongs to another owner is left as it is. *)
Theorem lock_extend_owner_only
    (l : DistributedLock.t) (now_ additional_ttl : Z) (r : Redis.t string) :
  (DistributedLock.acquired l = false -> DistributedLock.extend now_ additional_ttl l r
                                         = (Ok false, r))
  /\ (DistributedLock.acquired l = true ->
      Redis.faults r = [] ->
      0 < additional_ttl ->
      (Redis.lookup_live now_ (Redis.store r) (DistributedLock.key l)
       = Some (DistributedLock.lock_identifier l) ->
       exists r' : Redis.t string,
         DistributedLock.extend now_ additional_ttl l r = (Ok true, r')
         /\ forall t : Z,
              Redis.lookup_live t (Redis.store r') (DistributedLock.key l)
              = if t <? now_ + 1000 * additional_ttl
                then Some (DistributedLock.lock_identifier l) else None)
      /\ (Redis.lookup_live now_ (Redis.store r) (DistributedLock.key l)
          <> Some (DistributedLock.lock_identifier l) ->
          DistributedLock.extend now_ additional_ttl l r = (Ok false, r))).
Proof.
  split.
  - intros Ha. unfold DistributedLock.extend. rewrite Ha. reflexivity.
  - intros Ha Hf Hpos. unfold DistributedLock.extend, bind, Redis.eval_compare_and_expire.
    rewrite Ha. cbn [negb]. rewrite redis_call_no_faults by assumption. split.
    + intros Hown. rewrite Hown. rewrite String.eqb_refl.
      replace (additional_ttl <=? 0) with false by (symmetry; apply Z.leb_gt; lia).
      eexists. split; [reflexivity |]. intros t. cbn [snd Redis.store].
      apply lookup_live_insert_iff.
    + intros Hother.
      destruct (Redis.lookup_live now_ (Redis.store r) (DistributedLock.key l)) as [v |]
        eqn:E.
      * destruct (String.eqb v (DistributedLock.lock_identifier l)) eqn:Ev.
        -- apply String.eqb_eq in Ev. subst v. contradiction.
        -- cbn. rewrite redis_client_eta by assumption. reflexivity.
      * cbn. rewrite redis_client_eta by assumption. reflexivity.
Qed.

(** A lease of 10 seconds taken at second 0 and extended by 60 at second 8
    lasts until second 68; the extension asked by another owner fails. *)
Lemma lock_extend_owner_only_witness :
  let l := DistributedLock.set_acquired true
             (DistributedLock.init "account:7" 10 false 30 (1 # 10) "token-b") in
  let other := DistributedLock.set_acquired true
                 (DistributedLock.init "account:7" 10 false 30 (1 # 10) "token-c") in
  let r : Redis.t string :=
    Redis.Client {[ "lock:account:7" := Redis.Entry "token-b" 10000 ]} [] in
  (exists r' : Redis.t string,
      DistributedLock.extend 8000 60 l r = (Ok true, r')
      /\ Redis.lookup_live 67999 (Redis.store r') "lock:account:7" = Some "token-b"
      /\ Redis.lookup_live 68000 (Redis.store r') "lock:account:7" = None)
  /\ DistributedLock.extend 8000 60 other r = (Ok false, r).
Proof.
  cbv zeta. split.
  - destruct (lock_extend_owner_only
                (DistributedLock.set_acquired true
                   (DistributedLock.init "account:7" 10 false 30 (1 # 10) "token-b"))
                8000 60
                (Redis.Client {[ "lock:account:7" := Redis.Entry "token-b" 10000 ]} []))
      as [_ H].
    destruct (H eq_refl eq_refl ltac:(lia)) as [Hown _].
    destruct (Hown eq_refl) as (r' & Hrun & Hlease).
    exists r'. split; [exact Hrun |]. rewrite !Hlease. split; reflexivity.
  - destruct (lock_extend_owner_only
                (DistributedLock.set_acquired true
                   (DistributedLock.init "account:7" 10 false 30 (1 # 10) "token-c"))
                8000 60
                (Redis.Client {[ "lock:account:7" := Redis.Entry "token-b" 10000 ]} []))
      as [_ H].
    destruct (H eq_refl eq_refl ltac:(lia)) as [_ Hother].
    apply Hother. vm_compute. discriminate.
Defined.

(** * Creation of pending transactions *)

Lemma flush_new_transaction_cases (t : Transaction) (e : Env) :
  (exists msg : string, Session.flush_new_transaction t e = (Raise (Exc IntegrityError msg), e))
  \/ (Session.flush_new_transaction t e
      = (Ok tt, env_with_session (put_transaction t (session e)) e)
      /\ transactions (session e) !! tx_id t = None
      /\ 0 < tx_amount t
      /\ forall k, tx_idempotency_key t = Some k ->
                   Session.key_in_use k (transactions (session e)) = false).
Proof.
  unfold Session.flush_new_transaction, bind, get_state.
  destruct (transactions (session e) !! tx_id t) eqn:El; [left; eexists; reflexivity |].
  unfold Session.check_amount_positive.
  destruct (0 <? tx_amount t) eqn:Ea; [| left; eexists; reflexivity].
  apply Z.ltb_lt in Ea. cbn.
  destruct (tx_idempotency_key t) as [k |] eqn:Ek.
  - destruct (Session.key_in_use k (transactions (session e))) eqn:Eu.
    + left. eexists. reflexivity.
    + right. cbn. repeat split; try assumption. intros k' Hk'. inversion Hk'. subst. exact Eu.
  - right. cbn. repeat split; try assumption. intros k' Hk'. discriminate.
Qed.

Lemma create_and_commit_cases (t : Transaction) (e : Env) :
  (exists msg : string,
      (let* created := TransactionRepository.create t in Session.commit ;; ret created) e
      = (Raise (Exc IntegrityError msg), e))
  \/ ((let* created := TransactionRepository.create t in Session.commit ;; ret created) e
      = (Ok t, env_published (put_transaction t (session e)) e)
      /\ transactions (session e) !! tx_id t = None
      /\ 0 < tx_amount t
      /\ forall k, tx_idempotency_key t = Some k ->
                   Session.key_in_use k (transactions (session e)) = false).
Proof.
  destruct (flush_new_transaction_cases t e) as [[msg H] | (H & Hrest)].
  - left. exists msg. unfold TransactionRepository.create, bind. rewrite H. reflexivity.
  - right. split; [| exact Hrest].
    unfold TransactionRepository.create, bind. rewrite H. reflexivity.
Qed.



Lemma key_in_use_true (k : string) (txs : gmap N Transaction) :
  map_Exists (fun _ t => tx_idempotency_key t = Some k) txs ->
  Session.key_in_use k txs = true.
Proof. intros H. unfold Session.key_in_use. apply bool_decide_eq_true. exact H. Qed.

Lemma key_in_use_spec (k : string) (txs : gmap N Transaction) :
  Session.key_in_use k txs = false ->
  forall (i : N) (t : Transaction), txs !! i = Some t -> tx_idempotency_key t <> Some k.
Proof.
  intros H i t Hl Hk. unfold Session.key_in_use in H. apply bool_decide_eq_false in H.
  apply H. exists i, t. split; assumption.
Qed.

Lemma keys_unique_put (t : Transaction) (T : Tables) :
  keys_unique T ->
  transactions T !! tx_id t = None ->
  (forall k, tx_idempotency_key t = Some k ->
             Session.key_in_use k (transactions T) = false) ->
  keys_unique (put_transaction t T).
Proof.
  intros Hu Hfresh Hkey i j a b k Ha Hb Hka Hkb. simpl in Ha, Hb.
  destruct (decide (i = tx_id t)) as [-> | Hi]; destruct (decide (j = tx_id t)) as [-> | Hj].
  - reflexivity.
  - rewrite lookup_insert_eq in Ha. inversion Ha. subst a.
    rewrite lookup_insert_ne in Hb by congruence.
    exfalso. exact (key_in_use_spec k _ (Hkey k Hka) j b Hb Hkb).
  - rewrite lookup_insert_eq in Hb. inversion Hb. subst b.
    rewrite lookup_insert_ne in Ha by congruence.
    exfalso. exact (key_in_use_spec k _ (Hkey k Hkb) i a Ha Hka).
  - rewrite lookup_insert_ne in Ha by congruence. rewrite lookup_insert_ne in Hb by congruence.
    exact (Hu i j a b k Ha Hb Hka Hkb).
Qed.

Lemma create_pending_cases (type : TransactionType.t) (new_id account_id : UUID)
    (amount : Z) (currency : string) (idempotency_key celery_task_id : option string)
    (e : Env) :
  let t := pending_transaction type new_id account_id amount currency idempotency_key
             celery_task_id in
  (exists x : exn,
      create_pending type new_id account_id amount currency idempotency_key celery_task_id e
      = (Raise x, e))
  \/ (create_pending type new_id account_id amount currency idempotency_key celery_task_id e
      = (Ok t, env_published (put_transaction t (session e)) e)
      /\ transactions (session e) !! new_id = None
      /\ 0 < amount
      /\ forall k, idempotency_key = Some k ->
                   Session.key_in_use k (transactions (session e)) = false).
Proof.
  intros t.
  destruct type; simpl;
    unfold DepositService.create_pending_deposit, WithdrawalService.create_pending_withdrawal,
      AccountRepository.get_by_id, AccountRepository.get_by_id_with_lock;
    unfold bind at 1; unfold bind at 1; unfold get_state; cbn;
    (destruct (accounts (session e) !! account_id) as [acc |];
     [| left; eexists; reflexivity]).
  - destruct (create_and_commit_cases t e) as [[msg H] | H];
      [left; exists (Exc IntegrityError msg); exact H | right; exact H].
  - destruct (acc_balance acc <? amount); [left; eexists; reflexivity |].
    destruct (create_and_commit_cases t e) as [[msg H] | H];
      [left; exists (Exc IntegrityError msg); exact H | right; exact H].
Qed.

(** X9: idempotency keys stay unique.  Whatever a creation request asks for,
    deposit or withdrawal, the session view, the committed state and every
    published state keep the property that no two rows carry the same
    idempotency key; a request whose key is carried by a stored row raises
    and leaves the environment as it was. *)
Theorem creation_keeps_idempotency_keys_unique
    (type : TransactionType.t) (new_id account_id : UUID) (amount : Z)
    (currency : string) (idempotency_key celery_task_id : option string) (e : Env) :
  keys_invariant e ->
  let run := create_pending type new_id account_id amount currency idempotency_key
               celery_task_id e in
  keys_invariant (snd run)
  /\ (forall k : string,
        idempotency_key = Some k ->
        map_Exists (fun _ t => tx_idempotency_key t = Some k) (transactions (session e)) ->
        exists x : exn, run = (Raise x, e)).
Proof.
  intros (Hs & Hd & Hl) run.
  destruct (create_pending_cases type new_id account_id amount currency idempotency_key
              celery_task_id e) as [[x H] | (H & Hfresh & Hpos & Hkey)].
  - unfold run. rewrite H. cbn [snd]. split; [repeat split; assumption |].
    intros k _ _. exists x. reflexivity.
  - unfold run. rewrite H. cbn [snd].
    assert (Hput : keys_unique
                     (put_transaction
                        (pending_transaction type new_id account_id amount currency
                           idempotency_key celery_task_id) (session e))).
    { apply keys_unique_put; [exact Hs | exact Hfresh | exact Hkey]. }
    split.
    + unfold keys_invariant, env_published. cbn.
      split; [exact Hput |]. split; [exact Hput |].
      apply Forall_app. split; [exact Hl | constructor; [exact Hput | constructor]].
    + intros k Hk Hex. specialize (Hkey k Hk).
      rewrite (key_in_use_true k _ Hex) in Hkey. discriminate.
Qed.

(** The withdrawal of the example carries the key [k4b]: a second request
    with that key, here a deposit, is refused and nothing changes. *)
Lemma creation_keeps_idempotency_keys_unique_witness :
  exists x : exn,
    DepositService.create_pending_deposit 6 1 2500 "USD" (Some "k4b") None example_env
    = (Raise x, example_env).
Proof.
  assert (Hinv : keys_invariant example_env).
  { assert (Hu : keys_unique example_tables).
    { intros i j t t' k Hi Hj _ _. simpl in Hi, Hj.
      apply lookup_singleton_Some in Hi. apply lookup_singleton_Some in Hj.
      destruct Hi as [<- _]. destruct Hj as [<- _]. reflexivity. }
    split; [exact Hu |]. split; [exact Hu | constructor]. }
  destruct (creation_keeps_idempotency_keys_unique TransactionType.DEPOSIT 6 1 2500 "USD"
              (Some "k4b") None example_env Hinv) as [_ H].
  apply (H "k4b" eq_refl).
  exists 5%N, example_withdrawal. split; reflexivity.
Defined.

(** * Notifications and failed transactions *)

Lemma trigger_webhook_eq (amb : Ambient) (t : Transaction) (a : Account) (e : Env) :
  BaseTransactionService._trigger_webhook_if_configured amb t a e
  = match user_webhook_url (session e) (acc_user_id a) with
    | None => (Ok tt, e)
    | Some url =>
        match webhook_deliveries (session e) !! delivery_id amb with
        | None => (Ok tt, env_notified amb (new_delivery amb t a url) e)
        | Some _ =>
            (Raise (Exc IntegrityError
                      "duplicate key value violates unique constraint webhook_deliveries_pkey"),
             e)
        end
    end.
Proof.
  unfold BaseTransactionService._trigger_webhook_if_configured, UserRepository.get_by_id,
    user_webhook_url.
  unfold bind at 1. unfold bind at 1. unfold get_state. cbn.
  destruct (users (session e) !! acc_user_id a) as [u |]; [| reflexivity].
  destruct (usr_webhook_url u) as [url |]; [| reflexivity].
  destruct (String.eqb url EmptyString); [reflexivity |].
  unfold WebhookRepository.create_delivery, Session.flush_new_webhook_delivery.
  unfold bind, get_state. cbn.
  destruct (webhook_deliveries (session e) !! delivery_id amb); reflexivity.
Qed.

(** X10: who is notified.  [_trigger_webhook_if_configured] does nothing for
    an account whose user is unknown or has no webhook URL (the empty URL
    counts as none).  For a configured URL it stores one delivery row in
    status PENDING with no attempt made and five allowed, commits it and
    queues one [send_webhook_notification] task carrying the id of that row;
    the event of the payload is [transaction.completed] for a transaction in
    SUCCESS and [transaction.failed] for every other status, and the payload
    carries the balance of the account as it is handed in.  If the row
    cannot be stored nothing is queued. *)
Theorem webhook_trigger_outcomes (amb : Ambient) (t : Transaction) (a : Account) (e : Env) :
  (user_webhook_url (session e) (acc_user_id a) = None ->
   BaseTransactionService._trigger_webhook_if_configured amb t a e = (Ok tt, e))
  /\ (forall url : string,
        user_webhook_url (session e) (acc_user_id a) = Some url ->
        let d := new_delivery amb t a url in
        (webhook_deliveries (session e) !! delivery_id amb = None ->
         BaseTransactionService._trigger_webhook_if_configured amb t a e
         = (Ok tt, env_notified amb d e)
         /\ webhook_deliveries (database (env_notified amb d e)) !! delivery_id amb = Some d
         /\ task_queue (env_notified amb d e)
            = task_queue e ++ [SendWebhookNotification (str_uuid (wd_id d))])
        /\ (webhook_deliveries (session e) !! delivery_id amb <> None ->
            exists msg : string,
              BaseTransactionService._trigger_webhook_if_configured amb t a e
              = (Raise (Exc IntegrityError msg), e))
        /\ wd_status d = WebhookDeliveryStatus.PENDING
        /\ wd_attempt_count d = 0
        /\ wd_max_attempts d = 5
        /\ (tx_status t <> TransactionStatus.SUCCESS ->
            pl_event (wd_payload d) = "transaction.failed")
        /\ (pl_event (wd_payload d) = "transaction.completed"
            <-> tx_status t = TransactionStatus.SUCCESS)
        /\ pl_account_balance (wd_payload d) = str_decimal (acc_balance a)).
Proof.
  rewrite trigger_webhook_eq. split.
  - intros ->. reflexivity.
  - intros url ->. cbv zeta. split; [| split].
    + intros ->. split; [reflexivity |]. split; [apply lookup_insert_eq | reflexivity].
    + intros Hused.
      destruct (webhook_deliveries (session e) !! delivery_id amb); [| contradiction].
      eexists. reflexivity.
    + repeat split; try reflexivity.
      * simpl. destruct (tx_status t); intros H; try reflexivity. contradiction.
      * simpl. destruct (tx_status t); intros H; try reflexivity; discriminate.
      * simpl. intros ->. reflexivity.
Qed.

(** The user of the example has a webhook URL: a notification for the
    withdrawal in PROCESSING is stored under the id 77 and queued, with the
    event [transaction.failed]. *)
Lemma webhook_trigger_outcomes_witness :
  exists e' : Env,
    BaseTransactionService._trigger_webhook_if_configured example_ambient
      example_withdrawal example_account example_env = (Ok tt, e')
    /\ task_queue e'
       = [SendWebhookNotification "00000000-0000-0000-0000-00000000004d"]
    /\ (pl_event <$> (wd_payload <$> webhook_deliveries (database e') !! 77%N))
       = Some "transaction.failed".
Proof.
  destruct (webhook_trigger_outcomes example_ambient example_withdrawal example_account
              example_env) as [_ H].
  destruct (H "https://merchant.example/hook" eq_refl) as (Hfresh & _).
  destruct (Hfresh eq_refl) as (Hrun & Hrow & Hqueue).
  eexists. split; [exact Hrun |]. split; [exact Hqueue |].
  change 77%N with (delivery_id example_ambient). rewrite Hrow. reflexivity.
Defined.

Lemma fail_tail (amb : Ambient) (t' : Transaction) (e : Env) :
  0 < tx_amount t' ->
  webhook_deliveries (session e) !! delivery_id amb = None ->
  exists e' : Env,
    (let* _ := BaseTransactionService._update_and_commit t' in
     match accounts (session e) !! tx_account_id t' with
     | Some account =>
         BaseTransactionService._trigger_webhook_if_configured amb t' account
     | None => ret tt
     end ;;
     ret t') e = (Ok t', e')
    /\ same_ledger (database e') (put_transaction t' (session e))
    /\ task_queue e'
       = task_queue e ++ notification_for amb (session e) (tx_account_id t')
    /\ cache e' = cache e.
Proof.
  intros Hpos Hfresh.
  rewrite (bind_ok _ _ _ _ _ (update_and_commit_ok t' e Hpos)).
  unfold notification_for, account_webhook_url.
  destruct (accounts (session e) !! tx_account_id t') as [a |].
  - unfold bind. rewrite trigger_webhook_eq. cbn [session env_commit env_with_session].
    change (user_webhook_url (put_transaction t' (session e)) (acc_user_id a))
      with (user_webhook_url (session e) (acc_user_id a)).
    destruct (user_webhook_url (session e) (acc_user_id a)) as [url |].
    + change (webhook_deliveries (put_transaction t' (session e)) !! delivery_id amb)
        with (webhook_deliveries (session e) !! delivery_id amb).
      rewrite Hfresh. eexists. split; [reflexivity |].
      split; [split; reflexivity |]. split; reflexivity.
    + eexists. split; [reflexivity |]. split; [split; reflexivity |].
      split; [cbn; rewrite app_nil_r; reflexivity | reflexivity].
  - rewrite bind_ret_l. eexists. split; [reflexivity |]. split; [split; reflexivity |].
    split; [cbn; rewrite app_nil_r; reflexivity | reflexivity].
Qed.

(** X11: a refused transaction.  [fail_deposit] and [fail_withdrawal], as the
    strategies call them, store the transaction in status FAILED with the
    error code, the error message and the bank response, commit it, and
    leave every account as it was: the result of the withdrawal strategy says
    [refunded: True], yet no balance changes, as none was debited before.
    One notification is queued when the user of the account has a webhook
    URL, none otherwise. *)
Theorem fail_transaction_outcome
    (s : Strategy.t) (amb : Ambient) (tid : UUID) (tx : Transaction)
    (error_code error_message bank_response : string) (e : Env) :
  session e = database e ->
  transactions (database e) !! tid = Some tx ->
  tx_id tx = tid ->
  0 < tx_amount tx ->
  webhook_deliveries (database e) !! delivery_id amb = None ->
  exists e' : Env,
    Strategy.fail_transaction s amb tid error_code error_message bank_response e
    = (Ok (ResultFailed (str_uuid tid) error_message
             (match s with
              | Strategy.WithdrawalStrategy => Some true
              | Strategy.DepositStrategy => None
              end)), e')
    /\ transactions (database e') !! tid
       = Some (failed tx error_code error_message (Some bank_response))
    /\ accounts (database e') = accounts (database e)
    /\ task_queue e'
       = task_queue e ++ notification_for amb (database e) (tx_account_id tx).
Proof.
  intros Hsess Htx Hid Hpos Hfresh.
  set (t' := failed tx error_code error_message (Some bank_response)).
  destruct (fail_tail amb t' e) as (e' & Hrun & Hledger & Hqueue & _);
    [exact Hpos | rewrite Hsess; exact Hfresh |].
  assert (Hbody : forall (A : Type) (k : Transaction -> M Env A),
             (let* t := WithdrawalService.fail_withdrawal amb tid error_code error_message
                          (Some bank_response) in k t) e = k t' e'
             /\ (let* t := DepositService.fail_deposit amb tid error_code error_message
                             (Some bank_response) in k t) e = k t' e').
  { intros A k.
    assert (Hget : BaseTransactionService._get_transaction_or_raise tid e = (Ok tx, e))
      by (apply get_transaction_found; rewrite Hsess; exact Htx).
    split; apply bind_ok;
      unfold WithdrawalService.fail_withdrawal, DepositService.fail_deposit;
      rewrite (bind_ok _ _ _ _ _ Hget);
      unfold AccountRepository.get_by_id; unfold bind at 1; unfold bind at 1;
      unfold get_state; cbv beta iota zeta; exact Hrun. }
  exists e'. split.
  - destruct s; simpl; apply Hbody.
  - destruct Hledger as [Hacc Htxs]. split; [| split].
    + rewrite Htxs. simpl. rewrite Hid. apply lookup_insert_eq.
    + rewrite Hacc, <- Hsess. reflexivity.
    + rewrite Hqueue, Hsess. reflexivity.
Qed.

(** The withdrawal of the example is refused by the bank: the row is FAILED,
    the balance is still 20.00, and the merchant is notified. *)
Lemma fail_transaction_outcome_witness :
  exists e' : Env,
    Strategy.fail_transaction Strategy.WithdrawalStrategy example_ambient 5
      "INSUFFICIENT_FUNDS" "Insufficient funds in external account" "raw" example_env
    = (Ok (ResultFailed "00000000-0000-0000-0000-000000000005"
             "Insufficient funds in external account" (Some true)), e')
    /\ tx_status <$> transactions (database e') !! 5%N = Some TransactionStatus.FAILED
    /\ accounts (database e') !! 1%N = Some example_account
    /\ task_queue e' = [SendWebhookNotification "00000000-0000-0000-0000-00000000004d"].
Proof.
  destruct (fail_transaction_outcome Strategy.WithdrawalStrategy example_ambient 5
              example_withdrawal "INSUFFICIENT_FUNDS"
              "Insufficient funds in external account" "raw" example_env
              eq_refl eq_refl eq_refl ltac:(simpl; lia) eq_refl)
    as (e' & Hrun & Hrow & Hacc & Hqueue).
  exists e'. split; [exact Hrun |]. split; [rewrite Hrow; reflexivity |].
  split; [rewrite Hacc; reflexivity | exact Hqueue].
Defined.

(** * Completion under the account lock *)

Lemma cache_free_ret {A : Type} (a : A) : cache_free (@ret Env A a).
Proof. intros c e. reflexivity. Qed.

Lemma cache_free_raise {A : Type} (x : exn) : cache_free (@raise Env A x).
Proof. intros c e. reflexivity. Qed.

Lemma cache_free_bind {A B : Type} (m : M Env A) (k : A -> M Env B) :
  cache_free m -> (forall a, cache_free (k a)) -> cache_free (bind m k).
Proof.
  intros Hm Hk c e. unfold bind. rewrite Hm.
  destruct (m e) as [[a | x] e1]; simpl; [apply Hk | reflexivity].
Qed.

Lemma cache_free_try_except {A : Type} (m : M Env A) (h : exn -> M Env A) :
  cache_free m -> (forall x, cache_free (h x)) -> cache_free (try_except m h).
Proof.
  intros Hm Hh c e. unfold try_except. rewrite Hm.
  destruct (m e) as [[a | x] e1]; simpl; [reflexivity | apply Hh].
Qed.

Lemma cache_free_modify (f : Env -> Env) :
  (forall c e, f (env_with_cache c e) = env_with_cache c (f e)) ->
  cache_free (modify_state f).
Proof. intros H c e. unfold modify_state. simpl. rewrite H. reflexivity. Qed.

Lemma cache_free_read {A B : Type} (f : Env -> A) (k : A -> M Env B) :
  (forall c e, f (env_with_cache c e) = f e) ->
  (forall a, cache_free (k a)) ->
  cache_free (let* e := get_state in k (f e)).
Proof.
  intros Hf Hk c e. unfold bind, get_state. rewrite Hf. apply Hk.
Qed.

Lemma cache_free_commit : cache_free Session.commit.
Proof. apply cache_free_modify. reflexivity. Qed.

Lemma cache_free_rollback : cache_free Session.rollback.
Proof. apply cache_free_modify. reflexivity. Qed.

Lemma cache_free_flush_account (a : Account) : cache_free (Session.flush_account a).
Proof.
  unfold Session.flush_account, Session.check_balance_non_negative.
  apply cache_free_bind; [destruct (0 <=? acc_balance a);
                          [apply cache_free_ret | apply cache_free_raise] |].
  intros _. apply cache_free_modify. reflexivity.
Qed.

Lemma cache_free_flush_transaction (t : Transaction) :
  cache_free (Session.flush_transaction t).
Proof.
  unfold Session.flush_transaction, Session.check_amount_positive.
  apply cache_free_bind; [destruct (0 <? tx_amount t);
                          [apply cache_free_ret | apply cache_free_raise] |].
  intros _. apply cache_free_modify. reflexivity.
Qed.

Lemma cache_free_update_and_commit (t : Transaction) :
  cache_free (BaseTransactionService._update_and_commit t).
Proof.
  unfold BaseTransactionService._update_and_commit, TransactionRepository.update.
  apply cache_free_bind.
  - apply cache_free_bind; [apply cache_free_flush_transaction |].
    intros _. apply cache_free_ret.
  - intros _. apply cache_free_bind; [apply cache_free_commit |].
    intros _. apply cache_free_ret.
Qed.

Lemma cache_free_trigger_webhook (amb : Ambient) (t : Transaction) (a : Account) :
  cache_free (BaseTransactionService._trigger_webhook_if_configured amb t a).
Proof.
  intros c e. rewrite !trigger_webhook_eq. cbn [session env_with_cache].
  destruct (user_webhook_url (session e) (acc_user_id a)); [| reflexivity].
  destruct (webhook_deliveries (session e) !! delivery_id amb); reflexivity.
Qed.

Lemma cache_free_add_balance (a : Account) (amount : Z) :
  cache_free (AccountRepository.add_balance a amount).
Proof.
  unfold AccountRepository.add_balance.
  destruct (amount <=? 0); [apply cache_free_raise |]. cbv zeta.
  apply cache_free_bind; [apply cache_free_flush_account | intros _; apply cache_free_ret].
Qed.

Lemma cache_free_subtract_balance (a : Account) (amount : Z) :
  cache_free (AccountRepository.subtract_balance a amount).
Proof.
  unfold AccountRepository.subtract_balance.
  destruct (amount <=? 0); [apply cache_free_raise |].
  destruct (acc_balance a <? amount); [apply cache_free_raise |]. cbv zeta.
  apply cache_free_bind; [apply cache_free_flush_account | intros _; apply cache_free_ret].
Qed.

Lemma cache_free_get_account (id : UUID) :
  cache_free (AccountRepository.get_by_id_with_lock id).
Proof. intros c e. reflexivity. Qed.

Lemma cache_free_get_transaction (id : UUID) :
  cache_free (BaseTransactionService._get_transaction_or_raise id).
Proof.
  intros c e. unfold BaseTransactionService._get_transaction_or_raise,
    TransactionRepository.get_by_id, bind, get_state. cbn.
  destruct (transactions (session e) !! id); reflexivity.
Qed.

Lemma cache_free_complete_locked (type : TransactionType.t) (amb : Ambient)
    (t : Transaction) (bank_transaction_id : string) (bank_response : option string) :
  cache_free
    (match type with
     | TransactionType.DEPOSIT =>
         DepositService._complete_deposit_locked amb t bank_transaction_id bank_response
     | TransactionType.WITHDRAWAL =>
         WithdrawalService._complete_withdrawal_locked amb t bank_transaction_id
           bank_response
     end).
Proof.
  destruct type;
    unfold DepositService._complete_deposit_locked,
      WithdrawalService._complete_withdrawal_locked, AccountRepository.get_by_id_with_lock;
    (apply cache_free_try_except;
     [| intros x; apply cache_free_bind;
        [apply cache_free_rollback | intros _; apply cache_free_raise]]);
    (apply cache_free_bind; [apply cache_free_get_account |]);
    intros [a |]; try apply cache_free_raise;
    (apply cache_free_bind;
     [first [apply cache_free_add_balance | apply cache_free_subtract_balance] | intros a']);
    cbv zeta;
    (apply cache_free_bind; [apply cache_free_update_and_commit | intros _]);
    (apply cache_free_bind; [apply cache_free_trigger_webhook | intros _]);
    apply cache_free_ret.
Qed.

Lemma sync_acquire_no_faults (now_ : Z) (l : SyncDistributedLock.t) (r : Redis.t string) :
  Redis.faults r = [] ->
  0 < SyncDistributedLock.ttl l ->
  SyncDistributedLock.acquire now_ l r
  = match Redis.lookup_live now_ (Redis.store r) (SyncDistributedLock.key l) with
    | Some _ => (Ok (false, SyncDistributedLock.set_acquired false l), r)
    | None =>
        (Ok (true, SyncDistributedLock.set_acquired true l),
         Redis.Client
           (<[SyncDistributedLock.key l
              := Redis.Entry (SyncDistributedLock.lock_identifier l)
                   (now_ + 1000 * SyncDistributedLock.ttl l)]> (Redis.store r)) [])
    end.
Proof.
  intros Hf Hpos.
  unfold SyncDistributedLock.acquire, try_except, SyncDistributedLock._try_acquire_once, bind.
  rewrite redis_set_no_faults by assumption.
  destruct (Redis.lookup_live now_ (Redis.store r) (SyncDistributedLock.key l)).
  - cbn. rewrite redis_client_eta by assumption. reflexivity.
  - reflexivity.
Qed.

(** X12: completion under the account lock.  A service built with a cache
    client takes the lock [lock:account:<account id>] around the completion.
    While another lease is live on that key (whoever holds it) the
    completion raises [ConcurrentUpdateError] and changes nothing, the lease
    included.  On a free key the completion has the result and the effect on
    the database it has without a cache client, and the key is free again
    afterwards, whether the completion returned or raised; no other key of
    the cache is touched. *)
Theorem completion_under_account_lock
    (type : TransactionType.t) (amb : Ambient) (tid : UUID) (tx : Transaction)
    (bank_transaction_id : string) (bank_response : option string) (e : Env) :
  Redis.faults (cache e) = [] ->
  transactions (session e) !! tid = Some tx ->
  let key := account_lock_key (tx_account_id tx) in
  (forall holder : string,
      Redis.lookup_live (now amb) (Redis.store (cache e)) key = Some holder ->
      complete_by_type type amb true tid bank_transaction_id bank_response e
      = (Raise (Exc ConcurrentUpdateError
                  ("Account " +:+ str_uuid (tx_account_id tx)
                   +:+ " is locked by another process")), e))
  /\ (Redis.lookup_live (now amb) (Redis.store (cache e)) key = None ->
      let unlocked :=
        complete_by_type type amb false tid bank_transaction_id bank_response e in
      exists c : Redis.t string,
        complete_by_type type amb true tid bank_transaction_id bank_response e
        = (fst unlocked, env_with_cache c (snd unlocked))
        /\ Redis.faults c = []
        /\ forall (t : Z) (k : string),
             Redis.lookup_live t (Redis.store c) k
             = if decide (k = key) then None
               else Redis.lookup_live t (Redis.store (cache e)) k).
Proof.
  intros Hf Htx key.
  assert (Hget : BaseTransactionService._get_transaction_or_raise tid e = (Ok tx, e))
    by (apply get_transaction_found; exact Htx).
  set (body := match type with
               | TransactionType.DEPOSIT =>
                   DepositService._complete_deposit_locked amb tx bank_transaction_id
                     bank_response
               | TransactionType.WITHDRAWAL =>
                   WithdrawalService._complete_withdrawal_locked amb tx bank_transaction_id
                     bank_response
               end).
  set (guarded := fun lock : SyncDistributedLock.t =>
         if negb (SyncDistributedLock.acquired lock) then
           raise (Exc ConcurrentUpdateError
                    ("Account " +:+ str_uuid (tx_account_id tx)
                     +:+ " is locked by another process"))
         else body).
  assert (Hlocked : complete_by_type type amb true tid bank_transaction_id bank_response e
                    = with_sync_lock amb ("account:" +:+ str_uuid (tx_account_id tx))
                        guarded e).
  { destruct type; simpl;
      unfold DepositService.complete_deposit, WithdrawalService.complete_withdrawal;
      rewrite (bind_ok _ _ _ _ _ Hget); reflexivity. }
  assert (Hunlocked : complete_by_type type amb false tid bank_transaction_id bank_response e
                      = body e).
  { destruct type; simpl;
      unfold DepositService.complete_deposit, WithdrawalService.complete_withdrawal;
      rewrite (bind_ok _ _ _ _ _ Hget); reflexivity. }
  set (lock0 := SyncDistributedLock.init ("account:" +:+ str_uuid (tx_account_id tx)) 10
                  false 30 (lock_token amb)).
  assert (Hacq := sync_acquire_no_faults (now amb) lock0 (cache e) Hf ltac:(simpl; lia)).
  change (SyncDistributedLock.key lock0) with key in Hacq.
  split.
  - intros holder Hheld. rewrite Hlocked. rewrite Hheld in Hacq.
    unfold with_sync_lock. fold lock0.
    unfold bind at 1, with_cache at 1. rewrite Hacq. cbn [snd].
    unfold try_finally, guarded. cbn [SyncDistributedLock.acquired
      SyncDistributedLock.set_acquired negb].
    unfold raise at 1. unfold bind, with_cache.
    rewrite SyncDistributedLock_release_not_acquired by reflexivity.
    destruct e; reflexivity.
  - intros Hfree unlocked. rewrite Hfree in Hacq.
    set (c1 := Redis.Client
                 (<[key := Redis.Entry (lock_token amb) (now amb + 1000 * 10)]>
                    (Redis.store (cache e))) []).
    exists (Redis.Client (delete key (Redis.store c1)) []).
    split; [| split; [reflexivity |]].
    + rewrite Hlocked. unfold unlocked. rewrite Hunlocked.
      unfold with_sync_lock. fold lock0.
      unfold bind at 1, with_cache at 1. rewrite Hacq. cbn [snd].
      unfold try_finally, guarded. cbn [SyncDistributedLock.acquired
        SyncDistributedLock.set_acquired negb].
      pose proof (cache_free_complete_locked type amb tx bank_transaction_id bank_response
                    c1 e) as Hframe.
      fold body in Hframe. unfold c1 in Hframe.
      change (SyncDistributedLock.ttl lock0) with 10.
      assert (Henv : mkEnv (database e) (session e)
                       (Redis.Client
                          (<[key := Redis.Entry (SyncDistributedLock.lock_identifier lock0)
                                      (now amb + 1000 * 10)]> (Redis.store (cache e))) [])
                       (task_queue e) (commit_log e)
                     = env_with_cache c1 e) by reflexivity.
      unfold env_with_cache at 1. rewrite Henv. unfold c1. rewrite Hframe.
      unfold bind, with_cache. cbn [cache env_with_cache].
      rewrite SyncDistributedLock_release_spec by reflexivity.
      cbn [SyncDistributedLock.key SyncDistributedLock.set_acquired
             SyncDistributedLock.lock_identifier lock0 SyncDistributedLock.init Redis.store].
      change ("lock:" +:+ ("account:" +:+ str_uuid (tx_account_id tx))) with key.
      rewrite decide_True by (apply lookup_live_insert_eq; lia).
      reflexivity.
    + intros t k. cbn [Redis.store]. destruct (decide (k = key)) as [-> | Hne].
      * apply lookup_live_delete_eq.
      * rewrite lookup_live_delete_ne by congruence.
        unfold c1. cbn [Redis.store]. apply lookup_live_insert_ne. congruence.
Qed.

(** The account of the example deposit is locked by another worker until
    second 5: the completion is refused.  With a free key it credits the
    account as it does without the lock, and the key is free afterwards. *)
Lemma completion_under_account_lock_witness :
  let key := "lock:account:00000000-0000-0000-0000-000000000001" in
  let busy :=
    env_with_cache (Redis.Client {[ key := Redis.Entry "token-z" 5000 ]} [])
      example_deposit_env in
  DepositService.complete_deposit example_ambient true 7 "BANK-DEP-2" None busy
  = (Raise (Exc ConcurrentUpdateError
              "Account 00000000-0000-0000-0000-000000000001 is locked by another process"),
     busy)
  /\ exists e' : Env,
       DepositService.complete_deposit example_ambient true 7 "BANK-DEP-2" None
         example_deposit_env
       = (Ok (completed example_deposit "BANK-DEP-2" None), e')
       /\ acc_balance <$> accounts (database e') !! 1%N = Some 20000
       /\ Redis.lookup_live 0 (Redis.store (cache e')) key = None.
Proof.
  cbv zeta. split.
  - destruct (completion_under_account_lock TransactionType.DEPOSIT example_ambient 7
                example_deposit "BANK-DEP-2" None
                (env_with_cache
                   (Redis.Client
                      {[ "lock:account:00000000-0000-0000-0000-000000000001"
                         := Redis.Entry "token-z" 5000 ]} [])
                   example_deposit_env) eq_refl eq_refl) as [Hbusy _].
    apply (Hbusy "token-z"). reflexivity.
  - destruct (completion_under_account_lock TransactionType.DEPOSIT example_ambient 7
                example_deposit "BANK-DEP-2" None example_deposit_env eq_refl eq_refl)
      as [_ Hfree].
    destruct (Hfree eq_refl) as (c & Hrun & _ & Hkeys).
    eexists. split; [exact Hrun |]. split; [vm_compute; reflexivity |].
    cbn [cache env_with_cache]. rewrite Hkeys. reflexivity.
Defined.

(** * Completions in sequence *)

Lemma complete_deposit_ledger (amb : Ambient) (tid : UUID) (t : Transaction) (a : Account)
    (bank_transaction_id : string) (bank_response : option string) (e : Env) :
  transactions (session e) !! tid = Some t ->
  accounts (session e) !! tx_account_id t = Some a ->
  0 < tx_amount t ->
  0 <= acc_balance a ->
  let e' := snd (DepositService.complete_deposit amb false tid bank_transaction_id
                   bank_response e) in
  let S1 := put_transaction (completed t bank_transaction_id bank_response)
              (put_account (acc_with_balance (acc_balance a + tx_amount t) a) (session e)) in
  same_ledger (database e') S1 /\ same_ledger (session e') S1.
Proof.
  intros Htx Hacc Hpos Hbal. cbv zeta.
  unfold DepositService.complete_deposit.
  rewrite (bind_ok _ _ _ _ _ (get_transaction_found tid t e Htx)). cbn iota.
  destruct (complete_deposit_locked_ok amb t a bank_transaction_id bank_response e
              Hacc Hpos Hbal) as (r & e' & Hrun & _ & Hd & Hs & _).
  rewrite Hrun. split; assumption.
Qed.

Lemma complete_withdrawal_ledger (amb : Ambient) (tid : UUID) (t : Transaction)
    (a : Account) (bank_transaction_id : string) (bank_response : option string) (e : Env) :
  transactions (session e) !! tid = Some t ->
  accounts (session e) !! tx_account_id t = Some a ->
  0 < tx_amount t ->
  tx_amount t <= acc_balance a ->
  let e' := snd (WithdrawalService.complete_withdrawal amb false tid bank_transaction_id
                   bank_response e) in
  let S1 := put_transaction (completed t bank_transaction_id bank_response)
              (put_account (acc_with_balance (acc_balance a - tx_amount t) a) (session e)) in
  same_ledger (database e') S1 /\ same_ledger (session e') S1.
Proof.
  intros Htx Hacc Hpos Hbal. cbv zeta.
  unfold WithdrawalService.complete_withdrawal.
  rewrite (bind_ok _ _ _ _ _ (get_transaction_found tid t e Htx)). cbn iota.
  destruct (complete_withdrawal_locked_sufficient amb t a bank_transaction_id bank_response e
              Hacc Hpos Hbal) as (r & e' & Hrun & _ & Hd & Hs & _).
  rewrite Hrun. split; assumption.
Qed.

(** X13: a deposit and a withdrawal on one account, completed one after the
    other.  When the deposit is completed first, the withdrawal may use the
    money it brought: it succeeds whenever its amount is covered by the old
    balance plus the deposit, and the committed balance is then the old
    balance plus the deposit minus the withdrawal, with both transactions in
    SUCCESS.  In the other order a withdrawal that the old balance does not
    cover raises [InsufficientBalanceError] and commits nothing. *)
Theorem deposit_then_withdrawal_settles
    (amb1 amb2 : Ambient) (dep wth : Transaction) (acc : Account)
    (bank_id1 bank_id2 : string) (response1 response2 : option string) (e : Env) :
  session e = database e ->
  transactions (database e) !! tx_id dep = Some dep ->
  transactions (database e) !! tx_id wth = Some wth ->
  tx_id dep <> tx_id wth ->
  tx_account_id dep = acc_id acc ->
  tx_account_id wth = acc_id acc ->
  accounts (database e) !! acc_id acc = Some acc ->
  0 < tx_amount dep ->
  0 < tx_amount wth ->
  0 <= acc_balance acc ->
  tx_amount wth <= acc_balance acc + tx_amount dep ->
  let e1 := snd (DepositService.complete_deposit amb1 false (tx_id dep) bank_id1
                   response1 e) in
  let e2 := snd (WithdrawalService.complete_withdrawal amb2 false (tx_id wth) bank_id2
                   response2 e1) in
  accounts (database e2)
  = <[acc_id acc
      := acc_with_balance (acc_balance acc + tx_amount dep - tx_amount wth) acc]>
      (accounts (database e))
  /\ transactions (database e2) !! tx_id dep = Some (completed dep bank_id1 response1)
  /\ transactions (database e2) !! tx_id wth = Some (completed wth bank_id2 response2)
  /\ (acc_balance acc < tx_amount wth ->
      WithdrawalService.complete_withdrawal amb2 false (tx_id wth) bank_id2 response2 e
      = (Raise (Exc InsufficientBalanceError
                  ("Insufficient balance. Available: " +:+ str_decimal (acc_balance acc)
                   +:+ ", Required: " +:+ str_decimal (tx_amount wth))), e)).
Proof.
  intros Hsess Hdep Hwth Hne Had Haw Hacc Hpd Hpw Hbal Hcover e1 e2.
  assert (H1 : same_ledger (database e1)
                 (put_transaction (completed dep bank_id1 response1)
                    (put_account (acc_with_balance (acc_balance acc + tx_amount dep) acc)
                       (session e)))
               /\ same_ledger (session e1)
                    (put_transaction (completed dep bank_id1 response1)
                       (put_account (acc_with_balance (acc_balance acc + tx_amount dep) acc)
                          (session e)))).
  { apply complete_deposit_ledger; rewrite ?Hsess, ?Had; assumption. }
  destruct H1 as [_ [Ha1 Ht1]]. simpl in Ha1, Ht1.
  set (a1 := acc_with_balance (acc_balance acc + tx_amount dep) acc) in *.
  assert (Hwth1 : transactions (session e1) !! tx_id wth = Some wth).
  { rewrite Ht1, lookup_insert_ne by exact Hne. rewrite Hsess. exact Hwth. }
  assert (Hacc1 : accounts (session e1) !! tx_account_id wth = Some a1).
  { rewrite Ha1, Haw. apply lookup_insert_eq. }
  assert (H2 := complete_withdrawal_ledger amb2 (tx_id wth) wth a1 bank_id2 response2 e1
                  Hwth1 Hacc1 Hpw ltac:(simpl; lia)).
  cbv zeta in H2. fold e2 in H2. destruct H2 as [[Ha2 Ht2] _]. simpl in Ha2, Ht2.
  split; [| split; [| split]].
  - rewrite Ha2, Ha1, Hsess. rewrite insert_insert_eq. reflexivity.
  - rewrite Ht2, lookup_insert_ne by congruence. rewrite Ht1. apply lookup_insert_eq.
  - rewrite Ht2. apply lookup_insert_eq.
  - intros Hshort.
    assert (Hw : transactions (session e) !! tx_id wth = Some wth)
      by (rewrite Hsess; exact Hwth).
    assert (Ha : accounts (session e) !! tx_account_id wth = Some acc)
      by (rewrite Hsess, Haw; exact Hacc).
    rewrite (complete_withdrawal_insufficient amb2 (tx_id wth) wth acc bank_id2 response2 e
               Hw Ha Hpw Hshort).
    rewrite env_with_session_same by exact Hsess. reflexivity.
Qed.

(** The account of the example holds 20.00; a deposit of 70.00 completed
    first lets the withdrawal of 80.00 through and leaves 10.00.  The
    withdrawal alone is refused. *)
Lemma deposit_then_withdrawal_settles_witness :
  let dep := mkTransaction 8 1 TransactionType.DEPOSIT 7000 "USD"
               TransactionStatus.PROCESSING None None None None None None in
  let e := mkEnv (put_transaction dep example_tables) (put_transaction dep example_tables)
             (Redis.Client ∅ []) [] [] in
  let e1 := snd (DepositService.complete_deposit example_ambient false 8 "BANK-DEP-9"
                   None e) in
  let e2 := snd (WithdrawalService.complete_withdrawal (mkAmbient 0 "token-a" 78) false 5
                   "BANK-WTH-9" None e1) in
  acc_balance <$> accounts (database e2) !! 1%N = Some 1000
  /\ WithdrawalService.complete_withdrawal (mkAmbient 0 "token-a" 78) false 5
       "BANK-WTH-9" None e
     = (Raise (Exc InsufficientBalanceError
                 "Insufficient balance. Available: 20.00, Required: 80.00"), e).
Proof.
  cbv zeta.
  set (dep := mkTransaction 8 1 TransactionType.DEPOSIT 7000 "USD"
                TransactionStatus.PROCESSING None None None None None None).
  set (e := mkEnv (put_transaction dep example_tables) (put_transaction dep example_tables)
              (Redis.Client ∅ []) [] []).
  destruct (deposit_then_withdrawal_settles example_ambient (mkAmbient 0 "token-a" 78)
              dep example_withdrawal example_account "BANK-DEP-9" "BANK-WTH-9" None None e)
    as (Hacc & _ & _ & Hshort);
    try reflexivity; try (simpl; lia); try discriminate.
  split.
  - simpl tx_id in Hacc. rewrite Hacc. reflexivity.
  - apply Hshort. simpl. lia.
Defined.

(** * Outcomes of the worker processor *)

Lemma contains_app_r (needle a b : string) :
  contains needle b = true -> contains needle (a +:+ b) = true.
Proof.
  intros H. induction a as [| c a IH].
  - rewrite append_empty_l. exact H.
  - rewrite append_cons. cbn [contains].
    destruct (String.prefix needle (String c (a +:+ b))); [reflexivity | exact IH].
Qed.

Lemma transaction_not_found_message (id : UUID) :
  contains "not found" (lower ("Transaction " +:+ str_uuid id +:+ " not found")) = true.
Proof.
  rewrite !lower_app. apply contains_app_r. apply contains_app_r. reflexivity.
Qed.

Lemma process_rest_failure (s : Strategy.t) (task : TaskInstance) (amb : Ambient)
    (bank : BankOutcome) (tid : N) (x : exn) (e1 : Env) :
  bank_failure bank = Some x ->
  process_rest s task amb bank tid e1
  = try_finally (GenericTransactionProcessor._handle_exception task s tid x)
      Session.close e1.
Proof.
  intros Hb. unfold process_rest, try_finally, try_except.
  unfold GenericTransactionProcessor.call_bank.
  destruct bank as [r | y]; simpl in Hb.
  - rewrite bind_ret_l.
    destruct (br_status r) eqn:Es; try discriminate; inversion Hb; subst x;
      unfold GenericTransactionProcessor._handle_transient_error, raise;
      rewrite Es; reflexivity.
  - inversion Hb; subst y. rewrite bind_raise_l. reflexivity.
Qed.

(** X14: a job for a transaction that is not stored ends with the result
    NOT_FOUND: it commits nothing, does not ask the bank and is not retried,
    however many retries are left.  The test behind it is textual: every
    exception of the bank call whose message contains [not found], in any
    letter case, ends the job the same way, with the transaction left in
    PROCESSING. *)
Theorem process_not_found
    (s : Strategy.t) (task : TaskInstance) (amb : Ambient) (bank : BankOutcome)
    (tid : UUID) (e : Env) :
  (transactions (database e) !! tid = None ->
   GenericTransactionProcessor.process s task amb bank tid e
   = (Ok (ResultNotFound (str_uuid tid) "Transaction not found"),
      env_with_session (database e) e))
  /\ (forall (tx : Transaction) (x : exn),
        transactions (database e) !! tid = Some tx ->
        0 < tx_amount tx ->
        bank_failure bank = Some x ->
        contains "not found" (lower (exc_msg x)) = true ->
        GenericTransactionProcessor.process s task amb bank tid e
        = (Ok (ResultNotFound (str_uuid tid) "Transaction not found"),
           env_processing tx e)).
Proof.
  split.
  - intros Hnone. unfold GenericTransactionProcessor.process.
    unfold bind at 1. unfold GenericTransactionProcessor.get_db at 1. simpl.
    set (e0 := env_with_session (database e) e).
    assert (Hget : BaseTransactionService._get_transaction_or_raise tid e0
                   = (Raise (Exc ValueError
                               ("Transaction " +:+ str_uuid tid +:+ " not found")), e0)).
    { unfold BaseTransactionService._get_transaction_or_raise,
        TransactionRepository.get_by_id, bind, get_state. cbn. rewrite Hnone. reflexivity. }
    unfold try_finally, try_except, BaseTransactionService.update_status.
    rewrite (bind_raise _ _ _ _ _
               (bind_raise _ _ _ _ _ Hget)).
    unfold GenericTransactionProcessor._handle_exception. cbn [exc_msg].
    rewrite transaction_not_found_message. reflexivity.
  - intros tx x Htx Hpos Hb Hnf.
    rewrite (process_after_update s task amb bank tid tx e Htx Hpos).
    rewrite (process_rest_failure s task amb bank tid x _ Hb).
    unfold try_finally, GenericTransactionProcessor._handle_exception. rewrite Hnf.
    reflexivity.
Qed.

(** A job for the unknown id 6, and a job for the withdrawal of the example
    whose bank call raises [Account Not Found]. *)
Lemma process_not_found_witness :
  GenericTransactionProcessor.process Strategy.DepositStrategy (mkTaskInstance 0 3)
    example_ambient example_bank_success 6 example_env
  = (Ok (ResultNotFound "00000000-0000-0000-0000-000000000006" "Transaction not found"),
     example_env)
  /\ fst (GenericTransactionProcessor.process Strategy.WithdrawalStrategy
            (mkTaskInstance 0 3) example_ambient
            (BankRaises (Exc OtherException "Account Not Found")) 5 example_env)
     = Ok (ResultNotFound "00000000-0000-0000-0000-000000000005" "Transaction not found").
Proof.
  split.
  - destruct (process_not_found Strategy.DepositStrategy (mkTaskInstance 0 3)
                example_ambient example_bank_success 6 example_env) as [H _].
    apply H. reflexivity.
  - destruct (process_not_found Strategy.WithdrawalStrategy (mkTaskInstance 0 3)
                example_ambient (BankRaises (Exc OtherException "Account Not Found")) 5
                example_env) as [_ H].
    rewrite (H example_withdrawal (Exc OtherException "Account Not Found") eq_refl
               ltac:(simpl; lia) eq_refl eq_refl).
    reflexivity.
Defined.

Lemma mark_for_review_run (s : Strategy.t) (tid : N) (x : exn) (t1 : Transaction)
    (e1 : Env) :
  transactions (database e1) !! tid = Some t1 ->
  tx_id t1 = tid ->
  0 < tx_amount t1 ->
  GenericTransactionProcessor._mark_for_review s tid x e1
  = (Ok (ResultPendingReview (str_uuid tid) (exc_msg x)
           (match s with
            | Strategy.WithdrawalStrategy => Some "Balance reserved, manual review required"
            | Strategy.DepositStrategy => None
            end)),
     mkEnv (put_transaction (under_review s t1 x) (database e1)) (session e1) (cache e1)
           (task_queue e1)
           (commit_log e1 ++ [put_transaction (under_review s t1 x) (database e1)])).
Proof.
  intros Ht1 Hid Hpos.
  unfold GenericTransactionProcessor._mark_for_review.
  set (reason := "Max retries exceeded: " +:+ exc_msg x +:+ "."
                 +:+ (if String.eqb (Strategy.get_transaction_type_name s) "withdrawal"
                      then " Balance reserved, requires manual review." else EmptyString)).
  assert (H3 : BaseTransactionService.mark_pending_review tid reason None
                 (env_with_session (database e1) e1)
               = (Ok (under_review s t1 x),
                  env_commit (env_with_session
                                (put_transaction (under_review s t1 x) (database e1))
                                (env_with_session (database e1) e1)))).
  { rewrite (mark_pending_review_ok tid reason None t1
               (env_with_session (database e1) e1) Ht1 Hpos).
    unfold under_review, reason. destruct s; reflexivity. }
  unfold Session.in_new_session, try_finally, try_except.
  unfold bind at 1. unfold bind at 1. rewrite H3. destruct s; reflexivity.
Qed.

(** X15: a job whose bank call fails, by an exception or by the answers
    TIMEOUT and UNAVAILABLE, with a message that does not contain [not
    found].  While retries are left the job raises that exception again for
    Celery to retry, and the transaction stays in PROCESSING.  When
    [retries >= max_retries] the job returns the result PENDING_REVIEW and
    stores the transaction in that status with the reason [Max retries
    exceeded: <message>.], for a withdrawal followed by [Balance reserved,
    requires manual review.]  In both cases no account changes and nothing
    is queued. *)
Theorem process_bank_failure_retries_then_review
    (s : Strategy.t) (task : TaskInstance) (amb : Ambient) (bank : BankOutcome)
    (tid : UUID) (tx : Transaction) (x : exn) (e : Env) :
  transactions (database e) !! tid = Some tx ->
  tx_id tx = tid ->
  0 < tx_amount tx ->
  bank_failure bank = Some x ->
  contains "not found" (lower (exc_msg x)) = false ->
  let t1 := tx_with_status TransactionStatus.PROCESSING tx in
  let run := GenericTransactionProcessor.process s task amb bank tid e in
  (retries task < max_retries task ->
   fst run = Raise x
   /\ transactions (database (snd run)) !! tid = Some t1
   /\ commit_log (snd run) = commit_log e ++ [database (snd run)])
  /\ (max_retries task <= retries task ->
      fst run = Ok (ResultPendingReview (str_uuid tid) (exc_msg x)
                      (match s with
                       | Strategy.WithdrawalStrategy =>
                           Some "Balance reserved, manual review required"
                       | Strategy.DepositStrategy => None
                       end))
      /\ transactions (database (snd run)) !! tid = Some (under_review s t1 x)
      /\ tx_status (under_review s t1 x) = TransactionStatus.PENDING_REVIEW)
  /\ accounts (database (snd run)) = accounts (database e)
  /\ task_queue (snd run) = task_queue e
  /\ cache (snd run) = cache e.
Proof.
  intros Htx Hid Hpos Hb Hnf t1 run.
  assert (Hrun : run
                 = if max_retries task <=? retries task then
                     try_finally (GenericTransactionProcessor._mark_for_review s tid x)
                       Session.close (env_processing tx e)
                   else (Raise x, env_processing tx e)).
  { unfold run. rewrite (process_after_update s task amb bank tid tx e Htx Hpos).
    rewrite (process_rest_failure s task amb bank tid x _ Hb).
    unfold try_finally, GenericTransactionProcessor._handle_exception. rewrite Hnf.
    destruct (max_retries task <=? retries task); reflexivity. }
  assert (Hreview : try_finally (GenericTransactionProcessor._mark_for_review s tid x)
                      Session.close (env_processing tx e)
                    = (Ok (ResultPendingReview (str_uuid tid) (exc_msg x)
                             (match s with
                              | Strategy.WithdrawalStrategy =>
                                  Some "Balance reserved, manual review required"
                              | Strategy.DepositStrategy => None
                              end)),
                       env_published
                         (put_transaction (under_review s t1 x)
                            (database (env_processing tx e)))
                         (env_processing tx e))).
  { unfold try_finally.
    rewrite (mark_for_review_run s tid x t1 (env_processing tx e)).
    - reflexivity.
    - simpl. rewrite Hid. apply lookup_insert_eq.
    - exact Hid.
    - exact Hpos. }
  rewrite Hrun. destruct (max_retries task <=? retries task) eqn:E.
  - apply Z.leb_le in E. rewrite Hreview. cbn [fst snd].
    split; [intros Hlt; lia |]. split.
    + intros _. split; [reflexivity |]. split; [| reflexivity].
      simpl. rewrite Hid. apply lookup_insert_eq.
    + repeat split.
  - apply Z.leb_gt in E. cbn [fst snd].
    split; [| split; [intros Hle; lia | repeat split]].
    intros _. split; [reflexivity |]. split; [| reflexivity].
    simpl. rewrite Hid. apply lookup_insert_eq.
Qed.

(** The withdrawal of the example and a bank that times out: the first
    attempt is raised for a retry, the attempt after the third retry hands
    the transaction to review. *)
Lemma process_bank_failure_retries_then_review_witness :
  let bank := BankReturns (mkBankResponse BankResponseStatus.TIMEOUT None
                             (Some "Bank processing timeout") (Some "BANK_TIMEOUT")) in
  let x := Exc OtherException "Bank BankResponseStatus.TIMEOUT: Bank processing timeout" in
  fst (GenericTransactionProcessor.process Strategy.WithdrawalStrategy (mkTaskInstance 0 3)
         example_ambient bank 5 example_env) = Raise x
  /\ fst (GenericTransactionProcessor.process Strategy.WithdrawalStrategy
            (mkTaskInstance 3 3) example_ambient bank 5 example_env)
     = Ok (ResultPendingReview "00000000-0000-0000-0000-000000000005" (exc_msg x)
             (Some "Balance reserved, manual review required")).
Proof.
  cbv zeta.
  set (bank := BankReturns _). set (x := Exc OtherException _).
  split.
  - destruct (process_bank_failure_retries_then_review Strategy.WithdrawalStrategy
                (mkTaskInstance 0 3) example_ambient bank 5 example_withdrawal x example_env
                eq_refl eq_refl ltac:(simpl; lia) eq_refl eq_refl) as (H & _).
    apply H. simpl. lia.
  - destruct (process_bank_failure_retries_then_review Strategy.WithdrawalStrategy
                (mkTaskInstance 3 3) example_ambient bank 5 example_withdrawal x example_env
                eq_refl eq_refl ltac:(simpl; lia) eq_refl eq_refl) as (_ & H & _).
    apply H. simpl. lia.
Defined.

Lemma fail_transaction_run (s : Strategy.t) (amb : Ambient) (tid : UUID) (tx : Transaction)
    (error_code error_message bank_response : string) (e : Env) :
  transactions (session e) !! tid = Some tx ->
  0 < tx_amount tx ->
  webhook_deliveries (session e) !! delivery_id amb = None ->
  exists e' : Env,
    Strategy.fail_transaction s amb tid error_code error_message bank_response e
    = (Ok (ResultFailed (str_uuid tid) error_message
             (match s with
              | Strategy.WithdrawalStrategy => Some true
              | Strategy.DepositStrategy => None
              end)), e')
    /\ same_ledger (database e')
         (put_transaction (failed tx error_code error_message (Some bank_response))
            (session e))
    /\ task_queue e' = task_queue e ++ notification_for amb (session e) (tx_account_id tx)
    /\ cache e' = cache e.
Proof.
  intros Htx Hpos Hfresh.
  set (t' := failed tx error_code error_message (Some bank_response)).
  destruct (fail_tail amb t' e Hpos Hfresh) as (e' & Hrun & Hledger & Hqueue & Hcache).
  exists e'. split; [| split; [exact Hledger | split; [exact Hqueue | exact Hcache]]].
  pose proof (get_transaction_found tid tx e Htx) as Hget.
  assert (Hw : WithdrawalService.fail_withdrawal amb tid error_code error_message
                 (Some bank_response) e = (Ok t', e')).
  { unfold WithdrawalService.fail_withdrawal. rewrite (bind_ok _ _ _ _ _ Hget).
    unfold AccountRepository.get_by_id. unfold bind at 1. unfold bind at 1.
    unfold get_state. cbv beta iota zeta. exact Hrun. }
  assert (Hd : DepositService.fail_deposit amb tid error_code error_message
                 (Some bank_response) e = (Ok t', e')).
  { unfold DepositService.fail_deposit. rewrite (bind_ok _ _ _ _ _ Hget).
    unfold AccountRepository.get_by_id. unfold bind at 1. unfold bind at 1.
    unfold get_state. cbv beta iota zeta. exact Hrun. }
  destruct s; simpl.
  - rewrite (bind_ok _ _ _ _ _ Hd). reflexivity.
  - rewrite (bind_ok _ _ _ _ _ Hw). reflexivity.
Qed.

(** X16: a job the bank refuses for good (answers FAILED and
    INSUFFICIENT_FUNDS) is never retried: whatever the retry counter, it
    returns the result FAILED and stores the transaction in that status,
    with the bank's error code and message, or [BANK_ERROR] and [Bank
    processing failed] where the bank gave none or an empty one.  No account
    changes; the user is notified if a webhook URL is configured. *)
Theorem process_permanent_failure
    (s : Strategy.t) (task : TaskInstance) (amb : Ambient) (r : BankResponse)
    (tid : UUID) (tx : Transaction) (e : Env) :
  transactions (database e) !! tid = Some tx ->
  tx_id tx = tid ->
  0 < tx_amount tx ->
  webhook_deliveries (database e) !! delivery_id amb = None ->
  br_status r = BankResponseStatus.FAILED
  \/ br_status r = BankResponseStatus.INSUFFICIENT_FUNDS ->
  let code := or_default (br_error_code r) "BANK_ERROR" in
  let message := or_default (br_message r) "Bank processing failed" in
  let t1 := tx_with_status TransactionStatus.PROCESSING tx in
  exists e' : Env,
    GenericTransactionProcessor.process s task amb (BankReturns r) tid e
    = (Ok (ResultFailed (str_uuid tid) message
             (match s with
              | Strategy.WithdrawalStrategy => Some true
              | Strategy.DepositStrategy => None
              end)), e')
    /\ transactions (database e') !! tid
       = Some (failed t1 code message (Some (str_bank_response r)))
    /\ tx_status (failed t1 code message (Some (str_bank_response r)))
       = TransactionStatus.FAILED
    /\ accounts (database e') = accounts (database e)
    /\ task_queue e' = task_queue e ++ notification_for amb (database e) (tx_account_id tx).
Proof.
  intros Htx Hid Hpos Hfresh Hst code message t1. subst code message.
  assert (Hpa : GenericTransactionProcessor.process s task amb (BankReturns r) tid e
                = process_rest s task amb (BankReturns r) tid (env_processing tx e))
    by (apply process_after_update; assumption).
  rewrite Hpa.
  assert (Ht1 : transactions (session (env_processing tx e)) !! tid = Some t1).
  { simpl. rewrite Hid. apply lookup_insert_eq. }
  destruct (fail_transaction_run s amb tid t1 (or_default (br_error_code r) "BANK_ERROR")
              (or_default (br_message r) "Bank processing failed") (str_bank_response r)
              (env_processing tx e) Ht1 Hpos Hfresh)
    as (e' & Hrun & [Hacc Htxs] & Hqueue & _).
  exists (env_with_session (database e') e'). split.
  - unfold process_rest, try_finally, try_except.
    unfold GenericTransactionProcessor.call_bank. rewrite bind_ret_l.
    unfold GenericTransactionProcessor._handle_permanent_failure.
    destruct Hst as [Hst | Hst]; rewrite Hst; cbn iota; rewrite Hrun; reflexivity.
  - cbn [database env_with_session task_queue]. rewrite Hacc, Htxs, Hqueue.
    split; [| split; [reflexivity | split; reflexivity]].
    simpl. rewrite Hid. apply lookup_insert_eq.
Qed.

(** The withdrawal of the example, refused by the bank without a message on
    the last attempt: FAILED with the default texts, balance untouched. *)
Lemma process_permanent_failure_witness :
  exists e' : Env,
    GenericTransactionProcessor.process Strategy.WithdrawalStrategy (mkTaskInstance 3 3)
      example_ambient
      (BankReturns (mkBankResponse BankResponseStatus.FAILED None (Some EmptyString) None))
      5 example_env
    = (Ok (ResultFailed "00000000-0000-0000-0000-000000000005" "Bank processing failed"
             (Some true)), e')
    /\ tx_error_code <$> transactions (database e') !! 5%N = Some (Some "BANK_ERROR")
    /\ tx_bank_response <$> transactions (database e') !! 5%N
       = Some (Some "BankResponse(status=<BankResponseStatus.FAILED: 'FAILED'>, transaction_id=None, message='', error_code=None)")
    /\ accounts (database e') !! 1%N = Some example_account.
Proof.
  destruct (process_permanent_failure Strategy.WithdrawalStrategy (mkTaskInstance 3 3)
              example_ambient
              (mkBankResponse BankResponseStatus.FAILED None (Some EmptyString) None)
              5 example_withdrawal example_env eq_refl eq_refl ltac:(simpl; lia) eq_refl
              (or_introl eq_refl))
    as (e' & Hrun & Hrow & _ & Hacc & _).
  exists e'. split; [exact Hrun |]. split; [rewrite Hrow; reflexivity |].
  split; [rewrite Hrow; reflexivity |].
  rewrite Hacc. reflexivity.
Defined.

(** * The last attempt never raises *)

Lemma try_except_total {A : Type} (m : M Env A) (h : exn -> M Env A) (e : Env) :
  (forall x e1, exists a e2, h x e1 = (Ok a, e2)) ->
  exists a e2, try_except m h e = (Ok a, e2).
Proof.
  intros Hh. unfold try_except. destruct (m e) as [[a | x] e1].
  - exists a, e1. reflexivity.
  - apply Hh.
Qed.

Lemma mark_for_review_total (s : Strategy.t) (tid : UUID) (x : exn) (e1 : Env) :
  exists (res : ProcessResult) (e2 : Env),
    GenericTransactionProcessor._mark_for_review s tid x e1 = (Ok res, e2).
Proof.
  unfold GenericTransactionProcessor._mark_for_review.
  match goal with
  | |- context [bind (try_except ?m ?h)] =>
      destruct (try_except_total m h e1) as (u & e2 & Hu);
      [intros y e0; exists tt, e0; reflexivity |]
  end.
  rewrite (bind_ok _ _ _ _ _ Hu). eexists _, _. reflexivity.
Qed.

(** X17: the attempt made when the retries are used up always returns.  For
    every bank outcome and every state of the database, a job run with
    [retries >= max_retries] ends with a result (SUCCESS, FAILED, NOT_FOUND
    or PENDING_REVIEW) and never with an exception, so Celery never sees the
    last attempt of a transaction job fail. *)
Theorem process_last_attempt_returns
    (s : Strategy.t) (task : TaskInstance) (amb : Ambient) (bank : BankOutcome)
    (tid : UUID) (e : Env) :
  max_retries task <= retries task ->
  exists (res : ProcessResult) (e' : Env),
    GenericTransactionProcessor.process s task amb bank tid e = (Ok res, e').
Proof.
  intros Hlast. unfold GenericTransactionProcessor.process.
  unfold bind at 1. unfold GenericTransactionProcessor.get_db at 1. cbn [modify_state].
  unfold try_finally.
  match goal with
  | |- context [try_except ?m ?h ?e0] =>
      destruct (try_except_total m h e0) as (res & e2 & Hres)
  end.
  - intros x e1. unfold GenericTransactionProcessor._handle_exception.
    destruct (contains "not found" (lower (exc_msg x))); [eexists _, _; reflexivity |].
    replace (max_retries task <=? retries task) with true by (symmetry; apply Z.leb_le; lia).
    apply mark_for_review_total.
  - rewrite Hres. eexists _, _. reflexivity.
Qed.

Lemma process_last_attempt_returns_witness :
  exists (res : ProcessResult) (e' : Env),
    GenericTransactionProcessor.process Strategy.WithdrawalStrategy (mkTaskInstance 3 3)
      example_ambient (BankRaises (Exc RequestError "connection reset")) 5 example_env
    = (Ok res, e').
Proof.
  apply (process_last_attempt_returns Strategy.WithdrawalStrategy (mkTaskInstance 3 3)
           example_ambient (BankRaises (Exc RequestError "connection reset")) 5 example_env).
  simpl. lia.
Defined.

(** * The webhook delivery task: failures and attempts *)

Lemma send_webhook_notification_missing (request_retries : Z) (id : N)
    (http : HttpOutcome) (e : Env) :
  webhook_deliveries (database e) !! id = None ->
  WebhookTasks.send_webhook_notification request_retries id http e
  = (Ok (WebhookFailure "Webhook delivery not found"), env_with_session (database e) e).
Proof.
  intros Hd. unfold WebhookTasks.send_webhook_notification.
  unfold bind at 1. unfold WebhookTasks.open_session at 1. cbn [modify_state].
  unfold try_finally, try_except.
  unfold bind at 1. unfold WebhookTasks.query_delivery at 1.
  unfold bind at 1. cbn [get_state ret]. cbn [session env_with_session].
  rewrite Hd. reflexivity.
Qed.

Lemma send_webhook_notification_raises (request_retries : Z) (id : N)
    (d : WebhookDelivery) (x : exn) (e : Env) :
  webhook_deliveries (database e) !! id = Some d ->
  wd_id d = id ->
  exists e' : Env,
    WebhookTasks.send_webhook_notification request_retries id (HttpRaises x) e
    = (if retried_class (exc_class x) then Raise x else Ok (WebhookFailure (exc_msg x)), e')
    /\ stored_delivery id e'
       = Some
           (if retried_class (exc_class x) then
              (if WebhookTasks.WEBHOOK_MAX_RETRIES - 1 <=? request_retries
               then wd_with_status WebhookDeliveryStatus.FAILED
               else wd_with_status WebhookDeliveryStatus.PENDING)
                (wd_with_error_message (Some (str_take 500 (exc_msg x))) (sending d))
            else
              wd_with_error_message
                (Some ("Unexpected error: " +:+ str_take 500 (exc_msg x)))
                (wd_with_status WebhookDeliveryStatus.FAILED (sending d))).
Proof.
  intros Hd Hid.
  unfold WebhookTasks.send_webhook_notification.
  unfold bind at 1. unfold WebhookTasks.open_session at 1. cbn [modify_state].
  set (e0 := env_with_session (database e) e).
  unfold try_finally, try_except.
  unfold bind at 1. unfold WebhookTasks.query_delivery at 1.
  unfold bind at 1. cbn [get_state ret]. cbn [session e0 env_with_session].
  rewrite Hd. cbv zeta.
  unfold bind at 1. rewrite commit_delivery_ok.
  unfold WebhookTasks.post. rewrite bind_raise_l. unfold raise at 1.
  unfold stored_delivery.
  destruct (exc_class x) eqn:Hx; cbn [retried_class];
    unfold bind at 1; unfold bind at 1; unfold WebhookTasks.query_delivery at 1;
    unfold bind at 1; cbn [get_state ret];
    cbn [session env_commit env_with_session put_webhook_delivery
           tables_with_webhook_deliveries webhook_deliveries wd_id wd_with_status
           wd_with_attempt_count];
    rewrite Hid, lookup_insert_eq; cbv zeta;
    rewrite commit_delivery_ok; cbn [raise ret Session.close modify_state];
    try (destruct (WebhookTasks.WEBHOOK_MAX_RETRIES - 1 <=? request_retries));
    (eexists; split; [reflexivity |]; cbn; rewrite Hid, lookup_insert_eq; reflexivity).
Qed.

(** X18: attempts that end without a retry.  For an id that is not stored the
    task returns the failure [Webhook delivery not found], commits nothing
    and does not call the receiver.  When the HTTP call raises an exception
    that is neither an [httpx.RequestError] nor an [httpx.HTTPStatusError],
    the task does not raise: it returns a failure carrying the message and
    stores the delivery as FAILED with the error [Unexpected error: ...],
    the attempt counted, so Celery does not retry it. *)
Theorem webhook_task_failures_without_retry
    (request_retries : Z) (id : UUID) (http : HttpOutcome) (e : Env) :
  (webhook_deliveries (database e) !! id = None ->
   WebhookTasks.send_webhook_notification request_retries id http e
   = (Ok (WebhookFailure "Webhook delivery not found"), env_with_session (database e) e))
  /\ (forall (d : WebhookDelivery) (x : exn),
        webhook_deliveries (database e) !! id = Some d ->
        wd_id d = id ->
        http = HttpRaises x ->
        retried_class (exc_class x) = false ->
        exists (e' : Env) (d' : WebhookDelivery),
          WebhookTasks.send_webhook_notification request_retries id http e
          = (Ok (WebhookFailure (exc_msg x)), e')
          /\ stored_delivery id e' = Some d'
          /\ wd_status d' = WebhookDeliveryStatus.FAILED
          /\ wd_attempt_count d' = wd_attempt_count d + 1
          /\ wd_error_message d'
             = Some ("Unexpected error: " +:+ str_take 500 (exc_msg x))).
Proof.
  split.
  - apply send_webhook_notification_missing.
  - intros d x Hd Hid -> Hclass.
    destruct (send_webhook_notification_raises request_retries id d x e Hd Hid)
      as (e' & Hrun & Hst).
    rewrite Hclass in Hrun, Hst.
    exists e'. eexists. split; [exact Hrun |]. split; [exact Hst |].
    repeat split.
Qed.

Lemma webhook_task_failures_without_retry_witness :
  WebhookTasks.send_webhook_notification 0 78 (HttpResponse 200 "ok") example_delivery_env
  = (Ok (WebhookFailure "Webhook delivery not found"), example_delivery_env)
  /\ exists e' : Env,
       WebhookTasks.send_webhook_notification 0 77
         (HttpRaises (Exc ValueError "Invalid URL")) example_delivery_env
       = (Ok (WebhookFailure "Invalid URL"), e')
       /\ wd_status <$> stored_delivery 77 e' = Some WebhookDeliveryStatus.FAILED.
Proof.
  split.
  - destruct (webhook_task_failures_without_retry 0 78 (HttpResponse 200 "ok")
                example_delivery_env) as [H _].
    apply H. reflexivity.
  - destruct (webhook_task_failures_without_retry 0 77
                (HttpRaises (Exc ValueError "Invalid URL")) example_delivery_env)
      as [_ H].
    destruct (H example_delivery (Exc ValueError "Invalid URL") eq_refl eq_refl eq_refl
                eq_refl) as (e' & d' & Hrun & Hst & Hfailed & _).
    exists e'. split; [exact Hrun |]. rewrite Hst. simpl. rewrite Hfailed. reflexivity.
Defined.

Lemma same_delivery_refl (d : WebhookDelivery) : same_delivery d d.
Proof. repeat split. Qed.

Lemma same_delivery_trans (a b c : WebhookDelivery) :
  same_delivery a b -> same_delivery b c -> same_delivery a c.
Proof.
  unfold same_delivery. intros (? & ? & ? & ? & ?) (? & ? & ? & ? & ?).
  repeat split; congruence.
Qed.

Lemma webhook_attempt_step (request_retries : Z) (id : N) (d : WebhookDelivery)
    (http : HttpOutcome) (e : Env) :
  webhook_deliveries (database e) !! id = Some d ->
  wd_id d = id ->
  exists d' : WebhookDelivery,
    stored_delivery id (snd (WebhookTasks.send_webhook_notification request_retries id http e))
    = Some d'
    /\ wd_attempt_count d' = wd_attempt_count d + 1
    /\ same_delivery d d'.
Proof.
  intros Hd Hid. destruct http as [status_code text | x].
  - destruct (send_webhook_notification_response request_retries id d status_code text e
                Hd Hid) as (e' & Hrun & Hst).
    rewrite Hrun. cbn [snd]. eexists. split; [exact Hst |].
    destruct ((500 <=? status_code) && (status_code <? 600));
      [destruct (WebhookTasks.WEBHOOK_MAX_RETRIES - 1 <=? request_retries) |
       destruct ((200 <=? status_code) && (status_code <? 300))];
      (split; [reflexivity | repeat split]).
  - destruct (send_webhook_notification_raises request_retries id d x e Hd Hid)
      as (e' & Hrun & Hst).
    rewrite Hrun. cbn [snd]. eexists. split; [exact Hst |].
    destruct (retried_class (exc_class x));
      [destruct (WebhookTasks.WEBHOOK_MAX_RETRIES - 1 <=? request_retries) |];
      (split; [reflexivity | repeat split]).
Qed.

(** X19: attempts are counted, and only counted.  Every run of the task on a
    stored delivery, whatever its retry counter and whatever the HTTP call
    does, adds one to [attempt_count] and leaves the id, the transaction,
    the URL, the payload and [max_attempts] of the delivery as they are.
    After any series of runs the count is the old count plus the number of
    runs: the task never compares it with [max_attempts], which bounds
    nothing. *)
Theorem webhook_attempts_are_counted
    (id : UUID) (d : WebhookDelivery) (attempts : list (Z * HttpOutcome)) (e : Env) :
  webhook_deliveries (database e) !! id = Some d ->
  wd_id d = id ->
  exists d' : WebhookDelivery,
    stored_delivery id (webhook_attempts id attempts e) = Some d'
    /\ wd_attempt_count d' = wd_attempt_count d + Z.of_nat (length attempts)
    /\ same_delivery d d'.
Proof.
  revert d e. induction attempts as [| [retries http] attempts IH]; intros d e Hd Hid.
  - exists d. split; [exact Hd |]. split; [simpl; lia | apply same_delivery_refl].
  - cbn [webhook_attempts fold_left fst snd].
    destruct (webhook_attempt_step retries id d http e Hd Hid) as (d1 & Hst1 & Hc1 & Hs1).
    destruct (IH d1 _ Hst1) as (d' & Hst & Hc & Hs).
    { destruct Hs1 as (H & _). rewrite H. exact Hid. }
    exists d'. split; [exact Hst |]. split.
    + rewrite Hc, Hc1. cbn [length]. lia.
    + eapply same_delivery_trans; eassumption.
Qed.

(** The delivery of the example allows five attempts; seven runs of the
    task, all of them answered 503, leave the count at seven. *)
Lemma webhook_attempts_are_counted_witness :
  exists d' : WebhookDelivery,
    stored_delivery 77
      (webhook_attempts 77
         [(0, HttpResponse 503 "busy"); (1, HttpResponse 503 "busy");
          (2, HttpResponse 503 "busy"); (3, HttpResponse 503 "busy");
          (4, HttpResponse 503 "busy"); (5, HttpResponse 503 "busy");
          (5, HttpRaises (Exc RequestError "timed out"))] example_delivery_env)
    = Some d'
    /\ wd_attempt_count d' = 7
    /\ wd_max_attempts d' = 5.
Proof.
  destruct (webhook_attempts_are_counted 77 example_delivery
              [(0, HttpResponse 503 "busy"); (1, HttpResponse 503 "busy");
               (2, HttpResponse 503 "busy"); (3, HttpResponse 503 "busy");
               (4, HttpResponse 503 "busy"); (5, HttpResponse 503 "busy");
               (5, HttpRaises (Exc RequestError "timed out"))] example_delivery_env
              eq_refl eq_refl) as (d' & Hst & Hc & (_ & _ & _ & Hm & _)).
  exists d'. split; [exact Hst |]. split; [rewrite Hc; reflexivity | rewrite Hm; reflexivity].
Defined.

Lemma substring_length_le (n m : nat) (s : string) :
  (String.length (substring n m s) <= m)%nat.
Proof.
  revert n m. induction s as [| c s IH]; intros n m.
  - destruct n, m; simpl; lia.
  - destruct n as [| n].
    + destruct m as [| m]; simpl; [lia |]. specialize (IH 0%nat m). lia.
    + simpl. apply IH.
Qed.

Lemma str_take_all (n : nat) (s : string) :
  (String.length s <= n)%nat -> str_take n s = s.
Proof.
  unfold str_take. revert n. induction s as [| c s IH]; intros n H.
  - destruct n; reflexivity.
  - destruct n as [| n]; [simpl in H; lia |]. simpl. rewrite IH; [reflexivity |].
    simpl in H. lia.
Qed.

(** X20: what the task keeps of the receiver's answer.  For a response that
    is not a 5xx the stored response body is the first 1000 characters of
    the text and the returned [response] the first 200; a text within the
    bound is kept whole.  For an exception of the HTTP call the stored error
    message is the first 500 characters of its message, after the prefix
    [Unexpected error: ] when the exception is not one the task retries. *)
Theorem webhook_stored_texts_bounded
    (request_retries : Z) (id : UUID) (d : WebhookDelivery) (http : HttpOutcome) (e : Env) :
  webhook_deliveries (database e) !! id = Some d ->
  wd_id d = id ->
  let run := WebhookTasks.send_webhook_notification request_retries id http e in
  (forall (status_code : Z) (text : string),
      http = HttpResponse status_code text ->
      status_code < 500 \/ 600 <= status_code ->
      exists (success : bool) (d' : WebhookDelivery),
        fst run = Ok (WebhookSent success status_code (str_take 200 text))
        /\ stored_delivery id (snd run) = Some d'
        /\ wd_response_body d' = Some (str_take 1000 text)
        /\ wd_http_status_code d' = Some status_code
        /\ (text_length (wd_response_body d') <= 1000)%nat
        /\ (String.length (str_take 200 text) <= 200)%nat
        /\ ((String.length text <= 200)%nat ->
            wd_response_body d' = Some text
            /\ fst run = Ok (WebhookSent success status_code text)))
  /\ (forall x : exn,
        http = HttpRaises x ->
        exists (d' : WebhookDelivery) (kept : string),
          stored_delivery id (snd run) = Some d'
          /\ wd_error_message d'
             = Some ((if retried_class (exc_class x) then EmptyString
                      else "Unexpected error: ") +:+ kept)
          /\ kept = str_take 500 (exc_msg x)
          /\ (String.length kept <= 500)%nat
          /\ wd_response_body d' = wd_response_body d).
Proof.
  intros Hd Hid run. split.
  - intros status_code text -> Hcode.
    destruct (send_webhook_notification_response request_retries id d status_code text e
                Hd Hid) as (e' & Hrun & Hst).
    replace ((500 <=? status_code) && (status_code <? 600)) with false in *
      by (symmetry; apply andb_false_iff;
          destruct Hcode; [left; apply Z.leb_gt | right; apply Z.ltb_ge]; lia).
    unfold run. rewrite Hrun. cbn [fst snd].
    eexists. eexists. split; [reflexivity |]. split; [exact Hst |].
    assert (Hlen : (String.length (str_take 1000 text) <= 1000)%nat)
      by apply substring_length_le.
    destruct ((200 <=? status_code) && (status_code <? 300)); cbn;
      (split; [reflexivity |]; split; [reflexivity |]; split; [exact Hlen |];
       split; [apply substring_length_le |]; intros Hshort;
       rewrite !str_take_all by lia; split; reflexivity).
  - intros x ->.
    destruct (send_webhook_notification_raises request_retries id d x e Hd Hid)
      as (e' & Hrun & Hst).
    unfold run. rewrite Hrun. cbn [snd].
    eexists. exists (str_take 500 (exc_msg x)). split; [exact Hst |].
    destruct (retried_class (exc_class x));
      [destruct (WebhookTasks.WEBHOOK_MAX_RETRIES - 1 <=? request_retries) |]; cbn;
      (split; [rewrite ?append_empty_l; reflexivity |]; split; [reflexivity |];
       split; [apply substring_length_le | reflexivity]).
Qed.

Lemma webhook_stored_texts_bounded_witness :
  exists (success : bool) (d' : WebhookDelivery),
    fst (WebhookTasks.send_webhook_notification 0 77 (HttpResponse 404 "no such hook")
           example_delivery_env)
    = Ok (WebhookSent success 404 "no such hook")
    /\ stored_delivery 77
         (snd (WebhookTasks.send_webhook_notification 0 77 (HttpResponse 404 "no such hook")
                 example_delivery_env)) = Some d'
    /\ wd_response_body d' = Some "no such hook".
Proof.
  destruct (webhook_stored_texts_bounded 0 77 example_delivery
              (HttpResponse 404 "no such hook") example_delivery_env eq_refl eq_refl)
    as [H _].
  destruct (H 404 "no such hook" eq_refl ltac:(lia))
    as (success & d' & _ & Hst & _ & _ & _ & _ & Hshort).
  destruct Hshort as [Hbody Hres]; [simpl; lia |].
  exists success, d'. split; [exact Hres |]. split; [exact Hst | exact Hbody].
Defined.

(** * The idempotency middleware: requests that are not replayed *)

Lemma redis_delete_no_faults {V : Type} (now_ : Z) (k : string) (r : Redis.t V) :
  Redis.faults r = [] ->
  Redis.delete now_ k r
  = match Redis.lookup_live now_ (Redis.store r) k with
    | Some _ => (Ok 1, Redis.Client (delete k (Redis.store r)) [])
    | None => (Ok 0, r)
    end.
Proof.
  intros Hf. unfold Redis.delete. rewrite redis_call_no_faults by assumption.
  destruct (Redis.lookup_live now_ (Redis.store r) k); cbn.
  - reflexivity.
  - rewrite redis_client_eta by assumption. reflexivity.
Qed.

Lemma release_lock_no_faults (now_ : Z) (k : string) (r : Redis.t IdempotencyRecord) :
  Redis.faults r = [] ->
  exists r' : Redis.t IdempotencyRecord,
    IdempotencyService.release_lock now_ k r = (Ok tt, r')
    /\ Redis.faults r' = []
    /\ Redis.lookup_live now_ (Redis.store r') (IdempotencyService._get_key k) = None
    /\ (forall t : Z,
          Redis.lookup_live t (Redis.store r) (IdempotencyService._get_key k) = None ->
          Redis.lookup_live t (Redis.store r') (IdempotencyService._get_key k) = None)
    /\ forall (t : Z) (other : string),
         other <> IdempotencyService._get_key k ->
         Redis.lookup_live t (Redis.store r') other = Redis.lookup_live t (Redis.store r) other.
Proof.
  intros Hf. unfold IdempotencyService.release_lock, bind.
  rewrite redis_delete_no_faults by assumption.
  destruct (Redis.lookup_live now_ (Redis.store r) (IdempotencyService._get_key k)) eqn:E.
  - eexists. split; [reflexivity |]. cbn [Redis.faults Redis.store].
    split; [reflexivity |]. split; [apply lookup_live_delete_eq |].
    split; [intros t _; apply lookup_live_delete_eq |].
    intros t other Hne. apply lookup_live_delete_ne. congruence.
  - exists r. split; [reflexivity |]. split; [exact Hf |]. split; [exact E |].
    split; [intros t H; exact H | reflexivity].
Qed.

Lemma lookup_live_expired {V : Type} (s : gmap string (Redis.entry V)) (k : string)
    (t t' : Z) :
  t <= t' -> Redis.lookup_live t s k = None -> Redis.lookup_live t' s k = None.
Proof.
  unfold Redis.lookup_live. intros Hle H. destruct (s !! k) as [en |]; [| reflexivity].
  destruct (t <? Redis.expires_at en) eqn:E; [discriminate |].
  apply Z.ltb_ge in E.
  replace (t' <? Redis.expires_at en) with false by (symmetry; apply Z.ltb_ge; lia).
  reflexivity.
Qed.

Lemma dispatch_first_failure (svc : IdempotencyService.t)
    (json_id : list Z -> option string) (now_ done : Z) (request : Request)
    (handler : HandlerOutcome) (res : result Response) (k : string)
    (r : Redis.t IdempotencyRecord) :
  IdempotencyMiddleware._requires_idempotency request = true ->
  IdempotencyMiddleware.header request IDEMPOTENCY_HEADER = Some k ->
  k <> EmptyString ->
  Redis.faults r = [] ->
  Redis.lookup_live now_ (Redis.store r) (IdempotencyService._get_key k) = None ->
  handler_failure handler = Some res ->
  exists r' : Redis.t IdempotencyRecord,
    IdempotencyMiddleware.dispatch svc json_id now_ done request handler r = (res, r')
    /\ Redis.faults r' = []
    /\ Redis.lookup_live done (Redis.store r') (IdempotencyService._get_key k) = None
    /\ forall (t : Z) (other : string),
         other <> IdempotencyService._get_key k ->
         Redis.lookup_live t (Redis.store r') other = Redis.lookup_live t (Redis.store r) other.
Proof.
  intros Hreq Hh Hk Hf Hfree Hfail. unfold IdempotencyMiddleware.dispatch.
  rewrite Hreq, Hh. cbn [negb].
  apply String.eqb_neq in Hk. rewrite Hk.
  rewrite (bind_ok _ _ _ _ _ (acquire_lock_free now_ k r Hf Hfree)). cbn [negb].
  set (r1 := Redis.Client _ []).
  destruct (release_lock_no_faults done k r1 eq_refl) as (r' & Hrel & Hf' & Hnone & _ & Hother).
  assert (Hother' : forall (t : Z) (other : string),
             other <> IdempotencyService._get_key k ->
             Redis.lookup_live t (Redis.store r') other
             = Redis.lookup_live t (Redis.store r) other).
  { intros t other Hne. rewrite Hother by exact Hne. unfold r1. cbn [Redis.store].
    apply lookup_live_insert_ne. congruence. }
  exists r'. split; [| split; [exact Hf' | split; [exact Hnone | exact Hother']]].
  unfold try_except, IdempotencyMiddleware.call_next.
  destruct handler as [response | x]; simpl in Hfail.
  - rewrite bind_ret_l. cbv zeta.
    destruct (sr_status_code response <? 400).
    + unfold IdempotencyService.save_response, IdempotencyService.decode_body.
      destruct (utf8_decode (sr_body response)); [discriminate |].
      inversion Hfail; subst res.
      rewrite !bind_raise_l. unfold raise at 1.
      rewrite (bind_ok _ _ _ _ _ Hrel). reflexivity.
    + inversion Hfail; subst res.
      rewrite (bind_ok _ _ _ _ _ Hrel). reflexivity.
  - inversion Hfail; subst res.
    rewrite bind_raise_l. unfold raise at 1.
    rewrite (bind_ok _ _ _ _ _ Hrel). reflexivity.
Qed.

(** X21: a first request that fails does not block its key.  When the handler
    of the request that took the key raises, answers with a status of 400 or
    more, or answers with a body that is not valid UTF-8 (which makes the
    middleware itself raise [UnicodeDecodeError]), the PROCESSING record is
    removed and nothing is stored under the key; the other keys of the cache
    are untouched.  A later request with the same key is then handled
    afresh: its handler runs and its response is returned. *)
Theorem idempotency_failure_frees_key
    (svc : IdempotencyService.t) (json_id : list Z -> option string)
    (now1 done1 now2 done2 : Z) (request1 request2 : Request)
    (handler1 : HandlerOutcome) (res1 : result Response) (response2 : StreamedResponse)
    (k : string) (r0 : Redis.t IdempotencyRecord) :
  IdempotencyMiddleware._requires_idempotency request1 = true ->
  IdempotencyMiddleware.header request1 IDEMPOTENCY_HEADER = Some k ->
  IdempotencyMiddleware._requires_idempotency request2 = true ->
  IdempotencyMiddleware.header request2 IDEMPOTENCY_HEADER = Some k ->
  k <> EmptyString ->
  Redis.faults r0 = [] ->
  0 < IdempotencyService.completed_response_ttl svc ->
  Redis.lookup_live now1 (Redis.store r0) (IdempotencyService._get_key k) = None ->
  handler_failure handler1 = Some res1 ->
  done1 <= now2 ->
  sr_status_code response2 < 400 ->
  utf8_decode (sr_body response2) <> None ->
  exists r1 r2 : Redis.t IdempotencyRecord,
    IdempotencyMiddleware.dispatch svc json_id now1 done1 request1 handler1 r0 = (res1, r1)
    /\ (forall t : Z,
          done1 <= t ->
          Redis.lookup_live t (Redis.store r1) (IdempotencyService._get_key k) = None)
    /\ (forall (t : Z) (other : string),
          other <> IdempotencyService._get_key k ->
          Redis.lookup_live t (Redis.store r1) other
          = Redis.lookup_live t (Redis.store r0) other)
    /\ IdempotencyMiddleware.dispatch svc json_id now2 done2 request2
         (HandlerReturns response2) r1
       = (Ok (IdempotencyMiddleware.pass_through response2), r2).
Proof.
  intros Hreq1 Hh1 Hreq2 Hh2 Hk Hf Httl Hfree Hfail Hlater Hst2 Hutf.
  destruct (dispatch_first_failure svc json_id now1 done1 request1 handler1 res1 k r0
              Hreq1 Hh1 Hk Hf Hfree Hfail) as (r1 & Hrun & Hf1 & Hnone & Hother).
  assert (Hgone : forall t, done1 <= t ->
                    Redis.lookup_live t (Redis.store r1) (IdempotencyService._get_key k)
                    = None).
  { intros t Ht. exact (lookup_live_expired _ _ done1 t Ht Hnone). }
  pose proof (dispatch_first_success svc json_id now2 done2 request2 response2 k r1
                Hreq2 Hh2 Hk Hf1 Httl (Hgone now2 Hlater) Hst2) as Hsecond.
  destruct (utf8_decode (sr_body response2)) as [text |]; [| contradiction].
  eexists r1, _. split; [exact Hrun |]. split; [exact Hgone |].
  split; [exact Hother | exact Hsecond].
Qed.

(** The deposit request of the example is first answered 422 by its
    handler; the same key is then accepted again and the handler's 201 comes
    back. *)
Lemma idempotency_failure_frees_key_witness :
  let rejected := mkStreamedResponse [123; 125] 422 ∅ (Some "application/json") in
  exists r1 r2 : Redis.t IdempotencyRecord,
    IdempotencyMiddleware.dispatch (IdempotencyService.init 24) example_json_id 0 100
      example_request (HandlerReturns rejected) example_idempotency_cache
    = (Ok (IdempotencyMiddleware.pass_through rejected), r1)
    /\ IdempotencyMiddleware.dispatch (IdempotencyService.init 24) example_json_id 200 300
         example_request (HandlerReturns example_response) r1
       = (Ok (IdempotencyMiddleware.pass_through example_response), r2).
Proof.
  cbv zeta.
  destruct (idempotency_failure_frees_key (IdempotencyService.init 24) example_json_id
              0 100 200 300 example_request example_request
              (HandlerReturns (mkStreamedResponse [123; 125] 422 ∅ (Some "application/json")))
              (Ok (IdempotencyMiddleware.pass_through
                     (mkStreamedResponse [123; 125] 422 ∅ (Some "application/json"))))
              example_response "key-1" example_idempotency_cache)
    as (r1 & r2 & Hfirst & _ & _ & Hsecond);
    try reflexivity; try discriminate; try lia.
  exists r1, r2. split; [exact Hfirst | exact Hsecond].
Defined.

(** X22: requests the middleware does not guard, and requests it refuses.  A
    request whose method is not POST, or whose path contains neither
    [/api/v1/deposits] nor [/api/v1/withdrawals], goes to its handler and
    comes back unchanged without any cache command, so it is served also
    while the cache is down.  A guarded request without [Idempotency-Key]
    header, or with an empty one, is answered 400 without the handler being
    called and without any cache command. *)
Theorem idempotency_unguarded_and_refused
    (svc : IdempotencyService.t) (json_id : list Z -> option string) (now_ done : Z)
    (request : Request) (handler : HandlerOutcome) (r : Redis.t IdempotencyRecord) :
  (req_method request <> "POST" ->
   IdempotencyMiddleware._requires_idempotency request = false)
  /\ (contains "/api/v1/deposits" (req_path request) = false ->
      contains "/api/v1/withdrawals" (req_path request) = false ->
      IdempotencyMiddleware._requires_idempotency request = false)
  /\ (IdempotencyMiddleware._requires_idempotency request = false ->
      IdempotencyMiddleware.dispatch svc json_id now_ done request handler r
      = (handler_result handler, r))
  /\ (IdempotencyMiddleware._requires_idempotency request = true ->
      IdempotencyMiddleware.header request IDEMPOTENCY_HEADER = None
      \/ IdempotencyMiddleware.header request IDEMPOTENCY_HEADER = Some EmptyString ->
      IdempotencyMiddleware.dispatch svc json_id now_ done request handler r
      = (Ok IdempotencyMiddleware.missing_key_response, r)
      /\ resp_status_code IdempotencyMiddleware.missing_key_response = 400).
Proof.
  split; [| split; [| split]].
  - intros Hm. unfold IdempotencyMiddleware._requires_idempotency. simpl.
    apply String.eqb_neq in Hm. rewrite Hm. reflexivity.
  - intros Hd Hw. unfold IdempotencyMiddleware._requires_idempotency. simpl.
    rewrite Hd, Hw. destruct (negb _); reflexivity.
  - intros Hreq. unfold IdempotencyMiddleware.dispatch. rewrite Hreq. cbn [negb].
    destruct handler; reflexivity.
  - intros Hreq Hh. unfold IdempotencyMiddleware.dispatch. rewrite Hreq. cbn [negb].
    destruct Hh as [-> | ->]; split; reflexivity.
Qed.

Lemma idempotency_unguarded_and_refused_witness :
  let down : Redis.t IdempotencyRecord :=
    Redis.Client ∅ [Some (Exc RedisError "Connection refused")] in
  IdempotencyMiddleware.dispatch (IdempotencyService.init 24) example_json_id 0 100
    (mkRequest "GET" "/api/v1/deposits" ∅ []) (HandlerReturns example_response) down
  = (Ok (IdempotencyMiddleware.pass_through example_response), down)
  /\ IdempotencyMiddleware.dispatch (IdempotencyService.init 24) example_json_id 0 100
       (mkRequest "POST" "/api/v1/withdrawals" ∅ [123; 125])
       (HandlerReturns example_response) down
     = (Ok IdempotencyMiddleware.missing_key_response, down).
Proof.
  cbv zeta. split.
  - destruct (idempotency_unguarded_and_refused (IdempotencyService.init 24) example_json_id
                0 100 (mkRequest "GET" "/api/v1/deposits" ∅ [])
                (HandlerReturns example_response)
                (Redis.Client ∅ [Some (Exc RedisError "Connection refused")]))
      as (Hget & _ & Hpass & _).
    apply Hpass. apply Hget. discriminate.
  - destruct (idempotency_unguarded_and_refused (IdempotencyService.init 24) example_json_id
                0 100 (mkRequest "POST" "/api/v1/withdrawals" ∅ [123; 125])
                (HandlerReturns example_response)
                (Redis.Client ∅ [Some (Exc RedisError "Connection refused")]))
      as (_ & _ & _ & Hmissing).
    apply Hmissing; [reflexivity | left; reflexivity].
Defined.

Lemma acquire_lock_true_inv (now_ : Z) (k : string) (r r1 : Redis.t IdempotencyRecord) :
  Redis.faults r = [] ->
  IdempotencyService.acquire_lock now_ k r = (Ok true, r1) ->
  r1 = Redis.Client
         (<[IdempotencyService._get_key k
            := Redis.Entry (LockData now_)
                 (now_ + 1000 * IdempotencyService.PROCESSING_LOCK_TTL)]> (Redis.store r))
         [].
Proof.
  intros Hf Hrun.
  destruct (Redis.lookup_live now_ (Redis.store r) (IdempotencyService._get_key k)) eqn:E.
  - rewrite (acquire_lock_held now_ k r _ Hf E) in Hrun. discriminate.
  - rewrite (acquire_lock_free now_ k r Hf E) in Hrun. inversion Hrun. reflexivity.
Qed.

(** X23: records expire.  A PROCESSING record left behind by a request that
    never finished stops guarding its key 60 seconds after it was written,
    and a stored response stops being replayed [completed_response_ttl]
    seconds after it was stored: a request with the same key that arrives
    later is handled afresh, its handler runs and its own response comes
    back. *)
Theorem idempotency_records_expire
    (svc : IdempotencyService.t) (json_id : list Z -> option string)
    (now1 done1 now2 done2 : Z) (request1 request2 : Request)
    (response1 response2 : StreamedResponse) (k : string)
    (r0 : Redis.t IdempotencyRecord) :
  IdempotencyMiddleware._requires_idempotency request1 = true ->
  IdempotencyMiddleware.header request1 IDEMPOTENCY_HEADER = Some k ->
  IdempotencyMiddleware._requires_idempotency request2 = true ->
  IdempotencyMiddleware.header request2 IDEMPOTENCY_HEADER = Some k ->
  k <> EmptyString ->
  Redis.faults r0 = [] ->
  0 < IdempotencyService.completed_response_ttl svc ->
  Redis.lookup_live now1 (Redis.store r0) (IdempotencyService._get_key k) = None ->
  sr_status_code response2 < 400 ->
  utf8_decode (sr_body response2) <> None ->
  (forall r1 : Redis.t IdempotencyRecord,
      IdempotencyService.acquire_lock now1 k r0 = (Ok true, r1) ->
      now1 + 1000 * IdempotencyService.PROCESSING_LOCK_TTL <= now2 ->
      exists r2 : Redis.t IdempotencyRecord,
        IdempotencyMiddleware.dispatch svc json_id now2 done2 request2
          (HandlerReturns response2) r1
        = (Ok (IdempotencyMiddleware.pass_through response2), r2))
  /\ (forall (out1 : Response) (r1 : Redis.t IdempotencyRecord),
        IdempotencyMiddleware.dispatch svc json_id now1 done1 request1
          (HandlerReturns response1) r0 = (Ok out1, r1) ->
        sr_status_code response1 < 400 ->
        done1 + 1000 * IdempotencyService.completed_response_ttl svc <= now2 ->
        exists r2 : Redis.t IdempotencyRecord,
          IdempotencyMiddleware.dispatch svc json_id now2 done2 request2
            (HandlerReturns response2) r1
          = (Ok (IdempotencyMiddleware.pass_through response2), r2)).
Proof.
  intros Hreq1 Hh1 Hreq2 Hh2 Hk Hf Httl Hfree Hst2 Hutf.
  assert (Hafresh : forall r1 : Redis.t IdempotencyRecord,
             Redis.faults r1 = [] ->
             Redis.lookup_live now2 (Redis.store r1) (IdempotencyService._get_key k) = None ->
             exists r2 : Redis.t IdempotencyRecord,
               IdempotencyMiddleware.dispatch svc json_id now2 done2 request2
                 (HandlerReturns response2) r1
               = (Ok (IdempotencyMiddleware.pass_through response2), r2)).
  { intros r1 Hf1 Hfree1.
    pose proof (dispatch_first_success svc json_id now2 done2 request2 response2 k r1
                  Hreq2 Hh2 Hk Hf1 Httl Hfree1 Hst2) as H.
    destruct (utf8_decode (sr_body response2)); [| contradiction].
    eexists. exact H. }
  split.
  - intros r1 Hacq Hlate.
    rewrite (acquire_lock_true_inv now1 k r0 r1 Hf Hacq). apply Hafresh; [reflexivity |].
    cbn [Redis.store]. rewrite lookup_live_insert_iff.
    replace (now2 <? now1 + 1000 * IdempotencyService.PROCESSING_LOCK_TTL) with false
      by (symmetry; apply Z.ltb_ge; lia).
    reflexivity.
  - intros out1 r1 Hrun Hst1 Hlate.
    pose proof (dispatch_first_success svc json_id now1 done1 request1 response1 k r0
                  Hreq1 Hh1 Hk Hf Httl Hfree Hst1) as Hfirst.
    destruct (utf8_decode (sr_body response1)) as [text |].
    + rewrite Hfirst in Hrun. inversion Hrun; subst out1 r1.
      apply Hafresh; [reflexivity |].
      cbn [Redis.store]. rewrite lookup_live_insert_iff.
      replace (now2 <? done1 + 1000 * IdempotencyService.completed_response_ttl svc)
        with false by (symmetry; apply Z.ltb_ge; lia).
      reflexivity.
    + destruct Hfirst as (x & r' & Hraise). rewrite Hraise in Hrun. discriminate.
Qed.

(** A response stored at millisecond 100 with a life of one hour is no
    longer replayed at millisecond 3600100: the handler answers. *)
Lemma idempotency_records_expire_witness :
  let r1 := snd (IdempotencyMiddleware.dispatch (IdempotencyService.init 1) example_json_id
                   0 100 example_request (HandlerReturns example_response)
                   example_idempotency_cache) in
  let fresh := mkStreamedResponse [123; 125] 202 ∅ (Some "application/json") in
  exists r2 : Redis.t IdempotencyRecord,
    IdempotencyMiddleware.dispatch (IdempotencyService.init 1) example_json_id 3600100
      3600200 example_request (HandlerReturns fresh) r1
    = (Ok (IdempotencyMiddleware.pass_through fresh), r2).
Proof.
  cbv zeta.
  destruct (idempotency_records_expire (IdempotencyService.init 1) example_json_id
              0 100 3600100 3600200 example_request example_request example_response
              (mkStreamedResponse [123; 125] 202 ∅ (Some "application/json")) "key-1"
              example_idempotency_cache) as [_ H];
    try reflexivity; try discriminate; try lia.
  apply (H (IdempotencyMiddleware.pass_through example_response)).
  - reflexivity.
  - simpl. lia.
  - simpl. lia.
Defined.

(** X24: the cache is down.  When the first cache command of a guarded request
    fails, the middleware raises that error without calling the handler and
    without touching the store: no request with a key is served without the
    cache.  When the cache fails only after the handler has answered, the
    store of the response, the middleware raises the cache error in place of
    the handler's response and removes the PROCESSING record, so nothing
    stands for the request that was carried out. *)
Theorem idempotency_cache_outage
    (svc : IdempotencyService.t) (json_id : list Z -> option string) (now_ done : Z)
    (request : Request) (handler : HandlerOutcome) (k : string) (x : exn)
    (fs : list (option exn)) (r : Redis.t IdempotencyRecord) :
  IdempotencyMiddleware._requires_idempotency request = true ->
  IdempotencyMiddleware.header request IDEMPOTENCY_HEADER = Some k ->
  k <> EmptyString ->
  (Redis.faults r = Some x :: fs ->
   IdempotencyMiddleware.dispatch svc json_id now_ done request handler r
   = (Raise x, Redis.Client (Redis.store r) fs))
  /\ (forall response : StreamedResponse,
        Redis.faults r = [None; Some x] ->
        Redis.lookup_live now_ (Redis.store r) (IdempotencyService._get_key k) = None ->
        handler = HandlerReturns response ->
        sr_status_code response < 400 ->
        utf8_decode (sr_body response) <> None ->
        exists r' : Redis.t IdempotencyRecord,
          IdempotencyMiddleware.dispatch svc json_id now_ done request handler r
          = (Raise x, r')
          /\ Redis.lookup_live done (Redis.store r') (IdempotencyService._get_key k) = None).
Proof.
  intros Hreq Hh Hk. apply String.eqb_neq in Hk. split.
  - intros Hf. unfold IdempotencyMiddleware.dispatch. rewrite Hreq, Hh. cbn [negb].
    rewrite Hk.
    assert (Hacq : IdempotencyService.acquire_lock now_ k r
                   = (Raise x, Redis.Client (Redis.store r) fs)).
    { unfold IdempotencyService.acquire_lock, bind, Redis.set.
      rewrite (redis_call_fault _ r x fs Hf). reflexivity. }
    rewrite (bind_raise _ _ _ _ _ Hacq). reflexivity.
  - intros response Hf Hfree -> Hst Hutf.
    unfold IdempotencyMiddleware.dispatch. rewrite Hreq, Hh. cbn [negb]. rewrite Hk.
    set (s1 := <[IdempotencyService._get_key k
                 := Redis.Entry (LockData now_)
                      (now_ + 1000 * IdempotencyService.PROCESSING_LOCK_TTL)]>
                 (Redis.store r)).
    assert (Hacq : IdempotencyService.acquire_lock now_ k r
                   = (Ok true, Redis.Client s1 [Some x])).
    { unfold IdempotencyService.acquire_lock, bind, Redis.set, Redis.call.
      rewrite Hf. cbn. rewrite Hfree. reflexivity. }
    rewrite (bind_ok _ _ _ _ _ Hacq). cbn [negb].
    unfold try_except, IdempotencyMiddleware.call_next. rewrite bind_ret_l. cbv zeta.
    apply Z.ltb_lt in Hst. rewrite Hst.
    unfold IdempotencyService.save_response, IdempotencyService.decode_body.
    destruct (utf8_decode (sr_body response)) as [text |]; [| contradiction].
    rewrite bind_ret_l.
    assert (Hsave : forall v ex,
               Redis.set done (IdempotencyService._get_key k) v false ex
                 (Redis.Client s1 [Some x])
               = (Raise x, Redis.Client s1 [])).
    { intros v ex. unfold Redis.set, Redis.call. reflexivity. }
    unfold bind at 1. unfold bind at 1. unfold bind at 1. rewrite Hsave.
    destruct (release_lock_no_faults done k (Redis.Client s1 []) eq_refl)
      as (r' & Hrel & _ & Hnone & _).
    rewrite Hrel. exists r'. split; [reflexivity | exact Hnone].
Qed.

Lemma idempotency_cache_outage_witness :
  IdempotencyMiddleware.dispatch (IdempotencyService.init 24) example_json_id 0 100
    example_request (HandlerReturns example_response)
    (Redis.Client ∅ [Some (Exc RedisError "Connection refused")])
  = (Raise (Exc RedisError "Connection refused"), Redis.Client ∅ []).
Proof.
  destruct (idempotency_cache_outage (IdempotencyService.init 24) example_json_id 0 100
              example_request (HandlerReturns example_response) "key-1"
              (Exc RedisError "Connection refused") []
              (Redis.Client ∅ [Some (Exc RedisError "Connection refused")])
              eq_refl eq_refl ltac:(discriminate)) as [H _].
  apply H. reflexivity.
Defined.

(** * The callback of the bank *)

Lemma get_db_http_exception {A : Type} (endpoint : M Env (HttpResult A)) (e : Env)
    (status_code : Z) (detail : string) :
  endpoint (env_with_session (database e) e)
  = (Ok (HTTPException status_code detail), env_with_session (database e) e) ->
  get_db endpoint e = (Ok (HTTPException status_code detail), env_with_session (database e) e).
Proof.
  intros H. unfold get_db. unfold bind at 1. cbn [modify_state].
  unfold try_finally, try_except. rewrite (bind_ok _ _ _ _ _ H). reflexivity.
Qed.

Lemma get_db_raise {A : Type} (endpoint : M Env (HttpResult A)) (e : Env) (x : exn) :
  endpoint (env_with_session (database e) e) = (Raise x, env_with_session (database e) e) ->
  get_db endpoint e = (Raise x, env_with_session (database e) e).
Proof.
  intros H. unfold get_db. unfold bind at 1. cbn [modify_state].
  unfold try_finally, try_except. rewrite (bind_raise _ _ _ _ _ H). reflexivity.
Qed.

Lemma get_db_respond {A : Type} (endpoint : M Env (HttpResult A)) (e e' : Env) (a : A) :
  endpoint (env_with_session (database e) e) = (Ok (Respond a), e') ->
  get_db endpoint e = (Ok (Respond a), env_with_session (database e') e').
Proof.
  intros H. unfold get_db. unfold bind at 1. cbn [modify_state].
  unfold try_finally, try_except. rewrite (bind_ok _ _ _ _ _ H). reflexivity.
Qed.

Lemma verify_generated (body secret : string) :
  verify_webhook_signature body (generate_webhook_signature body secret) secret = Ok true.
Proof.
  rewrite verify_webhook_signature_ascii by apply hexdigest_is_ascii.
  rewrite String.eqb_refl. reflexivity.
Qed.

(** X25: what the bank callback refuses.  A callback whose timestamp is more
    than 300 seconds away from the clock, in the past or in the future, is
    answered 400 before its signature is looked at.  Within the window an
    ASCII signature other than the HMAC-SHA256 of the body under the shared
    secret is answered 401, a signature with a non-ASCII character makes the
    endpoint raise [TypeError], and a correctly signed callback for an
    unknown transaction is answered 404.  None of these changes the
    database. *)
Theorem bank_callback_rejections
    (secret : string) (amb : Ambient) (current_timestamp : Z)
    (payload : Webhooks.BankCallbackPayload) (str_payload request_body : string)
    (x_bank_signature : string) (e : Env) :
  let run := get_db (Webhooks.bank_callback secret amb current_timestamp payload
                       str_payload request_body x_bank_signature) e in
  let unchanged := env_with_session (database e) e in
  (300 < Z.abs (current_timestamp - Webhooks.timestamp payload) ->
   exists detail : string, run = (Ok (HTTPException 400 detail), unchanged))
  /\ (Z.abs (current_timestamp - Webhooks.timestamp payload) <= 300 ->
      (is_ascii x_bank_signature = true ->
       x_bank_signature <> generate_webhook_signature request_body secret ->
       run = (Ok (HTTPException 401 "Invalid webhook signature"), unchanged))
      /\ (is_ascii x_bank_signature = false ->
          run = (Raise (Exc TypeError
                          "comparing strings with non-ASCII characters is not supported"),
                 unchanged))
      /\ (x_bank_signature = generate_webhook_signature request_body secret ->
          transactions (database e) !! Webhooks.transaction_id payload = None ->
          run = (Ok (HTTPException 404
                       ("Transaction " +:+ str_uuid (Webhooks.transaction_id payload)
                        +:+ " not found")), unchanged))).
Proof.
  cbv zeta. split.
  - intros Hold. eexists. apply get_db_http_exception.
    unfold Webhooks.bank_callback, Webhooks.MAX_TIMESTAMP_DIFF.
    replace (300 <? Z.abs (current_timestamp - Webhooks.timestamp payload)) with true
      by (symmetry; apply Z.ltb_lt; exact Hold).
    reflexivity.
  - intros Hwin.
    assert (Hw : (300 <? Z.abs (current_timestamp - Webhooks.timestamp payload)) = false)
      by (apply Z.ltb_ge; exact Hwin).
    split; [| split].
    + intros Hascii Hne. apply get_db_http_exception.
      unfold Webhooks.bank_callback, Webhooks.MAX_TIMESTAMP_DIFF, Webhooks.verify.
      rewrite Hw. rewrite verify_webhook_signature_ascii by exact Hascii.
      apply String.eqb_neq in Hne. rewrite Hne. reflexivity.
    + intros Hascii. apply get_db_raise.
      unfold Webhooks.bank_callback, Webhooks.MAX_TIMESTAMP_DIFF, Webhooks.verify.
      rewrite Hw. unfold verify_webhook_signature.
      rewrite compare_digest_non_ascii by exact Hascii. reflexivity.
    + intros -> Hnone. apply get_db_http_exception.
      unfold Webhooks.bank_callback, Webhooks.MAX_TIMESTAMP_DIFF, Webhooks.verify.
      rewrite Hw, verify_generated. rewrite bind_ret_l. cbn [negb].
      unfold try_except, TransactionRepository.get_by_id, bind, get_state. cbn.
      rewrite Hnone. reflexivity.
Qed.

(** A stale callback, and one with a signature that is off by one digit. *)
Lemma bank_callback_rejections_witness :
  (exists detail : string,
      get_db (Webhooks.bank_callback "Jefe" example_ambient 2000 example_callback "raw"
                example_callback_body
                (generate_webhook_signature example_callback_body "Jefe"))
        example_deposit_env
      = (Ok (HTTPException 400 detail), example_deposit_env))
  /\ get_db (Webhooks.bank_callback "Jefe" example_ambient 1100 example_callback "raw"
               example_callback_body
               "6bdcc146bf60754e6a042426089575c75a003f089d2739839dec58b964ec3843")
       example_deposit_env
     = (Ok (HTTPException 401 "Invalid webhook signature"), example_deposit_env).
Proof.
  split.
  - destruct (bank_callback_rejections "Jefe" example_ambient 2000 example_callback "raw"
                example_callback_body
                (generate_webhook_signature example_callback_body "Jefe")
                example_deposit_env) as [H _].
    apply H. simpl. lia.
  - destruct (bank_callback_rejections "Jefe" example_ambient 1100 example_callback "raw"
                example_callback_body
                "6bdcc146bf60754e6a042426089575c75a003f089d2739839dec58b964ec3843"
                example_deposit_env) as [_ H].
    destruct H as (H & _); [simpl; lia |].
    apply H; [reflexivity |]. vm_compute. discriminate.
Defined.

Lemma bank_callback_valid (secret : string) (amb : Ambient) (current_timestamp : Z)
    (payload : Webhooks.BankCallbackPayload) (str_payload request_body : string)
    (tx : Transaction) (e0 : Env) :
  Z.abs (current_timestamp - Webhooks.timestamp payload) <= 300 ->
  transactions (session e0) !! Webhooks.transaction_id payload = Some tx ->
  Webhooks.bank_callback secret amb current_timestamp payload str_payload request_body
    (generate_webhook_signature request_body secret) e0
  = try_except
      (match tx_transaction_type tx with
       | TransactionType.DEPOSIT =>
           match Webhooks.status payload with
           | BankResponseStatus.SUCCESS =>
               let* _ :=
                 DepositService.complete_deposit amb false (Webhooks.transaction_id payload)
                   (or_default (Webhooks.bank_transaction_id payload) "UNKNOWN")
                   (Webhooks.message payload) in
               ret tt
           | _ =>
               let* _ :=
                 DepositService.fail_deposit amb (Webhooks.transaction_id payload)
                   (or_default (Webhooks.error_code payload) "BANK_ERROR")
                   (or_default (Webhooks.message payload) "Bank processing failed")
                   (Some str_payload) in
               ret tt
           end
       | TransactionType.WITHDRAWAL =>
           match Webhooks.status payload with
           | BankResponseStatus.SUCCESS =>
               let* _ :=
                 WithdrawalService.complete_withdrawal amb false
                   (Webhooks.transaction_id payload)
                   (or_default (Webhooks.bank_transaction_id payload) "UNKNOWN")
                   (Webhooks.message payload) in
               ret tt
           | _ =>
               let* _ :=
                 WithdrawalService.fail_withdrawal amb (Webhooks.transaction_id payload)
                   (or_default (Webhooks.error_code payload) "BANK_ERROR")
                   (or_default (Webhooks.message payload) "Bank processing failed")
                   (Some str_payload) in
               ret tt
           end
       end ;;
       ret callback_processed)
      (fun x => ret (HTTPException 500 ("Failed to process webhook: " +:+ exc_msg x))) e0.
Proof.
  intros Hwin Htx.
  unfold Webhooks.bank_callback, Webhooks.MAX_TIMESTAMP_DIFF, Webhooks.verify.
  replace (300 <? Z.abs (current_timestamp - Webhooks.timestamp payload)) with false
    by (symmetry; apply Z.ltb_ge; exact Hwin).
  rewrite verify_generated, bind_ret_l. cbn [negb].
  unfold try_except.
  unfold TransactionRepository.get_by_id. unfold bind at 1. unfold bind at 1.
  unfold get_state. cbn [ret]. rewrite Htx. reflexivity.
Qed.

(** X26: what a correctly signed callback inside the time window does, for a
    stored transaction whatever its status.  An answer SUCCESS for a deposit
    credits the account with the amount and stores the transaction in
    SUCCESS, with the bank reference [UNKNOWN] when the callback carries
    none.  An answer SUCCESS for a withdrawal that the balance does not cover
    is answered 500 with the text of the [InsufficientBalanceError], nothing
    committed.  Every other answer of the bank, TIMEOUT and UNAVAILABLE
    included, stores the transaction as FAILED and leaves every balance as it
    was. *)
Theorem bank_callback_settles
    (secret : string) (amb : Ambient) (current_timestamp : Z)
    (payload : Webhooks.BankCallbackPayload) (str_payload request_body : string)
    (tx : Transaction) (acc : Account) (e : Env) :
  Z.abs (current_timestamp - Webhooks.timestamp payload) <= 300 ->
  transactions (database e) !! Webhooks.transaction_id payload = Some tx ->
  tx_id tx = Webhooks.transaction_id payload ->
  0 < tx_amount tx ->
  accounts (database e) !! tx_account_id tx = Some acc ->
  acc_id acc = tx_account_id tx ->
  0 <= acc_balance acc ->
  webhook_deliveries (database e) !! delivery_id amb = None ->
  let run := get_db (Webhooks.bank_callback secret amb current_timestamp payload
                       str_payload request_body
                       (generate_webhook_signature request_body secret)) e in
  (Webhooks.status payload = BankResponseStatus.SUCCESS ->
   tx_transaction_type tx = TransactionType.DEPOSIT ->
   fst run = Ok callback_processed
   /\ accounts (database (snd run)) !! tx_account_id tx
      = Some (acc_with_balance (acc_balance acc + tx_amount tx) acc)
   /\ transactions (database (snd run)) !! tx_id tx
      = Some (completed tx (or_default (Webhooks.bank_transaction_id payload) "UNKNOWN")
                (Webhooks.message payload)))
  /\ (Webhooks.status payload = BankResponseStatus.SUCCESS ->
      tx_transaction_type tx = TransactionType.WITHDRAWAL ->
      acc_balance acc < tx_amount tx ->
      run = (Ok (HTTPException 500
                   ("Failed to process webhook: "
                    +:+ ("Insufficient balance. Available: "
                         +:+ str_decimal (acc_balance acc)
                         +:+ ", Required: " +:+ str_decimal (tx_amount tx)))),
             env_with_session (database e) e))
  /\ (Webhooks.status payload <> BankResponseStatus.SUCCESS ->
      fst run = Ok callback_processed
      /\ transactions (database (snd run)) !! tx_id tx
         = Some (failed tx (or_default (Webhooks.error_code payload) "BANK_ERROR")
                   (or_default (Webhooks.message payload) "Bank processing failed")
                   (Some str_payload))
      /\ accounts (database (snd run)) = accounts (database e)).
Proof.
  intros Hwin Htx Hid Hpos Hacc Hkey Hbal Hfresh run.
  set (e0 := env_with_session (database e) e).
  assert (Htx0 : transactions (session e0) !! Webhooks.transaction_id payload = Some tx)
    by exact Htx.
  pose proof (bank_callback_valid secret amb current_timestamp payload str_payload
                request_body tx e0 Hwin Htx0) as Hvalid.
  split; [| split].
  - intros Hst Hty. rewrite Hst, Hty in Hvalid.
    destruct (complete_deposit_locked_ok amb tx acc
                (or_default (Webhooks.bank_transaction_id payload) "UNKNOWN")
                (Webhooks.message payload) e0 Hacc Hpos Hbal)
      as (r & e' & Hrun & Hok & [Hda Hdt] & _).
    specialize (Hok Hfresh). subst r.
    assert (Hcall : Webhooks.bank_callback secret amb current_timestamp payload str_payload
                      request_body (generate_webhook_signature request_body secret) e0
                    = (Ok callback_processed, e')).
    { rewrite Hvalid. unfold try_except, DepositService.complete_deposit.
      unfold bind at 1. unfold bind at 1.
      rewrite (bind_ok _ _ _ _ _ (get_transaction_found _ tx e0 Htx0)).
      cbn iota. rewrite Hrun. reflexivity. }
    unfold run. rewrite (get_db_respond _ e e' _ Hcall). cbn [fst snd database
      env_with_session].
    split; [reflexivity |]. rewrite Hda, Hdt. split.
    + simpl. rewrite <- Hkey. apply lookup_insert_eq.
    + simpl. apply lookup_insert_eq.
  - intros Hst Hty Hshort. rewrite Hst, Hty in Hvalid.
    unfold run. apply get_db_http_exception. fold e0. rewrite Hvalid.
    unfold try_except. unfold bind at 1. unfold bind at 1.
    rewrite (complete_withdrawal_insufficient amb _ tx acc _ _ e0 Htx0 Hacc Hpos Hshort).
    reflexivity.
  - intros Hst.
    assert (Hfail : exists e' : Env,
               Webhooks.bank_callback secret amb current_timestamp payload str_payload
                 request_body (generate_webhook_signature request_body secret) e0
               = (Ok callback_processed, e')
               /\ same_ledger (database e')
                    (put_transaction
                       (failed tx (or_default (Webhooks.error_code payload) "BANK_ERROR")
                          (or_default (Webhooks.message payload) "Bank processing failed")
                          (Some str_payload)) (session e0))).
    { destruct (fail_transaction_run
                  (match tx_transaction_type tx with
                   | TransactionType.DEPOSIT => Strategy.DepositStrategy
                   | TransactionType.WITHDRAWAL => Strategy.WithdrawalStrategy
                   end) amb (Webhooks.transaction_id payload) tx
                  (or_default (Webhooks.error_code payload) "BANK_ERROR")
                  (or_default (Webhooks.message payload) "Bank processing failed")
                  str_payload e0 Htx0 Hpos Hfresh) as (e' & Hrun & Hledger & _).
      exists e'. split; [| exact Hledger].
      rewrite Hvalid. unfold try_except.
      destruct (tx_transaction_type tx); simpl in Hrun; unfold bind in Hrun |- *;
        destruct (Webhooks.status payload); try contradiction;
        match goal with
        | H : context [?f amb ?a ?b ?c ?d e0] |- _ =>
            destruct (f amb a b c d e0) as [[t | x] e1]; inversion H; subst; reflexivity
        end. }
    destruct Hfail as (e' & Hcall & [Hda Hdt]).
    unfold run. rewrite (get_db_respond _ e e' _ Hcall).
    cbn [fst snd database env_with_session].
    split; [reflexivity |]. rewrite Hda, Hdt. split; [| reflexivity].
    simpl. rewrite Hid. apply lookup_insert_eq.
Qed.

(** The deposit of the example is already in SUCCESS; a signed callback
    saying SUCCESS, 100 seconds old, credits its 100.00 again. *)
Lemma bank_callback_settles_witness :
  let run := get_db (Webhooks.bank_callback "Jefe" example_ambient 1100 example_callback
                       "raw" example_callback_body
                       (generate_webhook_signature example_callback_body "Jefe"))
               example_deposit_env in
  fst run = Ok callback_processed
  /\ acc_balance <$> accounts (database (snd run)) !! 1%N = Some 20000.
Proof.
  cbv zeta.
  pose proof (bank_callback_settles "Jefe" example_ambient 1100 example_callback "raw"
                example_callback_body example_deposit (mkAccount 1 9 10000 "USD")
                example_deposit_env) as H.
  specialize (H ltac:(vm_compute; discriminate) ltac:(vm_compute; reflexivity)
                ltac:(vm_compute; reflexivity) ltac:(vm_compute; reflexivity)
                ltac:(vm_compute; reflexivity) ltac:(vm_compute; reflexivity)
                ltac:(vm_compute; discriminate) ltac:(vm_compute; reflexivity)).
  cbv zeta in H. destruct H as [H _].
  destruct (H eq_refl eq_refl) as (Hres & Hacc & _).
  split; [exact Hres |]. simpl tx_account_id in Hacc. rewrite Hacc. reflexivity.
Defined.

(** * The rate limiter *)

Lemma zremrangebyscore_keeps (lo hi : Q) (members : list Q) :
  Forall (fun m => (hi < m)%Q) members ->
  SortedSet.zremrangebyscore lo hi members = members.
Proof.
  induction 1 as [|m l Hm _ IH]; [reflexivity|].
  unfold SortedSet.zremrangebyscore in *. cbn [List.filter].
  assert (Hle : Qle_bool m hi = false).
  { destruct (Qle_bool m hi) eqn:E; [|reflexivity].
    apply Qle_bool_iff in E. exfalso. exact (Qlt_not_le _ _ Hm E). }
  rewrite Hle, andb_false_r. cbn [negb]. f_equal. exact IH.
Qed.

Lemma zremrangebyscore_drops (hi : Q) (members : list Q) :
  Forall (fun m => (0 <= m)%Q /\ (m <= hi)%Q) members ->
  SortedSet.zremrangebyscore 0 hi members = [].
Proof.
  induction 1 as [|m l [H0 Hm] _ IH]; [reflexivity|].
  unfold SortedSet.zremrangebyscore in *. cbn [List.filter].
  apply Qle_bool_iff in H0. apply Qle_bool_iff in Hm.
  rewrite H0, Hm. cbn. exact IH.
Qed.

Lemma zadd_new (m : Q) (members : list Q) :
  Forall (fun x => (x < m)%Q) members ->
  SortedSet.zadd m members = members ++ [m].
Proof.
  intros H. unfold SortedSet.zadd.
  assert (E : existsb (Qeq_bool m) members = false).
  { induction H as [|x l Hx _ IH]; [reflexivity|].
    cbn [existsb]. rewrite IH, orb_false_r.
    destruct (Qeq_bool m x) eqn:E; [|reflexivity].
    apply Qeq_bool_iff in E. exfalso. rewrite E in Hx. exact (Qlt_irrefl _ Hx). }
  rewrite E. reflexivity.
Qed.

Lemma is_allowed_inside_window (server_now : Z) (now : Q) (key : string)
    (limit window_seconds : Z) (r : Redis.t (list Q)) :
  Redis.faults r = [] ->
  0 < window_seconds ->
  Forall (fun m => (now - inject_Z window_seconds < m)%Q /\ (m < now)%Q)
    (stored_requests server_now key r) ->
  let members := stored_requests server_now key r in
  let n := Z.of_nat (length members) in
  RateLimiter.is_allowed server_now now key limit window_seconds r
  = (Ok (n <? limit, (if n <? limit then limit - n - 1 else 0),
         int_of_float (now + inject_Z window_seconds)%Q),
     Redis.Client
       (<[key := Redis.Entry (members ++ [now]) (server_now + 1000 * window_seconds)]>
          (Redis.store r)) []).
Proof.
  intros Hf Hw Hall members n.
  unfold RateLimiter.is_allowed, RateLimiter.pipeline, bind, Redis.call, ret.
  rewrite Hf.
  fold (stored_requests server_now key r). fold members.
  rewrite (zremrangebyscore_keeps 0 _ members)
    by (eapply Forall_impl; [exact Hall|]; intros a [Ha _]; exact Ha).
  rewrite (zadd_new now members)
    by (eapply Forall_impl; [exact Hall|]; intros a [_ Ha]; exact Ha).
  destruct (window_seconds <=? 0) eqn:E; [apply Z.leb_le in E; lia|].
  unfold SortedSet.zcard. fold n.
  destruct (n <? limit) eqn:En; [|reflexivity].
  apply Z.ltb_lt in En. rewrite Z.max_r by lia. reflexivity.
Qed.

Lemma one_burst_tail (window_seconds : Z) (a : Z * Q) (rest : list (Z * Q)) :
  one_burst window_seconds (a :: rest) -> one_burst window_seconds rest.
Proof.
  intros [[_ Hinc] Hwin]. split; [exact Hinc|].
  intros x y Hx Hy. apply Hwin; right; assumption.
Qed.

Lemma stored_requests_after (server_now server_now' : Z) (key : string)
    (members : list Q) (expiry : Z) (s : gmap string (Redis.entry (list Q))) :
  server_now' < expiry ->
  stored_requests server_now' key
    (Redis.Client (<[key := Redis.Entry members expiry]> s) []) = members.
Proof.
  intros H. unfold stored_requests, Redis.lookup_live. cbn [Redis.store].
  rewrite lookup_insert_eq. cbn [Redis.expires_at Redis.value].
  destruct (server_now' <? expiry) eqn:E; [reflexivity|].
  apply Z.ltb_ge in E. lia.
Qed.

Lemma burst_from (key : string) (limit window_seconds : Z) (requests : list (Z * Q)) :
  0 < window_seconds ->
  forall (r : Redis.t (list Q)) (first : Z),
    Redis.faults r = [] ->
    match requests with
    | [] => True
    | (server_now, _) :: _ =>
        Z.of_nat (length (stored_requests server_now key r)) = first
        /\ forall b, In b requests ->
             Forall (fun m => (snd b - inject_Z window_seconds < m)%Q /\ (m < snd b)%Q)
               (stored_requests server_now key r)
    end ->
    leases_overlap window_seconds requests ->
    one_burst window_seconds requests ->
    fst (rate_limit_requests key limit window_seconds requests r)
    = burst_answers limit window_seconds first requests
    /\ Redis.faults (snd (rate_limit_requests key limit window_seconds requests r)) = []
    /\ match requests with
       | [] => True
       | (server_now, _) :: _ =>
           exists expiry,
             Redis.store (snd (rate_limit_requests key limit window_seconds requests r)) !! key
             = Some (Redis.Entry (stored_requests server_now key r ++ map snd requests) expiry)
       end.
Proof.
  intros Hw. induction requests as [|[sn now] rest IH]; intros r first Hf Hst Hlease Hburst.
  - cbn. repeat split; assumption.
  - destruct Hst as [Hlen Hall].
    cbn [rate_limit_requests].
    rewrite (is_allowed_inside_window sn now key limit window_seconds r Hf Hw)
      by (apply (Hall (sn, now)); left; reflexivity).
    set (members := stored_requests sn key r) in *.
    set (r1 := Redis.Client _ []).
    rewrite Hlen.
    assert (Hrest :
      match rest with
      | [] => True
      | (server_now, _) :: _ =>
          Z.of_nat (length (stored_requests server_now key r1)) = first + 1
          /\ forall b, In b rest ->
               Forall (fun m => (snd b - inject_Z window_seconds < m)%Q /\ (m < snd b)%Q)
                 (stored_requests server_now key r1)
      end).
    { destruct rest as [|[sn' now'] rest']; [exact I|].
      destruct Hlease as [Hl _]. cbn [fst] in Hl.
      unfold r1. rewrite (stored_requests_after sn sn') by exact Hl.
      split.
      - rewrite length_app. cbn [length]. lia.
      - intros b Hb. apply Forall_app. split.
        + apply Hall. right. exact Hb.
        + constructor; [|constructor]. split.
          * destruct Hburst as [_ Hwin]. apply (Hwin (sn, now) b); [left; reflexivity|right; exact Hb].
          * destruct Hburst as [[Hinc _] _].
            rewrite List.Forall_forall in Hinc. exact (Hinc b Hb). }
    destruct Hlease as [Hl Hlease'].
    specialize (IH r1 (first + 1) eq_refl Hrest Hlease' (one_burst_tail _ _ _ Hburst)).
    destruct (rate_limit_requests key limit window_seconds rest r1) as [answers r2] eqn:Hrun.
    cbn [fst snd] in *. destruct IH as (IHa & IHf & IHs).
    split; [|split].
    + cbn [burst_answers]. rewrite IHa. reflexivity.
    + exact IHf.
    + destruct rest as [|[sn' now'] rest'].
      * cbn in Hrun. injection Hrun as _ <-. exists (sn + 1000 * window_seconds).
        unfold r1. cbn [Redis.store map snd]. rewrite lookup_insert_eq. reflexivity.
      * destruct IHs as [expiry IHs]. exists expiry. rewrite IHs.
        unfold r1. rewrite (stored_requests_after sn sn') by (cbn [fst] in Hl; exact Hl).
        cbn [map snd]. rewrite <- app_assoc. reflexivity.
Qed.

(** X27: a burst of requests on one key of [RateLimiter.is_allowed], with
    increasing clock readings that all lie inside one window, on a cache
    without faults that does not hold the key: request number [i], counted
    from zero, is let through exactly when [i < limit], with
    [limit - i - 1] remaining; every request is recorded under the key,
    the refused ones as well. *)
Theorem rate_limit_burst (key : string) (limit window_seconds : Z)
    (requests : list (Z * Q)) (r : Redis.t (list Q)) :
  Redis.faults r = [] ->
  0 < window_seconds ->
  Redis.store r !! key = None ->
  leases_overlap window_seconds requests ->
  one_burst window_seconds requests ->
  fst (rate_limit_requests key limit window_seconds requests r)
  = burst_answers limit window_seconds 0 requests
  /\ (requests <> [] ->
      exists expiry,
        Redis.store (snd (rate_limit_requests key limit window_seconds requests r)) !! key
        = Some (Redis.Entry (map snd requests) expiry)).
Proof.
  intros Hf Hw Hkey Hlease Hburst.
  assert (Hnone : forall server_now, stored_requests server_now key r = []).
  { intros sn. unfold stored_requests, Redis.lookup_live. rewrite Hkey. reflexivity. }
  destruct (burst_from key limit window_seconds requests Hw r 0 Hf) as (Ha & _ & Hs);
    try assumption.
  - destruct requests as [|[sn now] rest]; [exact I|].
    rewrite Hnone. split; [reflexivity|]. intros b _. constructor.
  - split; [exact Ha|]. intros Hne.
    destruct requests as [|[sn now] rest]; [congruence|].
    rewrite Hnone in Hs. exact Hs.
Qed.

Lemma rate_limit_burst_witness :
  fst (rate_limit_requests "k" 2 60 example_burst empty_rate_cache)
  = burst_answers 2 60 0 example_burst
  /\ (example_burst <> [] ->
      exists expiry,
        Redis.store (snd (rate_limit_requests "k" 2 60 example_burst empty_rate_cache)) !! "k"
        = Some (Redis.Entry (map snd example_burst) expiry)).
Proof.
  apply (rate_limit_burst "k" 2 60 example_burst empty_rate_cache).
  - reflexivity.
  - lia.
  - reflexivity.
  - cbn. lia.
  - split.
    + cbn. repeat split; repeat constructor.
    + intros a b Ha Hb. cbn in Ha, Hb.
      repeat (destruct Ha as [<-|Ha]; [|]); try contradiction;
      repeat (destruct Hb as [<-|Hb]; [|]); try contradiction; reflexivity.
Defined.

(** X28: once the window has passed for every request stored under the key
    (or the key has run out), [RateLimiter.is_allowed] counts from zero
    again: the request is let through when the limit is positive, and the
    key then holds this request alone, for [window_seconds] more. *)
Theorem rate_limit_window_passed (server_now : Z) (now : Q) (key : string)
    (limit window_seconds : Z) (r : Redis.t (list Q)) :
  Redis.faults r = [] ->
  0 < window_seconds ->
  Forall (fun m => (0 <= m)%Q /\ (m <= now - inject_Z window_seconds)%Q)
    (stored_requests server_now key r) ->
  RateLimiter.is_allowed server_now now key limit window_seconds r
  = (Ok (0 <? limit, Z.max 0 (limit - 1) , int_of_float (now + inject_Z window_seconds)%Q),
     Redis.Client
       (<[key := Redis.Entry [now] (server_now + 1000 * window_seconds)]> (Redis.store r)) []).
Proof.
  intros Hf Hw Hall.
  unfold RateLimiter.is_allowed, RateLimiter.pipeline, bind, Redis.call, ret.
  rewrite Hf. fold (stored_requests server_now key r).
  rewrite (zremrangebyscore_drops _ _ Hall).
  destruct (window_seconds <=? 0) eqn:E; [apply Z.leb_le in E; lia|].
  change (SortedSet.zcard []) with 0.
  change (SortedSet.zadd now []) with [now].
  destruct (0 <? limit) eqn:El.
  - replace (limit - 0 - 1) with (limit - 1) by lia. reflexivity.
  - apply Z.ltb_ge in El. rewrite Z.max_l by lia. reflexivity.
Qed.

Lemma rate_limit_window_passed_witness :
  RateLimiter.is_allowed 70000 (Qmake 170 1) "k" 2 60
    (snd (rate_limit_requests "k" 2 60 example_burst empty_rate_cache))
  = (Ok (0 <? 2, Z.max 0 (2 - 1), int_of_float ((Qmake 170 1) + inject_Z 60)%Q),
     Redis.Client
       (<["k" := Redis.Entry [Qmake 170 1] (70000 + 1000 * 60)]>
          (Redis.store (snd (rate_limit_requests "k" 2 60 example_burst empty_rate_cache))))
       []).
Proof.
  apply rate_limit_window_passed.
  - reflexivity.
  - lia.
  - vm_compute. constructor.
Defined.

(** * The rules of the rate limit *)

Lemma eqb_prefix (s t : string) : String.eqb t s = true -> String.prefix s t = true.
Proof.
  intros H. apply String.eqb_eq in H. subst t.
  induction s as [|c s IH]; [reflexivity|].
  cbn. destruct (ascii_dec c c); [exact IH|congruence].
Qed.

Lemma matches_plain_pattern (path pattern_ : string) :
  string_mem "{" pattern_ = false ->
  RateLimitConfig._matches_pattern path pattern_ = String.prefix pattern_ path.
Proof.
  intros H. unfold RateLimitConfig._matches_pattern. rewrite H.
  destruct (String.eqb path pattern_) eqn:E; [|reflexivity].
  cbn. symmetry. apply eqb_prefix. exact E.
Qed.

Ltac prefix_step path H :=
  destruct path as [|? path]; [discriminate H|];
  cbn [String.prefix] in H |- *;
  match type of H with
  | context [ascii_dec ?a ?c] =>
      destruct (ascii_dec a c) as [<-|]; [|discriminate H]
  end.

Lemma prefixes_exclusive (path : string) :
  String.prefix "/api/v1/users/me/transactions" path = true ->
  String.prefix "/api/v1/users/me/balance" path = false.
Proof.
  intros H. do 17 (prefix_step path H; cbn [ascii_dec ascii_rec ascii_rect]).
  prefix_step path H. reflexivity.
Qed.

(** X29: [RateLimitConfig.get_rule_for_request] finds a rule exactly for
    method [GET] and a path that starts with the balance pattern or with
    the transaction list pattern, whatever follows the pattern; other
    methods and other paths, the deposit and withdrawal endpoints among
    them, have no rule. *)
Theorem rate_limit_rule_lookup (path method_ : string) (rule : RateLimitConfig.RateLimitRule) :
  RateLimitConfig.get_rule_for_request path method_ = Some rule
  <-> method_ = "GET"
      /\ ((String.prefix "/api/v1/users/me/balance" path = true
           /\ rule = RateLimitConfig.mkRateLimitRule "/api/v1/users/me/balance" "GET"
                       RateLimitConfig.rate_limit_per_user_balance 60 "balance check")
          \/ (String.prefix "/api/v1/users/me/transactions" path = true
              /\ rule = RateLimitConfig.mkRateLimitRule "/api/v1/users/me/transactions" "GET"
                          RateLimitConfig.rate_limit_per_user_transactions 60
                          "transaction list")).
Proof.
  unfold RateLimitConfig.get_rule_for_request, RateLimitConfig.RULES.
  cbn [RateLimitConfig.first_rule RateLimitConfig.pattern RateLimitConfig.method].
  rewrite !matches_plain_pattern by reflexivity.
  destruct (String.eqb method_ "GET") eqn:Em.
  - apply String.eqb_eq in Em. subst method_. rewrite !andb_true_r.
    destruct (String.prefix "/api/v1/users/me/balance" path) eqn:Eb.
    + split.
      * intros [= <-]. split; [reflexivity|]. left. split; reflexivity.
      * intros [_ [[_ ->]|[Ht _]]]; [reflexivity|].
        apply prefixes_exclusive in Ht. congruence.
    + destruct (String.prefix "/api/v1/users/me/transactions" path) eqn:Et.
      * split.
        -- intros [= <-]. split; [reflexivity|]. right. split; reflexivity.
        -- intros [_ [[Hb _]|[_ ->]]]; [discriminate|reflexivity].
      * split; [discriminate|]. intros [_ [[Hb _]|[Ht _]]]; discriminate.
  - rewrite !andb_false_r. split; [discriminate|].
    intros [-> _]. discriminate.
Qed.

Lemma rate_limit_rule_lookup_witness :
  RateLimitConfig.get_rule_for_request "/api/v1/users/me/balance/history" "GET"
  = Some (RateLimitConfig.mkRateLimitRule "/api/v1/users/me/balance" "GET"
            RateLimitConfig.rate_limit_per_user_balance 60 "balance check").
Proof.
  apply rate_limit_rule_lookup. split; [reflexivity|]. left. split; reflexivity.
Defined.

(** ** Cache failures around the account lock *)

Lemma ExcClass_eqb_neq (a b : ExcClass) : a <> b -> ExcClass_eqb a b = false.
Proof. intros H. destruct a, b; try reflexivity; congruence. Qed.

Lemma sync_acquire_first_command_ok (now_ : Z) (l : SyncDistributedLock.t)
    (r : Redis.t string) (rest : list (option exn)) :
  Redis.faults r = None :: rest ->
  0 < SyncDistributedLock.ttl l ->
  Redis.lookup_live now_ (Redis.store r) (SyncDistributedLock.key l) = None ->
  SyncDistributedLock.acquire now_ l r
  = (Ok (true, SyncDistributedLock.set_acquired true l),
     Redis.Client
       (<[SyncDistributedLock.key l
          := Redis.Entry (SyncDistributedLock.lock_identifier l)
               (now_ + 1000 * SyncDistributedLock.ttl l)]> (Redis.store r)) rest).
Proof.
  intros Hf Hpos Hfree.
  unfold SyncDistributedLock.acquire, try_except, SyncDistributedLock._try_acquire_once,
    bind, Redis.set, Redis.call.
  rewrite Hf, Hfree.
  destruct (SyncDistributedLock.ttl l <=? 0) eqn:E; [apply Z.leb_le in E; lia |].
  reflexivity.
Qed.

Lemma sync_release_fault (now_ : Z) (l : SyncDistributedLock.t) (r : Redis.t string)
    (x : exn) (fs : list (option exn)) :
  SyncDistributedLock.acquired l = true ->
  Redis.faults r = Some x :: fs ->
  exc_class x <> RuntimeError ->
  SyncDistributedLock.release now_ l r = (Raise x, Redis.Client (Redis.store r) fs).
Proof.
  intros Ha Hf Hx.
  unfold SyncDistributedLock.release. rewrite Ha. cbn [negb].
  unfold try_except, bind, SyncDistributedLock._release, bind,
    Redis.eval_compare_and_delete.
  rewrite (redis_call_fault _ r x fs Hf).
  rewrite (ExcClass_eqb_neq _ _ Hx). reflexivity.
Qed.

Lemma with_sync_lock_release_fault {A : Type} (amb : Ambient) (k : string)
    (refused : exn) (body : M Env A) (e : Env) (x : exn) (fs : list (option exn)) :
  cache_free body ->
  Redis.faults (cache e) = None :: Some x :: fs ->
  exc_class x <> RuntimeError ->
  Redis.lookup_live (now amb) (Redis.store (cache e)) ("lock:" +:+ k) = None ->
  with_sync_lock amb k
    (fun lock => if negb (SyncDistributedLock.acquired lock) then raise refused else body) e
  = (Raise x,
     env_with_cache
       (Redis.Client
          (<["lock:" +:+ k := Redis.Entry (lock_token amb) (now amb + 1000 * 10)]>
             (Redis.store (cache e))) fs)
       (snd (body e))).
Proof.
  intros Hframe Hf Hx Hfree.
  unfold with_sync_lock.
  set (lock0 := SyncDistributedLock.init k 10 false 30 (lock_token amb)).
  assert (Hacq := sync_acquire_first_command_ok (now amb) lock0 (cache e) (Some x :: fs) Hf
                    ltac:(simpl; lia) Hfree).
  unfold bind at 1, with_cache at 1. rewrite Hacq. cbn [snd].
  unfold try_finally.
  cbn [SyncDistributedLock.acquired SyncDistributedLock.set_acquired negb].
  set (c1 := Redis.Client _ (Some x :: fs)).
  rewrite (Hframe c1 e).
  unfold bind, with_cache. cbn [cache env_with_cache].
  rewrite (sync_release_fault (now amb) (SyncDistributedLock.set_acquired true lock0) c1 x fs
             eq_refl eq_refl Hx).
  reflexivity.
Qed.

(** C10 (amended).  [SyncDistributedLock.acquire] never raises: it returns
    a flag and stores it in [acquired], leaving the other fields of the lock
    as they are.  When the cache command of the acquisition raises any
    exception the flag and [acquired] are [False] and the store is
    untouched; [complete_withdrawal] and [complete_deposit] of a service
    built with a cache client then end with [ConcurrentUpdateError], nothing
    read or written in the database and no further cache command issued.
    When the cache fails only at the release of the acquired lock, with an
    exception that is not a [RuntimeError], the completion ends with that
    exception, and the database is as the completion has left it. *)
Theorem C10_cache_failure_at_acquisition_and_release
    (amb : Ambient) (x : exn) (fs : list (option exn)) :
  (forall (l : SyncDistributedLock.t) (r : Redis.t string),
      exists (b : bool) (r' : Redis.t string),
        SyncDistributedLock.acquire (now amb) l r
        = (Ok (b, SyncDistributedLock.Lock
                    (SyncDistributedLock.key l) (SyncDistributedLock.ttl l)
                    (SyncDistributedLock.blocking l) (SyncDistributedLock.retry_timeout l)
                    (SyncDistributedLock.lock_identifier l) b), r'))
  /\ (forall (l : SyncDistributedLock.t) (r : Redis.t string),
        Redis.faults r = Some x :: fs ->
        SyncDistributedLock.acquire (now amb) l r
        = (Ok (false, SyncDistributedLock.Lock
                        (SyncDistributedLock.key l) (SyncDistributedLock.ttl l)
                        (SyncDistributedLock.blocking l)
                        (SyncDistributedLock.retry_timeout l)
                        (SyncDistributedLock.lock_identifier l) false),
           Redis.Client (Redis.store r) fs))
  /\ (forall (tid : N) (t : Transaction) (bank_transaction_id : string)
             (bank_response : option string) (e : Env),
        transactions (session e) !! tid = Some t ->
        Redis.faults (cache e) = Some x :: fs ->
        let failure :=
          Exc ConcurrentUpdateError
            ("Account " +:+ str_uuid (tx_account_id t) +:+ " is locked by another process") in
        let e' := env_with_cache (Redis.Client (Redis.store (cache e)) fs) e in
        WithdrawalService.complete_withdrawal amb true tid bank_transaction_id
          bank_response e = (Raise failure, e')
        /\ DepositService.complete_deposit amb true tid bank_transaction_id
             bank_response e = (Raise failure, e'))
  /\ (forall (tid : N) (t : Transaction) (bank_transaction_id : string)
             (bank_response : option string) (e : Env),
        transactions (session e) !! tid = Some t ->
        Redis.faults (cache e) = None :: Some x :: fs ->
        exc_class x <> RuntimeError ->
        Redis.lookup_live (now amb) (Redis.store (cache e))
          ("lock:" +:+ ("account:" +:+ str_uuid (tx_account_id t))) = None ->
        let withdrawal :=
          WithdrawalService.complete_withdrawal amb true tid bank_transaction_id
            bank_response e in
        let deposit :=
          DepositService.complete_deposit amb true tid bank_transaction_id bank_response e in
        fst withdrawal = Raise x
        /\ database (snd withdrawal)
           = database (snd (WithdrawalService.complete_withdrawal amb false tid
                              bank_transaction_id bank_response e))
        /\ fst deposit = Raise x
        /\ database (snd deposit)
           = database (snd (DepositService.complete_deposit amb false tid
                              bank_transaction_id bank_response e))).
Proof.
  split; [| split; [| split]].
  - intros l r.
    destruct (SyncDistributedLock_acquire_total (now amb) l r) as (b & r' & H).
    exists b, r'. exact H.
  - intros l r Hf. exact (SyncDistributedLock_acquire_fault (now amb) l r x fs Hf).
  - intros tid t bid resp e Ht Hf failure e'. split.
    + unfold WithdrawalService.complete_withdrawal.
      rewrite (bind_ok _ _ _ _ _ (get_transaction_found tid t e Ht)).
      rewrite (with_sync_lock_fault amb _ _ e x fs Hf). reflexivity.
    + unfold DepositService.complete_deposit.
      rewrite (bind_ok _ _ _ _ _ (get_transaction_found tid t e Ht)).
      rewrite (with_sync_lock_fault amb _ _ e x fs Hf). reflexivity.
  - intros tid t bid resp e Ht Hf Hx Hfree withdrawal deposit.
    assert (Hget := get_transaction_found tid t e Ht).
    subst withdrawal deposit.
    unfold WithdrawalService.complete_withdrawal, DepositService.complete_deposit.
    rewrite !(bind_ok _ _ _ _ _ Hget). cbn [negb].
    rewrite (with_sync_lock_release_fault amb _ _ _ e x fs
               (cache_free_complete_locked TransactionType.WITHDRAWAL amb t bid resp)
               Hf Hx Hfree).
    rewrite (with_sync_lock_release_fault amb _ _ _ e x fs
               (cache_free_complete_locked TransactionType.DEPOSIT amb t bid resp)
               Hf Hx Hfree).
    cbn [fst snd]. repeat split; reflexivity.
Qed.

(** The cache connection is down when the withdrawal of the example is
    completed: the call ends with [ConcurrentUpdateError].  When it goes down
    after the lock of the example deposit was taken, the call ends with the
    cache error. *)
Lemma C10_cache_failure_at_acquisition_and_release_witness :
  WithdrawalService.complete_withdrawal example_ambient true 5 "BANK-WTH-1" None
    (env_with_cache (Redis.Client ∅ [Some example_outage]) example_env)
  = (Raise (Exc ConcurrentUpdateError
              "Account 00000000-0000-0000-0000-000000000001 is locked by another process"),
     example_env)
  /\ fst (DepositService.complete_deposit example_ambient true 7 "BANK-DEP-2" None
            example_late_outage_env)
     = Raise example_outage.
Proof.
  destruct (C10_cache_failure_at_acquisition_and_release example_ambient example_outage [])
    as (_ & _ & Hacq & Hrel).
  split.
  - destruct (Hacq 5%N example_withdrawal "BANK-WTH-1" None
                (env_with_cache (Redis.Client ∅ [Some example_outage]) example_env)
                eq_refl eq_refl) as [Hw _].
    exact Hw.
  - destruct (Hrel 7%N example_deposit "BANK-DEP-2" None example_late_outage_env
                eq_refl eq_refl ltac:(discriminate) eq_refl) as (_ & _ & Hd & _).
    exact Hd.
Defined.

(** C10 as stated fails: the cache answers the acquisition and is down when
    the lock is released.  The completion of the example deposit then ends
    with the cache error, not with [ConcurrentUpdateError], although the
    deposit has been committed and the account credited. *)
Lemma C10_release_failure_escapes :
  let run :=
    DepositService.complete_deposit example_ambient true 7 "BANK-DEP-2" None
      example_late_outage_env in
  fst run = Raise example_outage
  /\ fst run
     <> Raise (Exc ConcurrentUpdateError
                 "Account 00000000-0000-0000-0000-000000000001 is locked by another process")
  /\ tx_bank_transaction_id <$> transactions (database (snd run)) !! 7%N
     = Some (Some "BANK-DEP-2")
  /\ acc_balance <$> accounts (database example_late_outage_env) !! 1%N = Some 10000
  /\ acc_balance <$> accounts (database (snd run)) !! 1%N = Some 20000.
Proof. vm_compute. repeat split; discriminate. Qed.

